(** * ccx: dispatch and failover core

    A shallow embedding of the metrics engine, the failed-key cache, the
    channel scheduler, the in-channel failover executor and the
    Chat-to-Claude adapter of the ccx reverse proxy, with the properties the
    specification states about them.

    Conventions of the embedding.
    - [time.Time] is a number of nanoseconds on one time line ([Z]);
      [time.Duration] is a number of nanoseconds ([Z]).  [time.Now()] is an
      explicit argument [now] of every operation that reads the clock.
    - [int64] counters are [Z] with the two's-complement wrap-around written
      out ([wrap64]); [uint64] request IDs are [N] with [wrapU64].
    - Go [int] slice indices are [Z]; the code only subtracts from an index
      a smaller non-negative number, so no wrap-around is written for them.
    - [map[K]V] is stdpp's [gmap K V]; a nil map reads like the empty map.
    - A [float64] rate computed as [float64(a) / float64(b)] is the exact
      rational [a / b] ([Q]).  *)

From stdpp Require Import gmap strings list fin_maps pretty sorting.
From Stdlib Require Import ZArith QArith Lia Permutation.

Close Scope Q_scope.
Local Open Scope Z_scope.

(** ** Machine integers and time *)

Definition two63 : Z := 2 ^ 63.
Definition two64 : Z := 2 ^ 64.

(** Two's-complement wrap-around of an [int64] result. *)
Definition wrap64 (x : Z) : Z := (x + two63) mod two64 - two63.

(** Wrap-around of a [uint64] result. *)
Definition wrapU64 (n : N) : N := (n mod 2 ^ 64)%N.

Definition MaxInt64 : Z := two63 - 1.
Definition MinInt64 : Z := - two63.

Definition Nanosecond : Z := 1.
Definition Second : Z := 1000000000.
Definition Minute : Z := 60 * Second.
Definition Hour : Z := 60 * Minute.

(** [t.Sub(u)]: the difference, saturated to the range of a Duration. *)
Definition time_Sub (t u : Z) : Z :=
  if MaxInt64 <? t - u then MaxInt64
  else if t - u <? MinInt64 then MinInt64
  else t - u.

(** [t.After(u)] and [t.Before(u)]. *)
Definition time_After (t u : Z) : bool := u <? t.
Definition time_Before (t u : Z) : bool := t <? u.

(** [t.Truncate(d)] for [d > 0]: round down to a multiple of [d]. *)
Definition time_Truncate (t d : Z) : Z := if d <=? 0 then t else t - t mod d.

(** ** Metrics engine (internal/metrics/channel_metrics.go) *)

Module Metrics.

Record RequestRecord := {
  Model : string;
  Timestamp : Z;
  Success : bool;
  InputTokens : Z;
  OutputTokens : Z;
  CacheCreationInputTokens : Z;
  CacheReadInputTokens : Z
}.

Record KeyMetrics := {
  MetricsKey : string;
  BaseURL : string;
  KeyMask : string;
  RequestCount : Z;
  SuccessCount : Z;
  FailureCount : Z;
  ConsecutiveFailures : Z;
  ActiveRequests : Z;
  LastSuccessAt : option Z;
  LastFailureAt : option Z;
  CircuitBrokenAt : option Z;
  recentResults : list bool;
  requestHistory : list RequestRecord;
  pendingHistoryIdx : gmap N Z
}.

Record PersistentRecord := {
  PR_MetricsKey : string;
  PR_BaseURL : string;
  PR_KeyMask : string;
  PR_Timestamp : Z;
  PR_Success : bool;
  PR_InputTokens : Z;
  PR_OutputTokens : Z;
  PR_CacheCreationTokens : Z;
  PR_CacheReadTokens : Z;
  PR_APIType : string;
  PR_Model : string
}.

(** [store] is the queue of records handed to [store.AddRecord], oldest
    first; [None] is a nil store. *)
Record MetricsManager := {
  keyMetrics : gmap string KeyMetrics;
  windowSize : Z;
  failureThreshold : Q;
  nextRequestID : N;
  store : option (list PersistentRecord);
  apiType : string
}.

(** [types.Usage], the fields the engine reads. *)
Record Usage := {
  U_InputTokens : Z;
  U_OutputTokens : Z;
  U_CacheCreationInputTokens : Z;
  U_CacheCreation5mInputTokens : Z;
  U_CacheCreation1hInputTokens : Z;
  U_CacheReadInputTokens : Z
}.

(** Field updates of a row. *)
Definition with_history (h : list RequestRecord) (p : gmap N Z) (km : KeyMetrics) : KeyMetrics :=
  {| MetricsKey := MetricsKey km; BaseURL := BaseURL km; KeyMask := KeyMask km;
     RequestCount := RequestCount km; SuccessCount := SuccessCount km;
     FailureCount := FailureCount km; ConsecutiveFailures := ConsecutiveFailures km;
     ActiveRequests := ActiveRequests km; LastSuccessAt := LastSuccessAt km;
     LastFailureAt := LastFailureAt km; CircuitBrokenAt := CircuitBrokenAt km;
     recentResults := recentResults km;
     requestHistory := h; pendingHistoryIdx := p |}.

Definition with_counters (rc sc fc cf : Z) (km : KeyMetrics) : KeyMetrics :=
  {| MetricsKey := MetricsKey km; BaseURL := BaseURL km; KeyMask := KeyMask km;
     RequestCount := rc; SuccessCount := sc;
     FailureCount := fc; ConsecutiveFailures := cf;
     ActiveRequests := ActiveRequests km; LastSuccessAt := LastSuccessAt km;
     LastFailureAt := LastFailureAt km; CircuitBrokenAt := CircuitBrokenAt km;
     recentResults := recentResults km;
     requestHistory := requestHistory km; pendingHistoryIdx := pendingHistoryIdx km |}.

Definition with_stamps (ls lf cb : option Z) (km : KeyMetrics) : KeyMetrics :=
  {| MetricsKey := MetricsKey km; BaseURL := BaseURL km; KeyMask := KeyMask km;
     RequestCount := RequestCount km; SuccessCount := SuccessCount km;
     FailureCount := FailureCount km; ConsecutiveFailures := ConsecutiveFailures km;
     ActiveRequests := ActiveRequests km; LastSuccessAt := ls;
     LastFailureAt := lf; CircuitBrokenAt := cb;
     recentResults := recentResults km;
     requestHistory := requestHistory km; pendingHistoryIdx := pendingHistoryIdx km |}.

Definition with_window (w : list bool) (km : KeyMetrics) : KeyMetrics :=
  {| MetricsKey := MetricsKey km; BaseURL := BaseURL km; KeyMask := KeyMask km;
     RequestCount := RequestCount km; SuccessCount := SuccessCount km;
     FailureCount := FailureCount km; ConsecutiveFailures := ConsecutiveFailures km;
     ActiveRequests := ActiveRequests km; LastSuccessAt := LastSuccessAt km;
     LastFailureAt := LastFailureAt km; CircuitBrokenAt := CircuitBrokenAt km;
     recentResults := w;
     requestHistory := requestHistory km; pendingHistoryIdx := pendingHistoryIdx km |}.

Definition with_active (a : Z) (km : KeyMetrics) : KeyMetrics :=
  {| MetricsKey := MetricsKey km; BaseURL := BaseURL km; KeyMask := KeyMask km;
     RequestCount := RequestCount km; SuccessCount := SuccessCount km;
     FailureCount := FailureCount km; ConsecutiveFailures := ConsecutiveFailures km;
     ActiveRequests := a; LastSuccessAt := LastSuccessAt km;
     LastFailureAt := LastFailureAt km; CircuitBrokenAt := CircuitBrokenAt km;
     recentResults := recentResults km;
     requestHistory := requestHistory km; pendingHistoryIdx := pendingHistoryIdx km |}.

Definition with_keyMetrics (k : gmap string KeyMetrics) (m : MetricsManager) : MetricsManager :=
  {| keyMetrics := k; windowSize := windowSize m; failureThreshold := failureThreshold m;
     nextRequestID := nextRequestID m; store := store m; apiType := apiType m |}.

Definition with_nextRequestID (n : N) (m : MetricsManager) : MetricsManager :=
  {| keyMetrics := keyMetrics m; windowSize := windowSize m; failureThreshold := failureThreshold m;
     nextRequestID := n; store := store m; apiType := apiType m |}.

(** [m.store.AddRecord(r)] guarded by [m.store != nil]. *)
Definition AddRecord (r : PersistentRecord) (m : MetricsManager) : MetricsManager :=
  {| keyMetrics := keyMetrics m; windowSize := windowSize m; failureThreshold := failureThreshold m;
     nextRequestID := nextRequestID m;
     store := match store m with Some q => Some (q ++ [r]) | None => None end;
     apiType := apiType m |}.

(** The index of the first record stamped after [cutoff], counting from
    [i]; [-1] when there is none (the [newStart] loop). *)
Fixpoint firstAfter (cutoff : Z) (i : Z) (h : list RequestRecord) : Z :=
  match h with
  | [] => -1
  | r :: h' => if time_After (Timestamp r) cutoff then i else firstAfter cutoff (i + 1) h'
  end.

(** The rebasing loop over the pending map: entries below [newStart] are
    deleted, the others are shifted down by [newStart]. *)
Definition rebase (newStart : Z) (idx : Z) : option Z :=
  if idx <? newStart then None else Some (idx - newStart).

(** [cleanupHistoryLocked], for a non-nil row. *)
Definition cleanupHistoryLocked (now : Z) (km : KeyMetrics) : KeyMetrics :=
  if (Z.of_nat (length (requestHistory km)) =? 0) then km else
  let cutoff := now + (-24 * Hour) in
  let newStart := firstAfter cutoff 0 (requestHistory km) in
  if 0 <? newStart then
    with_history (drop (Z.to_nat newStart) (requestHistory km))
      (if 0 <? Z.of_nat (size (pendingHistoryIdx km))
       then omap (rebase newStart) (pendingHistoryIdx km)
       else pendingHistoryIdx km) km
  else if newStart =? -1 then
    with_history [] ∅ km
  else km.

(** The number of records a cleanup at time [now] cuts from the head of
    the history. *)
Definition evicted (now : Z) (km : KeyMetrics) : Z :=
  let newStart := firstAfter (now + (-24 * Hour)) 0 (requestHistory km) in
  if newStart =? -1 then Z.of_nat (length (requestHistory km)) else newStart.

(** [appendToWindowKey]. *)
Definition appendToWindowKey (ws : Z) (success : bool) (km : KeyMetrics) : KeyMetrics :=
  let w := recentResults km ++ [success] in
  with_window (if ws <? Z.of_nat (length w) then drop 1 w else w) km.

(** [appendToHistoryKeyWithUsage]. *)
Definition appendToHistoryKeyWithUsage (now : Z) (timestamp : Z) (success : bool)
    (inputTokens outputTokens cacheCreationTokens cacheReadTokens : Z)
    (km : KeyMetrics) : KeyMetrics :=
  cleanupHistoryLocked now
    (with_history
       (requestHistory km ++
        [{| Model := ""; Timestamp := timestamp; Success := success;
            InputTokens := inputTokens; OutputTokens := outputTokens;
            CacheCreationInputTokens := cacheCreationTokens;
            CacheReadInputTokens := cacheReadTokens |}])
       (pendingHistoryIdx km) km).

Definition appendToHistoryKey (now : Z) (timestamp : Z) (success : bool) (km : KeyMetrics) : KeyMetrics :=
  appendToHistoryKeyWithUsage now timestamp success 0 0 0 0 km.

(** Number of [false] entries of a window. *)
Definition failures (w : list bool) : Z :=
  Z.of_nat (length (filter (λ b, b = false) w)).

(** [calculateKeyFailureRateInternal]. *)
Definition calculateKeyFailureRateInternal (km : KeyMetrics) : Q :=
  if Z.of_nat (length (recentResults km)) =? 0 then 0%Q
  else Qmake (failures (recentResults km)) (Z.to_pos (Z.of_nat (length (recentResults km)))).

(** [max(3, m.windowSize/2)]; Go's [/] truncates toward zero. *)
Definition minRequests (ws : Z) : Z := Z.max 3 (Z.quot ws 2).

(** [isKeyCircuitBroken]. *)
Definition isKeyCircuitBroken (m : MetricsManager) (km : KeyMetrics) : bool :=
  if Z.of_nat (length (recentResults km)) <? minRequests (windowSize m) then false
  else Qle_bool (failureThreshold m) (calculateKeyFailureRateInternal km).

Section WithIdentity.

(** [generateMetricsKey] is the first 16 hex digits of the SHA-256 digest
    of [baseURL|apiKey]; [utils.MaskAPIKey] masks a key for display. *)
Variable generateMetricsKey : string → string → string.
Variable MaskAPIKey : string → string.

Definition newKeyMetrics (baseURL apiKey : string) : KeyMetrics :=
  {| MetricsKey := generateMetricsKey baseURL apiKey; BaseURL := baseURL;
     KeyMask := MaskAPIKey apiKey;
     RequestCount := 0; SuccessCount := 0; FailureCount := 0;
     ConsecutiveFailures := 0; ActiveRequests := 0;
     LastSuccessAt := None; LastFailureAt := None; CircuitBrokenAt := None;
     recentResults := []; requestHistory := []; pendingHistoryIdx := ∅ |}.

(** [getOrCreateKey]: the row, and the manager holding it. *)
Definition getOrCreateKey (baseURL apiKey : string) (m : MetricsManager)
    : KeyMetrics * MetricsManager :=
  let metricsKey := generateMetricsKey baseURL apiKey in
  match keyMetrics m !! metricsKey with
  | Some km => (km, m)
  | None =>
      let km := newKeyMetrics baseURL apiKey in
      (km, with_keyMetrics (<[metricsKey := km]> (keyMetrics m)) m)
  end.

(** Write a row back under the identity of [(baseURL, apiKey)]. *)
Definition putKey (baseURL apiKey : string) (km : KeyMetrics) (m : MetricsManager) : MetricsManager :=
  with_keyMetrics (<[generateMetricsKey baseURL apiKey := km]> (keyMetrics m)) m.

(** [RecordRequestConnectedAt]: the request ID and the new state. *)
Definition RecordRequestConnectedAt (now : Z) (baseURL apiKey model : string) (timestamp : Z)
    (m : MetricsManager) : N * MetricsManager :=
  let '(km, m1) := getOrCreateKey baseURL apiKey m in
  let requestID := wrapU64 (nextRequestID m1 + 1) in
  let m2 := with_nextRequestID requestID m1 in
  let h := requestHistory km ++
           [{| Model := model; Timestamp := timestamp; Success := true;
               InputTokens := 0; OutputTokens := 0;
               CacheCreationInputTokens := 0; CacheReadInputTokens := 0 |}] in
  let p := <[requestID := Z.of_nat (length h) - 1]> (pendingHistoryIdx km) in
  (requestID, putKey baseURL apiKey (cleanupHistoryLocked now (with_history h p km)) m2).

Definition RecordRequestConnected (now : Z) (baseURL apiKey model : string)
    (m : MetricsManager) : N * MetricsManager :=
  RecordRequestConnectedAt now baseURL apiKey model now m.

(** The shift applied to the other pending indices after a slot at [idx]
    was cut out of the history. *)
Definition shiftAbove (idx : Z) (ridx : Z) : Z :=
  if idx <? ridx then ridx - 1 else ridx.

(** [RecordRequestFinalizeClientCancel]. *)
Definition RecordRequestFinalizeClientCancel (baseURL apiKey : string) (requestID : N)
    (m : MetricsManager) : MetricsManager :=
  match keyMetrics m !! generateMetricsKey baseURL apiKey with
  | None => m
  | Some km =>
      match pendingHistoryIdx km !! requestID with
      | None => m
      | Some idx =>
          if (idx <? 0) || (Z.of_nat (length (requestHistory km)) <=? idx) then m
          else
            let p1 := delete requestID (pendingHistoryIdx km) in
            let km1 := with_counters (wrap64 (RequestCount km + 1)) (SuccessCount km)
                         (FailureCount km) (ConsecutiveFailures km) km in
            let h := take (Z.to_nat idx) (requestHistory km) ++
                     drop (Z.to_nat (idx + 1)) (requestHistory km) in
            putKey baseURL apiKey (with_history h (shiftAbove idx <$> p1) km1) m
      end
  end.

(** Token counts read from an optional usage. *)
Definition usageTokens (usage : option Usage) : Z * Z * Z * Z :=
  match usage with
  | None => (0, 0, 0, 0)
  | Some u =>
      let cc := U_CacheCreationInputTokens u in
      (U_InputTokens u, U_OutputTokens u,
       (if cc <=? 0
        then wrap64 (U_CacheCreation5mInputTokens u + U_CacheCreation1hInputTokens u)
        else cc),
       U_CacheReadInputTokens u)
  end.

(** [recordSuccessWithUsageLocked]. *)
Definition recordSuccessWithUsageLocked (baseURL apiKey : string) (usage : option Usage)
    (now : Z) (m : MetricsManager) : MetricsManager :=
  let '(km, m1) := getOrCreateKey baseURL apiKey m in
  let km1 := with_counters (wrap64 (RequestCount km + 1)) (wrap64 (SuccessCount km + 1))
               (FailureCount km) 0 km in
  let km2 := with_stamps (Some now) (LastFailureAt km1) None km1 in
  let km3 := appendToWindowKey (windowSize m1) true km2 in
  let '(inputTokens, outputTokens, cacheCreationTokens, cacheReadTokens) := usageTokens usage in
  let km4 := appendToHistoryKeyWithUsage now now true
               inputTokens outputTokens cacheCreationTokens cacheReadTokens km3 in
  AddRecord
    {| PR_MetricsKey := MetricsKey km4; PR_BaseURL := baseURL; PR_KeyMask := KeyMask km4;
       PR_Timestamp := now; PR_Success := true;
       PR_InputTokens := inputTokens; PR_OutputTokens := outputTokens;
       PR_CacheCreationTokens := cacheCreationTokens; PR_CacheReadTokens := cacheReadTokens;
       PR_APIType := apiType m1; PR_Model := "" |}
    (putKey baseURL apiKey km4 m1).

(** The circuit-entry check shared by the failure paths. *)
Definition enterCircuit (m : MetricsManager) (now : Z) (km : KeyMetrics) : KeyMetrics :=
  match CircuitBrokenAt km with
  | None => if isKeyCircuitBroken m km
            then with_stamps (LastSuccessAt km) (LastFailureAt km) (Some now) km
            else km
  | Some _ => km
  end.

(** [recordFailureLocked]. *)
Definition recordFailureLocked (baseURL apiKey : string) (now : Z)
    (m : MetricsManager) : MetricsManager :=
  let '(km, m1) := getOrCreateKey baseURL apiKey m in
  let km1 := with_counters (wrap64 (RequestCount km + 1)) (SuccessCount km)
               (wrap64 (FailureCount km + 1)) (wrap64 (ConsecutiveFailures km + 1)) km in
  let km2 := with_stamps (LastSuccessAt km1) (Some now) (CircuitBrokenAt km1) km1 in
  let km3 := appendToWindowKey (windowSize m1) false km2 in
  let km4 := enterCircuit m1 now km3 in
  let km5 := appendToHistoryKey now now false km4 in
  AddRecord
    {| PR_MetricsKey := MetricsKey km5; PR_BaseURL := baseURL; PR_KeyMask := KeyMask km5;
       PR_Timestamp := now; PR_Success := false;
       PR_InputTokens := 0; PR_OutputTokens := 0;
       PR_CacheCreationTokens := 0; PR_CacheReadTokens := 0;
       PR_APIType := apiType m1; PR_Model := "" |}
    (putKey baseURL apiKey km5 m1).

(** [RecordFailure]. *)
Definition RecordFailure (now : Z) (baseURL apiKey : string) (m : MetricsManager) : MetricsManager :=
  recordFailureLocked baseURL apiKey now m.

(** The pending slot of a request, when the row exists and the slot is in
    bounds: the guard shared by the three finalizers. *)
Definition pendingSlot (baseURL apiKey : string) (requestID : N) (m : MetricsManager)
    : option (KeyMetrics * Z) :=
  match keyMetrics m !! generateMetricsKey baseURL apiKey with
  | None => None
  | Some km =>
      match pendingHistoryIdx km !! requestID with
      | None => None
      | Some idx =>
          if (idx <? 0) || (Z.of_nat (length (requestHistory km)) <=? idx) then None
          else Some (km, idx)
      end
  end.

(** Rewrite of the reserved record at finalize. *)
Definition rewriteRecord (success : bool) (i o cc cr : Z) (r : RequestRecord) : RequestRecord :=
  {| Model := Model r; Timestamp := Timestamp r; Success := success;
     InputTokens := i; OutputTokens := o;
     CacheCreationInputTokens := cc; CacheReadInputTokens := cr |}.

(** [RecordRequestFinalizeSuccess]. *)
Definition RecordRequestFinalizeSuccess (now : Z) (baseURL apiKey : string) (requestID : N)
    (usage : option Usage) (m : MetricsManager) : MetricsManager :=
  match pendingSlot baseURL apiKey requestID m with
  | None => recordSuccessWithUsageLocked baseURL apiKey usage now m
  | Some (km, idx) =>
      let km0 := with_history (requestHistory km) (delete requestID (pendingHistoryIdx km)) km in
      let km1 := with_counters (wrap64 (RequestCount km0 + 1)) (wrap64 (SuccessCount km0 + 1))
                   (FailureCount km0) 0 km0 in
      let km2 := with_stamps (Some now) (LastFailureAt km1) None km1 in
      let km3 := appendToWindowKey (windowSize m) true km2 in
      let '(inputTokens, outputTokens, cacheCreationTokens, cacheReadTokens) := usageTokens usage in
      let h := alter (rewriteRecord true inputTokens outputTokens cacheCreationTokens cacheReadTokens)
                 (Z.to_nat idx) (requestHistory km3) in
      let km4 := with_history h (pendingHistoryIdx km3) km3 in
      let record := default
                      {| Model := ""; Timestamp := 0; Success := true; InputTokens := 0;
                         OutputTokens := 0; CacheCreationInputTokens := 0;
                         CacheReadInputTokens := 0 |}
                      (h !! Z.to_nat idx) in
      AddRecord
        {| PR_MetricsKey := MetricsKey km4; PR_BaseURL := baseURL; PR_KeyMask := KeyMask km4;
           PR_Timestamp := Timestamp record; PR_Success := true;
           PR_InputTokens := inputTokens; PR_OutputTokens := outputTokens;
           PR_CacheCreationTokens := cacheCreationTokens; PR_CacheReadTokens := cacheReadTokens;
           PR_APIType := apiType m; PR_Model := Model record |}
        (putKey baseURL apiKey km4 m)
  end.

(** [RecordRequestFinalizeFailure]. *)
Definition RecordRequestFinalizeFailure (now : Z) (baseURL apiKey : string) (requestID : N)
    (m : MetricsManager) : MetricsManager :=
  match pendingSlot baseURL apiKey requestID m with
  | None => recordFailureLocked baseURL apiKey now m
  | Some (km, idx) =>
      let km0 := with_history (requestHistory km) (delete requestID (pendingHistoryIdx km)) km in
      let km1 := with_counters (wrap64 (RequestCount km0 + 1)) (SuccessCount km0)
                   (wrap64 (FailureCount km0 + 1)) (wrap64 (ConsecutiveFailures km0 + 1)) km0 in
      let km2 := with_stamps (LastSuccessAt km1) (Some now) (CircuitBrokenAt km1) km1 in
      let km3 := appendToWindowKey (windowSize m) false km2 in
      let km4 := enterCircuit m now km3 in
      let h := alter (rewriteRecord false 0 0 0 0) (Z.to_nat idx) (requestHistory km4) in
      let km5 := with_history h (pendingHistoryIdx km4) km4 in
      let record := default
                      {| Model := ""; Timestamp := 0; Success := false; InputTokens := 0;
                         OutputTokens := 0; CacheCreationInputTokens := 0;
                         CacheReadInputTokens := 0 |}
                      (h !! Z.to_nat idx) in
      AddRecord
        {| PR_MetricsKey := MetricsKey km5; PR_BaseURL := baseURL; PR_KeyMask := KeyMask km5;
           PR_Timestamp := Timestamp record; PR_Success := false;
           PR_InputTokens := 0; PR_OutputTokens := 0;
           PR_CacheCreationTokens := 0; PR_CacheReadTokens := 0;
           PR_APIType := apiType m; PR_Model := Model record |}
        (putKey baseURL apiKey km5 m)
  end.

(** [RecordRequestStart] and [RecordRequestEnd]. *)
Definition RecordRequestStart (baseURL apiKey : string) (m : MetricsManager) : MetricsManager :=
  let '(km, m1) := getOrCreateKey baseURL apiKey m in
  putKey baseURL apiKey (with_active (wrap64 (ActiveRequests km + 1)) km) m1.

Definition RecordRequestEnd (baseURL apiKey : string) (m : MetricsManager) : MetricsManager :=
  match keyMetrics m !! generateMetricsKey baseURL apiKey with
  | Some km =>
      if 0 <? ActiveRequests km
      then putKey baseURL apiKey (with_active (wrap64 (ActiveRequests km - 1)) km) m
      else m
  | None => m
  end.

(** [ShouldSuspendKey]. *)
Definition ShouldSuspendKey (baseURL apiKey : string) (m : MetricsManager) : bool :=
  match keyMetrics m !! generateMetricsKey baseURL apiKey with
  | None => false
  | Some km =>
      if Z.of_nat (length (recentResults km)) <? minRequests (windowSize m) then false
      else Qle_bool (failureThreshold m) (calculateKeyFailureRateInternal km)
  end.

(** The sliding windows of the rows of [activeKeys] at [baseURL], appended
    in key order ([totalResults]). *)
Definition totalResults (baseURL : string) (activeKeys : list string) (m : MetricsManager)
    : list bool :=
  concat (map (λ apiKey,
                 match keyMetrics m !! generateMetricsKey baseURL apiKey with
                 | Some km => recentResults km
                 | None => []
                 end) activeKeys).

(** [IsChannelHealthyWithKeys]. *)
Definition IsChannelHealthyWithKeys (baseURL : string) (activeKeys : list string)
    (m : MetricsManager) : bool :=
  if Z.of_nat (length activeKeys) =? 0 then false else
  let total := totalResults baseURL activeKeys m in
  if Z.of_nat (length total) =? 0 then true else
  if Z.of_nat (length total) <? minRequests (windowSize m) then true else
  negb (Qle_bool (failureThreshold m)
          (Qmake (failures total) (Z.to_pos (Z.of_nat (length total))))).

(** [CalculateChannelFailureRate]. *)
Definition CalculateChannelFailureRate (baseURL : string) (activeKeys : list string)
    (m : MetricsManager) : Q :=
  if Z.of_nat (length activeKeys) =? 0 then 0%Q else
  let total := totalResults baseURL activeKeys m in
  if Z.of_nat (length total) =? 0 then 0%Q else
  Qmake (failures total) (Z.to_pos (Z.of_nat (length total))).

(** [bucketData], the per-bucket counters of the historical queries. *)
Record bucketData := {
  requestCount : Z;
  successCount : Z;
  failureCount : Z
}.

(** [HistoryDataPoint]. *)
Record HistoryDataPoint := {
  HP_Timestamp : Z;
  HP_RequestCount : Z;
  HP_SuccessCount : Z;
  HP_FailureCount : Z;
  HP_SuccessRate : Q
}.

(** [numPoints] of the historical queries: [int(duration / interval)],
    raised to 1 when not positive, plus one for the live bucket. *)
Definition numPointsOf (duration interval : Z) : Z :=
  let n := Z.quot duration interval in
  (if n <=? 0 then 1 else n) + 1.

(** The bucket map before any record is counted: keys [0 .. numPoints-1]. *)
Definition emptyBuckets (numPoints : Z) : gmap Z bucketData :=
  list_to_map (map (λ i, (i, {| requestCount := 0; successCount := 0; failureCount := 0 |}))
                   (seqZ 0 numPoints)).

(** [offset] of a record: [int64(record.Timestamp.Sub(startTime) / interval)]. *)
Definition bucketOffset (startTime interval : Z) (r : RequestRecord) : Z :=
  Z.quot (time_Sub (Timestamp r) startTime) interval.

(** The body of the record loop of [GetHistoricalStats]. *)
Definition countRecord (startTime endTime interval numPoints : Z)
    (buckets : gmap Z bucketData) (r : RequestRecord) : gmap Z bucketData :=
  if negb (time_Before (Timestamp r) startTime) && time_Before (Timestamp r) endTime then
    let offset := bucketOffset startTime interval r in
    if (0 <=? offset) && (offset <? numPoints) then
      alter (λ b, {| requestCount := requestCount b + 1;
                     successCount := if Success r then successCount b + 1 else successCount b;
                     failureCount := if Success r then failureCount b else failureCount b + 1 |})
            offset buckets
    else buckets
  else buckets.

(** The records the query scans: the histories of the existing rows of
    [activeKeys] at [baseURL], in key order. *)
Definition scannedRecords (baseURL : string) (activeKeys : list string) (m : MetricsManager)
    : list RequestRecord :=
  concat (map (λ apiKey,
                 match keyMetrics m !! generateMetricsKey baseURL apiKey with
                 | Some km => requestHistory km
                 | None => []
                 end) activeKeys).

(** One point of the result. *)
Definition makePoint (startTime interval : Z) (buckets : gmap Z bucketData) (i : Z)
    : HistoryDataPoint :=
  let b := default {| requestCount := 0; successCount := 0; failureCount := 0 |} (buckets !! i) in
  {| HP_Timestamp := startTime + i * interval;
     HP_RequestCount := requestCount b;
     HP_SuccessCount := successCount b;
     HP_FailureCount := failureCount b;
     HP_SuccessRate :=
       if 0 <? requestCount b
       then (Qmake (successCount b) 1 / Qmake (requestCount b) 1 * 100)%Q
       else 0%Q |}.

(** [GetHistoricalStats]. *)
Definition GetHistoricalStats (now : Z) (baseURL : string) (activeKeys : list string)
    (duration interval : Z) (m : MetricsManager) : list HistoryDataPoint :=
  if (interval <=? 0) || (duration <=? 0) then [] else
  let startTime := time_Truncate (now + - duration) interval in
  let endTime := time_Truncate now interval + interval in
  let numPoints := numPointsOf duration interval in
  let buckets :=
    foldl (countRecord startTime endTime interval numPoints)
          (emptyBuckets numPoints) (scannedRecords baseURL activeKeys m) in
  map (makePoint startTime interval buckets) (seqZ 0 numPoints).

End WithIdentity.

End Metrics.

(** ** Errors *)

(** Go [error] values as the failover core tells them apart: the sentinel
    identities tested with [errors.Is], plain messages, and [%w] wrapping. *)
Inductive error :=
  | ErrCanceled
  | ErrEmptyStreamResponse
  | ErrInvalidResponseBody
  | ErrMsg (msg : string)
  | ErrWrap (prefix : string) (inner : error).

Inductive result (A : Type) :=
  | Ok (a : A)
  | Err (e : error).
Arguments Ok {A} a.
Arguments Err {A} e.

Definition error_eqb (a b : error) : bool :=
  match a, b with
  | ErrCanceled, ErrCanceled => true
  | ErrEmptyStreamResponse, ErrEmptyStreamResponse => true
  | ErrInvalidResponseBody, ErrInvalidResponseBody => true
  | _, _ => false
  end.

(** [errors.Is(err, target)] for a sentinel [target]. *)
Fixpoint errors_Is (err target : error) : bool :=
  error_eqb err target ||
  match err with
  | ErrWrap _ inner => errors_Is inner target
  | _ => false
  end.

(** ** Configuration view and failed-key cache (internal/config) *)

Module Config.

Record UpstreamConfig := {
  BaseURL : string;
  BaseURLs : list string;
  APIKeys : list string;
  ServiceType : string;
  Name : string;
  Priority : Z;
  Status : string;
  PromotionUntil : option Z
}.

Record Config := {
  Upstream : list UpstreamConfig;
  ResponsesUpstream : list UpstreamConfig;
  GeminiUpstream : list UpstreamConfig;
  ChatUpstream : list UpstreamConfig;
  FuzzyModeEnabled : bool
}.

Record FailedKey := {
  Timestamp : Z;
  FailureCount : Z
}.

Record ConfigManager := {
  config : Config;
  failedKeysCache : gmap string FailedKey;
  keyRecoveryTime : Z;
  maxFailureCount : Z
}.

(** [failedKeyCacheKey]. *)
Definition failedKeyCacheKey (apiType apiKey : string) : string :=
  apiType +:+ ":" +:+ apiKey.

Definition with_failedKeysCache (c : gmap string FailedKey) (cm : ConfigManager) : ConfigManager :=
  {| config := config cm; failedKeysCache := c;
     keyRecoveryTime := keyRecoveryTime cm; maxFailureCount := maxFailureCount cm |}.

(** [MarkKeyAsFailed]; the recovery time computed at the end is only logged. *)
Definition MarkKeyAsFailed (now : Z) (apiKey apiType : string) (cm : ConfigManager) : ConfigManager :=
  let cacheKey := failedKeyCacheKey apiType apiKey in
  match failedKeysCache cm !! cacheKey with
  | Some failure =>
      with_failedKeysCache
        (<[cacheKey := {| Timestamp := now; FailureCount := wrap64 (FailureCount failure + 1) |}]>
           (failedKeysCache cm)) cm
  | None =>
      with_failedKeysCache
        (<[cacheKey := {| Timestamp := now; FailureCount := 1 |}]> (failedKeysCache cm)) cm
  end.

(** The recovery interval of an entry, as [isKeyFailed] computes it. *)
Definition recoveryTimeOf (cm : ConfigManager) (failure : FailedKey) : Z :=
  if maxFailureCount cm <? FailureCount failure
  then wrap64 (keyRecoveryTime cm * 2)
  else keyRecoveryTime cm.

(** [isKeyFailed]; [time.Since(t)] is [now.Sub(t)]. *)
Definition isKeyFailed (now : Z) (apiKey apiType : string) (cm : ConfigManager) : bool :=
  match failedKeysCache cm !! failedKeyCacheKey apiType apiKey with
  | None => false
  | Some failure => time_Sub now (Timestamp failure) <? recoveryTimeOf cm failure
  end.

(** [IsKeyFailed]. *)
Definition IsKeyFailed (now : Z) (apiKey apiType : string) (cm : ConfigManager) : bool :=
  isKeyFailed now apiKey apiType cm.

(** [failedKeys[key]] on a [map[string]bool]: absent reads as false. *)
Definition inFailed (failedKeys : gmap string bool) (key : string) : bool :=
  default false (failedKeys !! key).

(** The recovery-attempt loop of [GetNextAPIKey]: among the keys not tried
    in this request, the one whose cache entry is older than every one
    seen before it, starting from [oldestTime]. *)
Fixpoint oldestFailed (apiType : string) (failedKeys : gmap string bool)
    (cache : gmap string FailedKey) (keys : list string)
    (oldestTime : Z) (oldestFailedKey : string) : string :=
  match keys with
  | [] => oldestFailedKey
  | key :: rest =>
      if negb (inFailed failedKeys key) then
        match cache !! failedKeyCacheKey apiType key with
        | Some failure =>
            if time_Before (Timestamp failure) oldestTime
            then oldestFailed apiType failedKeys cache rest (Timestamp failure) key
            else oldestFailed apiType failedKeys cache rest oldestTime oldestFailedKey
        | None => oldestFailed apiType failedKeys cache rest oldestTime oldestFailedKey
        end
      else oldestFailed apiType failedKeys cache rest oldestTime oldestFailedKey
  end.

(** [GetNextAPIKey]. *)
Definition GetNextAPIKey (now : Z) (upstream : UpstreamConfig) (failedKeys : gmap string bool)
    (apiType : string) (cm : ConfigManager) : result string :=
  match APIKeys upstream with
  | [] => Err (ErrMsg ("上游 " +:+ Name upstream +:+ " 没有可用的API密钥"))
  | [only] => Ok only
  | keys =>
      let availableKeys :=
        filter (λ key, negb (inFailed failedKeys key) && negb (isKeyFailed now key apiType cm) = true)
               keys in
      match availableKeys with
      | [] =>
          let oldestFailedKey :=
            oldestFailed apiType failedKeys (failedKeysCache cm) keys now "" in
          if negb (String.eqb oldestFailedKey "") then Ok oldestFailedKey
          else Err (ErrMsg ("上游 " +:+ Name upstream +:+ " 的所有API密钥都暂时不可用"))
      | selectedKey :: _ => Ok selectedKey
      end
  end.

(** [GetNextChatAPIKey]. *)
Definition GetNextChatAPIKey (now : Z) (upstream : UpstreamConfig) (failedKeys : gmap string bool)
    (cm : ConfigManager) : result string :=
  GetNextAPIKey now upstream failedKeys "Chat" cm.

(** Modelled from the spec: [IsChannelInPromotion] is declared outside the
    files at hand; a channel is in promotion when it has a promotion
    deadline and the deadline is in the future. *)
Definition IsChannelInPromotion (now : Z) (upstream : UpstreamConfig) : bool :=
  match PromotionUntil upstream with
  | Some deadline => time_Before now deadline
  | None => false
  end.

End Config.

(** ** Channel scheduler (internal/scheduler/channel_scheduler.go) *)

Module Scheduler.

(** [ChannelKind] is a Go string type. *)
Definition ChannelKind := string.
Definition ChannelKindMessages : ChannelKind := "messages".
Definition ChannelKindResponses : ChannelKind := "responses".
Definition ChannelKindGemini : ChannelKind := "gemini".
Definition ChannelKindChat : ChannelKind := "chat".

Record ChannelInfo := {
  Index : Z;
  Name : string;
  Priority : Z;
  Status : string
}.

Record SelectionResult := {
  Upstream : Config.UpstreamConfig;
  ChannelIndex : Z;
  Reason : string
}.

(** The scheduler: the configuration view, one metrics engine per kind and
    the trace-affinity map.  Modelled from the spec: the trace-affinity
    manager is declared outside the files at hand; [GetPreferredChannel]
    is the lookup of the composite key [kind:userID] in a map to a
    channel index. *)
Record ChannelScheduler := {
  configManager : Config.ConfigManager;
  messagesMetricsManager : Metrics.MetricsManager;
  responsesMetricsManager : Metrics.MetricsManager;
  geminiMetricsManager : Metrics.MetricsManager;
  chatMetricsManager : Metrics.MetricsManager;
  traceAffinity : gmap string Z
}.

(** [getMetricsManager]. *)
Definition getMetricsManager (kind : ChannelKind) (s : ChannelScheduler) : Metrics.MetricsManager :=
  if String.eqb kind ChannelKindResponses then responsesMetricsManager s
  else if String.eqb kind ChannelKindGemini then geminiMetricsManager s
  else if String.eqb kind ChannelKindChat then chatMetricsManager s
  else messagesMetricsManager s.

(** The channel list of a kind (the [switch kind] of [getActiveChannels]
    and [getUpstreamByIndex]). *)
Definition upstreamsOf (kind : ChannelKind) (cfg : Config.Config) : list Config.UpstreamConfig :=
  if String.eqb kind ChannelKindResponses then Config.ResponsesUpstream cfg
  else if String.eqb kind ChannelKindGemini then Config.GeminiUpstream cfg
  else if String.eqb kind ChannelKindChat then Config.ChatUpstream cfg
  else Config.Upstream cfg.

(** The filtering loop of [getActiveChannels], before sorting; [i] is the
    index of the head of [upstreams]. *)
Fixpoint collectActive (i : Z) (upstreams : list Config.UpstreamConfig) : list ChannelInfo :=
  match upstreams with
  | [] => []
  | upstream :: rest =>
      let status := if String.eqb (Config.Status upstream) "" then "active"
                    else Config.Status upstream in
      if negb (String.eqb status "disabled") then
        let priority := if Config.Priority upstream =? 0 then i else Config.Priority upstream in
        {| Index := i; Name := Config.Name upstream; Priority := priority; Status := status |}
          :: collectActive (i + 1) rest
      else collectActive (i + 1) rest
  end.

(** [getUpstreamByIndex], on the channel list of the kind. *)
Definition getUpstreamByIndex (index : Z) (upstreams : list Config.UpstreamConfig)
    : option Config.UpstreamConfig :=
  if (0 <=? index) && (index <? Z.of_nat (length upstreams))
  then upstreams !! Z.to_nat index
  else None.

(** [failedChannels[i]] on a [map[int]bool]. *)
Definition isFailed (failedChannels : gmap Z bool) (i : Z) : bool :=
  default false (failedChannels !! i).

Section WithEnvironment.

Variable generateMetricsKey : string → string → string.

(** [sort.Slice(activeChannels, less)]: the library sort, which is not
    stable; all that is known of it is that it returns its input
    rearranged in an order where no element is [less] than one before
    it. *)
Variable sort_Slice : (ChannelInfo → ChannelInfo → bool) → list ChannelInfo → list ChannelInfo.

(** [getActiveChannels]. *)
Definition getActiveChannels (kind : ChannelKind) (s : ChannelScheduler) : list ChannelInfo :=
  sort_Slice (λ a b, Priority a <? Priority b)
    (collectActive 0 (upstreamsOf kind (Config.config (configManager s)))).

(** [findPromotedChannel]. *)
Fixpoint findPromotedChannel (now : Z) (upstreams : list Config.UpstreamConfig)
    (activeChannels : list ChannelInfo) : option ChannelInfo :=
  match activeChannels with
  | [] => None
  | ch :: rest =>
      if negb (String.eqb (Status ch) "active") then findPromotedChannel now upstreams rest
      else
        match getUpstreamByIndex (Index ch) upstreams with
        | Some upstream =>
            if Config.IsChannelInPromotion now upstream then Some ch
            else findPromotedChannel now upstreams rest
        | None => findPromotedChannel now upstreams rest
        end
  end.

(** Step 0 of [SelectChannel]: the promoted channel, when there is one,
    it has not failed in this request and it has a key. *)
Definition promotionRule (now : Z) (upstreams : list Config.UpstreamConfig)
    (activeChannels : list ChannelInfo) (failedChannels : gmap Z bool)
    : option SelectionResult :=
  match findPromotedChannel now upstreams activeChannels with
  | Some promotedChannel =>
      if negb (isFailed failedChannels (Index promotedChannel)) then
        match getUpstreamByIndex (Index promotedChannel) upstreams with
        | Some upstream =>
            if 0 <? Z.of_nat (length (Config.APIKeys upstream)) then
              Some {| Upstream := upstream; ChannelIndex := Index promotedChannel;
                      Reason := "promotion_priority" |}
            else None
        | None => None
        end
      else None
  | None => None
  end.

(** The loop over [activeChannels] of step 1 (trace affinity). *)
Fixpoint affinityLoop (metricsManager : Metrics.MetricsManager)
    (upstreams : list Config.UpstreamConfig) (failedChannels : gmap Z bool)
    (preferredIdx : Z) (activeChannels : list ChannelInfo) : option SelectionResult :=
  match activeChannels with
  | [] => None
  | ch :: rest =>
      if (Index ch =? preferredIdx) && negb (isFailed failedChannels preferredIdx) then
        if negb (String.eqb (Status ch) "active")
        then affinityLoop metricsManager upstreams failedChannels preferredIdx rest
        else
          match getUpstreamByIndex preferredIdx upstreams with
          | Some upstream =>
              if Metrics.IsChannelHealthyWithKeys generateMetricsKey
                   (Config.BaseURL upstream) (Config.APIKeys upstream) metricsManager
              then Some {| Upstream := upstream; ChannelIndex := preferredIdx;
                           Reason := "trace_affinity" |}
              else affinityLoop metricsManager upstreams failedChannels preferredIdx rest
          | None => affinityLoop metricsManager upstreams failedChannels preferredIdx rest
          end
      else affinityLoop metricsManager upstreams failedChannels preferredIdx rest
  end.

(** Step 1 of [SelectChannel]. *)
Definition affinityRule (kind : ChannelKind) (s : ChannelScheduler) (userID : string)
    (upstreams : list Config.UpstreamConfig) (activeChannels : list ChannelInfo)
    (failedChannels : gmap Z bool) : option SelectionResult :=
  if negb (String.eqb userID "") then
    match traceAffinity s !! (kind +:+ ":" +:+ userID) with
    | Some preferredIdx =>
        affinityLoop (getMetricsManager kind s) upstreams failedChannels preferredIdx activeChannels
    | None => None
    end
  else None.

(** Step 2 of [SelectChannel]: the first channel in priority order that
    has not failed, is active, has a key and is healthy. *)
Fixpoint priorityRule (metricsManager : Metrics.MetricsManager)
    (upstreams : list Config.UpstreamConfig) (failedChannels : gmap Z bool)
    (activeChannels : list ChannelInfo) : option SelectionResult :=
  match activeChannels with
  | [] => None
  | ch :: rest =>
      if isFailed failedChannels (Index ch)
      then priorityRule metricsManager upstreams failedChannels rest
      else if negb (String.eqb (Status ch) "active")
      then priorityRule metricsManager upstreams failedChannels rest
      else
        match getUpstreamByIndex (Index ch) upstreams with
        | Some upstream =>
            if Z.of_nat (length (Config.APIKeys upstream)) =? 0
            then priorityRule metricsManager upstreams failedChannels rest
            else if negb (Metrics.IsChannelHealthyWithKeys generateMetricsKey
                            (Config.BaseURL upstream) (Config.APIKeys upstream) metricsManager)
            then priorityRule metricsManager upstreams failedChannels rest
            else Some {| Upstream := upstream; ChannelIndex := Index ch;
                         Reason := "priority_order" |}
        | None => priorityRule metricsManager upstreams failedChannels rest
        end
  end.

(** [a < b] on rates. *)
Definition Qlt_bool (a b : Q) : bool := negb (Qle_bool b a).

(** The loop of [selectFallbackChannel]: the best channel seen so far with
    its upstream, and its failure rate. *)
Fixpoint fallbackLoop (metricsManager : Metrics.MetricsManager)
    (upstreams : list Config.UpstreamConfig) (failedChannels : gmap Z bool)
    (activeChannels : list ChannelInfo)
    (best : option (ChannelInfo * Config.UpstreamConfig)) (bestFailureRate : Q)
    : option (ChannelInfo * Config.UpstreamConfig) * Q :=
  match activeChannels with
  | [] => (best, bestFailureRate)
  | ch :: rest =>
      if isFailed failedChannels (Index ch)
      then fallbackLoop metricsManager upstreams failedChannels rest best bestFailureRate
      else if negb (String.eqb (Status ch) "active")
      then fallbackLoop metricsManager upstreams failedChannels rest best bestFailureRate
      else
        match getUpstreamByIndex (Index ch) upstreams with
        | Some upstream =>
            if Z.of_nat (length (Config.APIKeys upstream)) =? 0
            then fallbackLoop metricsManager upstreams failedChannels rest best bestFailureRate
            else
              let failureRate :=
                Metrics.CalculateChannelFailureRate generateMetricsKey
                  (Config.BaseURL upstream) (Config.APIKeys upstream) metricsManager in
              if Qlt_bool failureRate bestFailureRate
              then fallbackLoop metricsManager upstreams failedChannels rest
                     (Some (ch, upstream)) failureRate
              else fallbackLoop metricsManager upstreams failedChannels rest best bestFailureRate
        | None => fallbackLoop metricsManager upstreams failedChannels rest best bestFailureRate
        end
  end.

(** [selectFallbackChannel]. *)
Definition selectFallbackChannel (metricsManager : Metrics.MetricsManager)
    (upstreams : list Config.UpstreamConfig) (activeChannels : list ChannelInfo)
    (failedChannels : gmap Z bool) : result SelectionResult :=
  match fst (fallbackLoop metricsManager upstreams failedChannels activeChannels None 2%Q) with
  | Some (bestChannel, bestUpstream) =>
      Ok {| Upstream := bestUpstream; ChannelIndex := Index bestChannel; Reason := "fallback" |}
  | None => Err (ErrMsg "所有渠道都不可用")
  end.

(** The error of [SelectChannel] when no channel is active. *)
Definition noActiveChannelError (kind : ChannelKind) : error :=
  if String.eqb kind ChannelKindGemini then ErrMsg "没有可用的活跃 Gemini 渠道"
  else if String.eqb kind ChannelKindResponses then ErrMsg "没有可用的活跃 Responses 渠道"
  else if String.eqb kind ChannelKindChat then ErrMsg "没有可用的活跃 Chat 渠道"
  else ErrMsg "没有可用的活跃 Messages 渠道".

(** [SelectChannel]. *)
Definition SelectChannel (now : Z) (userID : string) (failedChannels : gmap Z bool)
    (kind : ChannelKind) (s : ChannelScheduler) : result SelectionResult :=
  let activeChannels := getActiveChannels kind s in
  let upstreams := upstreamsOf kind (Config.config (configManager s)) in
  if Z.of_nat (length activeChannels) =? 0 then Err (noActiveChannelError kind) else
  let metricsManager := getMetricsManager kind s in
  match promotionRule now upstreams activeChannels failedChannels with
  | Some r => Ok r
  | None =>
      match affinityRule kind s userID upstreams activeChannels failedChannels with
      | Some r => Ok r
      | None =>
          match priorityRule metricsManager upstreams failedChannels activeChannels with
          | Some r => Ok r
          | None => selectFallbackChannel metricsManager upstreams activeChannels failedChannels
          end
      end
  end.

End WithEnvironment.

End Scheduler.

(** ** Failover executor (internal/handlers/common, the revision of
    src/unnamed/part_001) *)

Module Failover.

Record Response := {
  StatusCode : Z;
  Body : string
}.

Record FailoverError := {
  FE_Status : Z;
  FE_Body : string
}.

Record URLLatencyResult := {
  URL : string;
  OriginalIdx : Z
}.

(** What the executor does to its collaborators other than the metrics
    engines and the failed-key cache, in the order it does it: the calls
    of the optional callbacks, the writes to the client and the records
    of the channel log ([channelIndex], status code, success flag, key,
    base URL, retry flag), and the requests sent upstream. *)
Inductive Event :=
  | EvRestoreRequestBody
  | EvSendRequest (url apiKey : string)
  | EvMarkURLFailure (url : string)
  | EvMarkURLSuccess (url : string)
  | EvDeprioritizeKeys (keys : gset string)
  | EvHandleSuccess (url apiKey : string)
  | EvClientData (status : Z) (body : string)
  | EvChannelLog (channelIndex status : Z) (success : bool) (apiKey url : string) (isRetry : bool).

(** The mutable world of one run: the scheduler (whose configuration
    manager is the [cfgManager] argument and whose engine of the kind is
    the [metricsManager] argument, as every caller passes them), the
    number of readings taken from the outside world so far, and the
    events. *)
Record World := {
  scheduler : Scheduler.ChannelScheduler;
  ticks : nat;
  events : list Event
}.

(** The six results of [TryUpstreamWithAllKeys]. *)
Record ExecResult := {
  handled : bool;
  successKey : string;
  successBaseURLIdx : Z;
  failoverErr : option FailoverError;
  usage : option Metrics.Usage;
  lastError : option error
}.

(** The variables of the executor that live across attempts. *)
Record Locals := {
  l_lastError : option error;
  l_lastFailoverError : option FailoverError;
  l_deprioritizeCandidates : gset string
}.

Inductive Step :=
  | Continue (w : World) (failedKeys : gmap string bool) (l : Locals)
  | Break (w : World) (l : Locals)
  | Return (r : ExecResult) (w : World).

Definition with_scheduler (s : Scheduler.ChannelScheduler) (w : World) : World :=
  {| scheduler := s; ticks := ticks w; events := events w |}.

Definition tick (w : World) : World :=
  {| scheduler := scheduler w; ticks := S (ticks w); events := events w |}.

Definition emit (e : Event) (w : World) : World :=
  {| scheduler := scheduler w; ticks := ticks w; events := events w ++ [e] |}.

Definition emitIf (b : bool) (e : Event) (w : World) : World :=
  if b then emit e w else w.

(** Replace the engine [getMetricsManager kind] of the scheduler. *)
Definition setMetricsManager (kind : Scheduler.ChannelKind) (m : Metrics.MetricsManager)
    (s : Scheduler.ChannelScheduler) : Scheduler.ChannelScheduler :=
  let mk mm rm gm cm :=
    {| Scheduler.configManager := Scheduler.configManager s;
       Scheduler.messagesMetricsManager := mm; Scheduler.responsesMetricsManager := rm;
       Scheduler.geminiMetricsManager := gm; Scheduler.chatMetricsManager := cm;
       Scheduler.traceAffinity := Scheduler.traceAffinity s |} in
  if String.eqb kind Scheduler.ChannelKindResponses then
    mk (Scheduler.messagesMetricsManager s) m (Scheduler.geminiMetricsManager s)
       (Scheduler.chatMetricsManager s)
  else if String.eqb kind Scheduler.ChannelKindGemini then
    mk (Scheduler.messagesMetricsManager s) (Scheduler.responsesMetricsManager s) m
       (Scheduler.chatMetricsManager s)
  else if String.eqb kind Scheduler.ChannelKindChat then
    mk (Scheduler.messagesMetricsManager s) (Scheduler.responsesMetricsManager s)
       (Scheduler.geminiMetricsManager s) m
  else
    mk m (Scheduler.responsesMetricsManager s) (Scheduler.geminiMetricsManager s)
       (Scheduler.chatMetricsManager s).

Definition setConfigManager (cm : Config.ConfigManager) (s : Scheduler.ChannelScheduler)
    : Scheduler.ChannelScheduler :=
  {| Scheduler.configManager := cm;
     Scheduler.messagesMetricsManager := Scheduler.messagesMetricsManager s;
     Scheduler.responsesMetricsManager := Scheduler.responsesMetricsManager s;
     Scheduler.geminiMetricsManager := Scheduler.geminiMetricsManager s;
     Scheduler.chatMetricsManager := Scheduler.chatMetricsManager s;
     Scheduler.traceAffinity := Scheduler.traceAffinity s |}.

(** Apply an engine operation to the engine of the kind. *)
Definition onMetrics (kind : Scheduler.ChannelKind)
    (f : Metrics.MetricsManager → Metrics.MetricsManager) (w : World) : World :=
  with_scheduler
    (setMetricsManager kind (f (Scheduler.getMetricsManager kind (scheduler w))) (scheduler w)) w.

(** Apply an operation to the configuration manager. *)
Definition onConfig (f : Config.ConfigManager → Config.ConfigManager) (w : World) : World :=
  with_scheduler (setConfigManager (f (Scheduler.configManager (scheduler w))) (scheduler w)) w.

(** [isClientSideError]. *)
Definition isClientSideError (err : option error) : bool :=
  match err with
  | None => false
  | Some e => errors_Is e ErrCanceled
  end.

(** [upstream.Clone()] followed by [upstreamCopy.BaseURL = currentBaseURL]. *)
Definition cloneWithBaseURL (currentBaseURL : string) (upstream : Config.UpstreamConfig)
    : Config.UpstreamConfig :=
  {| Config.BaseURL := currentBaseURL; Config.BaseURLs := Config.BaseURLs upstream;
     Config.APIKeys := Config.APIKeys upstream; Config.ServiceType := Config.ServiceType upstream;
     Config.Name := Config.Name upstream; Config.Priority := Config.Priority upstream;
     Config.Status := Config.Status upstream;
     Config.PromotionUntil := Config.PromotionUntil upstream |}.

Section WithCallbacks.

Variable generateMetricsKey : string → string → string.
Variable MaskAPIKey : string → string.

(** The upstream request type and the collaborators handed to the
    executor.  The outside world answers the [n]-th reading of a run:
    [clock n] is what [time.Now()] reads, [SendRequest n] what the
    upstream answers and [handleSuccess n] what writing the response back
    to the client yields. *)
Variable Request : Type.
Variable clock : nat → Z.
Variable nextAPIKey :
  Z → Config.UpstreamConfig → gmap string bool → Config.ConfigManager → result string.
Variable buildRequest : Config.UpstreamConfig → string → result Request.
Variable SendRequest : nat → Request → result Response.
Variable handleSuccess :
  nat → Response → Config.UpstreamConfig → string → option Metrics.Usage * option error.
Variable ShouldRetryWithNextKey : Z → string → bool → string → bool * bool.
Variable DecompressGzipIfNeeded : Response → string → string.
Variable RedirectModel : string → Config.UpstreamConfig → string.

(** The optional collaborators: whether each one is non-nil. *)
Variable hasDeprioritizeKey hasMarkURLFailure hasMarkURLSuccess hasChannelLogStore : bool.

(** [AreAllKeysSuspended]. *)
Definition AreAllKeysSuspended (m : Metrics.MetricsManager) (baseURL : string)
    (apiKeys : list string) : bool :=
  if Z.of_nat (length apiKeys) =? 0 then false
  else forallb (λ apiKey, Metrics.ShouldSuspendKey generateMetricsKey baseURL apiKey m) apiKeys.

(** The bookkeeping shared by the paths that give up on a key and go on
    to the next one: mark the key failed, finalize the reservation as a
    failure, end the request, mark the URL. *)
Definition failKey (kind : Scheduler.ChannelKind) (apiType currentBaseURL apiKey : string)
    (requestID : N) (w : World) : World :=
  let w1 := tick (onConfig (Config.MarkKeyAsFailed (clock (ticks w)) apiKey apiType) w) in
  let w2 := tick (onMetrics kind
                    (Metrics.RecordRequestFinalizeFailure generateMetricsKey MaskAPIKey
                       (clock (ticks w1)) currentBaseURL apiKey requestID) w1) in
  let w3 := onMetrics kind (Metrics.RecordRequestEnd generateMetricsKey currentBaseURL apiKey) w2 in
  emitIf hasMarkURLFailure (EvMarkURLFailure currentBaseURL) w3.

(** One iteration of the key loop of [TryUpstreamWithAllKeys]. *)
Definition attemptOnce (kind : Scheduler.ChannelKind) (apiType : string)
    (upstream : Config.UpstreamConfig) (model : string) (channelIndex : Z)
    (forceProbeMode : bool) (urlIdx : Z) (urlResult : URLLatencyResult) (attempt : Z)
    (w0 : World) (failedKeys : gmap string bool) (l : Locals) : Step :=
  let currentBaseURL := URL urlResult in
  let isRetry := (0 <? attempt) || (0 <? urlIdx) in
  let logAttempt status success apiKey :=
    emitIf hasChannelLogStore
      (EvChannelLog channelIndex status success apiKey currentBaseURL isRetry) in
  let w := emit EvRestoreRequestBody w0 in
  match nextAPIKey (clock (ticks w)) upstream failedKeys (Scheduler.configManager (scheduler w)) with
  | Err err =>
      Break (tick w)
        {| l_lastError := Some err; l_lastFailoverError := l_lastFailoverError l;
           l_deprioritizeCandidates := l_deprioritizeCandidates l |}
  | Ok apiKey =>
      let w := tick w in
      if negb forceProbeMode &&
         Metrics.ShouldSuspendKey generateMetricsKey currentBaseURL apiKey
           (Scheduler.getMetricsManager kind (scheduler w))
      then Continue w (<[apiKey := true]> failedKeys) l
      else
        let upstreamCopy := cloneWithBaseURL currentBaseURL upstream in
        match buildRequest upstreamCopy apiKey with
        | Err err =>
            Return {| handled := false; successKey := ""; successBaseURLIdx := 0;
                      failoverErr := None; usage := None;
                      lastError := Some (ErrWrap "request build failed: " err) |} w
        | Ok req =>
            let w := onMetrics kind
                       (Metrics.RecordRequestStart generateMetricsKey MaskAPIKey
                          currentBaseURL apiKey) w in
            let '(requestID, m') :=
              Metrics.RecordRequestConnected generateMetricsKey MaskAPIKey (clock (ticks w))
                currentBaseURL apiKey (RedirectModel model upstream)
                (Scheduler.getMetricsManager kind (scheduler w)) in
            let w := tick (onMetrics kind (λ _, m') w) in
            let w := emit (EvSendRequest currentBaseURL apiKey) w in
            match SendRequest (ticks w) req with
            | Err err =>
                let w := tick w in
                if isClientSideError (Some err) then
                  let w := onMetrics kind
                             (Metrics.RecordRequestFinalizeClientCancel generateMetricsKey
                                currentBaseURL apiKey requestID) w in
                  let w := onMetrics kind
                             (Metrics.RecordRequestEnd generateMetricsKey currentBaseURL apiKey) w in
                  Return {| handled := true; successKey := ""; successBaseURLIdx := 0;
                            failoverErr := None; usage := None; lastError := Some err |} w
                else
                  let w := failKey kind apiType currentBaseURL apiKey requestID w in
                  Continue (logAttempt 0 false apiKey w) (<[apiKey := true]> failedKeys)
                    {| l_lastError := Some err; l_lastFailoverError := l_lastFailoverError l;
                       l_deprioritizeCandidates := l_deprioritizeCandidates l |}
            | Ok resp =>
                let w := tick w in
                if (StatusCode resp <? 200) || (300 <=? StatusCode resp) then
                  let respBodyBytes := DecompressGzipIfNeeded resp (Body resp) in
                  let '(shouldFailover, isQuotaRelated) :=
                    ShouldRetryWithNextKey (StatusCode resp) respBodyBytes
                      (Config.FuzzyModeEnabled (Config.config (Scheduler.configManager (scheduler w))))
                      apiType in
                  if shouldFailover then
                    let w := failKey kind apiType currentBaseURL apiKey requestID w in
                    Continue (logAttempt (StatusCode resp) false apiKey w)
                      (<[apiKey := true]> failedKeys)
                      {| l_lastError := Some (ErrMsg ("上游错误: " +:+ pretty (StatusCode resp)));
                         l_lastFailoverError :=
                           Some {| FE_Status := StatusCode resp; FE_Body := respBodyBytes |};
                         l_deprioritizeCandidates :=
                           if isQuotaRelated then {[apiKey]} ∪ l_deprioritizeCandidates l
                           else l_deprioritizeCandidates l |}
                  else
                    let w := tick (onMetrics kind
                                     (Metrics.RecordRequestFinalizeFailure generateMetricsKey
                                        MaskAPIKey (clock (ticks w)) currentBaseURL apiKey
                                        requestID) w) in
                    let w := onMetrics kind
                               (Metrics.RecordRequestEnd generateMetricsKey currentBaseURL apiKey) w in
                    let w := logAttempt (StatusCode resp) false apiKey w in
                    Return {| handled := true; successKey := ""; successBaseURLIdx := 0;
                              failoverErr := None; usage := None; lastError := None |}
                           (emit (EvClientData (StatusCode resp) respBodyBytes) w)
                else
                  let w := emitIf (hasDeprioritizeKey &&
                                   negb (bool_decide (l_deprioritizeCandidates l = ∅)))
                             (EvDeprioritizeKeys (l_deprioritizeCandidates l)) w in
                  let w := emitIf hasMarkURLSuccess (EvMarkURLSuccess currentBaseURL) w in
                  let '(usage', err) := handleSuccess (ticks w) resp upstreamCopy apiKey in
                  let w := tick (emit (EvHandleSuccess currentBaseURL apiKey) w) in
                  match err with
                  | Some e =>
                      if isClientSideError err then
                        let w := onMetrics kind
                                   (Metrics.RecordRequestFinalizeClientCancel generateMetricsKey
                                      currentBaseURL apiKey requestID) w in
                        let w := onMetrics kind
                                   (Metrics.RecordRequestEnd generateMetricsKey
                                      currentBaseURL apiKey) w in
                        Return {| handled := true; successKey := ""; successBaseURLIdx := 0;
                                  failoverErr := None; usage := usage'; lastError := err |} w
                      else if errors_Is e ErrEmptyStreamResponse || errors_Is e ErrInvalidResponseBody
                      then
                        let w := failKey kind apiType currentBaseURL apiKey requestID w in
                        Continue (logAttempt 200 false apiKey w) (<[apiKey := true]> failedKeys)
                          {| l_lastError := err; l_lastFailoverError := l_lastFailoverError l;
                             l_deprioritizeCandidates := l_deprioritizeCandidates l |}
                      else
                        let w := tick (onConfig
                                         (Config.MarkKeyAsFailed (clock (ticks w)) apiKey apiType) w) in
                        let w := tick (onMetrics kind
                                         (Metrics.RecordRequestFinalizeFailure generateMetricsKey
                                            MaskAPIKey (clock (ticks w)) currentBaseURL apiKey
                                            requestID) w) in
                        let w := onMetrics kind
                                   (Metrics.RecordRequestEnd generateMetricsKey
                                      currentBaseURL apiKey) w in
                        Return {| handled := true; successKey := ""; successBaseURLIdx := 0;
                                  failoverErr := None; usage := usage'; lastError := err |}
                               (logAttempt 200 false apiKey w)
                  | None =>
                      let w := tick (onMetrics kind
                                       (Metrics.RecordRequestFinalizeSuccess generateMetricsKey
                                          MaskAPIKey (clock (ticks w)) currentBaseURL apiKey
                                          requestID usage') w) in
                      let w := onMetrics kind
                                 (Metrics.RecordRequestEnd generateMetricsKey currentBaseURL apiKey) w in
                      Return {| handled := true; successKey := apiKey;
                                successBaseURLIdx := OriginalIdx urlResult;
                                failoverErr := None; usage := usage'; lastError := None |}
                             (logAttempt 200 true apiKey w)
                  end
            end
        end
  end.

(** The key loop for one base URL: [remaining] iterations are left,
    starting at [attempt]. *)
Fixpoint keyLoop (kind : Scheduler.ChannelKind) (apiType : string)
    (upstream : Config.UpstreamConfig) (model : string) (channelIndex : Z)
    (forceProbeMode : bool) (urlIdx : Z) (urlResult : URLLatencyResult)
    (remaining : nat) (attempt : Z)
    (w : World) (failedKeys : gmap string bool) (l : Locals) : Step :=
  match remaining with
  | O => Break w l
  | S remaining' =>
      match attemptOnce kind apiType upstream model channelIndex forceProbeMode
              urlIdx urlResult attempt w failedKeys l with
      | Continue w' failedKeys' l' =>
          keyLoop kind apiType upstream model channelIndex forceProbeMode urlIdx urlResult
            remaining' (attempt + 1) w' failedKeys' l'
      | Break w' l' => Break w' l'
      | Return r w' => Return r w'
      end
  end.

(** The loop over the sorted base URLs; [finishURL] is what follows the
    key loop of one URL: a return ends the run, otherwise the next URL is
    tried. *)
Fixpoint urlLoop (kind : Scheduler.ChannelKind) (apiType : string)
    (upstream : Config.UpstreamConfig) (model : string) (channelIndex : Z)
    (forceProbeMode : bool) (urlIdx : Z) (urlResults : list URLLatencyResult)
    (w : World) (l : Locals) : ExecResult * World :=
  match urlResults with
  | [] =>
      ({| handled := false; successKey := ""; successBaseURLIdx := 0;
          failoverErr := l_lastFailoverError l; usage := None; lastError := l_lastError l |}, w)
  | urlResult :: rest =>
      match keyLoop kind apiType upstream model channelIndex forceProbeMode urlIdx urlResult
              (length (Config.APIKeys upstream)) 0 w ∅ l with
      | Return r w' => (r, w')
      | Break w' l' | Continue w' _ l' =>
          urlLoop kind apiType upstream model channelIndex forceProbeMode (urlIdx + 1) rest w' l'
      end
  end.

Definition finishURL (kind : Scheduler.ChannelKind) (apiType : string)
    (upstream : Config.UpstreamConfig) (model : string) (channelIndex : Z)
    (forceProbeMode : bool) (urlIdx : Z) (rest : list URLLatencyResult)
    (step : Step) : ExecResult * World :=
  match step with
  | Return r w' => (r, w')
  | Break w' l' | Continue w' _ l' =>
      urlLoop kind apiType upstream model channelIndex forceProbeMode (urlIdx + 1) rest w' l'
  end.

(** [TryUpstreamWithAllKeys] (for non-nil upstream, engine and mandatory
    callbacks). *)
Definition TryUpstreamWithAllKeys (kind : Scheduler.ChannelKind) (apiType : string)
    (upstream : Config.UpstreamConfig) (urlResults : list URLLatencyResult)
    (model : string) (channelIndex : Z) (w : World) : ExecResult * World :=
  let nothing := {| handled := false; successKey := ""; successBaseURLIdx := 0;
                    failoverErr := None; usage := None; lastError := None |} in
  if Z.of_nat (length (Config.APIKeys upstream)) =? 0 then (nothing, w) else
  match urlResults with
  | [] => (nothing, w)
  | first :: _ =>
      let forceProbeMode :=
        AreAllKeysSuspended (Scheduler.getMetricsManager kind (scheduler w)) (URL first)
          (Config.APIKeys upstream) in
      urlLoop kind apiType upstream model channelIndex forceProbeMode 0 urlResults w
        {| l_lastError := None; l_lastFailoverError := None; l_deprioritizeCandidates := ∅ |}
  end.

End WithCallbacks.

End Failover.

(** ** Failover executor, the revision of
    internal/handlers/common/upstream_failover.go

    The repository holds two revisions of [TryUpstreamWithAllKeys]: the
    one above (20 arguments), which the Chat handler calls, and this one
    (17 arguments), which the Gemini and Messages handlers call.  They
    differ in what follows an error of the build-request callback, in the
    errors of the success handler that go on to the next key, and in the
    channel log, which this revision does not write. *)

Module UpstreamFailover.
Import Failover.

Section WithCallbacks.

Variable generateMetricsKey : string → string → string.
Variable MaskAPIKey : string → string.

(** The collaborators, as for the other revision. *)
Variable Request : Type.
Variable clock : nat → Z.
Variable nextAPIKey :
  Z → Config.UpstreamConfig → gmap string bool → Config.ConfigManager → result string.
Variable buildRequest : Config.UpstreamConfig → string → result Request.
Variable SendRequest : nat → Request → result Response.
Variable handleSuccess :
  nat → Response → Config.UpstreamConfig → string → option Metrics.Usage * option error.
Variable ShouldRetryWithNextKey : Z → string → bool → string → bool * bool.
Variable DecompressGzipIfNeeded : Response → string → string.

(** [metricsManager.RecordRequestConnected(currentBaseURL, apiKey)]: this
    revision calls the method of the engine without the model that the
    engine at hand takes; the method it calls is a parameter, given the
    reading of the clock. *)
Variable RecordRequestConnected :
  Z → string → string → Metrics.MetricsManager → N * Metrics.MetricsManager.

(** The optional collaborators: whether each one is non-nil. *)
Variable hasDeprioritizeKey hasMarkURLFailure hasMarkURLSuccess : bool.

(** One iteration of the key loop of [TryUpstreamWithAllKeys]. *)
Definition attemptOnce (kind : Scheduler.ChannelKind) (apiType : string)
    (upstream : Config.UpstreamConfig) (forceProbeMode : bool) (urlResult : URLLatencyResult)
    (w0 : World) (failedKeys : gmap string bool) (l : Locals) : Step :=
  let currentBaseURL := URL urlResult in
  let w := emit EvRestoreRequestBody w0 in
  match nextAPIKey (clock (ticks w)) upstream failedKeys (Scheduler.configManager (scheduler w)) with
  | Err err =>
      Break (tick w)
        {| l_lastError := Some err; l_lastFailoverError := l_lastFailoverError l;
           l_deprioritizeCandidates := l_deprioritizeCandidates l |}
  | Ok apiKey =>
      let w := tick w in
      if negb forceProbeMode &&
         Metrics.ShouldSuspendKey generateMetricsKey currentBaseURL apiKey
           (Scheduler.getMetricsManager kind (scheduler w))
      then Continue w (<[apiKey := true]> failedKeys) l
      else
        let upstreamCopy := cloneWithBaseURL currentBaseURL upstream in
        match buildRequest upstreamCopy apiKey with
        | Err err =>
            let w := tick (onMetrics kind
                             (Metrics.RecordFailure generateMetricsKey MaskAPIKey
                                (clock (ticks w)) currentBaseURL apiKey) w) in
            Continue w (<[apiKey := true]> failedKeys)
              {| l_lastError := Some err; l_lastFailoverError := l_lastFailoverError l;
                 l_deprioritizeCandidates := l_deprioritizeCandidates l |}
        | Ok req =>
            let w := onMetrics kind
                       (Metrics.RecordRequestStart generateMetricsKey MaskAPIKey
                          currentBaseURL apiKey) w in
            let '(requestID, m') :=
              RecordRequestConnected (clock (ticks w)) currentBaseURL apiKey
                (Scheduler.getMetricsManager kind (scheduler w)) in
            let w := tick (onMetrics kind (λ _, m') w) in
            let w := emit (EvSendRequest currentBaseURL apiKey) w in
            match SendRequest (ticks w) req with
            | Err err =>
                let w := tick w in
                if isClientSideError (Some err) then
                  let w := onMetrics kind
                             (Metrics.RecordRequestFinalizeClientCancel generateMetricsKey
                                currentBaseURL apiKey requestID) w in
                  let w := onMetrics kind
                             (Metrics.RecordRequestEnd generateMetricsKey currentBaseURL apiKey) w in
                  Return {| handled := true; successKey := ""; successBaseURLIdx := 0;
                            failoverErr := None; usage := None; lastError := Some err |} w
                else
                  let w := failKey generateMetricsKey MaskAPIKey clock hasMarkURLFailure
                             kind apiType currentBaseURL apiKey requestID w in
                  Continue w (<[apiKey := true]> failedKeys)
                    {| l_lastError := Some err; l_lastFailoverError := l_lastFailoverError l;
                       l_deprioritizeCandidates := l_deprioritizeCandidates l |}
            | Ok resp =>
                let w := tick w in
                if (StatusCode resp <? 200) || (300 <=? StatusCode resp) then
                  let respBodyBytes := DecompressGzipIfNeeded resp (Body resp) in
                  let '(shouldFailover, isQuotaRelated) :=
                    ShouldRetryWithNextKey (StatusCode resp) respBodyBytes
                      (Config.FuzzyModeEnabled (Config.config (Scheduler.configManager (scheduler w))))
                      apiType in
                  if shouldFailover then
                    let w := failKey generateMetricsKey MaskAPIKey clock hasMarkURLFailure
                               kind apiType currentBaseURL apiKey requestID w in
                    Continue w (<[apiKey := true]> failedKeys)
                      {| l_lastError := Some (ErrMsg ("上游错误: " +:+ pretty (StatusCode resp)));
                         l_lastFailoverError :=
                           Some {| FE_Status := StatusCode resp; FE_Body := respBodyBytes |};
                         l_deprioritizeCandidates :=
                           if isQuotaRelated then {[apiKey]} ∪ l_deprioritizeCandidates l
                           else l_deprioritizeCandidates l |}
                  else
                    let w := tick (onMetrics kind
                                     (Metrics.RecordRequestFinalizeFailure generateMetricsKey
                                        MaskAPIKey (clock (ticks w)) currentBaseURL apiKey
                                        requestID) w) in
                    let w := onMetrics kind
                               (Metrics.RecordRequestEnd generateMetricsKey currentBaseURL apiKey) w in
                    Return {| handled := true; successKey := ""; successBaseURLIdx := 0;
                              failoverErr := None; usage := None; lastError := None |}
                           (emit (EvClientData (StatusCode resp) respBodyBytes) w)
                else
                  let w := emitIf (hasDeprioritizeKey &&
                                   negb (bool_decide (l_deprioritizeCandidates l = ∅)))
                             (EvDeprioritizeKeys (l_deprioritizeCandidates l)) w in
                  let w := emitIf hasMarkURLSuccess (EvMarkURLSuccess currentBaseURL) w in
                  let '(usage', err) := handleSuccess (ticks w) resp upstreamCopy apiKey in
                  let w := tick (emit (EvHandleSuccess currentBaseURL apiKey) w) in
                  match err with
                  | Some e =>
                      if isClientSideError err then
                        let w := onMetrics kind
                                   (Metrics.RecordRequestFinalizeClientCancel generateMetricsKey
                                      currentBaseURL apiKey requestID) w in
                        let w := onMetrics kind
                                   (Metrics.RecordRequestEnd generateMetricsKey
                                      currentBaseURL apiKey) w in
                        Return {| handled := true; successKey := ""; successBaseURLIdx := 0;
                                  failoverErr := None; usage := usage'; lastError := err |} w
                      else if errors_Is e ErrEmptyStreamResponse then
                        let w := failKey generateMetricsKey MaskAPIKey clock hasMarkURLFailure
                                   kind apiType currentBaseURL apiKey requestID w in
                        Continue w (<[apiKey := true]> failedKeys)
                          {| l_lastError := err; l_lastFailoverError := l_lastFailoverError l;
                             l_deprioritizeCandidates := l_deprioritizeCandidates l |}
                      else
                        let w := tick (onConfig
                                         (Config.MarkKeyAsFailed (clock (ticks w)) apiKey apiType) w) in
                        let w := tick (onMetrics kind
                                         (Metrics.RecordRequestFinalizeFailure generateMetricsKey
                                            MaskAPIKey (clock (ticks w)) currentBaseURL apiKey
                                            requestID) w) in
                        let w := onMetrics kind
                                   (Metrics.RecordRequestEnd generateMetricsKey
                                      currentBaseURL apiKey) w in
                        Return {| handled := true; successKey := ""; successBaseURLIdx := 0;
                                  failoverErr := None; usage := usage'; lastError := err |} w
                  | None =>
                      let w := tick (onMetrics kind
                                       (Metrics.RecordRequestFinalizeSuccess generateMetricsKey
                                          MaskAPIKey (clock (ticks w)) currentBaseURL apiKey
                                          requestID usage') w) in
                      let w := onMetrics kind
                                 (Metrics.RecordRequestEnd generateMetricsKey currentBaseURL apiKey) w in
                      Return {| handled := true; successKey := apiKey;
                                successBaseURLIdx := OriginalIdx urlResult;
                                failoverErr := None; usage := usage'; lastError := None |} w
                  end
            end
        end
  end.

(** The key loop for one base URL: [remaining] iterations are left. *)
Fixpoint keyLoop (kind : Scheduler.ChannelKind) (apiType : string)
    (upstream : Config.UpstreamConfig) (forceProbeMode : bool) (urlResult : URLLatencyResult)
    (remaining : nat) (w : World) (failedKeys : gmap string bool) (l : Locals) : Step :=
  match remaining with
  | O => Break w l
  | S remaining' =>
      match attemptOnce kind apiType upstream forceProbeMode urlResult w failedKeys l with
      | Continue w' failedKeys' l' =>
          keyLoop kind apiType upstream forceProbeMode urlResult remaining' w' failedKeys' l'
      | Break w' l' => Break w' l'
      | Return r w' => Return r w'
      end
  end.

(** The loop over the sorted base URLs. *)
Fixpoint urlLoop (kind : Scheduler.ChannelKind) (apiType : string)
    (upstream : Config.UpstreamConfig) (forceProbeMode : bool)
    (urlResults : list URLLatencyResult) (w : World) (l : Locals) : ExecResult * World :=
  match urlResults with
  | [] =>
      ({| handled := false; successKey := ""; successBaseURLIdx := 0;
          failoverErr := l_lastFailoverError l; usage := None; lastError := l_lastError l |}, w)
  | urlResult :: rest =>
      match keyLoop kind apiType upstream forceProbeMode urlResult
              (length (Config.APIKeys upstream)) w ∅ l with
      | Return r w' => (r, w')
      | Break w' l' | Continue w' _ l' =>
          urlLoop kind apiType upstream forceProbeMode rest w' l'
      end
  end.

(** [TryUpstreamWithAllKeys] (for non-nil upstream, engine and mandatory
    callbacks). *)
Definition TryUpstreamWithAllKeys (kind : Scheduler.ChannelKind) (apiType : string)
    (upstream : Config.UpstreamConfig) (urlResults : list URLLatencyResult)
    (w : World) : ExecResult * World :=
  let nothing := {| handled := false; successKey := ""; successBaseURLIdx := 0;
                    failoverErr := None; usage := None; lastError := None |} in
  if Z.of_nat (length (Config.APIKeys upstream)) =? 0 then (nothing, w) else
  match urlResults with
  | [] => (nothing, w)
  | first :: _ =>
      let forceProbeMode :=
        AreAllKeysSuspended generateMetricsKey
          (Scheduler.getMetricsManager kind (scheduler w)) (URL first)
          (Config.APIKeys upstream) in
      urlLoop kind apiType upstream forceProbeMode urlResults w
        {| l_lastError := None; l_lastFailoverError := None; l_deprioritizeCandidates := ∅ |}
  end.

End WithCallbacks.

End UpstreamFailover.

(** ** Chat endpoint adapter (internal/handlers/chat/handler.go) *)

Module Chat.

(** A decoded JSON value ([interface{}] after [json.Unmarshal]): objects
    are [map[string]interface{}], numbers are [float64] (exact rationals
    here). *)
#[warnings="-register-all"]
Inductive JSON :=
  | JNull
  | JBool (b : bool)
  | JNumber (q : Q)
  | JString (s : string)
  | JArray (l : list JSON)
  | JObject (m : gmap string JSON).

(** [v.(string)] with the second result dropped: the empty string when
    the value is absent or not a string. *)
Definition asString (v : option JSON) : string :=
  match v with
  | Some (JString s) => s
  | _ => ""
  end.

(** [v.(float64)] with the second result dropped, then [int(...)]. *)
Definition asFloat (v : option JSON) : Q :=
  match v with
  | Some (JNumber q) => q
  | _ => 0%Q
  end.

Definition truncToInt (q : Q) : Z := Z.quot (Qnum q) (Zpos (Qden q)).

(** [strings.Join]. *)
Fixpoint Join (parts : list string) (sep : string) : string :=
  match parts with
  | [] => ""
  | [p] => p
  | p :: rest => p +:+ sep +:+ Join rest sep
  end.

(** The line feed, and the blank line that ends an SSE frame. *)
Definition LF : string := String (Ascii.ascii_of_nat 10) "".
Definition LFLF : string := LF +:+ LF.

(** The state of the message loop of [convertChatToClaudeRequest]. *)
Definition convertMessage (acc : list JSON * list string) (msg : JSON)
    : list JSON * list string :=
  let '(claudeMessages, systemParts) := acc in
  match msg with
  | JObject m =>
      let role := asString (m !! "role") in
      let content := default JNull (m !! "content") in
      if String.eqb role "system" then
        match content with
        | JString text => (claudeMessages, systemParts ++ [text])
        | _ => (claudeMessages, systemParts)
        end
      else if String.eqb role "user" then
        (claudeMessages ++ [JObject {[ "role" := JString "user"; "content" := content ]}],
         systemParts)
      else if String.eqb role "assistant" then
        (claudeMessages ++ [JObject {[ "role" := JString "assistant"; "content" := content ]}],
         systemParts)
      else
        (claudeMessages ++ [JObject {[ "role" := JString "user"; "content" := content ]}],
         systemParts)
  | _ => acc
  end.

(** [convertChatToClaudeRequest], from the decoded request body on. *)
Definition convertChatToClaudeRequest (reqMap : gmap string JSON) (model : string)
    (isStream : bool) : gmap string JSON :=
  let claudeReq : gmap string JSON := {[ "model" := JString model; "stream" := JBool isStream ]} in
  let claudeReq :=
    match reqMap !! "max_tokens" with
    | Some maxTokens => <["max_tokens" := maxTokens]> claudeReq
    | None =>
        match reqMap !! "max_completion_tokens" with
        | Some maxCompletionTokens => <["max_tokens" := maxCompletionTokens]> claudeReq
        | None => <["max_tokens" := JNumber (Qmake 4096 1)]> claudeReq
        end
    end in
  let claudeReq :=
    match reqMap !! "temperature" with
    | Some temp => <["temperature" := temp]> claudeReq
    | None => claudeReq
    end in
  let claudeReq :=
    match reqMap !! "top_p" with
    | Some topP => <["top_p" := topP]> claudeReq
    | None => claudeReq
    end in
  match reqMap !! "messages" with
  | Some (JArray messages) =>
      let '(claudeMessages, systemParts) := foldl convertMessage ([], []) messages in
      let claudeReq :=
        if 0 <? Z.of_nat (length systemParts)
        then <["system" := JString (Join systemParts LFLF)]> claudeReq
        else claudeReq in
      <["messages" := match claudeMessages with [] => JNull | _ => JArray claudeMessages end]>
        claudeReq
  | _ => claudeReq
  end.

(** [strings.Split(s, "\n")]. *)
Fixpoint Split (s : string) : list string :=
  match s with
  | EmptyString => [""]
  | String c s' =>
      if Ascii.eqb c (Ascii.ascii_of_nat 10) then "" :: Split s'
      else match Split s' with
           | h :: t => String c h :: t
           | [] => [String c ""]
           end
  end.

(** The rest of [s] after [prefix], when [s] starts with it. *)
Fixpoint stripPrefix (prefix s : string) : option string :=
  match prefix with
  | EmptyString => Some s
  | String a prefix' =>
      match s with
      | EmptyString => None
      | String b s' => if Ascii.eqb a b then stripPrefix prefix' s' else None
      end
  end.

(** [strings.HasPrefix] and [strings.TrimPrefix]. *)
Definition HasPrefix (s prefix : string) : bool :=
  match stripPrefix prefix s with Some _ => true | None => false end.
Definition TrimPrefix (s prefix : string) : string :=
  default s (stripPrefix prefix s).

(** The writer side of one streaming translation: the strings written to
    the client, oldest first, the usage seen so far and the [doneSent]
    flag. *)
Record StreamState := {
  written : list string;
  totalUsage : option Metrics.Usage;
  doneSent : bool
}.

Definition mkUsage (input output : Z) : Metrics.Usage :=
  {| Metrics.U_InputTokens := input; Metrics.U_OutputTokens := output;
     Metrics.U_CacheCreationInputTokens := 0; Metrics.U_CacheCreation5mInputTokens := 0;
     Metrics.U_CacheCreation1hInputTokens := 0; Metrics.U_CacheReadInputTokens := 0 |}.

Definition doneFrame : string := "data: [DONE]" +:+ LFLF.

Section WithJSONCodec.

(** [json.Unmarshal] into a [map[string]interface{}] and [json.Marshal]. *)
Variable json_Unmarshal : string → option (gmap string JSON).
Variable json_Marshal : JSON → string.

Definition chunkObject (created : Z) (model : string) (delta : gmap string JSON)
    (finish_reason : JSON) : gmap string JSON :=
  {[ "id" := JString "chatcmpl-claude";
     "object" := JString "chat.completion.chunk";
     "created" := JNumber (Qmake created 1);
     "model" := JString model;
     "choices" := JArray [JObject {[ "index" := JNumber 0%Q;
                                     "delta" := JObject delta;
                                     "finish_reason" := finish_reason ]}] ]}.

Definition dataFrame (payload : gmap string JSON) : string :=
  "data: " +:+ json_Marshal (JObject payload) +:+ LFLF.

(** The body of the line loop of [streamClaudeToChat]. *)
Definition processLine (created : Z) (model : string) (st : StreamState) (line : string)
    : StreamState :=
  if negb (HasPrefix line "data: ") then st else
  let jsonData := TrimPrefix line "data: " in
  if String.eqb jsonData "[DONE]" then
    {| written := written st ++ [doneFrame]; totalUsage := totalUsage st; doneSent := true |}
  else
    match json_Unmarshal jsonData with
    | None => st
    | Some event =>
        let eventType := asString (event !! "type") in
        if String.eqb eventType "content_block_delta" then
          match event !! "delta" with
          | Some (JObject delta) =>
              if String.eqb (asString (delta !! "type")) "text_delta" then
                let text := asString (delta !! "text") in
                let chatChunk := chunkObject created model {[ "content" := JString text ]} JNull in
                {| written := written st ++ [dataFrame chatChunk];
                   totalUsage := totalUsage st; doneSent := doneSent st |}
              else st
          | _ => st
          end
        else if String.eqb eventType "message_delta" then
          let stopChunk := chunkObject created model ∅ (JString "stop") in
          match event !! "usage" with
          | Some (JObject usage) =>
              let inputTokens := asFloat (usage !! "input_tokens") in
              let outputTokens := asFloat (usage !! "output_tokens") in
              let stopChunk :=
                <["usage" := JObject
                    {[ "prompt_tokens" := JNumber (Qmake (truncToInt inputTokens) 1);
                       "completion_tokens" := JNumber (Qmake (truncToInt outputTokens) 1);
                       "total_tokens" :=
                         JNumber (Qmake (truncToInt (inputTokens + outputTokens)%Q) 1) ]}]>
                  stopChunk in
              {| written := written st ++ [dataFrame stopChunk];
                 totalUsage := Some (mkUsage (truncToInt inputTokens) (truncToInt outputTokens));
                 doneSent := doneSent st |}
          | _ =>
              {| written := written st ++ [dataFrame stopChunk];
                 totalUsage := totalUsage st; doneSent := doneSent st |}
          end
        else if String.eqb eventType "message_start" then
          match event !! "message" with
          | Some (JObject msg) =>
              match msg !! "usage" with
              | Some (JObject usage) =>
                  {| written := written st;
                     totalUsage := Some (mkUsage (truncToInt (asFloat (usage !! "input_tokens"))) 0);
                     doneSent := doneSent st |}
              | _ => st
              end
          | _ => st
          end
        else st
    end.

(** One [resp.Body.Read]: [chunk] is the bytes read; the state carries the
    unfinished last line ([remainder]). *)
Definition processChunk (created : Z) (model : string) (acc : StreamState * string)
    (chunk : string) : StreamState * string :=
  let '(st, remainder) := acc in
  if 0 <? Z.of_nat (String.length chunk) then
    let data := remainder +:+ chunk in
    let lines := Split data in
    let remainder := List.last lines "" in
    let lines := removelast lines in
    (foldl (processLine created model) st lines, remainder)
  else (st, remainder).

(** [streamClaudeToChat]: [chunks] are the successive reads of the
    upstream body up to the read that reports the end of the stream;
    the result is what was written to the client, and the usage. *)
Definition streamClaudeToChat (created : Z) (model : string) (chunks : list string)
    : list string * option Metrics.Usage :=
  let '(st, _) :=
    foldl (processChunk created model)
      ({| written := []; totalUsage := None; doneSent := false |}, "") chunks in
  (if doneSent st then written st else written st ++ [doneFrame], totalUsage st).

End WithJSONCodec.

(** The lines the client receives: the bytes written, split at line
    feeds. *)
Definition clientLines (written : list string) : list string :=
  Split (foldr String.append "" written).

(** The complete lines of the upstream body: all but the unfinished last
    one. *)
Definition upstreamLines (chunks : list string) : list string :=
  removelast (Split (foldr String.append "" chunks)).

(** How many of [lines] are exactly [data: [DONE]]. *)
Definition countDone (lines : list string) : nat :=
  length (filter (λ line, line = "data: [DONE]") lines).

End Chat.

(** ** Vocabulary of the statements *)

Module Props.

(** A record falls into bucket [i] of a historical query: its timestamp
    is in [[startTime, endTime)] and the integer quotient of its distance
    to [startTime] by [interval] is [i]. *)
Definition inBucket (startTime endTime interval i : Z) (r : Metrics.RequestRecord) : Prop :=
  startTime ≤ Metrics.Timestamp r < endTime ∧
  (Metrics.Timestamp r - startTime) / interval = i.

#[global] Instance inBucket_dec s e iv i r : Decision (inBucket s e iv i r).
Proof. unfold inBucket. apply _. Defined.

(** The quotient rounded up. *)
Definition ceilDiv (a b : Z) : Z := (a + b - 1) / b.

(** The scheduling status of a configured channel: the empty status
    counts as active. *)
Definition statusOf (upstream : Config.UpstreamConfig) : string :=
  if String.eqb (Config.Status upstream) "" then "active" else Config.Status upstream.

(** A channel of the scheduling sequence is promoted: its status is
    active and its upstream is in promotion. *)
Definition promoted (now : Z) (upstreams : list Config.UpstreamConfig)
    (ch : Scheduler.ChannelInfo) : Prop :=
  Scheduler.Status ch = "active" ∧
  ∃ upstream, Scheduler.getUpstreamByIndex (Scheduler.Index ch) upstreams = Some upstream ∧
              Config.IsChannelInPromotion now upstream = true.

(** A channel is a fallback candidate: its status is active, it has not
    failed in this request, and its upstream has a key. *)
Definition candidate (upstreams : list Config.UpstreamConfig) (failedChannels : gmap Z bool)
    (ch : Scheduler.ChannelInfo) (upstream : Config.UpstreamConfig) : Prop :=
  Scheduler.Status ch = "active" ∧
  Scheduler.isFailed failedChannels (Scheduler.Index ch) = false ∧
  Scheduler.getUpstreamByIndex (Scheduler.Index ch) upstreams = Some upstream ∧
  Config.APIKeys upstream ≠ [].

(** The aggregated failure rate of a channel, as the scheduler asks for
    it. *)
Definition rateOf (generateMetricsKey : string → string → string)
    (m : Metrics.MetricsManager) (upstream : Config.UpstreamConfig) : Q :=
  Metrics.CalculateChannelFailureRate generateMetricsKey
    (Config.BaseURL upstream) (Config.APIKeys upstream) m.

(** The result of a run that ends on a request that could not be built. *)
Definition buildFailed (err : error) : Failover.ExecResult :=
  {| Failover.handled := false; Failover.successKey := ""; Failover.successBaseURLIdx := 0;
     Failover.failoverErr := None; Failover.usage := None;
     Failover.lastError := Some (ErrWrap "request build failed: " err) |}.

(** The world after an attempt that ends there: one more reading (the
    key), the request body restored, and nothing else. *)
Definition afterBuildFailure (w : Failover.World) : Failover.World :=
  {| Failover.scheduler := Failover.scheduler w; Failover.ticks := S (Failover.ticks w);
     Failover.events := Failover.events w ++ [Failover.EvRestoreRequestBody] |}.

(** No line feed occurs in a string. *)
Fixpoint noLF (s : string) : bool :=
  match s with
  | EmptyString => true
  | String c s' => negb (Ascii.eqb c (Ascii.ascii_of_nat 10)) && noLF s'
  end.

(** How many of the writes are the terminator frame. *)
Definition doneWrites (written : list string) : nat :=
  length (filter (λ f, f = Chat.doneFrame) written).

(** A write is one SSE frame: [data: ], a payload without line feed, and
    a blank line. *)
Definition isFrame (f : string) : Prop :=
  ∃ payload, noLF payload = true ∧ f = "data: " +:+ payload +:+ Chat.LFLF.

End Props.

(** ** Concrete collaborators and states *)

Module Examples.

(** An identity for [(baseURL, apiKey)] that keeps the digest's input. *)
Definition metricsKey (baseURL apiKey : string) : string := baseURL +:+ "|" +:+ apiKey.

Definition mask (apiKey : string) : string := "***".

(** A sort by insertion for [sort.Slice]. *)
Fixpoint insertBy {A} (less : A → A → bool) (x : A) (l : list A) : list A :=
  match l with
  | [] => [x]
  | y :: l' => if less x y then x :: y :: l' else y :: insertBy less x l'
  end.

Definition insertionSort (less : Scheduler.ChannelInfo → Scheduler.ChannelInfo → bool)
    (l : list Scheduler.ChannelInfo) : list Scheduler.ChannelInfo :=
  foldr (insertBy less) [] l.

Definition recordAt (ts : Z) : Metrics.RequestRecord :=
  {| Metrics.Model := "claude-3"; Metrics.Timestamp := ts; Metrics.Success := true;
     Metrics.InputTokens := 0; Metrics.OutputTokens := 0;
     Metrics.CacheCreationInputTokens := 0; Metrics.CacheReadInputTokens := 0 |}.

(** A row with two recorded failures and three reservations in flight
    (requests 1, 2 and 3 in slots 0, 1 and 2). *)
Definition row : Metrics.KeyMetrics :=
  {| Metrics.MetricsKey := metricsKey "https://u1" "k1"; Metrics.BaseURL := "https://u1";
     Metrics.KeyMask := "***";
     Metrics.RequestCount := 5; Metrics.SuccessCount := 3; Metrics.FailureCount := 2;
     Metrics.ConsecutiveFailures := 2; Metrics.ActiveRequests := 3;
     Metrics.LastSuccessAt := Some 5; Metrics.LastFailureAt := Some 9;
     Metrics.CircuitBrokenAt := None;
     Metrics.recentResults := [true; true; true; false; false];
     Metrics.requestHistory := [recordAt 10; recordAt 20; recordAt 30];
     Metrics.pendingHistoryIdx := {[ 1%N := 0; 2%N := 1; 3%N := 2 ]} |}.

Definition engine (rows : gmap string Metrics.KeyMetrics) : Metrics.MetricsManager :=
  {| Metrics.keyMetrics := rows; Metrics.windowSize := 10;
     Metrics.failureThreshold := Qmake 1 2; Metrics.nextRequestID := 3%N;
     Metrics.store := Some []; Metrics.apiType := "chat" |}.

Definition manager : Metrics.MetricsManager :=
  engine {[ metricsKey "https://u1" "k1" := row ]}.

(** A row whose sliding window holds failures only. *)
Definition failingRow (baseURL apiKey : string) : Metrics.KeyMetrics :=
  {| Metrics.MetricsKey := metricsKey baseURL apiKey; Metrics.BaseURL := baseURL;
     Metrics.KeyMask := "***";
     Metrics.RequestCount := 5; Metrics.SuccessCount := 0; Metrics.FailureCount := 5;
     Metrics.ConsecutiveFailures := 5; Metrics.ActiveRequests := 0;
     Metrics.LastSuccessAt := None; Metrics.LastFailureAt := Some 9;
     Metrics.CircuitBrokenAt := Some 9;
     Metrics.recentResults := [false; false; false; false; false];
     Metrics.requestHistory := []; Metrics.pendingHistoryIdx := ∅ |}.

Definition channel (name baseURL : string) (keys : list string) (priority : Z)
    (status : string) (promotionUntil : option Z) : Config.UpstreamConfig :=
  {| Config.BaseURL := baseURL; Config.BaseURLs := []; Config.APIKeys := keys;
     Config.ServiceType := "claude"; Config.Name := name; Config.Priority := priority;
     Config.Status := status; Config.PromotionUntil := promotionUntil |}.

Definition configOf (chat : list Config.UpstreamConfig) : Config.ConfigManager :=
  {| Config.config :=
       {| Config.Upstream := []; Config.ResponsesUpstream := []; Config.GeminiUpstream := [];
          Config.ChatUpstream := chat; Config.FuzzyModeEnabled := false |};
     Config.failedKeysCache := ∅;
     Config.keyRecoveryTime := 5 * Minute; Config.maxFailureCount := 3 |}.

Definition schedulerOf (chat : list Config.UpstreamConfig)
    (rows : gmap string Metrics.KeyMetrics) : Scheduler.ChannelScheduler :=
  {| Scheduler.configManager := configOf chat;
     Scheduler.messagesMetricsManager := engine ∅;
     Scheduler.responsesMetricsManager := engine ∅;
     Scheduler.geminiMetricsManager := engine ∅;
     Scheduler.chatMetricsManager := engine rows;
     Scheduler.traceAffinity := ∅ |}.

(** A pinned channel whose whole window is failures. *)
Definition pinned : Config.UpstreamConfig :=
  channel "A" "https://a" ["ka"] 1 "active" (Some 1000).

(** Three channels: two in promotion, the first of which has failed in
    this request and the second of which has a window of failures only,
    and a plain healthy one. *)
Definition twoPromoted : list Config.UpstreamConfig :=
  [ channel "A" "https://a" ["ka"] 1 "active" (Some 1000);
    channel "B" "https://b" ["kb"] 2 "active" (Some 1000);
    channel "C" "https://c" ["kc"] 3 "active" None ].

(** A suspended channel without failures before an active channel whose
    window is failures only. *)
Definition suspendedAndActive : list Config.UpstreamConfig :=
  [ channel "S" "https://s" ["ks"] 1 "suspended" None;
    channel "A" "https://a" ["ka"] 2 "active" None ].

(** Two active channels, the first one with a window of failures only and
    the second one with failures and as many successes. *)
Definition twoUnhealthy : list Config.UpstreamConfig :=
  [ channel "A" "https://a" ["ka"] 1 "active" None;
    channel "B" "https://b" ["kb"] 2 "active" None ].

Definition halfFailingRow : Metrics.KeyMetrics :=
  {| Metrics.MetricsKey := metricsKey "https://b" "kb"; Metrics.BaseURL := "https://b";
     Metrics.KeyMask := "***";
     Metrics.RequestCount := 6; Metrics.SuccessCount := 3; Metrics.FailureCount := 3;
     Metrics.ConsecutiveFailures := 1; Metrics.ActiveRequests := 0;
     Metrics.LastSuccessAt := Some 8; Metrics.LastFailureAt := Some 9;
     Metrics.CircuitBrokenAt := None;
     Metrics.recentResults := [true; false; true; false; true; false];
     Metrics.requestHistory := []; Metrics.pendingHistoryIdx := ∅ |}.

(** A failed-key cache with one entry, for key [k1] under [Chat]. *)
Definition cooling : Config.ConfigManager :=
  {| Config.config := Config.config (configOf []);
     Config.failedKeysCache :=
       {[ "Chat:k1" := {| Config.Timestamp := 100 * Second; Config.FailureCount := 4 |} ]};
     Config.keyRecoveryTime := 5 * Minute; Config.maxFailureCount := 3 |}.

(** The collaborators of one run of the executor: keys come from
    [GetNextChatAPIKey], no request can be built, the upstream would
    answer 200. *)
Definition clock (n : nat) : Z := Z.of_nat n * Second.

Definition nextChatKey (now : Z) (upstream : Config.UpstreamConfig)
    (failedKeys : gmap string bool) (cm : Config.ConfigManager) : result string :=
  Config.GetNextChatAPIKey now upstream failedKeys cm.

Definition cannotBuild (upstreamCopy : Config.UpstreamConfig) (apiKey : string) : result string :=
  Err (ErrMsg "unsupported service type").

Definition answer200 (n : nat) (req : string) : result Failover.Response :=
  Ok {| Failover.StatusCode := 200; Failover.Body := "{}" |}.

Definition writeBack (n : nat) (resp : Failover.Response) (upstreamCopy : Config.UpstreamConfig)
    (apiKey : string) : option Metrics.Usage * option error :=
  (None, None).

Definition retryOn5xx (status : Z) (body : string) (fuzzy : bool) (apiType : string)
    : bool * bool :=
  (500 <=? status, false).

Definition twoKeys : Config.UpstreamConfig :=
  channel "C1" "https://u1" ["k1"; "k2"] 1 "active" None.

Definition world : Failover.World :=
  {| Failover.scheduler := schedulerOf [twoKeys] {[ metricsKey "https://u1" "k1" := row ]};
     Failover.ticks := 0; Failover.events := [] |}.

Definition noLocals : Failover.Locals :=
  {| Failover.l_lastError := None; Failover.l_lastFailoverError := None;
     Failover.l_deprioritizeCandidates := ∅ |}.

(** A codec that reads a payload as an event of the type it spells and
    writes every value as an empty object. *)
Definition decodeTag (s : string) : option (gmap string Chat.JSON) :=
  Some {[ "type" := Chat.JString s ]}.
Definition encodeEmpty (j : Chat.JSON) : string := "{}".

(** An upstream body read in three pieces, the terminator line cut in
    two; and a body with two terminator lines. *)
Definition oneDone : list string :=
  [ "event: message_delta" +:+ Chat.LF +:+ "data: message_delta" +:+ Chat.LF +:+ Chat.LF +:+ "da";
    "ta: [DO";
    "NE]" +:+ Chat.LF ].
Definition twoDone : list string :=
  [ "data: [DONE]" +:+ Chat.LF +:+ "data: [DONE]" +:+ Chat.LF ].

(** A Chat request with a stop sequence. *)
Definition chatRequest : gmap string Chat.JSON :=
  {[ "model" := Chat.JString "gpt-4";
     "messages" := Chat.JArray
       [ Chat.JObject {[ "role" := Chat.JString "system";
                         "content" := Chat.JString "Be brief." ]};
         Chat.JObject {[ "role" := Chat.JString "user";
                         "content" := Chat.JString "hi" ]} ];
     "max_completion_tokens" := Chat.JNumber (Qmake 100 1);
     "stop" := Chat.JArray [Chat.JString "END"] ]}.

(** A Chat request whose system message has its content in parts. *)
Definition chatRequestParts : gmap string Chat.JSON :=
  {[ "messages" := Chat.JArray
       [ Chat.JObject {[ "role" := Chat.JString "system";
                         "content" := Chat.JArray
                           [ Chat.JObject {[ "type" := Chat.JString "text";
                                             "text" := Chat.JString "Be brief." ]} ] ]};
         Chat.JObject {[ "role" := Chat.JString "user";
                         "content" := Chat.JString "hi" ]} ] ]}.

(** Three channels whose order in the configuration is the reverse of
    their priority order: a plain one first in priority, then two in
    promotion. *)
Definition promotedBehindPlain : list Config.UpstreamConfig :=
  [ channel "B" "https://b" ["kb"] 3 "active" (Some 1000);
    channel "A" "https://a" ["ka"] 2 "active" (Some 1000);
    channel "C" "https://c" ["kc"] 1 "active" None ].

End Examples.

(** ** Metrics engine: construction, health of a key, resets and sweeps
    (internal/metrics/channel_metrics.go) *)

Module MetricsAdmin.
Import Metrics.

(** [NewMetricsManagerWithConfig]: the window is at least 3 wide and a
    threshold outside [(0, 1]] is replaced by one half. *)
Definition NewMetricsManagerWithConfig (windowSize : Z) (failureThreshold : Q) : MetricsManager :=
  {| keyMetrics := ∅;
     windowSize := if windowSize <? 3 then 3 else windowSize;
     failureThreshold :=
       if Qle_bool failureThreshold 0 || negb (Qle_bool failureThreshold 1)
       then Qmake 1 2 else failureThreshold;
     nextRequestID := 0%N; store := None; apiType := "" |}.

(** [m.circuitRecoveryTime], which the three constructors set to 15
    minutes and nothing changes afterwards. *)
Definition circuitRecoveryTime : Z := 15 * Minute.

(** [TimeWindowStats], the fields [GetTimeWindowStatsForKey] fills. *)
Record TimeWindowStats := {
  TW_RequestCount : Z;
  TW_SuccessCount : Z;
  TW_FailureCount : Z;
  TW_SuccessRate : Q
}.

(** The body of the record loop of [GetTimeWindowStatsForKey]; the
    counters count records of one slice, whose length fits an [int]. *)
Definition countAfter (cutoff : Z) (acc : Z * Z * Z) (record : RequestRecord) : Z * Z * Z :=
  let '(requestCount, successCount, failureCount) := acc in
  if time_After (Timestamp record) cutoff then
    (requestCount + 1,
     (if Success record then successCount + 1 else successCount),
     (if Success record then failureCount else failureCount + 1))
  else acc.

(** The state of a row after a reset of its failure state: what
    [ResetKeyFailureState] and [recoverExpiredCircuitBreakers] assign. *)
Definition clearFailureState (km : KeyMetrics) : KeyMetrics :=
  with_stamps (LastSuccessAt km) (LastFailureAt km) None
    (with_window []
       (with_counters (RequestCount km) (SuccessCount km) (FailureCount km) 0 km)).

(** The body of the loop of [recoverExpiredCircuitBreakers]. *)
Definition recoverRow (now : Z) (km : KeyMetrics) : KeyMetrics :=
  match CircuitBrokenAt km with
  | Some brokenAt =>
      if circuitRecoveryTime <? time_Sub now brokenAt then clearFailureState km else km
  | None => km
  end.

(** [recoverExpiredCircuitBreakers]. *)
Definition recoverExpiredCircuitBreakers (now : Z) (m : MetricsManager) : MetricsManager :=
  with_keyMetrics (recoverRow now <$> keyMetrics m) m.

(** [lastActivity] of [cleanupStaleKeys]; the zero [time.Time] is the
    origin of the time line. *)
Definition lastActivityOf (km : KeyMetrics) : Z :=
  let lastActivity := default 0 (LastSuccessAt km) in
  match LastFailureAt km with
  | Some t => if time_After t lastActivity then t else lastActivity
  | None => lastActivity
  end.

Definition isStale (now : Z) (km : KeyMetrics) : bool :=
  (lastActivityOf km =? 0) || (48 * Hour <? time_Sub now (lastActivityOf km)).

(** [cleanupStaleKeys]. *)
Definition cleanupStaleKeys (now : Z) (m : MetricsManager) : MetricsManager :=
  with_keyMetrics (filter (λ kv, isStale now kv.2 = false) (keyMetrics m)) m.

(** [ResetAll]. *)
Definition ResetAll (m : MetricsManager) : MetricsManager := with_keyMetrics ∅ m.

Section WithIdentity.

Variable generateMetricsKey : string → string → string.
Variable MaskAPIKey : string → string.

(** [RecordSuccessWithUsage]. *)
Definition RecordSuccessWithUsage (now : Z) (baseURL apiKey : string) (usage : option Usage)
    (m : MetricsManager) : MetricsManager :=
  recordSuccessWithUsageLocked generateMetricsKey MaskAPIKey baseURL apiKey usage now m.

(** [IsKeyHealthy]. *)
Definition IsKeyHealthy (baseURL apiKey : string) (m : MetricsManager) : bool :=
  match keyMetrics m !! generateMetricsKey baseURL apiKey with
  | None => true
  | Some km =>
      if Z.of_nat (length (recentResults km)) =? 0 then true
      else negb (Qle_bool (failureThreshold m) (calculateKeyFailureRateInternal km))
  end.

(** [GetTimeWindowStatsForKey]. *)
Definition GetTimeWindowStatsForKey (now : Z) (baseURL apiKey : string) (duration : Z)
    (m : MetricsManager) : TimeWindowStats :=
  match keyMetrics m !! generateMetricsKey baseURL apiKey with
  | None =>
      {| TW_RequestCount := 0; TW_SuccessCount := 0; TW_FailureCount := 0;
         TW_SuccessRate := 100%Q |}
  | Some km =>
      let cutoff := now + wrap64 (- duration) in
      let '(requestCount, successCount, failureCount) :=
        foldl (countAfter cutoff) (0, 0, 0) (requestHistory km) in
      {| TW_RequestCount := requestCount; TW_SuccessCount := successCount;
         TW_FailureCount := failureCount;
         TW_SuccessRate :=
           if 0 <? requestCount
           then (Qmake successCount 1 / Qmake requestCount 1 * 100)%Q
           else 100%Q |}
  end.

(** [ResetKeyFailureState]. *)
Definition ResetKeyFailureState (baseURL apiKey : string) (m : MetricsManager) : MetricsManager :=
  match keyMetrics m !! generateMetricsKey baseURL apiKey with
  | Some km => putKey generateMetricsKey baseURL apiKey (clearFailureState km) m
  | None => m
  end.

(** [ResetKey]. *)
Definition ResetKey (baseURL apiKey : string) (m : MetricsManager) : MetricsManager :=
  match keyMetrics m !! generateMetricsKey baseURL apiKey with
  | Some km =>
      putKey generateMetricsKey baseURL apiKey
        {| MetricsKey := MetricsKey km; BaseURL := BaseURL km; KeyMask := KeyMask km;
           RequestCount := 0; SuccessCount := 0; FailureCount := 0;
           ConsecutiveFailures := 0; ActiveRequests := 0;
           LastSuccessAt := None; LastFailureAt := None; CircuitBrokenAt := None;
           recentResults := []; requestHistory := []; pendingHistoryIdx := ∅ |} m
  | None => m
  end.

(** [DeleteKeysForChannel]: the identities of the whole product
    [baseURLs x apiKeys], in loop order, and the engine without their
    rows. *)
Definition DeleteKeysForChannel (baseURLs apiKeys : list string) (m : MetricsManager)
    : list string * MetricsManager :=
  foldl (λ acc baseURL,
           foldl (λ acc apiKey,
                    let metricsKey := generateMetricsKey baseURL apiKey in
                    (acc.1 ++ [metricsKey],
                     with_keyMetrics (delete metricsKey (keyMetrics acc.2)) acc.2))
                 acc apiKeys)
        ([], m) baseURLs.

End WithIdentity.

End MetricsAdmin.

(** ** Runs of the metrics engine *)

Module EngineRun.
Import Metrics MetricsAdmin.

(** The calls that write to an engine, with their arguments and the
    clock reading each one takes. *)
Inductive Op :=
  | OpConnectedAt (now : Z) (baseURL apiKey model : string) (timestamp : Z)
  | OpFinalizeSuccess (now : Z) (baseURL apiKey : string) (requestID : N) (usage : option Usage)
  | OpFinalizeFailure (now : Z) (baseURL apiKey : string) (requestID : N)
  | OpFinalizeClientCancel (baseURL apiKey : string) (requestID : N)
  | OpSuccessWithUsage (now : Z) (baseURL apiKey : string) (usage : option Usage)
  | OpFailure (now : Z) (baseURL apiKey : string)
  | OpStart (baseURL apiKey : string)
  | OpEnd (baseURL apiKey : string)
  | OpResetKeyFailureState (baseURL apiKey : string)
  | OpResetKey (baseURL apiKey : string)
  | OpResetAll
  | OpDeleteKeysForChannel (baseURLs apiKeys : list string)
  | OpRecoverExpired (now : Z)
  | OpCleanupStale (now : Z).

Section WithIdentity.

Variable generateMetricsKey : string → string → string.
Variable MaskAPIKey : string → string.

(** The engine after one call. *)
Definition apply (m : MetricsManager) (op : Op) : MetricsManager :=
  match op with
  | OpConnectedAt now baseURL apiKey model timestamp =>
      (RecordRequestConnectedAt generateMetricsKey MaskAPIKey now baseURL apiKey model timestamp m).2
  | OpFinalizeSuccess now baseURL apiKey requestID usage =>
      RecordRequestFinalizeSuccess generateMetricsKey MaskAPIKey now baseURL apiKey requestID usage m
  | OpFinalizeFailure now baseURL apiKey requestID =>
      RecordRequestFinalizeFailure generateMetricsKey MaskAPIKey now baseURL apiKey requestID m
  | OpFinalizeClientCancel baseURL apiKey requestID =>
      RecordRequestFinalizeClientCancel generateMetricsKey baseURL apiKey requestID m
  | OpSuccessWithUsage now baseURL apiKey usage =>
      RecordSuccessWithUsage generateMetricsKey MaskAPIKey now baseURL apiKey usage m
  | OpFailure now baseURL apiKey =>
      RecordFailure generateMetricsKey MaskAPIKey now baseURL apiKey m
  | OpStart baseURL apiKey => RecordRequestStart generateMetricsKey MaskAPIKey baseURL apiKey m
  | OpEnd baseURL apiKey => RecordRequestEnd generateMetricsKey baseURL apiKey m
  | OpResetKeyFailureState baseURL apiKey => ResetKeyFailureState generateMetricsKey baseURL apiKey m
  | OpResetKey baseURL apiKey => ResetKey generateMetricsKey baseURL apiKey m
  | OpResetAll => ResetAll m
  | OpDeleteKeysForChannel baseURLs apiKeys =>
      (DeleteKeysForChannel generateMetricsKey baseURLs apiKeys m).2
  | OpRecoverExpired now => recoverExpiredCircuitBreakers now m
  | OpCleanupStale now => cleanupStaleKeys now m
  end.

(** The engine after a sequence of calls, oldest first. *)
Definition run (m : MetricsManager) (ops : list Op) : MetricsManager := foldl apply m ops.

End WithIdentity.

(** The record a reservation appends: a success without tokens, to be
    rewritten at finalize. *)
Definition reservedRecord (model : string) (timestamp : Z) : RequestRecord :=
  {| Model := model; Timestamp := timestamp; Success := true;
     InputTokens := 0; OutputTokens := 0;
     CacheCreationInputTokens := 0; CacheReadInputTokens := 0 |}.

(** The record handed to the store when the reservation [r] of a row is
    finalized. *)
Definition persisted (m : MetricsManager) (km : KeyMetrics) (baseURL : string)
    (r : RequestRecord) (success : bool) (i o cc cr : Z) : PersistentRecord :=
  {| PR_MetricsKey := MetricsKey km; PR_BaseURL := baseURL; PR_KeyMask := KeyMask km;
     PR_Timestamp := Timestamp r; PR_Success := success;
     PR_InputTokens := i; PR_OutputTokens := o;
     PR_CacheCreationTokens := cc; PR_CacheReadTokens := cr;
     PR_APIType := apiType m; PR_Model := Model r |}.

(** The sliding window of a key: empty when the key has no row. *)
Definition windowOf (generateMetricsKey : string → string → string)
    (baseURL apiKey : string) (m : MetricsManager) : list bool :=
  match keyMetrics m !! generateMetricsKey baseURL apiKey with
  | Some km => recentResults km
  | None => []
  end.

(** The window after one more result ([appendToWindowKey] on the list). *)
Definition slide (ws : Z) (w : list bool) (b : bool) : list bool :=
  if ws <? Z.of_nat (length (w ++ [b])) then drop 1 (w ++ [b]) else w ++ [b].

(** A run of [n] failures, and a run of [n] successes, recorded for one
    key at the given times. *)
Definition failuresAt (baseURL apiKey : string) (times : list Z) : list Op :=
  (λ now, OpFailure now baseURL apiKey) <$> times.

Definition successesAt (baseURL apiKey : string) (times : list Z) : list Op :=
  (λ now, OpSuccessWithUsage now baseURL apiKey None) <$> times.

(** A window over the threshold [a / b], and long enough to judge. *)
Definition over (minReq a : Z) (b : positive) (w : list bool) : Prop :=
  minReq ≤ Z.of_nat (length w) ∧ a * Z.of_nat (length w) ≤ failures w * Z.pos b.

(** Every reservation of a row points at a record of its history, and no
    two point at the same one. *)
Definition pendingCoherent (km : KeyMetrics) : Prop :=
  (∀ id idx, pendingHistoryIdx km !! id = Some idx →
             0 ≤ idx < Z.of_nat (length (requestHistory km))) ∧
  (∀ id1 id2 idx, pendingHistoryIdx km !! id1 = Some idx →
                  pendingHistoryIdx km !! id2 = Some idx → id1 = id2).

(** The sliding window of a row holds at most [ws] results. *)
Definition windowBounded (ws : Z) (km : KeyMetrics) : Prop :=
  Z.of_nat (length (recentResults km)) ≤ ws.

(** A row is well formed for a window of [ws] results, and an engine is
    when its rows are. *)
Definition rowOK (ws : Z) (km : KeyMetrics) : Prop :=
  pendingCoherent km ∧ windowBounded ws km.

Definition engineOK (m : MetricsManager) : Prop :=
  0 ≤ windowSize m ∧ ∀ k km, keyMetrics m !! k = Some km → rowOK (windowSize m) km.

End EngineRun.

(** ** Chat channel management and the cooldown sweep
    (internal/config/config_chat.go and the core of internal/config) *)

Module ChatConfig.
Import Config.

Definition with_ChatUpstream (chat : list UpstreamConfig) (cm : ConfigManager) : ConfigManager :=
  {| config :=
       {| Upstream := Upstream (config cm);
          ResponsesUpstream := ResponsesUpstream (config cm);
          GeminiUpstream := GeminiUpstream (config cm);
          ChatUpstream := chat;
          FuzzyModeEnabled := FuzzyModeEnabled (config cm) |};
     failedKeysCache := failedKeysCache cm;
     keyRecoveryTime := keyRecoveryTime cm; maxFailureCount := maxFailureCount cm |}.

Definition with_PromotionUntil (p : option Z) (u : UpstreamConfig) : UpstreamConfig :=
  {| BaseURL := BaseURL u; BaseURLs := BaseURLs u; APIKeys := APIKeys u;
     ServiceType := ServiceType u; Name := Name u; Priority := Priority u;
     Status := Status u; PromotionUntil := p |}.

Definition with_APIKeys (keys : list string) (u : UpstreamConfig) : UpstreamConfig :=
  {| BaseURL := BaseURL u; BaseURLs := BaseURLs u; APIKeys := keys;
     ServiceType := ServiceType u; Name := Name u; Priority := Priority u;
     Status := Status u; PromotionUntil := PromotionUntil u |}.

Definition with_Priority (priority : Z) (u : UpstreamConfig) : UpstreamConfig :=
  {| BaseURL := BaseURL u; BaseURLs := BaseURLs u; APIKeys := APIKeys u;
     ServiceType := ServiceType u; Name := Name u; Priority := priority;
     Status := Status u; PromotionUntil := PromotionUntil u |}.

(** The failure count of a key in the cache; 0 without an entry. *)
Definition countOf (apiKey apiType : string) (cm : ConfigManager) : Z :=
  match failedKeysCache cm !! failedKeyCacheKey apiType apiKey with
  | Some f => FailureCount f
  | None => 0
  end.

(** [index < 0 || index >= len(cm.config.ChatUpstream)], negated. *)
Definition validIndex (index : Z) (cm : ConfigManager) : bool :=
  (0 <=? index) && (index <? Z.of_nat (length (ChatUpstream (config cm)))).

(** The body of one tick of [cleanupExpiredFailures]: the entries whose
    recovery interval has passed are deleted. *)
Definition cleanupExpiredFailuresTick (now : Z) (cm : ConfigManager) : ConfigManager :=
  with_failedKeysCache
    (filter (λ kv, (recoveryTimeOf cm kv.2 <? time_Sub now (Timestamp kv.2)) = false)
            (failedKeysCache cm)) cm.

(** [clearFailedKeysForUpstream]. *)
Definition clearFailedKeysForUpstream (upstream : UpstreamConfig) (apiType : string)
    (cm : ConfigManager) : ConfigManager :=
  with_failedKeysCache
    (foldl (λ cache key, delete (failedKeyCacheKey apiType key) cache)
           (failedKeysCache cm) (APIKeys upstream)) cm.

(** The index of the first occurrence of [apiKey], counting from [i];
    [-1] when there is none. *)
Fixpoint indexOf (apiKey : string) (i : Z) (keys : list string) : Z :=
  match keys with
  | [] => -1
  | key :: rest => if String.eqb key apiKey then i else indexOf apiKey (i + 1) rest
  end.

(** The validation loop of [ReorderChatUpstreams]: the first index out of
    range or seen before. *)
Fixpoint checkOrder (n : Z) (seen : gset Z) (order : list Z) : option error :=
  match order with
  | [] => None
  | idx :: rest =>
      if (idx <? 0) || (n <=? idx) then Some (ErrMsg ("无效的渠道索引: " +:+ pretty idx))
      else if bool_decide (idx ∈ seen) then Some (ErrMsg ("重复的渠道索引: " +:+ pretty idx))
      else checkOrder n ({[idx]} ∪ seen) rest
  end.

(** The assignment loop of [ReorderChatUpstreams]; [i] is the position of
    the head of [order]. *)
Fixpoint assignPriorities (i : Z) (order : list Z) (chat : list UpstreamConfig)
    : list UpstreamConfig :=
  match order with
  | [] => chat
  | idx :: rest => assignPriorities (i + 1) rest (alter (with_Priority (i + 1)) (Z.to_nat idx) chat)
  end.

Section WithStorage.

(** [saveConfigLocked] writes the configuration file; it returns an error
    or nil. *)
Variable saveConfigLocked : Config → option error.

(** [RemoveChatUpstream]: the removed channel or an error, and the state
    left behind (the channel is gone from memory also when the file could
    not be written). *)
Definition RemoveChatUpstream (index : Z) (cm : ConfigManager)
    : result UpstreamConfig * ConfigManager :=
  if negb (validIndex index cm)
  then (Err (ErrMsg ("无效的 Chat 上游索引: " +:+ pretty index)), cm)
  else
    match ChatUpstream (config cm) !! Z.to_nat index with
    | None => (Err (ErrMsg ("无效的 Chat 上游索引: " +:+ pretty index)), cm)
    | Some removed =>
        let chat := take (Z.to_nat index) (ChatUpstream (config cm)) ++
                    drop (Z.to_nat (index + 1)) (ChatUpstream (config cm)) in
        let cm := clearFailedKeysForUpstream removed "chat" (with_ChatUpstream chat cm) in
        match saveConfigLocked (config cm) with
        | Some err => (Err err, cm)
        | None => (Ok removed, cm)
        end
    end.

(** [SetChatChannelPromotion]. *)
Definition SetChatChannelPromotion (now : Z) (index : Z) (duration : Z) (cm : ConfigManager)
    : option error * ConfigManager :=
  if negb (validIndex index cm)
  then (Some (ErrMsg ("无效的 Chat 上游索引: " +:+ pretty index)), cm)
  else
    let chat := ChatUpstream (config cm) in
    let chat :=
      if duration <=? 0 then alter (with_PromotionUntil None) (Z.to_nat index) chat
      else
        alter (with_PromotionUntil (Some (now + duration))) (Z.to_nat index)
          (imap (λ i u, if negb (Z.of_nat i =? index) && bool_decide (is_Some (PromotionUntil u))
                        then with_PromotionUntil None u else u) chat) in
    let cm := with_ChatUpstream chat cm in
    (saveConfigLocked (config cm), cm).

(** [MoveChatAPIKeyToTop]. *)
Definition MoveChatAPIKeyToTop (upstreamIndex : Z) (apiKey : string) (cm : ConfigManager)
    : option error * ConfigManager :=
  if negb (validIndex upstreamIndex cm)
  then (Some (ErrMsg ("无效的上游索引: " +:+ pretty upstreamIndex)), cm)
  else
    match ChatUpstream (config cm) !! Z.to_nat upstreamIndex with
    | None => (Some (ErrMsg ("无效的上游索引: " +:+ pretty upstreamIndex)), cm)
    | Some upstream =>
        let index := indexOf apiKey 0 (APIKeys upstream) in
        if index <=? 0 then (None, cm)
        else
          let keys := apiKey :: (take (Z.to_nat index) (APIKeys upstream) ++
                                 drop (Z.to_nat (index + 1)) (APIKeys upstream)) in
          let cm := with_ChatUpstream
                      (alter (with_APIKeys keys) (Z.to_nat upstreamIndex)
                         (ChatUpstream (config cm))) cm in
          (saveConfigLocked (config cm), cm)
    end.

(** [MoveChatAPIKeyToBottom]. *)
Definition MoveChatAPIKeyToBottom (upstreamIndex : Z) (apiKey : string) (cm : ConfigManager)
    : option error * ConfigManager :=
  if negb (validIndex upstreamIndex cm)
  then (Some (ErrMsg ("无效的上游索引: " +:+ pretty upstreamIndex)), cm)
  else
    match ChatUpstream (config cm) !! Z.to_nat upstreamIndex with
    | None => (Some (ErrMsg ("无效的上游索引: " +:+ pretty upstreamIndex)), cm)
    | Some upstream =>
        let index := indexOf apiKey 0 (APIKeys upstream) in
        if (index =? -1) || (index =? Z.of_nat (length (APIKeys upstream)) - 1) then (None, cm)
        else
          let keys := (take (Z.to_nat index) (APIKeys upstream) ++
                       drop (Z.to_nat (index + 1)) (APIKeys upstream)) ++ [apiKey] in
          let cm := with_ChatUpstream
                      (alter (with_APIKeys keys) (Z.to_nat upstreamIndex)
                         (ChatUpstream (config cm))) cm in
          (saveConfigLocked (config cm), cm)
    end.

(** [ReorderChatUpstreams]. *)
Definition ReorderChatUpstreams (order : list Z) (cm : ConfigManager)
    : option error * ConfigManager :=
  if Z.of_nat (length order) =? 0 then (Some (ErrMsg "排序数组不能为空"), cm)
  else
    match checkOrder (Z.of_nat (length (ChatUpstream (config cm)))) ∅ order with
    | Some err => (Some err, cm)
    | None =>
        let cm := with_ChatUpstream (assignPriorities 0 order (ChatUpstream (config cm))) cm in
        (saveConfigLocked (config cm), cm)
    end.

End WithStorage.

End ChatConfig.

(** ** Vocabulary of the scheduler statements *)

Module SchedulerProps.

(** The priority a channel is sorted by: its position when its
    configured priority is 0. *)
Definition effectivePriority (index : Z) (upstream : Config.UpstreamConfig) : Z :=
  if Config.Priority upstream =? 0 then index else Config.Priority upstream.

(** The channel at [index] can be handed out in this request: it is
    configured, active, has not failed in this request and has a key. *)
Definition selectable (upstreams : list Config.UpstreamConfig) (failedChannels : gmap Z bool)
    (index : Z) (upstream : Config.UpstreamConfig) : Prop :=
  Scheduler.getUpstreamByIndex index upstreams = Some upstream ∧
  Props.statusOf upstream = "active" ∧
  Scheduler.isFailed failedChannels index = false ∧
  Config.APIKeys upstream ≠ [].

(** A channel of the scheduling sequence passes the tests of the
    priority rule. *)
Definition passes (generateMetricsKey : string → string → string)
    (m : Metrics.MetricsManager) (upstreams : list Config.UpstreamConfig)
    (failedChannels : gmap Z bool) (ch : Scheduler.ChannelInfo)
    (upstream : Config.UpstreamConfig) : Prop :=
  Props.candidate upstreams failedChannels ch upstream ∧
  Metrics.IsChannelHealthyWithKeys generateMetricsKey
    (Config.BaseURL upstream) (Config.APIKeys upstream) m = true.

(** [sort.Slice] with the comparison of [getActiveChannels] returns its
    input rearranged in ascending priority. *)
Definition sortsByPriority
    (sort_Slice : (Scheduler.ChannelInfo → Scheduler.ChannelInfo → bool) →
                  list Scheduler.ChannelInfo → list Scheduler.ChannelInfo) : Prop :=
  ∀ l, sort_Slice (λ a b, Scheduler.Priority a <? Scheduler.Priority b) l ≡ₚ l ∧
       StronglySorted (λ a b, Scheduler.Priority a ≤ Scheduler.Priority b)
         (sort_Slice (λ a b, Scheduler.Priority a <? Scheduler.Priority b) l).

End SchedulerProps.

(** ** Trace affinity and the multi-channel shell
    (internal/scheduler/channel_scheduler.go,
    internal/handlers/common/multi_channel_failover.go) *)

Module MultiChannel.
Import Failover.

(** [SetTraceAffinity].  The affinity manager is declared outside the
    files at hand: [SetPreferredChannel] is taken to record the index
    under the composite key, and the expiry of its entries is not
    modelled.  The shell below calls it for its own [kind]. *)
Definition SetTraceAffinity (userID : string) (channelIndex : Z) (kind : Scheduler.ChannelKind)
    (s : Scheduler.ChannelScheduler) : Scheduler.ChannelScheduler :=
  if negb (String.eqb userID "") then
    {| Scheduler.configManager := Scheduler.configManager s;
       Scheduler.messagesMetricsManager := Scheduler.messagesMetricsManager s;
       Scheduler.responsesMetricsManager := Scheduler.responsesMetricsManager s;
       Scheduler.geminiMetricsManager := Scheduler.geminiMetricsManager s;
       Scheduler.chatMetricsManager := Scheduler.chatMetricsManager s;
       Scheduler.traceAffinity :=
         <[kind +:+ ":" +:+ userID := channelIndex]> (Scheduler.traceAffinity s) |}
  else s.

(** [MultiChannelAttemptResult]. *)
Record MultiChannelAttemptResult := {
  Handled : bool;
  Attempted : bool;
  SuccessKey : string;
  SuccessBaseURLIdx : Z;
  FailoverError : option Failover.FailoverError;
  Usage : option Metrics.Usage;
  LastError : option error
}.

(** How [HandleMultiChannelFailover] ends: the client went away, a
    channel handled the request, or [handleAllFailed] is called with the
    last errors. *)
Inductive Outcome :=
  | ClientGone
  | HandledBy (selection : Scheduler.SelectionResult) (result : MultiChannelAttemptResult)
  | AllFailed (failoverErr : option Failover.FailoverError) (lastError : option error).

(** The variables of the shell that live across attempts, and the
    selections handed to [trySelectedChannel] so far, oldest first. *)
Record Shell := {
  failedChannels : gmap Z bool;
  sh_lastError : option error;
  sh_lastFailoverError : option Failover.FailoverError;
  tried : list Scheduler.SelectionResult
}.

Section WithCallbacks.

Variable generateMetricsKey : string → string → string.
Variable sort_Slice : (Scheduler.ChannelInfo → Scheduler.ChannelInfo → bool) →
                      list Scheduler.ChannelInfo → list Scheduler.ChannelInfo.

(** The outside world answers the [n]-th reading of a run: [clock n] is
    what [time.Now()] reads and [cancelled n] whether the request context
    is done. *)
Variable clock : nat → Z.
Variable cancelled : nat → bool.
Variable trySelectedChannel :
  Scheduler.SelectionResult → World → MultiChannelAttemptResult * World.
Variable onHandled :
  option (Scheduler.SelectionResult → MultiChannelAttemptResult → World → World).

(** The channel loop: [remaining] iterations are left. *)
Fixpoint channelLoop (kind : Scheduler.ChannelKind) (userID : string) (remaining : nat)
    (w : World) (sh : Shell) : Outcome * World * Shell :=
  match remaining with
  | O => (AllFailed (sh_lastFailoverError sh) (sh_lastError sh), w, sh)
  | S remaining' =>
      if cancelled (ticks w) then (ClientGone, tick w, sh) else
      let w := tick w in
      match Scheduler.SelectChannel generateMetricsKey sort_Slice (clock (ticks w)) userID
              (failedChannels sh) kind (scheduler w) with
      | Err err => (AllFailed (sh_lastFailoverError sh) (Some err), tick w, sh)
      | Ok selection =>
          let upstream := Scheduler.Upstream selection in
          let channelIndex := Scheduler.ChannelIndex selection in
          let '(result, w) := trySelectedChannel selection (tick w) in
          let sh := {| failedChannels := failedChannels sh; sh_lastError := sh_lastError sh;
                       sh_lastFailoverError := sh_lastFailoverError sh;
                       tried := tried sh ++ [selection] |} in
          if Handled result then
            let w := match onHandled with
                     | Some f => f selection result w
                     | None => w
                     end in
            let w := if negb (String.eqb (SuccessKey result) "")
                     then with_scheduler (SetTraceAffinity userID channelIndex kind (scheduler w)) w
                     else w in
            (HandledBy selection result, w, sh)
          else
            channelLoop kind userID remaining' w
              {| failedChannels := <[channelIndex := true]> (failedChannels sh);
                 sh_lastError :=
                   match FailoverError result with
                   | Some _ =>
                       Some (ErrMsg ("渠道 [" +:+ pretty channelIndex +:+ "] " +:+
                                     Config.Name upstream +:+ " 失败"))
                   | None => sh_lastError sh
                   end;
                 sh_lastFailoverError :=
                   match FailoverError result with
                   | Some fe => Some fe
                   | None => sh_lastFailoverError sh
                   end;
                 tried := tried sh |}
      end
  end.

(** [HandleMultiChannelFailover] (for non-nil context, configuration,
    scheduler and [trySelectedChannel]). *)
Definition HandleMultiChannelFailover (kind : Scheduler.ChannelKind) (userID : string)
    (w : World) : Outcome * World * Shell :=
  let maxChannelAttempts := length (Scheduler.getActiveChannels sort_Slice kind (scheduler w)) in
  channelLoop kind userID maxChannelAttempts w
    {| failedChannels := ∅; sh_lastError := None; sh_lastFailoverError := None; tried := [] |}.

End WithCallbacks.

End MultiChannel.

(** ** Channel log (internal/metrics, the ring buffer of upstream
    requests) *)

Module ChannelLogs.

Record ChannelLog := {
  Timestamp : Z;
  Model : string;
  OriginalModel : string;
  StatusCode : Z;
  DurationMs : Z;
  Success : bool;
  KeyMask : string;
  BaseURL : string;
  ErrorInfo : string;
  IsRetry : bool
}.

Definition maxChannelLogs : Z := 50.

(** [ChannelLogStore]: the logs of each channel index, oldest first. *)
Definition ChannelLogStore := gmap Z (list ChannelLog).

Definition NewChannelLogStore : ChannelLogStore := ∅.

(** [Record]. *)
Definition Record_ (channelIndex : Z) (log : ChannelLog) (s : ChannelLogStore)
    : ChannelLogStore :=
  let logs := default [] (s !! channelIndex) ++ [log] in
  <[channelIndex :=
      if maxChannelLogs <? Z.of_nat (length logs)
      then drop (Z.to_nat (Z.of_nat (length logs) - maxChannelLogs)) logs
      else logs]> s.

(** [Get]: a copy, newest first. *)
Definition Get (channelIndex : Z) (s : ChannelLogStore) : list ChannelLog :=
  reverse (default [] (s !! channelIndex)).

(** A sequence of [Record] calls, oldest first, and the logs among them
    recorded for one channel. *)
Definition recordAll (s : ChannelLogStore) (recs : list (Z * ChannelLog)) : ChannelLogStore :=
  foldl (λ s r, Record_ r.1 r.2 s) s recs.

Definition logsFor (channelIndex : Z) (recs : list (Z * ChannelLog)) : list ChannelLog :=
  snd <$> filter (λ r, r.1 = channelIndex) recs.

End ChannelLogs.

(** ** Vocabulary of the executor statements *)

Module ExecutorProps.
Import Failover.

(** The world a step of the key loop leaves. *)
Definition worldOf (step : Step) : World :=
  match step with
  | Continue w _ _ => w
  | Break w _ => w
  | Return _ w => w
  end.

(** An event is a request sent upstream. *)
Definition isSend (e : Event) : bool :=
  match e with
  | EvSendRequest _ _ => true
  | _ => false
  end.

(** How many requests were sent upstream. *)
Definition sends (es : list Event) : nat := length (filter (λ e, isSend e = true) es).

End ExecutorProps.

(** ** Scenarios the statements are run on *)

Module Scenarios.
Import Metrics MetricsAdmin EngineRun.

(** The row of a key in an engine (a fresh row when it has none). *)
Definition rowOf (baseURL apiKey : string) (m : MetricsManager) : KeyMetrics :=
  default (newKeyMetrics Examples.metricsKey Examples.mask baseURL apiKey)
    (keyMetrics m !! Examples.metricsKey baseURL apiKey).

(** A fresh engine with a window of 10 results and a threshold of one
    half, and the same engine after key [k1] connected one request at
    second 100. *)
Definition fresh : MetricsManager := NewMetricsManagerWithConfig 10 (Qmake 1 2).

Definition oneConnection : list Op :=
  [OpConnectedAt (100 * Second) "https://u1" "k1" "claude-3" (100 * Second)].

Definition connected : MetricsManager :=
  run Examples.metricsKey Examples.mask fresh oneConnection.

(** An engine whose only row is a window of failures, stamped at 9. *)
Definition broken : MetricsManager :=
  Examples.engine {[ Examples.metricsKey "https://a" "ka" := Examples.failingRow "https://a" "ka" ]}.

(** Two active channels without any recorded request. *)
Definition channelA : Config.UpstreamConfig :=
  Examples.channel "A" "https://a" ["ka"] 1 "active" None.

Definition channelB : Config.UpstreamConfig :=
  Examples.channel "B" "https://b" ["kb"] 2 "active" None.

Definition twoChannels : Scheduler.ChannelScheduler :=
  Examples.schedulerOf [channelA; channelB] ∅.

(** A configuration file that is always written. *)
Definition saved (c : Config.Config) : option error := None.

(** A request builder that always succeeds, and a client that goes away
    while the request is sent. *)
Definition canBuild (upstreamCopy : Config.UpstreamConfig) (apiKey : string) : result string :=
  Ok apiKey.

Definition clientGone (n : nat) (req : string) : result Failover.Response :=
  Err ErrCanceled.

(** A Messages request through the executor of handlers/common: keys come
    from [GetNextAPIKey] under the tag [Messages], the engine method
    called on connection is taken to reserve a record without a model,
    and the engine of the Messages endpoint holds the row of key [k1]. *)
Definition nextMessagesKey (now : Z) (upstream : Config.UpstreamConfig)
    (failedKeys : gmap string bool) (cm : Config.ConfigManager) : result string :=
  Config.GetNextAPIKey now upstream failedKeys "Messages" cm.

Definition connectNoModel (now : Z) (baseURL apiKey : string) (m : Metrics.MetricsManager)
    : N * Metrics.MetricsManager :=
  Metrics.RecordRequestConnected Examples.metricsKey Examples.mask now baseURL apiKey "" m.

Definition messagesEngine : MetricsManager :=
  {| keyMetrics := {[ Examples.metricsKey "https://u1" "k1" := Examples.row ]};
     windowSize := 10; failureThreshold := Qmake 1 2; nextRequestID := 3%N;
     store := Some []; apiType := "messages" |}.

Definition messagesWorld : Failover.World :=
  {| Failover.scheduler :=
       {| Scheduler.configManager := Examples.configOf [];
          Scheduler.messagesMetricsManager := messagesEngine;
          Scheduler.responsesMetricsManager := Examples.engine ∅;
          Scheduler.geminiMetricsManager := Examples.engine ∅;
          Scheduler.chatMetricsManager := Examples.engine ∅;
          Scheduler.traceAffinity := ∅ |};
     Failover.ticks := 0; Failover.events := [] |}.

Definition twoURLs : list Failover.URLLatencyResult :=
  [ {| Failover.URL := "https://u1"; Failover.OriginalIdx := 0 |};
    {| Failover.URL := "https://u2"; Failover.OriginalIdx := 1 |} ].

End Scenarios.

(** * Properties *)

(** ** Strings, integers and time *)

Module BasicFacts.

Lemma append_length (s t : string) :
  String.length (s +:+ t) = (String.length s + String.length t)%nat.
Proof. induction s as [|c s IH]; simpl; [done|by rewrite IH]. Qed.

Lemma append_String c a b : String c a +:+ b = String c (a +:+ b).
Proof. done. Qed.

Lemma append_assoc (a b c : string) : (a +:+ b) +:+ c = a +:+ b +:+ c.
Proof. induction a as [|x a IH]; [done|]. rewrite !append_String. by rewrite IH. Qed.

Lemma append_empty_r (a : string) : a +:+ "" = a.
Proof. induction a as [|x a IH]; [done|]. rewrite append_String. by rewrite IH. Qed.

(** Appending the same suffix to two strings gives equal results only for
    equal strings. *)
Lemma append_inj_l (s1 s2 t : string) : s1 +:+ t = s2 +:+ t → s1 = s2.
Proof.
  revert s2. induction s1 as [|c s1 IH]; intros [|d s2] H.
  - done.
  - apply (f_equal String.length) in H. rewrite !append_length in H. simpl in H. lia.
  - apply (f_equal String.length) in H. rewrite !append_length in H. simpl in H. lia.
  - rewrite !append_String in H. injection H as -> H. f_equal. by apply IH.
Qed.

(** Within the range of [int64] nothing wraps. *)
Lemma wrap64_small x : MinInt64 ≤ x ≤ MaxInt64 → wrap64 x = x.
Proof.
  unfold wrap64, MinInt64, MaxInt64, two64, two63. intros H.
  rewrite Z.mod_small; lia.
Qed.

(** Against a non-negative duration, the saturated difference compares
    like the exact one. *)
Lemma time_Sub_lt now ts r :
  0 ≤ r ≤ MaxInt64 → (time_Sub now ts <? r) = (now - ts <? r).
Proof.
  intros Hr. unfold time_Sub.
  destruct (Z.ltb_spec MaxInt64 (now - ts)).
  { destruct (Z.ltb_spec MaxInt64 r), (Z.ltb_spec (now - ts) r); lia. }
  destruct (Z.ltb_spec (now - ts) MinInt64); [|done].
  unfold MinInt64, MaxInt64, two63 in *.
  destruct (Z.ltb_spec (- 2 ^ 63) r), (Z.ltb_spec (now - ts) r); lia.
Qed.

End BasicFacts.

(** ** Metrics engine *)

Module MetricsFacts.
Import Metrics Props.

Lemma firstAfter_range cutoff h i :
  firstAfter cutoff i h = -1 ∨
  (i ≤ firstAfter cutoff i h < i + Z.of_nat (length h)).
Proof.
  revert i. induction h as [|r h IH]; intros i; simpl; [by left|].
  destruct (time_After (Timestamp r) cutoff); [right; lia|].
  destruct (IH (i + 1)) as [->|?]; [by left|right; lia].
Qed.

Lemma firstAfter_neg cutoff h i : 0 ≤ i → firstAfter cutoff i h < 0 → firstAfter cutoff i h = -1.
Proof. intros Hi Hn. destruct (firstAfter_range cutoff h i) as [?|?]; [done|lia]. Qed.

Lemma evicted_range now km :
  0 ≤ evicted now km ≤ Z.of_nat (length (requestHistory km)).
Proof.
  unfold evicted.
  destruct (firstAfter_range (now + -24 * Hour) (requestHistory km) 0) as [->|H].
  - simpl. lia.
  - destruct (Z.eqb_spec (firstAfter (now + -24 * Hour) 0 (requestHistory km)) (-1)); lia.
Qed.

(** The history after a cleanup is the history with its evicted head cut off. *)
Lemma cleanup_history now km :
  requestHistory (cleanupHistoryLocked now km) =
  drop (Z.to_nat (evicted now km)) (requestHistory km).
Proof.
  unfold cleanupHistoryLocked, evicted.
  destruct (Z.eqb_spec (Z.of_nat (length (requestHistory km))) 0) as [Hlen|Hlen].
  { destruct (requestHistory km); [|simpl in Hlen; lia]. by destruct (Z.to_nat _). }
  set (ns := firstAfter _ 0 _).
  destruct (Z.ltb_spec 0 ns) as [Hpos|Hnpos].
  - destruct (Z.eqb_spec ns (-1)); [lia|]. done.
  - destruct (Z.eqb_spec ns (-1)) as [->|Hne]; simpl.
    + by rewrite Nat2Z.id, drop_all.
    + assert (ns = 0) as ->; [|done].
      destruct (firstAfter_range (now + -24 * Hour) (requestHistory km) 0) as [?|?];
        fold ns in H; lia.
Qed.

(** The pending map after a cleanup, entry by entry. *)
Lemma cleanup_pending now km id :
  pendingHistoryIdx (cleanupHistoryLocked now km) !! id =
  if (Z.of_nat (length (requestHistory km)) =? 0) || (evicted now km =? 0)
  then pendingHistoryIdx km !! id
  else if firstAfter (now + -24 * Hour) 0 (requestHistory km) =? -1 then None
  else pendingHistoryIdx km !! id ≫= rebase (evicted now km).
Proof.
  unfold cleanupHistoryLocked, evicted.
  destruct (Z.eqb_spec (Z.of_nat (length (requestHistory km))) 0) as [Hlen|Hlen]; [done|].
  set (ns := firstAfter _ 0 _).
  destruct (Z.ltb_spec 0 ns) as [Hpos|Hnpos].
  - destruct (Z.eqb_spec ns (-1)); [lia|]. simpl.
    destruct (Z.eqb_spec ns 0); [lia|].
    destruct (Z.ltb_spec 0 (Z.of_nat (size (pendingHistoryIdx km)))) as [Hs|Hs].
    + by rewrite lookup_omap.
    + assert (pendingHistoryIdx km = ∅) as ->.
      { apply map_size_empty_iff. lia. }
      by rewrite lookup_empty.
  - destruct (Z.eqb_spec ns (-1)) as [->|Hne]; simpl.
    + destruct (Z.eqb_spec (Z.of_nat (length (requestHistory km))) 0); [lia|].
      by rewrite lookup_empty.
    + assert (ns = 0) as ->; [|done].
      destruct (firstAfter_range (now + -24 * Hour) (requestHistory km) 0) as [?|?];
        fold ns in H; lia.
Qed.

(** C3.  A cleanup at time [now] cuts [evicted now km] records from the
    head of the history.  Every pending entry that pointed at one of them
    is deleted; every entry that survives is the old entry decreased by
    exactly that number; an entry that pointed at a record that was kept
    survives; and a surviving entry that was in bounds is in bounds of the
    new history and finds there the record it found before. *)
Theorem cleanupHistoryLocked_rebases_pending (now : Z) (km : KeyMetrics) :
  let km' := cleanupHistoryLocked now km in
  let n := evicted now km in
  requestHistory km' = drop (Z.to_nat n) (requestHistory km) ∧
  (∀ id idx, pendingHistoryIdx km !! id = Some idx → 0 ≤ idx < n →
     pendingHistoryIdx km' !! id = None) ∧
  (∀ id idx', pendingHistoryIdx km' !! id = Some idx' →
     ∃ idx, pendingHistoryIdx km !! id = Some idx ∧ idx' = idx - n) ∧
  (∀ id idx, pendingHistoryIdx km !! id = Some idx →
     n ≤ idx < Z.of_nat (length (requestHistory km)) →
     pendingHistoryIdx km' !! id = Some (idx - n)) ∧
  (∀ id idx idx', pendingHistoryIdx km !! id = Some idx →
     0 ≤ idx < Z.of_nat (length (requestHistory km)) →
     pendingHistoryIdx km' !! id = Some idx' →
     0 ≤ idx' < Z.of_nat (length (requestHistory km')) ∧
     requestHistory km' !! Z.to_nat idx' = requestHistory km !! Z.to_nat idx).
Proof.
  intros km' n.
  pose proof (evicted_range now km) as Hn. fold n in Hn.
  assert (Hpend : ∀ id, pendingHistoryIdx km' !! id =
            if (Z.of_nat (length (requestHistory km)) =? 0) || (n =? 0)
            then pendingHistoryIdx km !! id
            else if firstAfter (now + -24 * Hour) 0 (requestHistory km) =? -1 then None
            else pendingHistoryIdx km !! id ≫= rebase n).
  { intros id. apply cleanup_pending. }
  assert (Hall : firstAfter (now + -24 * Hour) 0 (requestHistory km) = -1 →
                 n = Z.of_nat (length (requestHistory km))).
  { intros E. unfold n, evicted. by rewrite E. }
  assert (Hsurv : ∀ id idx', pendingHistoryIdx km' !! id = Some idx' →
     ∃ idx, pendingHistoryIdx km !! id = Some idx ∧ idx' = idx - n).
  { intros id idx'. rewrite Hpend.
    destruct (Z.eqb_spec (Z.of_nat (length (requestHistory km))) 0) as [E0|E0]; simpl.
    { intros H. exists idx'. split; [done|lia]. }
    destruct (Z.eqb_spec n 0) as [En|En].
    { intros H. exists idx'. split; [done|lia]. }
    destruct (Z.eqb_spec (firstAfter (now + -24 * Hour) 0 (requestHistory km)) (-1)); [done|].
    destruct (pendingHistoryIdx km !! id) as [idx|]; simpl; [|done].
    unfold rebase. destruct (Z.ltb_spec idx n); [done|].
    intros [= <-]. by exists idx. }
  split; [apply cleanup_history|].
  split; [|split; [exact Hsurv|split]].
  - intros id idx Hid Hr. rewrite Hpend, Hid.
    destruct (Z.eqb_spec (Z.of_nat (length (requestHistory km))) 0); [lia|].
    destruct (Z.eqb_spec n 0); [lia|]. simpl.
    destruct (Z.eqb_spec (firstAfter (now + -24 * Hour) 0 (requestHistory km)) (-1)); [done|].
    unfold rebase. destruct (Z.ltb_spec idx n); [done|lia].
  - intros id idx Hid Hr. rewrite Hpend, Hid.
    destruct (Z.eqb_spec (Z.of_nat (length (requestHistory km))) 0); [lia|].
    destruct (Z.eqb_spec n 0) as [->|?]; simpl; [by rewrite Z.sub_0_r|].
    destruct (Z.eqb_spec (firstAfter (now + -24 * Hour) 0 (requestHistory km)) (-1)) as [E|E].
    { specialize (Hall E). lia. }
    unfold rebase. destruct (Z.ltb_spec idx n); [lia|done].
  - intros id idx idx' Hid Hr Hid'.
    destruct (Hsurv _ _ Hid') as (idx0 & Hid0 & ->).
    rewrite Hid in Hid0. injection Hid0 as <-.
    assert (n ≤ idx).
    { revert Hid'. rewrite Hpend, Hid.
      destruct (Z.eqb_spec (Z.of_nat (length (requestHistory km))) 0); [lia|].
      destruct (Z.eqb_spec n 0); [lia|]. simpl.
      destruct (Z.eqb_spec (firstAfter (now + -24 * Hour) 0 (requestHistory km)) (-1)); [done|].
      unfold rebase. destruct (Z.ltb_spec idx n); [done|lia]. }
    unfold km'. rewrite cleanup_history. fold n.
    rewrite length_drop, lookup_drop. split; [lia|].
    f_equal. lia.
Qed.

(** C1.  When the row of [(baseURL, apiKey)] exists and holds a pending
    slot for [requestID] that is in bounds of the history,
    [RecordRequestFinalizeClientCancel] adds one to RequestCount, leaves
    ConsecutiveFailures, the sliding window, SuccessCount and FailureCount
    as they were, cuts the reserved record out of the history, drops the
    pending entry, lowers by one exactly the other pending indices above
    the removed slot, hands nothing to the persistent store and leaves the
    other rows alone. *)
Theorem RecordRequestFinalizeClientCancel_frame
    (generateMetricsKey : string → string → string)
    (baseURL apiKey : string) (requestID : N) (m : MetricsManager)
    (km : KeyMetrics) (idx : Z) :
  keyMetrics m !! generateMetricsKey baseURL apiKey = Some km →
  pendingHistoryIdx km !! requestID = Some idx →
  0 ≤ idx < Z.of_nat (length (requestHistory km)) →
  MinInt64 ≤ RequestCount km < MaxInt64 →
  let m' := RecordRequestFinalizeClientCancel generateMetricsKey baseURL apiKey requestID m in
  ∃ km',
    keyMetrics m' !! generateMetricsKey baseURL apiKey = Some km' ∧
    RequestCount km' = RequestCount km + 1 ∧
    ConsecutiveFailures km' = ConsecutiveFailures km ∧
    recentResults km' = recentResults km ∧
    SuccessCount km' = SuccessCount km ∧
    FailureCount km' = FailureCount km ∧
    requestHistory km' = delete (Z.to_nat idx) (requestHistory km) ∧
    pendingHistoryIdx km' !! requestID = None ∧
    (∀ rid, rid ≠ requestID →
       pendingHistoryIdx km' !! rid =
       (λ ridx, if idx <? ridx then ridx - 1 else ridx) <$> pendingHistoryIdx km !! rid) ∧
    store m' = store m ∧
    (∀ k, k ≠ generateMetricsKey baseURL apiKey → keyMetrics m' !! k = keyMetrics m !! k).
Proof.
  intros Hrow Hpend Hidx Hcount m'.
  unfold m', RecordRequestFinalizeClientCancel. rewrite Hrow, Hpend.
  destruct (Z.ltb_spec idx 0) as [?|_]; [lia|].
  destruct (Z.leb_spec (Z.of_nat (length (requestHistory km))) idx) as [?|_]; [lia|].
  simpl. eexists. split; [apply lookup_insert_eq|]. simpl.
  repeat split.
  - apply BasicFacts.wrap64_small. lia.
  - rewrite delete_take_drop. do 2 f_equal. lia.
  - by rewrite lookup_fmap, lookup_delete_eq.
  - intros rid Hne. by rewrite lookup_fmap, lookup_delete_ne.
  - intros k Hk. by rewrite lookup_insert_ne.
Qed.

Lemma emptyBuckets_lookup np i : 0 ≤ i < np → emptyBuckets np !! i = Some {| requestCount := 0; successCount := 0; failureCount := 0 |}.
Proof.
  intros Hi. unfold emptyBuckets.
  assert (Hin : i ∈ seqZ 0 np) by (apply elem_of_seqZ; lia).
  induction (seqZ 0 np) as [|j l IH]; [by apply elem_of_nil in Hin|].
  simpl. destruct (decide (j = i)) as [->|Hne].
  - by rewrite lookup_insert_eq.
  - rewrite lookup_insert_ne by done. apply IH.
    apply elem_of_cons in Hin as [?|?]; [congruence|done].
Qed.

Lemma bucketOffset_floor startTime interval r :
  0 < interval → 0 ≤ Timestamp r - startTime ≤ MaxInt64 →
  bucketOffset startTime interval r = (Timestamp r - startTime) / interval.
Proof.
  intros Hi Hr. unfold bucketOffset, time_Sub.
  destruct (Z.ltb_spec MaxInt64 (Timestamp r - startTime)); [lia|].
  destruct (Z.ltb_spec (Timestamp r - startTime) MinInt64).
  { unfold MinInt64, two63 in *. lia. }
  apply Z.quot_div_nonneg; lia.
Qed.

Lemma countRecord_lookup startTime endTime interval np buckets r i b0 :
  0 < interval → endTime - startTime ≤ MaxInt64 →
  0 ≤ i < np →
  buckets !! i = Some b0 →
  countRecord startTime endTime interval np buckets r !! i =
  Some (if decide (inBucket startTime endTime interval i r)
        then {| requestCount := requestCount b0 + 1;
                successCount := if Success r then successCount b0 + 1 else successCount b0;
                failureCount := if Success r then failureCount b0 else failureCount b0 + 1 |}
        else b0).
Proof.
  intros Hiv Hspan Hi Hb. unfold countRecord, time_Before.
  destruct (Z.ltb_spec (Timestamp r) startTime) as [Hlt|Hge]; simpl.
  { rewrite decide_False by (unfold inBucket; lia). done. }
  destruct (Z.ltb_spec (Timestamp r) endTime) as [Hlt2|Hge2]; simpl; cycle 1.
  { rewrite decide_False by (unfold inBucket; lia). done. }
  rewrite bucketOffset_floor by lia.
  destruct (Z.leb_spec 0 ((Timestamp r - startTime) / interval)) as [H0|H0]; simpl; cycle 1.
  { rewrite decide_False by (unfold inBucket; lia). done. }
  destruct (Z.ltb_spec ((Timestamp r - startTime) / interval) np) as [H1|H1]; simpl; cycle 1.
  { rewrite decide_False by (unfold inBucket; lia). done. }
  destruct (decide ((Timestamp r - startTime) / interval = i)) as [Heq|Hne].
  - rewrite Heq, lookup_alter_eq, Hb. simpl.
    rewrite decide_True by (unfold inBucket; lia). done.
  - rewrite lookup_alter_ne by done.
    rewrite Hb, decide_False by (unfold inBucket; lia). done.
Qed.

Lemma foldl_countRecord startTime endTime interval np records : ∀ buckets i b0,
  0 < interval → endTime - startTime ≤ MaxInt64 →
  0 ≤ i < np →
  buckets !! i = Some b0 →
  ∃ b, foldl (countRecord startTime endTime interval np) buckets records !! i = Some b ∧
       requestCount b = requestCount b0 +
         Z.of_nat (length (filter (inBucket startTime endTime interval i) records)) ∧
       successCount b = successCount b0 +
         Z.of_nat (length (filter (λ r, inBucket startTime endTime interval i r ∧ Success r = true)
                             records)) ∧
       failureCount b = failureCount b0 +
         Z.of_nat (length (filter (λ r, inBucket startTime endTime interval i r ∧ Success r = false)
                             records)).
Proof.
  induction records as [|r records IH]; intros buckets i b0 Hiv Hspan Hi Hb; simpl.
  { exists b0. rewrite Hb. repeat split; lia. }
  pose proof (countRecord_lookup startTime endTime interval np buckets r i b0 Hiv Hspan Hi Hb) as Hstep.
  destruct (IH _ i _ Hiv Hspan Hi Hstep) as (b & Hb' & Hrc & Hsc & Hfc).
  exists b. split; [done|].
  rewrite !filter_cons.
  destruct (decide (inBucket startTime endTime interval i r)) as [Hin|Hout]; simpl in *.
  - destruct (Success r) eqn:ES.
    + rewrite decide_True by done. rewrite decide_False by (intros [? ?]; done).
      simpl. repeat split; lia.
    + rewrite decide_False by (intros [? ?]; done). rewrite decide_True by done.
      simpl. repeat split; lia.
  - rewrite decide_False by (intros [? ?]; done).
    rewrite decide_False by (intros [? ?]; done). done.
Qed.

Lemma numPointsOf_eq duration interval :
  0 < duration → 0 < interval →
  numPointsOf duration interval = Z.max 1 (duration / interval) + 1.
Proof.
  intros Hd Hi. unfold numPointsOf.
  rewrite Z.quot_div_nonneg by lia.
  pose proof (Z.div_pos duration interval).
  destruct (Z.leb_spec (duration / interval) 0); lia.
Qed.

Lemma span_bound now duration interval :
  0 < duration → 0 < interval →
  time_Truncate now interval + interval - time_Truncate (now + - duration) interval
  ≤ duration + 2 * interval.
Proof.
  intros Hd Hi. unfold time_Truncate.
  destruct (Z.leb_spec interval 0); [lia|].
  pose proof (Z.mod_pos_bound now interval Hi).
  pose proof (Z.mod_pos_bound (now + - duration) interval Hi). lia.
Qed.

(** The distance between the two truncated ends of a historical query,
    in intervals. *)
Lemma live_bucket_index now duration interval :
  0 < interval →
  (time_Truncate now interval - time_Truncate (now + - duration) interval) / interval =
  if now mod interval <? duration mod interval
  then duration / interval + 1 else duration / interval.
Proof.
  intros Hi. unfold time_Truncate.
  destruct (Z.leb_spec interval 0); [lia|].
  pose proof (Z.mod_pos_bound now interval Hi) as Ha.
  pose proof (Z.mod_pos_bound duration interval Hi) as Hb.
  pose proof (Z.div_mod now interval ltac:(lia)) as Hn.
  pose proof (Z.div_mod duration interval ltac:(lia)) as Hd.
  destruct (Z.ltb_spec (now mod interval) (duration mod interval)) as [Hlt|Hge].
  - assert (Hm : (now + - duration) mod interval = now mod interval - duration mod interval + interval).
    { symmetry. apply (Z.mod_unique_pos _ _ (now / interval - duration / interval - 1)); lia. }
    rewrite Hm.
    replace (now - now mod interval - (now + - duration - (now mod interval - duration mod interval + interval)))
      with ((duration / interval + 1) * interval) by lia.
    apply Z.div_mul. lia.
  - assert (Hm : (now + - duration) mod interval = now mod interval - duration mod interval).
    { symmetry. apply (Z.mod_unique_pos _ _ (now / interval - duration / interval)); lia. }
    rewrite Hm.
    replace (now - now mod interval - (now + - duration - (now mod interval - duration mod interval)))
      with ((duration / interval) * interval) by lia.
    apply Z.div_mul. lia.
Qed.

(** The live period of a historical query, the interval that holds
    [now], has no bucket exactly when the duration is at least one
    interval and leaves a remainder greater than that of [now]. *)
Lemma live_bucket_missing_iff now duration interval :
  0 < duration → 0 < interval →
  numPointsOf duration interval ≤
    (time_Truncate now interval - time_Truncate (now + - duration) interval) / interval ↔
  interval ≤ duration ∧ now mod interval < duration mod interval.
Proof.
  intros Hd Hi. rewrite live_bucket_index by done.
  unfold numPointsOf. rewrite Z.quot_div_nonneg by lia.
  pose proof (Z.div_pos duration interval ltac:(lia) Hi) as Hq.
  assert (Hq1 : interval ≤ duration ↔ 1 ≤ duration / interval).
  { split; intros H.
    - apply Z.div_le_lower_bound; lia.
    - destruct (Z.lt_ge_cases duration interval) as [Hlt|]; [|done].
      rewrite Z.div_small in H by lia. lia. }
  destruct (Z.ltb_spec (now mod interval) (duration mod interval));
    destruct (Z.leb_spec (duration / interval) 0); lia.
Qed.

(** Then a record stamped within the live period falls into no bucket
    of the query. *)
Lemma inBucket_live_period now duration interval r :
  0 < interval ≤ duration →
  now mod interval < duration mod interval →
  time_Truncate now interval ≤ Timestamp r →
  ∀ i, 0 ≤ i < Z.max 1 (duration / interval) + 1 →
    ¬ inBucket (time_Truncate (now + - duration) interval)
        (time_Truncate now interval + interval) interval i r.
Proof.
  intros [Hi Hd] Hlt Hr i Hin [_ Hq].
  pose proof (live_bucket_index now duration interval Hi) as Hlive.
  destruct (Z.ltb_spec (now mod interval) (duration mod interval)); [|lia].
  assert (Hle : (time_Truncate now interval - time_Truncate (now + - duration) interval) / interval
                ≤ (Timestamp r - time_Truncate (now + - duration) interval) / interval).
  { apply Z.div_le_mono; lia. }
  assert (1 ≤ duration / interval) by (apply Z.div_le_lower_bound; lia).
  lia.
Qed.

(** C5, as the code has it.  For a positive duration and interval (with
    the queried span within the range of a Duration) the query returns
    [max(1, duration / interval) + 1] points, the quotient rounded down;
    the first one is stamped [now - duration] truncated to the interval
    and point [i] is stamped [i] intervals later; point [i] counts the
    scanned records stamped in [[startTime, endTime)] whose distance to
    [startTime], divided by the interval and rounded down, is [i]; and a
    point that counts no record reports the success rate 0. *)
Theorem GetHistoricalStats_buckets
    (generateMetricsKey : string → string → string)
    (now : Z) (baseURL : string) (activeKeys : list string)
    (duration interval : Z) (m : MetricsManager) :
  0 < duration → 0 < interval → duration + 2 * interval ≤ MaxInt64 →
  let result := GetHistoricalStats generateMetricsKey now baseURL activeKeys duration interval m in
  let startTime := time_Truncate (now + - duration) interval in
  let endTime := time_Truncate now interval + interval in
  let records := scannedRecords generateMetricsKey baseURL activeKeys m in
  let numPoints := Z.max 1 (duration / interval) + 1 in
  Z.of_nat (length result) = numPoints ∧
  (HP_Timestamp <$> result !! 0%nat) = Some startTime ∧
  ∀ i, 0 ≤ i < numPoints →
    ∃ p, result !! Z.to_nat i = Some p ∧
      HP_Timestamp p = startTime + i * interval ∧
      HP_RequestCount p =
        Z.of_nat (length (filter (inBucket startTime endTime interval i) records)) ∧
      HP_SuccessCount p =
        Z.of_nat (length (filter (λ r, inBucket startTime endTime interval i r ∧ Success r = true)
                            records)) ∧
      HP_FailureCount p =
        Z.of_nat (length (filter (λ r, inBucket startTime endTime interval i r ∧ Success r = false)
                            records)) ∧
      (HP_RequestCount p = 0 → HP_SuccessRate p = 0%Q).
Proof.
  intros Hd Hi Hfit result startTime endTime records numPoints.
  assert (Hnp : numPointsOf duration interval = numPoints) by by apply numPointsOf_eq.
  assert (Hres : result =
    map (makePoint startTime interval
           (foldl (countRecord startTime endTime interval numPoints) (emptyBuckets numPoints) records))
        (seqZ 0 numPoints)).
  { unfold result, GetHistoricalStats.
    destruct (Z.leb_spec interval 0); [lia|]. destruct (Z.leb_spec duration 0); [lia|].
    simpl. by rewrite Hnp. }
  assert (Hpoint : ∀ i, 0 ≤ i < numPoints →
    ∃ p, result !! Z.to_nat i = Some p ∧
      HP_Timestamp p = startTime + i * interval ∧
      HP_RequestCount p =
        Z.of_nat (length (filter (inBucket startTime endTime interval i) records)) ∧
      HP_SuccessCount p =
        Z.of_nat (length (filter (λ r, inBucket startTime endTime interval i r ∧ Success r = true)
                            records)) ∧
      HP_FailureCount p =
        Z.of_nat (length (filter (λ r, inBucket startTime endTime interval i r ∧ Success r = false)
                            records)) ∧
      (HP_RequestCount p = 0 → HP_SuccessRate p = 0%Q)).
  { intros i Hir.
    pose proof (span_bound now duration interval Hd Hi) as Hspan.
    destruct (foldl_countRecord startTime endTime interval numPoints records
                (emptyBuckets numPoints) i {| requestCount := 0; successCount := 0; failureCount := 0 |} Hi) as (b & Hb & Hrc & Hsc & Hfc).
    { unfold startTime, endTime. lia. }
    { done. }
    { by apply emptyBuckets_lookup. }
    assert (Hseq : seqZ 0 numPoints !! Z.to_nat i = Some i).
    { rewrite lookup_seqZ_lt by lia. f_equal. lia. }
    eexists. split.
    { rewrite Hres, list_lookup_fmap, Hseq. simpl. reflexivity. }
    unfold makePoint. simpl. rewrite Hb. simpl.
    split; [lia|]. split; [exact Hrc|]. split; [exact Hsc|]. split; [exact Hfc|].
    intros ->. done. }
  split; [|split; [|exact Hpoint]].
  - rewrite Hres, length_map, length_seqZ. lia.
  - destruct (Hpoint 0) as (p & Hp & Ht & _); [lia|].
    change (Z.to_nat 0) with 0%nat in Hp. rewrite Hp. simpl. f_equal. lia.
Qed.


(** The cancel of request 2 on the example row: the count goes from 5 to
    6, the failure state stays, the record of slot 1 is cut out, request
    3 moves from slot 2 to slot 1 and request 1 stays in slot 0. *)
Lemma RecordRequestFinalizeClientCancel_frame_witness :
  ∃ km',
    keyMetrics (RecordRequestFinalizeClientCancel Examples.metricsKey "https://u1" "k1" 2%N
                  Examples.manager)
      !! Examples.metricsKey "https://u1" "k1" = Some km' ∧
    RequestCount km' = 6 ∧
    ConsecutiveFailures km' = 2 ∧
    recentResults km' = [true; true; true; false; false] ∧
    requestHistory km' = [Examples.recordAt 10; Examples.recordAt 30] ∧
    pendingHistoryIdx km' !! 2%N = None ∧
    pendingHistoryIdx km' !! 1%N = Some 0 ∧
    pendingHistoryIdx km' !! 3%N = Some 1 ∧
    store (RecordRequestFinalizeClientCancel Examples.metricsKey "https://u1" "k1" 2%N
             Examples.manager) = Some [].
Proof.
  destruct (RecordRequestFinalizeClientCancel_frame Examples.metricsKey
              "https://u1" "k1" 2%N Examples.manager Examples.row 1)
    as (km' & Hrow & Hrc & Hcf & Hrr & _ & _ & Hh & Hp & Hother & Hstore & _).
  - reflexivity.
  - reflexivity.
  - simpl. lia.
  - unfold MinInt64, MaxInt64, two63. simpl. lia.
  - exists km'. split; [exact Hrow|].
    split; [rewrite Hrc; reflexivity|].
    split; [rewrite Hcf; reflexivity|].
    split; [rewrite Hrr; reflexivity|].
    split; [rewrite Hh; reflexivity|].
    split; [exact Hp|].
    split; [rewrite Hother by done; reflexivity|].
    split; [rewrite Hother by done; reflexivity|].
    rewrite Hstore. reflexivity.
Defined.

(** A query of 90 minutes by hours, two hours after the origin of time,
    over a row with one record stamped then. *)
Lemma GetHistoricalStats_buckets_witness :
  let m := Examples.engine
             {[ Examples.metricsKey "https://u1" "k1" :=
                  with_history [Examples.recordAt (70 * Minute)] ∅ Examples.row ]} in
  let result := GetHistoricalStats Examples.metricsKey (120 * Minute) "https://u1" ["k1"]
                  (90 * Minute) (60 * Minute) m in
  Z.of_nat (length result) = 2 ∧
  (HP_Timestamp <$> result !! 0%nat) = Some 0 ∧
  ∃ p, result !! 1%nat = Some p ∧ HP_Timestamp p = 60 * Minute ∧ HP_RequestCount p = 1.
Proof.
  intros m result.
  destruct (GetHistoricalStats_buckets Examples.metricsKey (120 * Minute) "https://u1" ["k1"]
              (90 * Minute) (60 * Minute) m) as (Hlen & Hfirst & Hpoints).
  - reflexivity.
  - reflexivity.
  - unfold MaxInt64, two63, Minute, Second. lia.
  - split; [exact Hlen|]. split; [exact Hfirst|].
    destruct (Hpoints 1) as (p & Hp & Ht & Hrc & _).
    + vm_compute. split; first [reflexivity | discriminate].
    + exists p. split; [exact Hp|]. split; [rewrite Ht; reflexivity|].
      rewrite Hrc. reflexivity.
Defined.

(** C5 fails as stated, and the query falls short of its own comments
    (endTime is one interval past the truncated [now] so that the
    requests of the current period are included; one more bucket is
    for the current period): for 90 minutes by hours, asked at the start
    of the third hour, the query returns 2 points, not the quotient
    rounded up plus one (3); the points are those of the first and of the
    second hour, and there is none for the current one; and a record
    stamped at the very moment of the query is counted in no point,
    although it lies in [[startTime, endTime)]. *)
Lemma GetHistoricalStats_buckets_counterexample :
  let m := Examples.engine
             {[ Examples.metricsKey "https://u1" "k1" :=
                  with_history [Examples.recordAt (120 * Minute)] ∅ Examples.row ]} in
  let now := 120 * Minute in
  let duration := 90 * Minute in
  let interval := 60 * Minute in
  let result := GetHistoricalStats Examples.metricsKey now "https://u1" ["k1"] duration interval m in
  Z.of_nat (length result) = 2 ∧
  ceilDiv duration interval + 1 = 3 ∧
  time_Truncate (now + - duration) interval ≤ now < time_Truncate now interval + interval ∧
  HP_RequestCount <$> result = [0; 0] ∧
  HP_Timestamp <$> result = [0; 60 * Minute] ∧
  time_Truncate now interval = 120 * Minute ∧
  length (scannedRecords Examples.metricsKey "https://u1" ["k1"] m) = 1%nat.
Proof. vm_compute. repeat split; first [reflexivity | discriminate]. Qed.

End MetricsFacts.

(** ** Failed-key cache and key selection *)

Module ConfigFacts.
Import Config.

Lemma failedKeyCacheKey_inj_apiType (a b apiKey : string) :
  failedKeyCacheKey a apiKey = failedKeyCacheKey b apiKey → a = b.
Proof.
  unfold failedKeyCacheKey. intros H.
  by apply (BasicFacts.append_inj_l a b (":" +:+ apiKey)).
Qed.

(** C6.  For a base recovery time that is not negative and whose double
    is a Duration: [IsKeyFailed apiKey apiType] holds exactly when the
    cache has an entry under [apiType:apiKey] and the time since its
    timestamp is less than its recovery interval, which is the base
    recovery time, doubled exactly when the failure count of the entry
    exceeds the maximum; and marking the key failed under another
    apiType changes nothing to the answer under this one. *)
Theorem IsKeyFailed_iff (now : Z) (apiKey apiType : string) (cm : ConfigManager) :
  0 ≤ keyRecoveryTime cm → 2 * keyRecoveryTime cm ≤ MaxInt64 →
  (IsKeyFailed now apiKey apiType cm = true ↔
   ∃ failure,
     failedKeysCache cm !! (apiType +:+ ":" +:+ apiKey) = Some failure ∧
     now - Timestamp failure <
       (if maxFailureCount cm <? FailureCount failure
        then 2 * keyRecoveryTime cm else keyRecoveryTime cm)) ∧
  (∀ otherType markedAt,
     otherType ≠ apiType →
     IsKeyFailed now apiKey apiType (MarkKeyAsFailed markedAt apiKey otherType cm) =
     IsKeyFailed now apiKey apiType cm).
Proof.
  intros H0 H2. split.
  - unfold IsKeyFailed, isKeyFailed, failedKeyCacheKey.
    destruct (failedKeysCache cm !! (apiType +:+ ":" +:+ apiKey)) as [f|] eqn:E.
    + assert (Hrec : recoveryTimeOf cm f =
                if maxFailureCount cm <? FailureCount f
                then 2 * keyRecoveryTime cm else keyRecoveryTime cm).
      { unfold recoveryTimeOf. destruct (maxFailureCount cm <? FailureCount f); [|done].
        rewrite BasicFacts.wrap64_small; [lia|]. unfold MinInt64, MaxInt64, two63 in *. lia. }
      rewrite BasicFacts.time_Sub_lt; cycle 1.
      { rewrite Hrec. destruct (maxFailureCount cm <? FailureCount f); lia. }
      rewrite Hrec, Z.ltb_lt. split.
      * intros H. by exists f.
      * by intros (f' & [= <-] & H).
    + split; [done|]. by intros (f & ? & _).
  - intros otherType markedAt Hne.
    unfold IsKeyFailed, isKeyFailed, MarkKeyAsFailed.
    assert (failedKeyCacheKey otherType apiKey ≠ failedKeyCacheKey apiType apiKey) as Hk.
    { intros E. by apply Hne, (failedKeyCacheKey_inj_apiType _ _ apiKey). }
    destruct (failedKeysCache cm !! failedKeyCacheKey otherType apiKey); simpl;
      by rewrite lookup_insert_ne.
Qed.

(** C10.  When the upstream has exactly one key, [GetNextAPIKey] returns
    it whatever the keys that failed in this request and whatever the
    failed-key cache and the time. *)
Theorem GetNextAPIKey_single_key (now : Z) (upstream : UpstreamConfig) (only : string)
    (failedKeys : gmap string bool) (apiType : string) (cm : ConfigManager) :
  APIKeys upstream = [only] →
  GetNextAPIKey now upstream failedKeys apiType cm = Ok only.
Proof. intros H. unfold GetNextAPIKey. by rewrite H. Qed.


(** Key [k1], failed four times (more than the maximum of three) and last
    at 100 s, is still failed 6 minutes later, past the base recovery time
    of 5 minutes and within its double; marking it failed again under
    [Chat] does not make it failed under [Messages]. *)
Lemma IsKeyFailed_iff_witness :
  IsKeyFailed (460 * Second) "k1" "Chat" Examples.cooling = true ∧
  IsKeyFailed (460 * Second) "k1" "Messages"
    (MarkKeyAsFailed (450 * Second) "k1" "Chat" Examples.cooling) = false.
Proof.
  destruct (IsKeyFailed_iff (460 * Second) "k1" "Chat" Examples.cooling) as [Hiff _].
  { vm_compute. discriminate. }
  { vm_compute. discriminate. }
  destruct (IsKeyFailed_iff (460 * Second) "k1" "Messages" Examples.cooling) as [_ Hiso].
  { vm_compute. discriminate. }
  { vm_compute. discriminate. }
  split.
  - apply Hiff. exists {| Timestamp := 100 * Second; FailureCount := 4 |}.
    split; reflexivity.
  - rewrite (Hiso "Chat" (450 * Second)) by discriminate. reflexivity.
Defined.

(** The only key of a channel is returned although it failed in this
    request and is cooling down in the cache. *)
Lemma GetNextAPIKey_single_key_witness :
  IsKeyFailed (110 * Second) "k1" "Chat" Examples.cooling = true ∧
  GetNextAPIKey (110 * Second)
    (Examples.channel "C1" "https://u1" ["k1"] 1 "active" None)
    {[ "k1" := true ]} "Chat" Examples.cooling = Ok "k1".
Proof.
  split; [reflexivity|].
  apply (GetNextAPIKey_single_key (110 * Second)
           (Examples.channel "C1" "https://u1" ["k1"] 1 "active" None) "k1").
  reflexivity.
Defined.

End ConfigFacts.

(** ** Channel scheduler *)

Module SchedulerFacts.
Import Scheduler Props.

Lemma findPromotedChannel_first now upstreams pre ch post :
  (∀ c, c ∈ pre → ¬ promoted now upstreams c) →
  promoted now upstreams ch →
  findPromotedChannel now upstreams (pre ++ ch :: post) = Some ch.
Proof.
  intros Hpre (Hst & u & Hu & Hp).
  induction pre as [|c pre IH]; simpl.
  - apply String.eqb_eq in Hst. by rewrite Hst, Hu, Hp.
  - assert (Hc : ¬ promoted now upstreams c) by (apply Hpre; left).
    assert (IH' : findPromotedChannel now upstreams (pre ++ ch :: post) = Some ch).
    { apply IH. intros c' Hc'. apply Hpre. by right. }
    destruct (String.eqb (Status c) "active") eqn:Ec; simpl; [|done].
    destruct (getUpstreamByIndex (Index c) upstreams) as [uc|] eqn:Euc; [|done].
    destruct (Config.IsChannelInPromotion now uc) eqn:Epc; [|done].
    exfalso. apply Hc. split; [by apply String.eqb_eq|]. by exists uc.
Qed.

Section Proofs.

Variable generateMetricsKey : string → string → string.
Variable sort_Slice : (ChannelInfo → ChannelInfo → bool) → list ChannelInfo → list ChannelInfo.

(** The reason each of the rules after promotion gives. *)
Lemma affinityLoop_Reason m upstreams failedChannels preferredIdx l r :
  affinityLoop generateMetricsKey m upstreams failedChannels preferredIdx l = Some r →
  Reason r = "trace_affinity".
Proof.
  induction l as [|ch l IH]; simpl; [done|].
  repeat case_match; try done. by intros [= <-].
Qed.

Lemma priorityRule_Reason m upstreams failedChannels l r :
  priorityRule generateMetricsKey m upstreams failedChannels l = Some r →
  Reason r = "priority_order".
Proof.
  induction l as [|ch l IH]; simpl; [done|].
  repeat case_match; try done. by intros [= <-].
Qed.

Lemma selectFallbackChannel_Reason m upstreams l failedChannels r :
  selectFallbackChannel generateMetricsKey m upstreams l failedChannels = Ok r →
  Reason r = "fallback".
Proof.
  unfold selectFallbackChannel. repeat case_match; try done. by intros [= <-].
Qed.

(** C4, as the code has it.  Let a channel be the first one of the
    scheduling sequence (the channels in priority order) that is active
    and in promotion.  When it has not failed in this request and has a
    key, [SelectChannel] returns it with reason promotion_priority,
    whatever the metrics say about it: no health check is applied.  When
    it has failed in this request or has no key, the promotion rule gives
    nothing, whatever channels in promotion come after it, and no channel
    is returned with reason promotion_priority. *)
Theorem SelectChannel_promotion_first
    (now : Z) (userID : string) (failedChannels : gmap Z bool) (kind : ChannelKind)
    (s : ChannelScheduler) (pre post : list ChannelInfo) (ch : ChannelInfo)
    (upstream : Config.UpstreamConfig) :
  let upstreams := upstreamsOf kind (Config.config (configManager s)) in
  getActiveChannels sort_Slice kind s = pre ++ ch :: post →
  (∀ c, c ∈ pre → ¬ promoted now upstreams c) →
  Status ch = "active" →
  getUpstreamByIndex (Index ch) upstreams = Some upstream →
  Config.IsChannelInPromotion now upstream = true →
  (isFailed failedChannels (Index ch) = false →
   Config.APIKeys upstream ≠ [] →
   SelectChannel generateMetricsKey sort_Slice now userID failedChannels kind s =
   Ok {| Upstream := upstream; ChannelIndex := Index ch; Reason := "promotion_priority" |}) ∧
  (isFailed failedChannels (Index ch) = true ∨ Config.APIKeys upstream = [] →
   promotionRule now upstreams (getActiveChannels sort_Slice kind s) failedChannels = None ∧
   ∀ r, SelectChannel generateMetricsKey sort_Slice now userID failedChannels kind s = Ok r →
        Reason r ≠ "promotion_priority").
Proof.
  intros upstreams Hact Hpre Hst Hu Hp.
  assert (Hfind : findPromotedChannel now upstreams (pre ++ ch :: post) = Some ch).
  { apply findPromotedChannel_first; [done|]. split; [done|]. by exists upstream. }
  assert (Hlen : (Z.of_nat (length (pre ++ ch :: post)) =? 0) = false).
  { rewrite length_app. simpl. apply Z.eqb_neq. lia. }
  split.
  - intros Hf Hk.
    unfold SelectChannel. rewrite Hact. fold upstreams. rewrite Hlen.
    unfold promotionRule. rewrite Hfind, Hf, Hu. simpl.
    destruct (Config.APIKeys upstream); [done|]. done.
  - intros Hno.
    assert (Hrule : promotionRule now upstreams (pre ++ ch :: post) failedChannels = None).
    { unfold promotionRule. rewrite Hfind, Hu.
      destruct Hno as [-> | ->]; [done|]. by destruct (isFailed failedChannels (Index ch)). }
    rewrite Hact. split; [done|].
    intros r. unfold SelectChannel. rewrite Hact. fold upstreams. rewrite Hlen, Hrule.
    unfold affinityRule.
    destruct (negb (String.eqb userID "")).
    + destruct (traceAffinity s !! (kind +:+ ":" +:+ userID)) as [preferredIdx|].
      * destruct (affinityLoop _ _ _ _ _ _) as [ra|] eqn:Ea.
        { intros [= <-]. by rewrite (affinityLoop_Reason _ _ _ _ _ _ Ea). }
        destruct (priorityRule _ _ _ _ _) as [rp|] eqn:Epr.
        { intros [= <-]. by rewrite (priorityRule_Reason _ _ _ _ _ Epr). }
        intros Hfb. by rewrite (selectFallbackChannel_Reason _ _ _ _ _ Hfb).
      * destruct (priorityRule _ _ _ _ _) as [rp|] eqn:Epr.
        { intros [= <-]. by rewrite (priorityRule_Reason _ _ _ _ _ Epr). }
        intros Hfb. by rewrite (selectFallbackChannel_Reason _ _ _ _ _ Hfb).
    + destruct (priorityRule _ _ _ _ _) as [rp|] eqn:Epr.
      { intros [= <-]. by rewrite (priorityRule_Reason _ _ _ _ _ Epr). }
      intros Hfb. by rewrite (selectFallbackChannel_Reason _ _ _ _ _ Hfb).
Qed.

Lemma collectActive_elem upstreams : ∀ i0 ch,
  ch ∈ collectActive i0 upstreams ↔
  ∃ (k : nat) upstream,
    upstreams !! k = Some upstream ∧ statusOf upstream ≠ "disabled" ∧
    Index ch = i0 + Z.of_nat k ∧ Status ch = statusOf upstream ∧
    Name ch = Config.Name upstream ∧
    Priority ch = (if Config.Priority upstream =? 0 then i0 + Z.of_nat k
                   else Config.Priority upstream).
Proof.
  induction upstreams as [|u upstreams IH]; intros i0 ch; simpl.
  { split; [by intros ?%elem_of_nil|by intros (k & ? & ? & _)]. }
  fold (statusOf u).
  destruct (String.eqb (statusOf u) "disabled") eqn:Ed; simpl.
  - apply String.eqb_eq in Ed. rewrite IH. split.
    + intros (k & u' & Hk & Hs & Hi & Hrest). exists (S k), u'. simpl.
      split; [done|]. split; [done|].
      replace (i0 + Z.of_nat (S k)) with (i0 + 1 + Z.of_nat k) by lia. by split.
    + intros ([|k] & u' & Hk & Hs & Hi & Hrest); simpl in Hk.
      { by injection Hk as <-. }
      exists k, u'. split; [done|]. split; [done|].
      replace (i0 + 1 + Z.of_nat k) with (i0 + Z.of_nat (S k)) by lia. by split.
  - apply String.eqb_neq in Ed. rewrite elem_of_cons, IH. split.
    + intros [->|(k & u' & Hk & Hs & Hi & Hrest)].
      * exists 0%nat, u. simpl. rewrite Z.add_0_r. by repeat split.
      * exists (S k), u'. simpl. split; [done|]. split; [done|].
        replace (i0 + Z.of_nat (S k)) with (i0 + 1 + Z.of_nat k) by lia. by split.
    + intros ([|k] & u' & Hk & Hs & Hi & Hst & Hn & Hp); simpl in Hk.
      * injection Hk as <-. left. destruct ch; simpl in *.
        rewrite Z.add_0_r in *. by subst.
      * right. exists k, u'. split; [done|]. split; [done|].
        replace (i0 + 1 + Z.of_nat k) with (i0 + Z.of_nat (S k)) by lia. by repeat split.
Qed.

Lemma findPromotedChannel_Some now upstreams l ch :
  findPromotedChannel now upstreams l = Some ch → ch ∈ l ∧ promoted now upstreams ch.
Proof.
  induction l as [|c l IH]; simpl; [done|].
  destruct (String.eqb (Status c) "active") eqn:Ec; simpl.
  - destruct (getUpstreamByIndex (Index c) upstreams) as [uc|] eqn:Euc.
    + destruct (Config.IsChannelInPromotion now uc) eqn:Epc.
      * intros [= <-]. split; [by left|]. split; [by apply String.eqb_eq|]. by exists uc.
      * intros H. destruct (IH H). split; [by right|done].
    + intros H. destruct (IH H). split; [by right|done].
  - intros H. destruct (IH H). split; [by right|done].
Qed.

Lemma findPromotedChannel_None now upstreams l :
  findPromotedChannel now upstreams l = None → ∀ c, c ∈ l → ¬ promoted now upstreams c.
Proof.
  induction l as [|c l IH]; simpl; intros H c' Hc'; [by apply elem_of_nil in Hc'|].
  intros (Hst & u & Hu & Hp).
  apply elem_of_cons in Hc' as [->|Hc'].
  - apply String.eqb_eq in Hst. rewrite Hst, Hu, Hp in H. done.
  - destruct (String.eqb (Status c) "active"); simpl in H.
    + destruct (getUpstreamByIndex (Index c) upstreams) as [uc|].
      * destruct (Config.IsChannelInPromotion now uc); [done|].
        apply (IH H c' Hc'). split; [done|]. by exists u.
      * apply (IH H c' Hc'). split; [done|]. by exists u.
    + apply (IH H c' Hc'). split; [done|]. by exists u.
Qed.

Lemma getUpstreamByIndex_nat (k : nat) upstreams :
  getUpstreamByIndex (Z.of_nat k) upstreams = upstreams !! k.
Proof.
  unfold getUpstreamByIndex. rewrite Nat2Z.id.
  destruct (Z.leb_spec 0 (Z.of_nat k)); [|lia]. simpl.
  destruct (Z.ltb_spec (Z.of_nat k) (Z.of_nat (length upstreams))); [done|].
  symmetry. apply lookup_ge_None. lia.
Qed.

Lemma failures_le_length (w : list bool) : 0 ≤ Metrics.failures w ≤ Z.of_nat (length w).
Proof.
  unfold Metrics.failures. pose proof (length_filter (λ b : bool, b = false) w). lia.
Qed.

(** A failure rate is at most one, so below the initial best rate 2. *)
Lemma CalculateChannelFailureRate_lt_2 baseURL keys m :
  (Metrics.CalculateChannelFailureRate generateMetricsKey baseURL keys m < 2)%Q.
Proof.
  unfold Metrics.CalculateChannelFailureRate.
  destruct (Z.of_nat (length keys) =? 0); [done|].
  set (total := Metrics.totalResults generateMetricsKey baseURL keys m).
  destruct (Z.eqb_spec (Z.of_nat (length total)) 0); [done|].
  pose proof (failures_le_length total).
  unfold Qlt. simpl. rewrite Z2Pos.id by lia. lia.
Qed.

Lemma Qlt_bool_true a b : Qlt_bool a b = true ↔ (a < b)%Q.
Proof.
  unfold Qlt_bool. rewrite negb_true_iff. split.
  - intros H. apply Qnot_le_lt. intros Hle. apply Qle_bool_iff in Hle. congruence.
  - intros H. destruct (Qle_bool b a) eqn:E; [|done].
    apply Qle_bool_iff in E. exfalso. by apply (Qlt_not_le a b).
Qed.

Lemma Qlt_bool_false a b : Qlt_bool a b = false ↔ (b <= a)%Q.
Proof.
  unfold Qlt_bool. rewrite negb_false_iff. apply Qle_bool_iff.
Qed.

Lemma nonempty_length {A} (l : list A) : (Z.of_nat (length l) =? 0) = false ↔ l ≠ [].
Proof. destruct l; simpl; split; try done. Qed.

(** The invariant of the fallback loop. *)
Lemma fallbackLoop_spec m upstreams failedChannels l : ∀ best r,
  let res := fallbackLoop generateMetricsKey m upstreams failedChannels l best r in
  (snd res <= r)%Q ∧
  (∀ c u, c ∈ l → candidate upstreams failedChannels c u → (snd res <= rateOf generateMetricsKey m u)%Q) ∧
  ((fst res = best ∧ snd res = r) ∨
   (∃ c u, fst res = Some (c, u) ∧ c ∈ l ∧ candidate upstreams failedChannels c u ∧
           snd res = rateOf generateMetricsKey m u)).
Proof.
  induction l as [|ch l IH]; intros best r; simpl.
  { split; [apply Qle_refl|]. split; [intros c u Hc; by apply elem_of_nil in Hc|by left]. }
  assert (Hskip : ¬ (∃ u, candidate upstreams failedChannels ch u) →
    let res := fallbackLoop generateMetricsKey m upstreams failedChannels l best r in
    (snd res <= r)%Q ∧
    (∀ c u, c ∈ ch :: l → candidate upstreams failedChannels c u → (snd res <= rateOf generateMetricsKey m u)%Q) ∧
    ((fst res = best ∧ snd res = r) ∨
     (∃ c u, fst res = Some (c, u) ∧ c ∈ ch :: l ∧ candidate upstreams failedChannels c u ∧
             snd res = rateOf generateMetricsKey m u))).
  { intros Hno. destruct (IH best r) as (H1 & H2 & H3). split; [done|]. split.
    - intros c u Hc Hcand. apply elem_of_cons in Hc as [->|Hc]; [exfalso; apply Hno; by exists u|by apply (H2 c u)].
    - destruct H3 as [?|(c & u & ? & ? & ? & ?)]; [by left|right].
      exists c, u. split; [done|]. split; [by right|]. by split. }
  destruct (isFailed failedChannels (Index ch)) eqn:Ef.
  { apply Hskip. intros (u & _ & Hf & _). congruence. }
  destruct (String.eqb (Status ch) "active") eqn:Es; simpl; cycle 1.
  { apply Hskip. intros (u & Hst & _). apply String.eqb_neq in Es. done. }
  destruct (getUpstreamByIndex (Index ch) upstreams) as [uc|] eqn:Eu; cycle 1.
  { apply Hskip. intros (u & _ & _ & Hu & _). congruence. }
  destruct (Z.eqb_spec (Z.of_nat (length (Config.APIKeys uc))) 0) as [E0|E0].
  { apply Hskip. intros (u & _ & _ & Hu & Hk). assert (u = uc) as -> by congruence.
    destruct (Config.APIKeys uc); [done|simpl in E0; lia]. }
  assert (Hcand : candidate upstreams failedChannels ch uc).
  { split; [by apply String.eqb_eq|]. split; [done|]. split; [done|].
    intros E. rewrite E in E0. done. }
  fold (rateOf generateMetricsKey m uc).
  destruct (Qlt_bool (rateOf generateMetricsKey m uc) r) eqn:Elt.
  - apply Qlt_bool_true in Elt.
    destruct (IH (Some (ch, uc)) (rateOf generateMetricsKey m uc)) as (H1 & H2 & H3).
    split; [eapply Qle_trans; [exact H1|by apply Qlt_le_weak]|]. split.
    + intros c u Hc Hcu. apply elem_of_cons in Hc as [->|Hc]; [|by apply (H2 c u)].
      assert (u = uc) as -> by (destruct Hcu as (_ & _ & Hu & _); congruence). done.
    + right. destruct H3 as [[-> ->]|(c & u & ? & ? & ? & ?)].
      * exists ch, uc. split; [done|]. split; [by left|]. by split.
      * exists c, u. split; [done|]. split; [by right|]. by split.
  - apply Qlt_bool_false in Elt.
    destruct (IH best r) as (H1 & H2 & H3).
    split; [done|]. split.
    + intros c u Hc Hcu. apply elem_of_cons in Hc as [->|Hc]; [|by apply (H2 c u)].
      assert (u = uc) as -> by (destruct Hcu as (_ & _ & Hu & _); congruence).
      eapply Qle_trans; [exact H1|done].
    + destruct H3 as [?|(c & u & ? & ? & ? & ?)]; [by left|right].
      exists c, u. split; [done|]. split; [by right|]. by split.
Qed.

(** C9, as the code has it.  When the scheduling sequence is not empty
    and neither the promotion rule, the trace-affinity rule nor the
    priority rule produces a channel, [SelectChannel] returns, with
    reason fallback, a channel whose status is active (a suspended one
    is passed over), that has not failed in this request and has a key,
    and whose failure rate is lowest among such channels; it returns an
    error when there is no such channel. *)
Theorem SelectChannel_fallback
    (now : Z) (userID : string) (failedChannels : gmap Z bool) (kind : ChannelKind)
    (s : ChannelScheduler) :
  let upstreams := upstreamsOf kind (Config.config (configManager s)) in
  let activeChannels := getActiveChannels sort_Slice kind s in
  let m := getMetricsManager kind s in
  activeChannels ≠ [] →
  promotionRule now upstreams activeChannels failedChannels = None →
  affinityRule generateMetricsKey kind s userID upstreams activeChannels failedChannels = None →
  priorityRule generateMetricsKey m upstreams failedChannels activeChannels = None →
  match SelectChannel generateMetricsKey sort_Slice now userID failedChannels kind s with
  | Ok r =>
      Reason r = "fallback" ∧
      ∃ ch, ch ∈ activeChannels ∧ ChannelIndex r = Index ch ∧
            candidate upstreams failedChannels ch (Upstream r) ∧
            ∀ c u, c ∈ activeChannels → candidate upstreams failedChannels c u →
                   (rateOf generateMetricsKey m (Upstream r) <= rateOf generateMetricsKey m u)%Q
  | Err _ => ∀ c u, c ∈ activeChannels → ¬ candidate upstreams failedChannels c u
  end.
Proof.
  intros upstreams activeChannels m Hne Hprom Haff Hprio.
  unfold SelectChannel. fold upstreams activeChannels m.
  apply nonempty_length in Hne. rewrite Hne, Hprom, Haff, Hprio.
  unfold selectFallbackChannel.
  destruct (fallbackLoop_spec m upstreams failedChannels activeChannels None 2%Q)
    as (H1 & H2 & H3).
  destruct H3 as [[Hb Hr]|(c & u & Hb & Hc & Hcand & Hr)]; rewrite Hb.
  - intros c u Hc Hcand. specialize (H2 c u Hc Hcand). rewrite Hr in H2.
    pose proof (CalculateChannelFailureRate_lt_2 (Config.BaseURL u) (Config.APIKeys u) m).
    by apply (Qlt_not_le (rateOf generateMetricsKey m u) 2).
  - simpl. split; [done|]. exists c. split; [done|]. split; [done|]. split; [done|].
    intros c' u' Hc' Hcand'. rewrite <- Hr. by apply (H2 c' u').
Qed.

Hypothesis sort_Slice_perm : ∀ less l, sort_Slice less l ≡ₚ l.

(** The promotion rule under the exclusivity that setting a promotion
    maintains: when one channel only is active and in promotion, it is the
    one selected. *)
Lemma SelectChannel_promotion_unique
    (now : Z) (userID : string) (failedChannels : gmap Z bool) (kind : ChannelKind)
    (s : ChannelScheduler) (i : nat) (upstream : Config.UpstreamConfig) :
  let upstreams := upstreamsOf kind (Config.config (configManager s)) in
  upstreams !! i = Some upstream →
  statusOf upstream = "active" →
  Config.IsChannelInPromotion now upstream = true →
  (∀ j other, j ≠ i → upstreams !! j = Some other →
     ¬ (statusOf other = "active" ∧ Config.IsChannelInPromotion now other = true)) →
  isFailed failedChannels (Z.of_nat i) = false →
  Config.APIKeys upstream ≠ [] →
  SelectChannel generateMetricsKey sort_Slice now userID failedChannels kind s =
  Ok {| Upstream := upstream; ChannelIndex := Z.of_nat i; Reason := "promotion_priority" |}.
Proof.
  intros upstreams Hi Hst Hp Huniq Hf Hk.
  set (active := getActiveChannels sort_Slice kind s).
  assert (Hmem : ∀ c, c ∈ active ↔ c ∈ collectActive 0 upstreams).
  { intros c. unfold active, getActiveChannels. by rewrite sort_Slice_perm. }
  assert (Hin : ∃ ch, ch ∈ active ∧ Index ch = Z.of_nat i ∧ Status ch = "active").
  { eexists {| Index := Z.of_nat i; Name := Config.Name upstream;
               Priority := _; Status := "active" |}.
    split; [|done]. apply Hmem, collectActive_elem.
    exists i, upstream. simpl. rewrite Hst. repeat split; try done. }
  destruct Hin as (ch & Hch & Hidx & Hcst).
  destruct (findPromotedChannel now upstreams active) as [pc|] eqn:Efind; cycle 1.
  { exfalso. apply (findPromotedChannel_None _ _ _ Efind ch Hch).
    split; [done|]. exists upstream. by rewrite Hidx, getUpstreamByIndex_nat. }
  destruct (findPromotedChannel_Some _ _ _ _ Efind) as (Hpc & Hpst & u & Hu & Hup).
  apply Hmem, collectActive_elem in Hpc as (k & uk & Hk1 & _ & Hk2 & Hk3 & _).
  rewrite Z.add_0_l in Hk2. rewrite Hk2, getUpstreamByIndex_nat, Hk1 in Hu. injection Hu as ->.
  assert (k = i) as ->.
  { destruct (decide (k = i)) as [|Hne]; [done|]. exfalso.
    apply (Huniq k u Hne Hk1). split; [congruence|done]. }
  assert (u = upstream) as -> by congruence.
  unfold SelectChannel. fold active upstreams.
  destruct (Z.eqb_spec (Z.of_nat (length active)) 0) as [E0|_].
  { destruct active; [by apply elem_of_nil in Hch|simpl in E0; lia]. }
  unfold promotionRule. rewrite Efind, Hk2. simpl. rewrite Hf. simpl.
  rewrite getUpstreamByIndex_nat, Hi.
  destruct (Config.APIKeys upstream); [done|]. done.
Qed.


End Proofs.

(** The insertion sort rearranges its input. *)
Lemma insertionSort_perm less l : Examples.insertionSort less l ≡ₚ l.
Proof.
  unfold Examples.insertionSort. induction l as [|x l IH]; simpl; [done|].
  rewrite <- IH at 2. generalize (foldr (Examples.insertBy less) [] l). intros l'.
  induction l' as [|y l' IH']; simpl; [done|].
  destruct (less x y); [done|]. rewrite IH'. apply Permutation_swap.
Qed.

(** Channel A, in promotion and with a window of failures only, comes
    after the plain channel C and before channel B, also in promotion, in
    priority order.  It is selected by promotion, unhealthy as it is; once
    it has failed in this request nothing is selected by promotion, and
    with C failed as well channel B is returned in priority order. *)
Lemma SelectChannel_promotion_first_witness :
  let rows := {[ Examples.metricsKey "https://a" "ka" := Examples.failingRow "https://a" "ka" ]} in
  let s := Examples.schedulerOf Examples.promotedBehindPlain rows in
  getActiveChannels Examples.insertionSort "chat" s =
    [ {| Index := 2; Name := "C"; Priority := 1; Status := "active" |};
      {| Index := 1; Name := "A"; Priority := 2; Status := "active" |};
      {| Index := 0; Name := "B"; Priority := 3; Status := "active" |} ] ∧
  Metrics.IsChannelHealthyWithKeys Examples.metricsKey "https://a" ["ka"] (Examples.engine rows)
    = false ∧
  SelectChannel Examples.metricsKey Examples.insertionSort 500 "" ∅ "chat" s =
    Ok {| Upstream := Examples.channel "A" "https://a" ["ka"] 2 "active" (Some 1000);
          ChannelIndex := 1; Reason := "promotion_priority" |} ∧
  promotionRule 500 (upstreamsOf "chat" (Config.config (configManager s)))
    (getActiveChannels Examples.insertionSort "chat" s) {[ 1 := true; 2 := true ]} = None ∧
  SelectChannel Examples.metricsKey Examples.insertionSort 500 ""
    {[ 1 := true; 2 := true ]} "chat" s =
    Ok {| Upstream := Examples.channel "B" "https://b" ["kb"] 3 "active" (Some 1000);
          ChannelIndex := 0; Reason := "priority_order" |}.
Proof.
  intros rows s.
  assert (Hpre : ∀ c, c ∈ [ {| Index := 2; Name := "C"; Priority := 1; Status := "active" |} ] →
                   ¬ promoted 500 (upstreamsOf "chat" (Config.config (configManager s))) c).
  { intros c ->%list_elem_of_singleton (_ & u & Hu & Hp). vm_compute in Hu.
    injection Hu as <-. discriminate Hp. }
  split; [reflexivity|]. split; [reflexivity|]. split; [|split; [|reflexivity]].
  - apply (SelectChannel_promotion_first Examples.metricsKey Examples.insertionSort 500 "" ∅
             "chat" s
             [ {| Index := 2; Name := "C"; Priority := 1; Status := "active" |} ]
             [ {| Index := 0; Name := "B"; Priority := 3; Status := "active" |} ]
             {| Index := 1; Name := "A"; Priority := 2; Status := "active" |}
             (Examples.channel "A" "https://a" ["ka"] 2 "active" (Some 1000)));
      [reflexivity | exact Hpre | reflexivity | reflexivity | reflexivity | reflexivity
      | discriminate].
  - apply (SelectChannel_promotion_first Examples.metricsKey Examples.insertionSort 500 ""
             {[ 1 := true; 2 := true ]} "chat" s
             [ {| Index := 2; Name := "C"; Priority := 1; Status := "active" |} ]
             [ {| Index := 0; Name := "B"; Priority := 3; Status := "active" |} ]
             {| Index := 1; Name := "A"; Priority := 2; Status := "active" |}
             (Examples.channel "A" "https://a" ["ka"] 2 "active" (Some 1000)));
      [reflexivity | exact Hpre | reflexivity | reflexivity | reflexivity
      | left; reflexivity].
Defined.

(** C4 fails as stated: channel B is active, in promotion, has not failed
    in this request and has a key, yet it is not returned: channel A,
    also in promotion and before B in priority order, has failed in this
    request, so the promotion rule gives nothing, and B, whose window is
    failures only, is then passed over by the health check; channel C is
    returned with reason priority_order. *)
Lemma SelectChannel_promotion_counterexample :
  let rows := {[ Examples.metricsKey "https://b" "kb" := Examples.failingRow "https://b" "kb" ]} in
  let s := Examples.schedulerOf Examples.twoPromoted rows in
  let failedChannels : gmap Z bool := {[ 0 := true ]} in
  (∃ b, Config.ChatUpstream (Config.config (configManager s)) !! 1%nat = Some b ∧
        Config.Status b = "active" ∧ Config.IsChannelInPromotion 500 b = true ∧
        isFailed failedChannels 1 = false ∧ Config.APIKeys b ≠ []) ∧
  SelectChannel Examples.metricsKey Examples.insertionSort 500 "" failedChannels "chat" s =
  Ok {| Upstream := Examples.channel "C" "https://c" ["kc"] 3 "active" None;
        ChannelIndex := 2; Reason := "priority_order" |}.
Proof.
  intros rows s failedChannels. split; [|reflexivity].
  eexists. split; [reflexivity|]. repeat split; try reflexivity. discriminate.
Qed.

(** Two active channels, both unhealthy: the one with the lower failure
    rate is the fallback. *)
Lemma SelectChannel_fallback_witness :
  let rows := {[ Examples.metricsKey "https://a" "ka" := Examples.failingRow "https://a" "ka";
                 Examples.metricsKey "https://b" "kb" := Examples.halfFailingRow ]} in
  ∃ r, SelectChannel Examples.metricsKey Examples.insertionSort 500 "" ∅ "chat"
         (Examples.schedulerOf Examples.twoUnhealthy rows) = Ok r ∧
       Reason r = "fallback" ∧ ChannelIndex r = 1.
Proof.
  intros rows.
  pose proof (SelectChannel_fallback Examples.metricsKey Examples.insertionSort 500 "" ∅ "chat"
                (Examples.schedulerOf Examples.twoUnhealthy rows)) as H.
  cbv zeta in H.
  assert (Hact : getActiveChannels Examples.insertionSort "chat"
                   (Examples.schedulerOf Examples.twoUnhealthy rows) ≠ []) by (vm_compute; discriminate).
  specialize (H Hact eq_refl eq_refl eq_refl).
  exists {| Upstream := Examples.channel "B" "https://b" ["kb"] 2 "active" None;
            ChannelIndex := 1; Reason := "fallback" |}.
  change (SelectChannel Examples.metricsKey Examples.insertionSort 500 "" ∅ "chat"
            (Examples.schedulerOf Examples.twoUnhealthy rows))
    with (Ok {| Upstream := Examples.channel "B" "https://b" ["kb"] 2 "active" None;
                ChannelIndex := 1; Reason := "fallback" |}) in H |- *.
  destruct H as [Hreason _].
  split; [reflexivity|]. split; [exact Hreason|reflexivity].
Defined.

(** C9 fails as stated: channel S is suspended, so it is part of the
    scheduling sequence, it has not failed in this request, it has a key
    and its failure rate (0) is lower than that of channel A (1); the
    fallback is channel A. *)
Lemma SelectChannel_fallback_counterexample :
  let rows := {[ Examples.metricsKey "https://a" "ka" := Examples.failingRow "https://a" "ka" ]} in
  let s := Examples.schedulerOf Examples.suspendedAndActive rows in
  let S := Examples.channel "S" "https://s" ["ks"] 1 "suspended" None in
  let A := Examples.channel "A" "https://a" ["ka"] 2 "active" None in
  Config.ChatUpstream (Config.config (configManager s)) = [S; A] ∧
  (∃ ch, ch ∈ getActiveChannels Examples.insertionSort "chat" s ∧ Index ch = 0 ∧
         Status ch = "suspended") ∧
  isFailed ∅ 0 = false ∧
  (rateOf Examples.metricsKey (getMetricsManager "chat" s) S <
   rateOf Examples.metricsKey (getMetricsManager "chat" s) A)%Q ∧
  SelectChannel Examples.metricsKey Examples.insertionSort 500 "" ∅ "chat" s =
  Ok {| Upstream := A; ChannelIndex := 1; Reason := "fallback" |}.
Proof.
  intros rows s S A.
  split; [reflexivity|]. split.
  { exists {| Index := 0; Name := "S"; Priority := 1; Status := "suspended" |}.
    split; [|done]. vm_compute. left. }
  split; [reflexivity|]. split; [reflexivity|reflexivity].
Qed.

End SchedulerFacts.

(** ** Failover executor *)

Module FailoverFacts.
Import Failover Props.

Section Proofs.

Variable generateMetricsKey : string → string → string.
Variable MaskAPIKey : string → string.
Variable Request : Type.
Variable clock : nat → Z.
Variable nextAPIKey :
  Z → Config.UpstreamConfig → gmap string bool → Config.ConfigManager → result string.
Variable buildRequest : Config.UpstreamConfig → string → result Request.
Variable SendRequest : nat → Request → result Response.
Variable handleSuccess :
  nat → Response → Config.UpstreamConfig → string → option Metrics.Usage * option error.
Variable ShouldRetryWithNextKey : Z → string → bool → string → bool * bool.
Variable DecompressGzipIfNeeded : Response → string → string.
Variable RedirectModel : string → Config.UpstreamConfig → string.
Variable hasDeprioritizeKey hasMarkURLFailure hasMarkURLSuccess hasChannelLogStore : bool.

Abbreviation attemptOnce' :=
  (attemptOnce generateMetricsKey MaskAPIKey Request clock nextAPIKey buildRequest SendRequest
     handleSuccess ShouldRetryWithNextKey DecompressGzipIfNeeded RedirectModel
     hasDeprioritizeKey hasMarkURLFailure hasMarkURLSuccess hasChannelLogStore).
Abbreviation keyLoop' :=
  (keyLoop generateMetricsKey MaskAPIKey Request clock nextAPIKey buildRequest SendRequest
     handleSuccess ShouldRetryWithNextKey DecompressGzipIfNeeded RedirectModel
     hasDeprioritizeKey hasMarkURLFailure hasMarkURLSuccess hasChannelLogStore).
Abbreviation finishURL' :=
  (finishURL generateMetricsKey MaskAPIKey Request clock nextAPIKey buildRequest SendRequest
     handleSuccess ShouldRetryWithNextKey DecompressGzipIfNeeded RedirectModel
     hasDeprioritizeKey hasMarkURLFailure hasMarkURLSuccess hasChannelLogStore).

Lemma attemptOnce_build_error kind apiType upstream model channelIndex forceProbeMode
    urlIdx urlResult attempt w failedKeys l apiKey err :
  nextAPIKey (clock (ticks w)) upstream failedKeys (Scheduler.configManager (scheduler w))
    = Ok apiKey →
  negb forceProbeMode &&
    Metrics.ShouldSuspendKey generateMetricsKey (URL urlResult) apiKey
      (Scheduler.getMetricsManager kind (scheduler w)) = false →
  buildRequest (cloneWithBaseURL (URL urlResult) upstream) apiKey = Err err →
  attemptOnce' kind apiType upstream model channelIndex forceProbeMode urlIdx urlResult
    attempt w failedKeys l = Return (buildFailed err) (afterBuildFailure w).
Proof.
  intros Hkey Hcircuit Hbuild. unfold attemptOnce. simpl.
  rewrite Hkey. simpl. rewrite Hcircuit, Hbuild. done.
Qed.

(** What follows the key loop of the first URL is the rest of the run. *)
Lemma urlLoop_cons kind apiType upstream model channelIndex forceProbeMode urlIdx
    urlResult rest w l :
  urlLoop generateMetricsKey MaskAPIKey Request clock nextAPIKey buildRequest SendRequest
    handleSuccess ShouldRetryWithNextKey DecompressGzipIfNeeded RedirectModel
    hasDeprioritizeKey hasMarkURLFailure hasMarkURLSuccess hasChannelLogStore
    kind apiType upstream model channelIndex forceProbeMode urlIdx (urlResult :: rest) w l =
  finishURL' kind apiType upstream model channelIndex forceProbeMode urlIdx rest
    (keyLoop' kind apiType upstream model channelIndex forceProbeMode urlIdx urlResult
       (length (Config.APIKeys upstream)) 0 w ∅ l).
Proof. reflexivity. Qed.

(** The executor of src/unnamed/part_001, which the Chat handler calls,
    does what the specification says of a request that cannot be built.
    At any attempt of the executor (any base URL, any attempt
    number, any keys already failed, any state of the world), when a key
    is obtained, the circuit check lets it pass and the build-request
    callback returns an error, the run ends there: handled is false, the
    error is the callback's error wrapped, no key is returned; the
    scheduler, and with it every metrics engine (counters, windows,
    histories, persistent queue) and the failed-key cache, is what it
    was; and the only event is the restoring of the request body: nothing
    is sent, no URL is marked, no further key or URL is tried. *)
Theorem TryUpstreamWithAllKeys_build_error
    kind apiType upstream model channelIndex forceProbeMode
    urlIdx urlResult (rest : list URLLatencyResult) (remaining : nat) attempt
    w failedKeys l apiKey err :
  nextAPIKey (clock (ticks w)) upstream failedKeys (Scheduler.configManager (scheduler w))
    = Ok apiKey →
  negb forceProbeMode &&
    Metrics.ShouldSuspendKey generateMetricsKey (URL urlResult) apiKey
      (Scheduler.getMetricsManager kind (scheduler w)) = false →
  buildRequest (cloneWithBaseURL (URL urlResult) upstream) apiKey = Err err →
  let '(r, w') :=
    finishURL' kind apiType upstream model channelIndex forceProbeMode urlIdx rest
      (keyLoop' kind apiType upstream model channelIndex forceProbeMode urlIdx urlResult
         (S remaining) attempt w failedKeys l) in
  handled r = false ∧
  lastError r = Some (ErrWrap "request build failed: " err) ∧
  successKey r = "" ∧ failoverErr r = None ∧ usage r = None ∧
  scheduler w' = scheduler w ∧
  events w' = events w ++ [EvRestoreRequestBody].
Proof.
  intros Hkey Hcircuit Hbuild. simpl.
  rewrite (attemptOnce_build_error _ _ _ _ _ _ _ _ _ _ _ _ apiKey err Hkey Hcircuit Hbuild).
  simpl. done.
Qed.

End Proofs.


(** A run on a channel with two keys and two base URLs, in a world where
    no request can be built: it ends on the first attempt. *)
Lemma TryUpstreamWithAllKeys_build_error_witness :
  let '(r, w') :=
    TryUpstreamWithAllKeys Examples.metricsKey Examples.mask string Examples.clock
      Examples.nextChatKey Examples.cannotBuild Examples.answer200 Examples.writeBack
      Examples.retryOn5xx (λ _ body, body) (λ model _, model) true true true true
      "chat" "Chat" Examples.twoKeys
      [ {| URL := "https://u1"; OriginalIdx := 0 |}; {| URL := "https://u2"; OriginalIdx := 1 |} ]
      "gpt-4" 0 Examples.world in
  handled r = false ∧
  lastError r = Some (ErrWrap "request build failed: " (ErrMsg "unsupported service type")) ∧
  successKey r = "" ∧ failoverErr r = None ∧ usage r = None ∧
  scheduler w' = scheduler Examples.world ∧
  events w' = [EvRestoreRequestBody].
Proof.
  exact (TryUpstreamWithAllKeys_build_error Examples.metricsKey Examples.mask string
           Examples.clock Examples.nextChatKey Examples.cannotBuild Examples.answer200
           Examples.writeBack Examples.retryOn5xx (λ _ body, body) (λ model _, model)
           true true true true
           "chat" "Chat" Examples.twoKeys "gpt-4" 0 false 0
           {| URL := "https://u1"; OriginalIdx := 0 |}
           [ {| URL := "https://u2"; OriginalIdx := 1 |} ] 1 0
           Examples.world ∅ Examples.noLocals "k1" (ErrMsg "unsupported service type")
           eq_refl eq_refl eq_refl).
Defined.

End FailoverFacts.

(** ** Chat adapter *)

Module ChatFacts.
Import Chat Props.

Lemma Split_nonempty s : Split s ≠ [].
Proof.
  destruct s as [|c s]; simpl; [done|].
  destruct (Ascii.eqb c _); [done|]. by destruct (Split s).
Qed.

Lemma Split_noLF s : noLF s = true → Split s = [s].
Proof.
  induction s as [|c s IH]; simpl; [done|].
  intros [Hc Hs]%andb_true_iff. apply negb_true_iff in Hc. rewrite Hc, (IH Hs). done.
Qed.

Lemma Split_cons_noLF a b : noLF a = true → Split (a +:+ LF +:+ b) = a :: Split b.
Proof.
  induction a as [|c a IH]; simpl; [done|].
  intros [Hc Hs]%andb_true_iff. apply negb_true_iff in Hc.
  change (String c a +:+ LF +:+ b) with (String c (a +:+ LF +:+ b)). simpl.
  rewrite Hc, (IH Hs). done.
Qed.

Lemma last_Split_noLF s : noLF (List.last (Split s) "") = true.
Proof.
  induction s as [|c s IH]; simpl; [done|].
  destruct (Ascii.eqb c _) eqn:Ec.
  - pose proof (Split_nonempty s). by destruct (Split s).
  - pose proof (Split_nonempty s). destruct (Split s) as [|h [|h' t]]; [done| |done].
    simpl in *. by rewrite Ec, IH.
Qed.

(** Splitting a concatenation: the unfinished last line of the first part
    is completed by the second part. *)
Lemma Split_app a b :
  Split (a +:+ b) = removelast (Split a) ++ Split (List.last (Split a) "" +:+ b).
Proof.
  induction a as [|c a IH]; [done|].
  rewrite BasicFacts.append_String. simpl.
  destruct (Ascii.eqb c _) eqn:Ec.
  - rewrite IH. pose proof (Split_nonempty a). by destruct (Split a).
  - rewrite IH. pose proof (Split_nonempty a).
    destruct (Split a) as [|h [|h' t]]; [done| |].
    + simpl. by rewrite Ec.
    + reflexivity.
Qed.

Lemma List_last_app {A} (l l' : list A) d : l' ≠ [] → List.last (l ++ l') d = List.last l' d.
Proof.
  intros Hne. induction l as [|x l IH]; [done|].
  simpl. rewrite IH. destruct (l ++ l') eqn:E; [|done].
  apply app_eq_nil in E as [_ ?]. done.
Qed.

Lemma stripPrefix_Some p s r : stripPrefix p s = Some r ↔ s = p +:+ r.
Proof.
  revert s. induction p as [|a p IH]; intros s; simpl.
  - split; [by intros [= ->]|by intros ->].
  - destruct s as [|b s]; [done|]. rewrite BasicFacts.append_String.
    destruct (Ascii.eqb_spec a b) as [->|Hne].
    + rewrite IH. split; [by intros ->|by intros [= ->]].
    + split; [done|]. intros [= ? ?]. done.
Qed.

Section Proofs.

Variable json_Unmarshal : string → option (gmap string JSON).
Variable json_Marshal : JSON → string.

Hypothesis json_Marshal_noLF : ∀ j, noLF (json_Marshal j) = true.
Hypothesis json_Marshal_object : ∀ m, json_Marshal (JObject m) ≠ "[DONE]".

Abbreviation processLine' := (processLine json_Unmarshal json_Marshal).
Abbreviation processChunk' := (processChunk json_Unmarshal json_Marshal).
Abbreviation dataFrame' := (dataFrame json_Marshal).

Lemma processLine_cases created model st line :
  (line = "data: [DONE]" ∧
   processLine' created model st line =
   {| written := written st ++ [doneFrame]; totalUsage := totalUsage st; doneSent := true |}) ∨
  (line ≠ "data: [DONE]" ∧
   doneSent (processLine' created model st line) = doneSent st ∧
   (written (processLine' created model st line) = written st ∨
    ∃ payload, written (processLine' created model st line) = written st ++ [dataFrame' payload])).
Proof.
  unfold processLine, HasPrefix, TrimPrefix.
  destruct (stripPrefix "data: " line) as [jsonData|] eqn:Ep; simpl; cycle 1.
  { right. split; [|by split; [|left]].
    intros ->. done. }
  apply stripPrefix_Some in Ep. subst line.
  destruct (String.eqb_spec jsonData "[DONE]") as [->|Hne].
  { left. done. }
  right. split; [intros [= ?]; done|].
  repeat case_match; simpl; (split; [done|]); try (by left); try (right; by eexists).
Qed.

Lemma dataFrame_isFrame payload : isFrame (dataFrame' payload).
Proof. exists (json_Marshal (JObject payload)). by split. Qed.

Lemma doneFrame_isFrame : isFrame doneFrame.
Proof. by exists "[DONE]". Qed.

Lemma dataFrame_not_done payload : dataFrame' payload ≠ doneFrame.
Proof.
  unfold dataFrame, doneFrame. intros H.
  change ("data: [DONE]" +:+ LFLF) with ("data: " +:+ "[DONE]" +:+ LFLF) in H.
  apply (proj2 (stripPrefix_Some "data: " _ _)) in H.
  rewrite (proj2 (stripPrefix_Some "data: " _ _) eq_refl) in H.
  injection H as H. apply BasicFacts.append_inj_l in H. by apply json_Marshal_object in H.
Qed.

(** The effect of the line loop on the terminator writes and on the
    [doneSent] flag. *)
Lemma foldl_processLine created model lines : ∀ st,
  Forall isFrame (written st) →
  let st' := foldl (processLine' created model) st lines in
  Forall isFrame (written st') ∧
  doneWrites (written st') = (doneWrites (written st) + countDone lines)%nat ∧
  doneSent st' = doneSent st || bool_decide (0 < countDone lines)%nat.
Proof.
  induction lines as [|line lines IH]; intros st Hfr; simpl.
  { split; [done|]. split; [unfold countDone; simpl; lia|].
    by rewrite orb_false_r. }
  unfold countDone. rewrite filter_cons. fold (countDone lines).
  destruct (processLine_cases created model st line) as [[-> Hst]|(Hne & Hds & Hw)].
  - rewrite Hst. rewrite decide_True by done.
    destruct (IH {| written := written st ++ [doneFrame]; totalUsage := totalUsage st;
                    doneSent := true |}) as (H1 & H2 & H3).
    { simpl. apply Forall_app. split; [done|]. constructor; [apply doneFrame_isFrame|done]. }
    split; [done|]. split.
    + rewrite H2. unfold doneWrites, countDone. cbn [written].
      rewrite filter_app, length_app.
      rewrite filter_cons, decide_True by done. simpl. lia.
    + rewrite H3. cbn [doneSent]. symmetry. apply orb_true_iff. right.
      apply bool_decide_eq_true. simpl. lia.
  - rewrite decide_False by done.
    destruct (IH (processLine' created model st line)) as (H1 & H2 & H3).
    { destruct Hw as [->|[payload ->]]; [done|].
      apply Forall_app. split; [done|]. constructor; [apply dataFrame_isFrame|done]. }
    split; [done|]. split.
    + rewrite H2. f_equal. destruct Hw as [->|[payload ->]]; [done|].
      unfold doneWrites. rewrite filter_app, length_app.
      rewrite filter_cons, decide_False by apply dataFrame_not_done. simpl. lia.
    + by rewrite H3, Hds.
Qed.

(** The chunk loop processes the complete lines of what was read so far
    and keeps the unfinished last line. *)
Lemma foldl_processChunk created model chunks : ∀ st remainder,
  noLF remainder = true →
  foldl (processChunk' created model) (st, remainder) chunks =
  (foldl (processLine' created model) st
     (removelast (Split (remainder +:+ foldr String.append "" chunks))),
   List.last (Split (remainder +:+ foldr String.append "" chunks)) "").
Proof.
  induction chunks as [|chunk chunks IH]; intros st remainder Hr; simpl.
  { rewrite BasicFacts.append_empty_r, (Split_noLF _ Hr). done. }
  destruct (Z.ltb_spec 0 (Z.of_nat (String.length chunk))) as [Hlen|Hlen].
  - rewrite IH by apply last_Split_noLF.
    rewrite <- BasicFacts.append_assoc, (Split_app (remainder +:+ chunk)).
    pose proof (Split_nonempty (List.last (Split (remainder +:+ chunk)) "" +:+ foldr String.append "" chunks)).
    rewrite removelast_app by done. rewrite foldl_app.
    f_equal. by rewrite List_last_app.
  - assert (chunk = "") as -> by (destruct chunk; [done|simpl in Hlen; lia]).
    by apply IH.
Qed.

(** What the client reads when every write is a frame: as many
    terminator lines as terminator writes. *)
Lemma countDone_clientLines written :
  Forall isFrame written → countDone (clientLines written) = doneWrites written.
Proof.
  unfold clientLines. induction 1 as [|f written (payload & Hp & ->) _ IH]; [done|].
  cbn [foldr].
  assert (E : ("data: " +:+ payload +:+ LFLF) +:+ foldr String.append "" written =
              ("data: " +:+ payload) +:+ LF +:+ ("" +:+ LF +:+ foldr String.append "" written)).
  { unfold LFLF. rewrite !BasicFacts.append_assoc. reflexivity. }
  rewrite E. clear E.
  rewrite Split_cons_noLF by exact Hp.
  rewrite (Split_cons_noLF "") by done.
  unfold countDone, doneWrites in *. rewrite !filter_cons.
  rewrite (decide_False (P := "" = "data: [DONE]")) by done.
  assert (Hframe : "data: " +:+ payload +:+ LFLF = doneFrame ↔ payload = "[DONE]").
  { split; [|by intros ->]. intros H.
    change ("data: " +:+ payload +:+ LFLF = "data: " +:+ "[DONE]" +:+ LFLF) in H.
    apply (proj2 (stripPrefix_Some "data: " _ _)) in H.
    rewrite (proj2 (stripPrefix_Some "data: " _ _) eq_refl) in H.
    injection H as H. by apply BasicFacts.append_inj_l in H. }
  assert (Hline : "data: " +:+ payload = "data: [DONE]" ↔ payload = "[DONE]").
  { split; [|by intros ->]. intros H.
    change ("data: " +:+ payload = "data: " +:+ "[DONE]") in H.
    apply (proj2 (stripPrefix_Some "data: " _ _)) in H.
    rewrite (proj2 (stripPrefix_Some "data: " _ _) eq_refl) in H.
    by injection H. }
  destruct (decide (payload = "[DONE]")) as [Hd|Hne].
  - rewrite (decide_True (P := "data: " +:+ payload = "data: [DONE]")) by by apply Hline.
    rewrite (decide_True (P := "data: " +:+ payload +:+ LFLF = doneFrame)) by by apply Hframe.
    simpl. by rewrite IH.
  - rewrite (decide_False (P := "data: " +:+ payload = "data: [DONE]")) by by rewrite Hline.
    rewrite (decide_False (P := "data: " +:+ payload +:+ LFLF = doneFrame)) by by rewrite Hframe.
    done.
Qed.

(** C7, as the code has it.  With an encoder that writes no line feed
    and never writes an object as [[DONE]], the client receives the line
    [data: [DONE]] once when the complete lines of the upstream body
    hold it at most once, and once for each time they hold it otherwise:
    the maximum of 1 and their number. *)
Theorem streamClaudeToChat_done_lines (created : Z) (model : string) (chunks : list string) :
  countDone (clientLines (fst (streamClaudeToChat json_Unmarshal json_Marshal created model chunks)))
  = Nat.max 1 (countDone (upstreamLines chunks)).
Proof.
  unfold streamClaudeToChat, upstreamLines.
  rewrite foldl_processChunk by done.
  change ("" +:+ foldr String.append "" chunks) with (foldr String.append "" chunks).
  set (lines := removelast (Split (foldr String.append "" chunks))).
  destruct (foldl_processLine created model lines
              {| written := []; totalUsage := None; doneSent := false |})
    as (Hfr & Hcnt & Hds); [done|].
  simpl in *. fold lines.
  rewrite Hds. destruct (decide (0 < countDone lines)%nat) as [Hpos|Hzero].
  - rewrite bool_decide_true by done. simpl.
    rewrite countDone_clientLines by done. lia.
  - rewrite bool_decide_false by done. simpl.
    rewrite countDone_clientLines; cycle 1.
    { apply Forall_app. split; [done|]. constructor; [apply doneFrame_isFrame|done]. }
    unfold doneWrites in *. rewrite filter_app, length_app.
    rewrite filter_cons, decide_True by done. simpl. lia.
Qed.

End Proofs.

(** A body with one terminator line, cut across three reads, after a
    [message_delta] event: one terminator line for the client. *)
Lemma streamClaudeToChat_done_lines_witness :
  countDone (upstreamLines Examples.oneDone) = 1%nat ∧
  countDone (clientLines (fst (streamClaudeToChat Examples.decodeTag Examples.encodeEmpty
                                 0 "claude-3" Examples.oneDone))) = 1%nat.
Proof.
  split; [reflexivity|].
  rewrite (streamClaudeToChat_done_lines Examples.decodeTag Examples.encodeEmpty).
  - reflexivity.
  - intros j. reflexivity.
  - intros m. discriminate.
Defined.

(** C7 fails as stated: when the upstream body holds the line
    [data: [DONE]] twice, the client receives it twice. *)
Lemma streamClaudeToChat_done_lines_counterexample :
  countDone (upstreamLines Examples.twoDone) = 2%nat ∧
  countDone (clientLines (fst (streamClaudeToChat Examples.decodeTag Examples.encodeEmpty
                                 0 "claude-3" Examples.twoDone))) = 2%nat.
Proof. split; reflexivity. Qed.

(** The request handed to Claude never has a [stop_sequences] field. *)
Lemma convertChatToClaudeRequest_no_stop_sequences reqMap model isStream :
  convertChatToClaudeRequest reqMap model isStream !! "stop_sequences" = None.
Proof.
  unfold convertChatToClaudeRequest.
  repeat case_match; by simplify_map_eq.
Qed.

(** [max_tokens] is the Chat [max_tokens], else [max_completion_tokens],
    else 4096. *)
Lemma convertChatToClaudeRequest_max_tokens reqMap model isStream :
  convertChatToClaudeRequest reqMap model isStream !! "max_tokens" =
  Some (match reqMap !! "max_tokens" with
        | Some maxTokens => maxTokens
        | None => default (JNumber (Qmake 4096 1)) (reqMap !! "max_completion_tokens")
        end).
Proof.
  unfold convertChatToClaudeRequest.
  repeat case_match; by simplify_map_eq.
Qed.

(** C8, on a request with a stop sequence.  The request has the [stop]
    field [["END"]]; the Claude request built from it has the system
    message as [system] and [max_tokens] from [max_completion_tokens],
    and it has no [stop_sequences] field and no [stop] field: the stop
    sequence is lost. *)
Theorem convertChatToClaudeRequest_drops_stop :
  let claudeReq := convertChatToClaudeRequest Examples.chatRequest "claude-3" false in
  Examples.chatRequest !! "stop" = Some (JArray [JString "END"]) ∧
  claudeReq !! "system" = Some (JString "Be brief.") ∧
  claudeReq !! "max_tokens" = Some (JNumber (Qmake 100 1)) ∧
  claudeReq !! "stop_sequences" = None ∧
  claudeReq !! "stop" = None.
Proof. intros claudeReq. repeat split; reflexivity. Qed.

(** A system message whose content is a list of parts goes nowhere: the
    Claude request has no [system] field and one message, the user's. *)
Lemma convertChatToClaudeRequest_drops_system_parts :
  let claudeReq := convertChatToClaudeRequest Examples.chatRequestParts "claude-3" false in
  claudeReq !! "system" = None ∧
  claudeReq !! "messages" =
    Some (JArray [JObject {[ "role" := JString "user"; "content" := JString "hi" ]}]).
Proof. intros claudeReq. split; reflexivity. Qed.

End ChatFacts.

(** ** Metrics engine: reservations and invariants *)

Module EngineFacts.
Import Metrics MetricsAdmin EngineRun MetricsFacts.

Lemma foldl_inv {A B} (P : A → Prop) (f : A → B → A) (l : list B) (a : A) :
  (∀ a b, P a → P (f a b)) → P a → P (foldl f a l).
Proof.
  intros Hf. revert a. induction l as [|b l IH]; intros a Ha; simpl; [done|].
  by apply IH, Hf.
Qed.

Lemma firstAfter_app_hit cutoff h r : ∀ i,
  time_After (Timestamp r) cutoff = true →
  i ≤ firstAfter cutoff i (h ++ [r]) ≤ i + Z.of_nat (length h).
Proof.
  induction h as [|x h IH]; intros i Hr; simpl.
  - rewrite Hr. lia.
  - destruct (time_After (Timestamp x) cutoff); [lia|].
    specialize (IH (i + 1) Hr). lia.
Qed.

Lemma firstAfter_app_miss cutoff h r : ∀ i,
  firstAfter cutoff i h = -1 → time_After (Timestamp r) cutoff = true → 0 ≤ i →
  firstAfter cutoff i (h ++ [r]) = i + Z.of_nat (length h).
Proof.
  induction h as [|x h IH]; intros i Hh Hr Hi; simpl in *.
  - rewrite Hr. lia.
  - destruct (time_After (Timestamp x) cutoff); [lia|].
    rewrite IH; [lia|done..|lia].
Qed.

Lemma firstAfter_app_found cutoff h r : ∀ i,
  firstAfter cutoff i h ≠ -1 → 0 ≤ i →
  firstAfter cutoff i (h ++ [r]) = firstAfter cutoff i h.
Proof.
  induction h as [|x h IH]; intros i Hh Hi; simpl in *; [done|].
  destruct (time_After (Timestamp x) cutoff); [done|].
  apply IH; [done|lia].
Qed.

(** Cleanup keeps the reservations coherent. *)
Lemma cleanup_coherent now km :
  pendingCoherent km → pendingCoherent (cleanupHistoryLocked now km).
Proof.
  intros [Hb Hi].
  pose proof (evicted_range now km) as Hev.
  assert (Hlen : Z.of_nat (length (requestHistory (cleanupHistoryLocked now km))) =
                 Z.of_nat (length (requestHistory km)) - evicted now km).
  { rewrite cleanup_history, length_drop. lia. }
  split.
  - intros id idx'. rewrite cleanup_pending, Hlen.
    destruct ((_ =? 0) || (_ =? 0)) eqn:E.
    + intros H. specialize (Hb _ _ H).
      apply orb_true_iff in E as [E|E]; lia.
    + destruct (_ =? -1); [done|].
      destruct (pendingHistoryIdx km !! id) as [idx|] eqn:Hid; [|done]. simpl.
      unfold rebase. destruct (Z.ltb_spec idx (evicted now km)); [done|].
      intros [= <-]. specialize (Hb _ _ Hid). lia.
  - intros id1 id2 idx'. rewrite !cleanup_pending.
    destruct ((_ =? 0) || (_ =? 0)) eqn:E; [apply Hi|].
    destruct (_ =? -1); [done|].
    destruct (pendingHistoryIdx km !! id1) as [i1|] eqn:H1; [|done].
    destruct (pendingHistoryIdx km !! id2) as [i2|] eqn:H2; [|done]. simpl.
    unfold rebase.
    destruct (Z.ltb_spec i1 (evicted now km)); [done|].
    destruct (Z.ltb_spec i2 (evicted now km)); [done|].
    intros [= <-] [= Heq]. apply (Hi id1 id2 i1); [done|]. rewrite H2. f_equal. lia.
Qed.

Lemma cleanup_window now km : recentResults (cleanupHistoryLocked now km) = recentResults km.
Proof.
  unfold cleanupHistoryLocked. repeat case_match; done.
Qed.

Lemma cleanup_fields now km :
  let km' := cleanupHistoryLocked now km in
  RequestCount km' = RequestCount km ∧ SuccessCount km' = SuccessCount km ∧
  FailureCount km' = FailureCount km ∧ ConsecutiveFailures km' = ConsecutiveFailures km ∧
  ActiveRequests km' = ActiveRequests km ∧ LastSuccessAt km' = LastSuccessAt km ∧
  LastFailureAt km' = LastFailureAt km ∧ CircuitBrokenAt km' = CircuitBrokenAt km ∧
  MetricsKey km' = MetricsKey km ∧ KeyMask km' = KeyMask km.
Proof.
  unfold cleanupHistoryLocked. repeat case_match; done.
Qed.

Lemma cleanup_rowOK ws now km : rowOK ws km → rowOK ws (cleanupHistoryLocked now km).
Proof.
  intros [Hc Hw]. split; [by apply cleanup_coherent|].
  unfold windowBounded. by rewrite cleanup_window.
Qed.

(** Appending a record keeps the reservations coherent. *)
Lemma append_coherent km r :
  pendingCoherent km →
  pendingCoherent (with_history (requestHistory km ++ [r]) (pendingHistoryIdx km) km).
Proof.
  intros [Hb Hi]. split; simpl; [|done].
  intros id idx H. specialize (Hb _ _ H). rewrite length_app. simpl. lia.
Qed.

(** Reserving the slot after the last record keeps them coherent. *)
Lemma reserve_coherent km r id :
  pendingCoherent km →
  pendingCoherent
    (with_history (requestHistory km ++ [r])
       (<[id := Z.of_nat (length (requestHistory km ++ [r])) - 1]> (pendingHistoryIdx km)) km).
Proof.
  intros [Hb Hi]. rewrite length_app. simpl. split; simpl.
  - intros id' idx. rewrite length_app. simpl.
    destruct (decide (id' = id)) as [->|Hne].
    + rewrite lookup_insert_eq. intros [= <-]. lia.
    + rewrite lookup_insert_ne by done. intros H. specialize (Hb _ _ H). lia.
  - intros id1 id2 idx.
    destruct (decide (id1 = id)) as [->|H1]; destruct (decide (id2 = id)) as [->|H2]; [done|..].
    + rewrite lookup_insert_eq, lookup_insert_ne by done. intros [= <-] H.
      specialize (Hb _ _ H). lia.
    + rewrite lookup_insert_eq, lookup_insert_ne by done. intros H [= <-].
      specialize (Hb _ _ H). lia.
    + rewrite !lookup_insert_ne by done. apply Hi.
Qed.

(** Releasing a reservation and rewriting records in place. *)
Lemma release_coherent km id f i :
  pendingCoherent km →
  pendingCoherent (with_history (alter f i (requestHistory km))
                     (delete id (pendingHistoryIdx km)) km).
Proof.
  intros [Hb Hi]. split; simpl.
  - intros id' idx. rewrite length_alter.
    intros H%lookup_delete_Some. apply (Hb id'), H.
  - intros id1 id2 idx [_ H1]%lookup_delete_Some [_ H2]%lookup_delete_Some. eauto.
Qed.

(** Cutting a reserved slot out of the history. *)
Lemma cancel_coherent km id idx :
  pendingCoherent km →
  pendingHistoryIdx km !! id = Some idx →
  pendingCoherent
    (with_history (take (Z.to_nat idx) (requestHistory km) ++
                   drop (Z.to_nat (idx + 1)) (requestHistory km))
       (shiftAbove idx <$> delete id (pendingHistoryIdx km)) km).
Proof.
  intros [Hb Hi] Hid. pose proof (Hb _ _ Hid) as Hidx.
  assert (Hlen : Z.of_nat (length (take (Z.to_nat idx) (requestHistory km) ++
                                   drop (Z.to_nat (idx + 1)) (requestHistory km))) =
                 Z.of_nat (length (requestHistory km)) - 1).
  { rewrite length_app, length_take, length_drop. lia. }
  assert (Hother : ∀ id' i', delete id (pendingHistoryIdx km) !! id' = Some i' →
                             pendingHistoryIdx km !! id' = Some i' ∧ i' ≠ idx).
  { intros id' i' [Hne H]%lookup_delete_Some. split; [done|].
    intros ->. apply Hne. symmetry. by apply (Hi id' id idx). }
  split; simpl.
  - intros id' i'. rewrite lookup_fmap, Hlen.
    destruct (delete id (pendingHistoryIdx km) !! id') as [j|] eqn:Hj; [|done].
    simpl. intros [= <-]. apply Hother in Hj as [Hj Hne]. specialize (Hb _ _ Hj).
    unfold shiftAbove. destruct (Z.ltb_spec idx j); lia.
  - intros id1 id2 i'. rewrite !lookup_fmap.
    destruct (delete id (pendingHistoryIdx km) !! id1) as [j1|] eqn:H1; [|done].
    destruct (delete id (pendingHistoryIdx km) !! id2) as [j2|] eqn:H2; [|done].
    simpl. intros [= <-] [= Heq].
    apply Hother in H1 as [H1 Hn1]. apply Hother in H2 as [H2 Hn2].
    apply (Hi id1 id2 j1); [done|]. rewrite H2. f_equal.
    unfold shiftAbove in Heq.
    destruct (Z.ltb_spec idx j1); destruct (Z.ltb_spec idx j2); lia.
Qed.

(** The sliding window stays within its size. *)
Lemma appendToWindowKey_bounded ws success km :
  0 ≤ ws → windowBounded ws km → windowBounded ws (appendToWindowKey ws success km).
Proof.
  unfold windowBounded, appendToWindowKey. intros Hws Hw. simpl.
  rewrite length_app. simpl.
  destruct (Z.ltb_spec ws (Z.of_nat (length (recentResults km) + 1))).
  - rewrite length_drop, length_app. simpl. lia.
  - rewrite length_app. simpl. lia.
Qed.

Lemma appendToWindowKey_coherent ws success km :
  pendingCoherent km → pendingCoherent (appendToWindowKey ws success km).
Proof. done. Qed.

Lemma enterCircuit_rowOK ws m now km : rowOK ws km → rowOK ws (enterCircuit m now km).
Proof. unfold enterCircuit. repeat case_match; done. Qed.

Lemma newKeyMetrics_rowOK gmk mask ws baseURL apiKey :
  0 ≤ ws → rowOK ws (newKeyMetrics gmk mask baseURL apiKey).
Proof.
  intros Hws. split; [split|]; simpl.
  - intros id idx. by rewrite lookup_empty.
  - intros id1 id2 idx. by rewrite lookup_empty.
  - unfold windowBounded. simpl. lia.
Qed.

Section Proofs.

Variable generateMetricsKey : string → string → string.
Variable MaskAPIKey : string → string.

Local Abbreviation getOrCreateKey' := (getOrCreateKey generateMetricsKey MaskAPIKey).
Local Abbreviation putKey' := (putKey generateMetricsKey).

Lemma getOrCreateKey_engineOK baseURL apiKey m :
  engineOK m →
  rowOK (windowSize m) (getOrCreateKey' baseURL apiKey m).1 ∧
  engineOK (getOrCreateKey' baseURL apiKey m).2 ∧
  windowSize (getOrCreateKey' baseURL apiKey m).2 = windowSize m.
Proof.
  intros [Hws Hrows]. unfold getOrCreateKey.
  destruct (keyMetrics m !! generateMetricsKey baseURL apiKey) as [km|] eqn:E; simpl.
  - split; [by eapply Hrows|]. by split.
  - split; [by apply newKeyMetrics_rowOK|]. split; [|done].
    split; [done|]. simpl. intros k km.
    destruct (decide (k = generateMetricsKey baseURL apiKey)) as [->|Hne].
    + rewrite lookup_insert_eq. intros [= <-]. by apply newKeyMetrics_rowOK.
    + rewrite lookup_insert_ne by done. apply Hrows.
Qed.

Lemma putKey_engineOK baseURL apiKey km m :
  engineOK m → rowOK (windowSize m) km → engineOK (putKey' baseURL apiKey km m).
Proof.
  intros [Hws Hrows] Hkm. split; [done|]. simpl. intros k km'.
  destruct (decide (k = generateMetricsKey baseURL apiKey)) as [->|Hne].
  - rewrite lookup_insert_eq. by intros [= <-].
  - rewrite lookup_insert_ne by done. apply Hrows.
Qed.

Lemma AddRecord_engineOK r m : engineOK m → engineOK (AddRecord r m).
Proof. by intros [? ?]. Qed.

Lemma with_nextRequestID_engineOK n m : engineOK m → engineOK (with_nextRequestID n m).
Proof. by intros [? ?]. Qed.

Lemma pendingSlot_Some baseURL apiKey requestID m km idx :
  pendingSlot generateMetricsKey baseURL apiKey requestID m = Some (km, idx) →
  keyMetrics m !! generateMetricsKey baseURL apiKey = Some km ∧
  pendingHistoryIdx km !! requestID = Some idx ∧
  0 ≤ idx < Z.of_nat (length (requestHistory km)).
Proof.
  unfold pendingSlot. intros H.
  destruct (keyMetrics m !! _) as [km0|]; [|done].
  destruct (pendingHistoryIdx km0 !! requestID) as [i|] eqn:E; [|done].
  destruct (Z.ltb_spec i 0); [done|].
  destruct (Z.leb_spec (Z.of_nat (length (requestHistory km0))) i); [done|].
  simpl in H. injection H as <- <-. by repeat split; try lia.
Qed.

Lemma recordSuccess_engineOK baseURL apiKey usage now m :
  engineOK m →
  engineOK (recordSuccessWithUsageLocked generateMetricsKey MaskAPIKey baseURL apiKey usage now m).
Proof.
  intros Hm. unfold recordSuccessWithUsageLocked.
  destruct (getOrCreateKey_engineOK baseURL apiKey m Hm) as (Hkm & Hm1 & Hws).
  destruct (getOrCreateKey' baseURL apiKey m) as [km m1]. simpl in *.
  destruct (usageTokens usage) as [[[i o] cc] cr].
  apply AddRecord_engineOK, putKey_engineOK; [done|]. rewrite Hws.
  unfold appendToHistoryKeyWithUsage. apply cleanup_rowOK.
  destruct Hkm as [Hc Hw]. destruct Hm as [Hpos _]. split.
  - apply (append_coherent (appendToWindowKey _ true _)). exact Hc.
  - apply appendToWindowKey_bounded; [lia|exact Hw].
Qed.

Lemma recordFailure_engineOK baseURL apiKey now m :
  engineOK m →
  engineOK (recordFailureLocked generateMetricsKey MaskAPIKey baseURL apiKey now m).
Proof.
  intros Hm. unfold recordFailureLocked.
  destruct (getOrCreateKey_engineOK baseURL apiKey m Hm) as (Hkm & Hm1 & Hws).
  destruct (getOrCreateKey' baseURL apiKey m) as [km m1]. simpl in *.
  apply AddRecord_engineOK, putKey_engineOK; [done|]. rewrite Hws.
  unfold appendToHistoryKey, appendToHistoryKeyWithUsage. apply cleanup_rowOK.
  destruct Hkm as [Hc Hw]. destruct Hm as [Hpos _].
  match goal with |- rowOK _ (with_history (requestHistory ?k ++ _) _ _) =>
    assert (rowOK (windowSize m) k) as [Hc' Hw'] end.
  { apply enterCircuit_rowOK. split.
    - exact Hc.
    - rewrite <- Hws. apply appendToWindowKey_bounded; [lia|]. rewrite Hws. exact Hw. }
  split; [by apply append_coherent|exact Hw'].
Qed.

Lemma connected_engineOK now baseURL apiKey model timestamp m :
  engineOK m →
  engineOK (RecordRequestConnectedAt generateMetricsKey MaskAPIKey now baseURL apiKey model
              timestamp m).2.
Proof.
  intros Hm. unfold RecordRequestConnectedAt.
  destruct (getOrCreateKey_engineOK baseURL apiKey m Hm) as (Hkm & Hm1 & Hws).
  destruct (getOrCreateKey' baseURL apiKey m) as [km m1]. simpl in *.
  apply putKey_engineOK; [by apply with_nextRequestID_engineOK|]. simpl. rewrite Hws.
  apply cleanup_rowOK. destruct Hkm as [Hc Hw]. split; [|exact Hw].
  by apply reserve_coherent.
Qed.

Lemma finalizeSuccess_engineOK now baseURL apiKey requestID usage m :
  engineOK m →
  engineOK (RecordRequestFinalizeSuccess generateMetricsKey MaskAPIKey now baseURL apiKey
              requestID usage m).
Proof.
  intros Hm. unfold RecordRequestFinalizeSuccess.
  destruct (pendingSlot _ _ _ _ m) as [[km idx]|] eqn:Hslot;
    [|by apply recordSuccess_engineOK].
  apply pendingSlot_Some in Hslot as (Hrow & Hid & Hidx).
  destruct (usageTokens usage) as [[[i o] cc] cr].
  apply AddRecord_engineOK, putKey_engineOK; [done|].
  destruct Hm as [Hpos Hrows]. destruct (Hrows _ _ Hrow) as [Hc Hw]. split.
  - apply (release_coherent km requestID (rewriteRecord true i o cc cr) (Z.to_nat idx)) in Hc.
    exact Hc.
  - apply (appendToWindowKey_bounded _ true) in Hw; [exact Hw|done].
Qed.

Lemma finalizeFailure_engineOK now baseURL apiKey requestID m :
  engineOK m →
  engineOK (RecordRequestFinalizeFailure generateMetricsKey MaskAPIKey now baseURL apiKey
              requestID m).
Proof.
  intros Hm. unfold RecordRequestFinalizeFailure.
  destruct (pendingSlot _ _ _ _ m) as [[km idx]|] eqn:Hslot;
    [|by apply recordFailure_engineOK].
  apply pendingSlot_Some in Hslot as (Hrow & Hid & Hidx).
  apply AddRecord_engineOK, putKey_engineOK; [done|].
  destruct Hm as [Hpos Hrows]. destruct (Hrows _ _ Hrow) as [Hc Hw].
  match goal with |- rowOK _ (with_history (alter _ _ (requestHistory ?k)) _ _) =>
    assert (rowOK (windowSize m) k) as [Hc' Hw'] end.
  { apply enterCircuit_rowOK. split.
    - apply (release_coherent km requestID id 0) in Hc.
      destruct Hc as [Hb Hi]. split; simpl in *; [|exact Hi].
      intros id' idx' H. specialize (Hb _ _ H). by rewrite length_alter in Hb.
    - apply (appendToWindowKey_bounded _ false) in Hw; [exact Hw|done]. }
  split; [|exact Hw'].
  destruct Hc' as [Hb Hi]. split; simpl; [|exact Hi].
  intros id' idx' H. rewrite length_alter. by apply (Hb id').
Qed.

Lemma cancel_engineOK baseURL apiKey requestID m :
  engineOK m →
  engineOK (RecordRequestFinalizeClientCancel generateMetricsKey baseURL apiKey requestID m).
Proof.
  intros Hm. unfold RecordRequestFinalizeClientCancel.
  destruct (keyMetrics m !! _) as [km|] eqn:Hrow; [|done].
  destruct (pendingHistoryIdx km !! requestID) as [idx|] eqn:Hid; [|done].
  destruct ((idx <? 0) || _); [done|].
  apply putKey_engineOK; [done|].
  destruct Hm as [Hpos Hrows]. destruct (Hrows _ _ Hrow) as [Hc Hw]. split; [|exact Hw].
  by apply (cancel_coherent km requestID idx).
Qed.

Lemma start_engineOK baseURL apiKey m :
  engineOK m → engineOK (RecordRequestStart generateMetricsKey MaskAPIKey baseURL apiKey m).
Proof.
  intros Hm. unfold RecordRequestStart.
  destruct (getOrCreateKey_engineOK baseURL apiKey m Hm) as (Hkm & Hm1 & Hws).
  destruct (getOrCreateKey' baseURL apiKey m) as [km m1]. simpl in *.
  apply putKey_engineOK; [done|]. rewrite Hws. exact Hkm.
Qed.

Lemma end_engineOK baseURL apiKey m :
  engineOK m → engineOK (RecordRequestEnd generateMetricsKey baseURL apiKey m).
Proof.
  intros Hm. unfold RecordRequestEnd.
  destruct (keyMetrics m !! _) as [km|] eqn:Hrow; [|done].
  destruct (0 <? ActiveRequests km); [|done].
  apply putKey_engineOK; [done|]. destruct Hm as [Hpos Hrows]. exact (Hrows _ _ Hrow).
Qed.

Lemma clearFailureState_rowOK ws km : 0 ≤ ws → rowOK ws km → rowOK ws (clearFailureState km).
Proof.
  intros Hws [Hc Hw]. split; [exact Hc|]. unfold windowBounded. simpl. lia.
Qed.

Lemma delete_engineOK k m :
  engineOK m → engineOK (with_keyMetrics (delete k (keyMetrics m)) m).
Proof.
  intros [Hpos Hrows]. split; [done|]. simpl.
  intros k' km [_ H]%lookup_delete_Some. by eapply Hrows.
Qed.

Lemma DeleteKeysForChannel_engineOK baseURLs apiKeys m :
  engineOK m → engineOK (DeleteKeysForChannel generateMetricsKey baseURLs apiKeys m).2.
Proof.
  intros Hm. unfold DeleteKeysForChannel.
  apply (foldl_inv (λ a : list string * MetricsManager, engineOK a.2)); [|done].
  intros a baseURL Ha.
  apply (foldl_inv (λ a : list string * MetricsManager, engineOK a.2)); [|done].
  intros a' apiKey Ha'. simpl. by apply delete_engineOK.
Qed.

Lemma getOrCreateKey_windowSize baseURL apiKey m :
  windowSize (getOrCreateKey' baseURL apiKey m).2 = windowSize m.
Proof. unfold getOrCreateKey. by destruct (keyMetrics m !! _). Qed.

Lemma DeleteKeysForChannel_windowSize baseURLs apiKeys m :
  windowSize (DeleteKeysForChannel generateMetricsKey baseURLs apiKeys m).2 = windowSize m.
Proof.
  unfold DeleteKeysForChannel.
  apply (foldl_inv (λ a : list string * MetricsManager, windowSize a.2 = windowSize m)); [|done].
  intros a baseURL Ha.
  apply (foldl_inv (λ a : list string * MetricsManager, windowSize a.2 = windowSize m)); [|done].
  intros a' apiKey Ha'. exact Ha'.
Qed.

Lemma apply_windowSize m op :
  windowSize (apply generateMetricsKey MaskAPIKey m op) = windowSize m.
Proof.
  destruct op; simpl;
    unfold RecordRequestConnectedAt, RecordRequestFinalizeSuccess, RecordRequestFinalizeFailure,
      RecordRequestFinalizeClientCancel, RecordSuccessWithUsage, RecordFailure,
      recordSuccessWithUsageLocked, recordFailureLocked, RecordRequestStart, RecordRequestEnd,
      ResetKeyFailureState, ResetKey;
    try apply DeleteKeysForChannel_windowSize;
    try pose proof (getOrCreateKey_windowSize baseURL apiKey m) as Hg;
    try destruct (getOrCreateKey' baseURL apiKey m) as [km0 m0];
    try destruct (pendingSlot _ _ _ _ m) as [[km1 idx1]|];
    try pose proof (getOrCreateKey_windowSize baseURL apiKey m) as Hg';
    try destruct (getOrCreateKey' baseURL apiKey m) as [km2 m2];
    try destruct (usageTokens usage) as [[[i o] cc] cr];
    repeat case_match; simpl in *; done.
Qed.

(** Every call keeps the engine well formed. *)
Lemma apply_engineOK m op :
  engineOK m → engineOK (apply generateMetricsKey MaskAPIKey m op).
Proof.
  intros Hm. destruct op; simpl.
  - by apply connected_engineOK.
  - by apply finalizeSuccess_engineOK.
  - by apply finalizeFailure_engineOK.
  - by apply cancel_engineOK.
  - by apply recordSuccess_engineOK.
  - by apply recordFailure_engineOK.
  - by apply start_engineOK.
  - by apply end_engineOK.
  - unfold ResetKeyFailureState. destruct (keyMetrics m !! _) as [km|] eqn:Hrow; [|done].
    apply putKey_engineOK; [done|]. destruct Hm as [Hpos Hrows].
    apply clearFailureState_rowOK; [done|]. exact (Hrows _ _ Hrow).
  - unfold ResetKey. destruct (keyMetrics m !! _) as [km|] eqn:Hrow; [|done].
    apply putKey_engineOK; [done|]. destruct Hm as [Hpos Hrows].
    split; [split|]; simpl.
    + intros id idx. by rewrite lookup_empty.
    + intros id1 id2 idx. by rewrite lookup_empty.
    + unfold windowBounded. simpl. lia.
  - destruct Hm as [Hpos Hrows]. split; [done|]. simpl. intros k km. by rewrite lookup_empty.
  - by apply DeleteKeysForChannel_engineOK.
  - destruct Hm as [Hpos Hrows]. split; [done|]. simpl. intros k km.
    rewrite lookup_fmap. destruct (keyMetrics m !! k) as [km0|] eqn:Hrow; [|done].
    simpl. intros [= <-]. unfold recoverRow.
    destruct (CircuitBrokenAt km0); [|by eapply Hrows].
    destruct (_ <? _); [|by eapply Hrows].
    apply clearFailureState_rowOK; [done|]. by eapply Hrows.
  - destruct Hm as [Hpos Hrows]. split; [done|]. simpl. intros k km.
    intros [H _]%map_lookup_filter_Some. by eapply Hrows.
Qed.

Lemma run_engineOK m ops :
  engineOK m → engineOK (run generateMetricsKey MaskAPIKey m ops).
Proof.
  unfold run. revert m. induction ops as [|op ops IH]; intros m Hm; simpl; [done|].
  by apply IH, apply_engineOK.
Qed.

Lemma NewMetricsManagerWithConfig_engineOK ws thr :
  engineOK (NewMetricsManagerWithConfig ws thr).
Proof.
  split; simpl.
  - destruct (Z.ltb_spec ws 3); lia.
  - intros k km. by rewrite lookup_empty.
Qed.


(** X2.  In every state an engine reaches from its construction, the sliding
    window of each row holds at most [windowSize] results, and the window
    size is the configured one raised to 3. *)
Theorem run_window_bounded (ws : Z) (thr : Q) (ops : list Op) (k : string) (km : KeyMetrics) :
  let m := run generateMetricsKey MaskAPIKey (NewMetricsManagerWithConfig ws thr) ops in
  keyMetrics m !! k = Some km →
  windowSize m = Z.max 3 ws ∧
  Z.of_nat (length (recentResults km)) ≤ windowSize m.
Proof.
  intros m Hrow.
  destruct (run_engineOK _ ops (NewMetricsManagerWithConfig_engineOK ws thr)) as [_ Hrows].
  destruct (Hrows _ _ Hrow) as [_ Hw]. split; [|exact Hw].
  clear. unfold m, run. 
  assert (∀ m0 : MetricsManager, windowSize (foldl (apply generateMetricsKey MaskAPIKey) m0 ops)
                                 = windowSize m0) as ->.
  { induction ops as [|op ops' IH]; intros m0; simpl; [done|]. rewrite IH.
    apply apply_windowSize. }
  simpl. destruct (Z.ltb_spec ws 3); lia.
Qed.

End Proofs.


Lemma run_window_bounded_witness :
  windowSize Scenarios.connected = 10 ∧
  Z.of_nat (length (recentResults (Scenarios.rowOf "https://u1" "k1" Scenarios.connected))) ≤
  windowSize Scenarios.connected.
Proof.
  exact (run_window_bounded Examples.metricsKey Examples.mask 10 (Qmake 1 2)
           Scenarios.oneConnection (Examples.metricsKey "https://u1" "k1")
           (Scenarios.rowOf "https://u1" "k1" Scenarios.connected) eq_refl).
Defined.

End EngineFacts.

(** ** Metrics engine: the life of a reservation *)

Module ReservationFacts.
Import Metrics MetricsAdmin EngineRun MetricsFacts EngineFacts.

Lemma evicted_app now km r p :
  time_After (Timestamp r) (now + -24 * Hour) = true →
  evicted now (with_history (requestHistory km ++ [r]) p km) = evicted now km.
Proof.
  intros Hr. unfold evicted. simpl.
  destruct (Z.eqb_spec (firstAfter (now + -24 * Hour) 0 (requestHistory km)) (-1)) as [E|E].
  - rewrite firstAfter_app_miss by (done || lia).
    destruct (Z.eqb_spec (0 + Z.of_nat (length (requestHistory km))) (-1)); lia.
  - rewrite firstAfter_app_found by (done || lia).
    by destruct (Z.eqb_spec (firstAfter (now + -24 * Hour) 0 (requestHistory km)) (-1)).
Qed.

Lemma now_after_cutoff now : time_After now (now + -24 * Hour) = true.
Proof. unfold time_After, Hour, Minute, Second. apply Z.ltb_lt. lia. Qed.

Section Proofs.

Variable generateMetricsKey : string → string → string.
Variable MaskAPIKey : string → string.

Local Abbreviation getOrCreateKey' := (getOrCreateKey generateMetricsKey MaskAPIKey).
Local Abbreviation key := (generateMetricsKey).

Lemma getOrCreateKey_lookup baseURL apiKey m :
  keyMetrics (getOrCreateKey' baseURL apiKey m).2 !! key baseURL apiKey =
  Some (getOrCreateKey' baseURL apiKey m).1.
Proof.
  unfold getOrCreateKey. destruct (keyMetrics m !! _) eqn:E; simpl; [done|].
  by rewrite lookup_insert_eq.
Qed.

Lemma getOrCreateKey_other baseURL apiKey m k :
  k ≠ key baseURL apiKey →
  keyMetrics (getOrCreateKey' baseURL apiKey m).2 !! k = keyMetrics m !! k.
Proof.
  intros Hk. unfold getOrCreateKey. destruct (keyMetrics m !! key _ _) eqn:E; simpl; [done|].
  by rewrite lookup_insert_ne.
Qed.

Lemma getOrCreateKey_rest baseURL apiKey m :
  let m1 := (getOrCreateKey' baseURL apiKey m).2 in
  nextRequestID m1 = nextRequestID m ∧ store m1 = store m ∧ windowSize m1 = windowSize m ∧
  failureThreshold m1 = failureThreshold m ∧ apiType m1 = apiType m.
Proof. unfold getOrCreateKey. by destruct (keyMetrics m !! _). Qed.

(** A reservation made at [now] survives the cleanup that follows it:
    the call returns the next request ID, and the row then holds the
    history a cleanup at [now] leaves, followed by the reserved record,
    to which the ID points.  No counter and no window entry changes, and
    nothing is handed to the store. *)
Lemma RecordRequestConnected_reserves (now : Z) (baseURL apiKey model : string)
    (m : MetricsManager) :
  let old := (getOrCreateKey' baseURL apiKey m).1 in
  let res := RecordRequestConnected generateMetricsKey MaskAPIKey now baseURL apiKey model m in
  res.1 = wrapU64 (nextRequestID m + 1) ∧
  nextRequestID res.2 = res.1 ∧
  store res.2 = store m ∧
  (∀ k, k ≠ key baseURL apiKey → keyMetrics res.2 !! k = keyMetrics m !! k) ∧
  ∃ km',
    pendingSlot generateMetricsKey baseURL apiKey res.1 res.2 =
      Some (km', Z.of_nat (length (requestHistory km')) - 1) ∧
    requestHistory km' =
      requestHistory (cleanupHistoryLocked now old) ++ [reservedRecord model now] ∧
    RequestCount km' = RequestCount old ∧ SuccessCount km' = SuccessCount old ∧
    FailureCount km' = FailureCount old ∧ ConsecutiveFailures km' = ConsecutiveFailures old ∧
    recentResults km' = recentResults old ∧ CircuitBrokenAt km' = CircuitBrokenAt old.
Proof.
  intros old res. unfold res, RecordRequestConnected, RecordRequestConnectedAt.
  pose proof (getOrCreateKey_rest baseURL apiKey m) as (Hn & Hs & _).
  pose proof (getOrCreateKey_other baseURL apiKey m) as Hother.
  unfold old. destruct (getOrCreateKey' baseURL apiKey m) as [km m1]. simpl in *.
  rewrite Hn. split; [done|]. split; [done|]. split; [done|].
  split. { intros k Hk. rewrite lookup_insert_ne by done. by apply Hother. }
  set (r := {| Model := model; Timestamp := now; Success := true; InputTokens := 0;
               OutputTokens := 0; CacheCreationInputTokens := 0;
               CacheReadInputTokens := 0 |}).
  set (id := wrapU64 (nextRequestID m + 1)).
  set (p := <[id := Z.of_nat (length (requestHistory km ++ [r])) - 1]> (pendingHistoryIdx km)).
  set (km1 := with_history (requestHistory km ++ [r]) p km).
  assert (Hev : evicted now km1 = evicted now km).
  { apply evicted_app, now_after_cutoff. }
  pose proof (evicted_range now km) as Hrange.
  assert (Hh : requestHistory (cleanupHistoryLocked now km1) =
               requestHistory (cleanupHistoryLocked now km) ++ [r]).
  { rewrite !cleanup_history, Hev. simpl. rewrite drop_app_le by lia. done. }
  assert (Hp : pendingHistoryIdx (cleanupHistoryLocked now km1) !! id =
               Some (Z.of_nat (length (requestHistory (cleanupHistoryLocked now km1))) - 1)).
  { rewrite Hh, cleanup_pending, Hev, length_app, cleanup_history, length_drop. simpl.
    unfold p. rewrite lookup_insert_eq, !length_app. simpl.
    destruct (Z.eqb_spec (Z.of_nat (length (requestHistory km) + 1)) 0); [lia|]. simpl.
    destruct (Z.eqb_spec (evicted now km) 0) as [E0|E0].
    { rewrite E0. f_equal. lia. }
    destruct (Z.eqb_spec (firstAfter (now + -24 * Hour) 0 (requestHistory km ++ [r])) (-1))
      as [E1|E1].
    { pose proof (firstAfter_app_hit (now + -24 * Hour) (requestHistory km) r 0
                    (now_after_cutoff now)). lia. }
    simpl. unfold rebase.
    destruct (Z.ltb_spec (Z.of_nat (length (requestHistory km) + 1) - 1) (evicted now km));
      [lia|]. f_equal. lia. }
  exists (cleanupHistoryLocked now km1).
  split.
  { unfold pendingSlot. simpl. rewrite lookup_insert_eq, Hp.
    set (n := Z.of_nat (length (requestHistory (cleanupHistoryLocked now km1)))).
    assert (0 < n). { unfold n. rewrite Hh, length_app. simpl. lia. }
    destruct (Z.ltb_spec (n - 1) 0); [lia|].
    destruct (Z.leb_spec n (n - 1)); [lia|]. done. }
  split; [exact Hh|].
  pose proof (cleanup_fields now km1) as (? & ? & ? & ? & _ & _ & _ & ? & _).
  rewrite cleanup_window. by repeat split.
Qed.

(** X3.  The reserved slot of a request, finalized as a success, is rewritten
    in place: the record keeps the time and the model of the connection
    and takes the tokens of the usage; no record is added or evicted; the
    reservation is released and the others stay; the request counts as a
    success, which clears the breaker stamp; and the store is handed one
    record, stamped with the time of the connection. *)
Theorem RecordRequestFinalizeSuccess_in_place (now : Z) (baseURL apiKey : string)
    (requestID : N) (usage : option Usage) (m : MetricsManager) (km : KeyMetrics) (idx : Z) :
  pendingSlot generateMetricsKey baseURL apiKey requestID m = Some (km, idx) →
  let m' := RecordRequestFinalizeSuccess generateMetricsKey MaskAPIKey now baseURL apiKey
              requestID usage m in
  let tokens := usageTokens usage in
  ∃ km' r,
    keyMetrics m' !! key baseURL apiKey = Some km' ∧
    requestHistory km !! Z.to_nat idx = Some r ∧
    requestHistory km' =
      alter (rewriteRecord true tokens.1.1.1 tokens.1.1.2 tokens.1.2 tokens.2) (Z.to_nat idx)
        (requestHistory km) ∧
    pendingHistoryIdx km' = delete requestID (pendingHistoryIdx km) ∧
    RequestCount km' = wrap64 (RequestCount km + 1) ∧
    SuccessCount km' = wrap64 (SuccessCount km + 1) ∧
    FailureCount km' = FailureCount km ∧
    ConsecutiveFailures km' = 0 ∧
    LastSuccessAt km' = Some now ∧ CircuitBrokenAt km' = None ∧
    recentResults km' = recentResults (appendToWindowKey (windowSize m) true km) ∧
    store m' =
      (λ q, q ++ [persisted m km baseURL r true tokens.1.1.1 tokens.1.1.2 tokens.1.2 tokens.2])
        <$> store m ∧
    (∀ k, k ≠ key baseURL apiKey → keyMetrics m' !! k = keyMetrics m !! k).
Proof.
  intros Hslot m' tokens. unfold m', RecordRequestFinalizeSuccess. rewrite Hslot.
  apply pendingSlot_Some in Hslot as (Hrow & Hid & Hidx).
  unfold tokens. destruct (usageTokens usage) as [[[i o] cc] cr]. simpl.
  destruct (lookup_lt_is_Some_2 (requestHistory km) (Z.to_nat idx)) as [r Hr]; [lia|].
  eexists _, r. rewrite lookup_insert_eq. split; [done|]. split; [exact Hr|].
  simpl. split; [done|].
  split; [done|]. do 6 (split; [done|]).
  split; [done|]. split.
  - unfold persisted. rewrite list_lookup_alter, Hr. simpl.
    rewrite decide_True by done. simpl. by destruct (store m).
  - intros k Hk. by rewrite lookup_insert_ne.
Qed.

(** X4.  The reserved slot of a request, finalized as a failure, is rewritten
    in place as a failure without tokens; the reservation is released;
    the request counts as a failure and extends the run of consecutive
    failures; the window takes a failure; and the breaker stamp is set to
    the time of the call exactly when the key is suspended after it and
    had no stamp.  The store is handed one record, stamped with the time
    of the connection. *)
Theorem RecordRequestFinalizeFailure_in_place (now : Z) (baseURL apiKey : string)
    (requestID : N) (m : MetricsManager) (km : KeyMetrics) (idx : Z) :
  pendingSlot generateMetricsKey baseURL apiKey requestID m = Some (km, idx) →
  let m' := RecordRequestFinalizeFailure generateMetricsKey MaskAPIKey now baseURL apiKey
              requestID m in
  ∃ km' r,
    keyMetrics m' !! key baseURL apiKey = Some km' ∧
    requestHistory km !! Z.to_nat idx = Some r ∧
    requestHistory km' = alter (rewriteRecord false 0 0 0 0) (Z.to_nat idx) (requestHistory km) ∧
    pendingHistoryIdx km' = delete requestID (pendingHistoryIdx km) ∧
    RequestCount km' = wrap64 (RequestCount km + 1) ∧
    SuccessCount km' = SuccessCount km ∧
    FailureCount km' = wrap64 (FailureCount km + 1) ∧
    ConsecutiveFailures km' = wrap64 (ConsecutiveFailures km + 1) ∧
    LastSuccessAt km' = LastSuccessAt km ∧ LastFailureAt km' = Some now ∧
    recentResults km' = recentResults (appendToWindowKey (windowSize m) false km) ∧
    CircuitBrokenAt km' =
      (if ShouldSuspendKey generateMetricsKey baseURL apiKey m'
       then Some (default now (CircuitBrokenAt km)) else CircuitBrokenAt km) ∧
    store m' = (λ q, q ++ [persisted m km baseURL r false 0 0 0 0]) <$> store m ∧
    (∀ k, k ≠ key baseURL apiKey → keyMetrics m' !! k = keyMetrics m !! k).
Proof.
  intros Hslot m'. unfold m', RecordRequestFinalizeFailure. rewrite Hslot.
  apply pendingSlot_Some in Hslot as (Hrow & Hid & Hidx).
  destruct (lookup_lt_is_Some_2 (requestHistory km) (Z.to_nat idx)) as [r Hr]; [lia|].
  set (km3 := appendToWindowKey (windowSize m) false _).
  assert (Hfields : ∀ km4, km4 = enterCircuit m now km3 →
            requestHistory km4 = requestHistory km ∧
            pendingHistoryIdx km4 = delete requestID (pendingHistoryIdx km) ∧
            RequestCount km4 = wrap64 (RequestCount km + 1) ∧
            SuccessCount km4 = SuccessCount km ∧
            FailureCount km4 = wrap64 (FailureCount km + 1) ∧
            ConsecutiveFailures km4 = wrap64 (ConsecutiveFailures km + 1) ∧
            LastSuccessAt km4 = LastSuccessAt km ∧ LastFailureAt km4 = Some now ∧
            recentResults km4 = recentResults (appendToWindowKey (windowSize m) false km) ∧
            MetricsKey km4 = MetricsKey km ∧ KeyMask km4 = KeyMask km ∧
            CircuitBrokenAt km4 =
              (if isKeyCircuitBroken m km3
               then Some (default now (CircuitBrokenAt km)) else CircuitBrokenAt km)).
  { intros km4 ->. unfold enterCircuit.
    change (CircuitBrokenAt km3) with (CircuitBrokenAt km).
    destruct (CircuitBrokenAt km) as [t|] eqn:Hcb; simpl.
    - rewrite Hcb. by destruct (isKeyCircuitBroken m km3).
    - destruct (isKeyCircuitBroken m km3); simpl; by rewrite ?Hcb. }
  destruct (Hfields _ eq_refl) as (Hh & Hp & Hrc & Hsc & Hfc & Hcf & Hls & Hlf & Hw & Hmk & Hmask & Hcb).
  set (km4 := enterCircuit m now km3) in *.
  eexists _, r. split; [simpl; apply lookup_insert_eq|]. split; [exact Hr|].
  simpl. rewrite Hh. split; [done|]. split; [exact Hp|].
  do 7 (split; [assumption|]).
  split.
  { rewrite Hcb. unfold ShouldSuspendKey. simpl. rewrite lookup_insert_eq. simpl.
    unfold isKeyCircuitBroken, calculateKeyFailureRateInternal.
    change (recentResults (with_history _ _ km4)) with (recentResults km4).
    rewrite Hw.
    by change (recentResults km3) with (recentResults (appendToWindowKey (windowSize m) false km)). }
  split.
  - unfold persisted. rewrite list_lookup_alter, Hr. simpl.
    rewrite decide_True by done. simpl. rewrite Hmk, Hmask. by destruct (store m).
  - intros k Hk. by rewrite lookup_insert_ne.
Qed.

(** A reservation made at [now] and cancelled by the client before any
    other call leaves the row with the history a cleanup at [now] leaves:
    the request is counted in [RequestCount] and nowhere else. *)
Lemma reserve_cancel_row (now : Z) (baseURL apiKey model : string) (m : MetricsManager) :
  let old := (getOrCreateKey' baseURL apiKey m).1 in
  let res := RecordRequestConnected generateMetricsKey MaskAPIKey now baseURL apiKey model m in
  let m' := RecordRequestFinalizeClientCancel generateMetricsKey baseURL apiKey res.1 res.2 in
  store m' = store m ∧
  (∀ k, k ≠ key baseURL apiKey → keyMetrics m' !! k = keyMetrics m !! k) ∧
  ∃ km',
    keyMetrics m' !! key baseURL apiKey = Some km' ∧
    requestHistory km' = requestHistory (cleanupHistoryLocked now old) ∧
    pendingHistoryIdx km' !! res.1 = None ∧
    RequestCount km' = wrap64 (RequestCount old + 1) ∧
    SuccessCount km' = SuccessCount old ∧ FailureCount km' = FailureCount old ∧
    ConsecutiveFailures km' = ConsecutiveFailures old ∧
    recentResults km' = recentResults old ∧ CircuitBrokenAt km' = CircuitBrokenAt old.
Proof.
  intros old res m'.
  destruct (RecordRequestConnected_reserves now baseURL apiKey model m)
    as (Hid & Hnext & Hstore & Hother & km1 & Hslot & Hh & Hrc & Hsc & Hfc & Hcf & Hw & Hcb).
  fold old res in Hid, Hnext, Hstore, Hother, Hslot, Hh, Hrc, Hsc, Hfc, Hcf, Hw, Hcb.
  apply pendingSlot_Some in Hslot as (Hrow & Hp & Hidx).
  unfold m', RecordRequestFinalizeClientCancel. rewrite Hrow, Hp.
  set (n := Z.of_nat (length (requestHistory km1))) in *.
  destruct (Z.ltb_spec (n - 1) 0); [lia|].
  destruct (Z.leb_spec n (n - 1)); [lia|]. simpl.
  split; [done|]. split. { intros k Hk. rewrite lookup_insert_ne by done. by apply Hother. }
  eexists. rewrite lookup_insert_eq. split; [done|]. simpl.
  split.
  { rewrite Hh. replace (Z.to_nat (n - 1)) with (length (requestHistory (cleanupHistoryLocked now old))).
    2:{ unfold n. rewrite Hh, length_app. simpl. lia. }
    replace (Z.to_nat (n - 1 + 1)) with
      (length (requestHistory (cleanupHistoryLocked now old) ++ [reservedRecord model now])).
    2:{ unfold n. rewrite Hh. lia. }
    rewrite take_app_length, drop_all. apply app_nil_r. }
  split. { by rewrite lookup_fmap, lookup_delete_eq. }
  rewrite Hrc. by repeat split.
Qed.

End Proofs.

(** The request connected at second 100 on a fresh engine, finalized at
    second 101: as a success it is the first success of the key, as a
    failure its first failure; either way the reservation is released. *)
Lemma RecordRequestFinalizeSuccess_in_place_witness :
  ∃ km',
    keyMetrics (RecordRequestFinalizeSuccess Examples.metricsKey Examples.mask (101 * Second)
                  "https://u1" "k1" 1%N None Scenarios.connected)
      !! Examples.metricsKey "https://u1" "k1" = Some km' ∧
    pendingHistoryIdx km' = ∅ ∧ RequestCount km' = 1 ∧ SuccessCount km' = 1 ∧
    LastSuccessAt km' = Some (101 * Second) ∧ recentResults km' = [true].
Proof.
  destruct (RecordRequestFinalizeSuccess_in_place Examples.metricsKey Examples.mask
              (101 * Second) "https://u1" "k1" 1%N None Scenarios.connected
              (Scenarios.rowOf "https://u1" "k1" Scenarios.connected) 0 eq_refl)
    as (km' & r & Hrow & _ & _ & Hp & Hrc & Hsc & _ & _ & Hls & _ & Hw & _).
  exists km'. split; [exact Hrow|].
  split; [rewrite Hp; reflexivity|]. split; [rewrite Hrc; reflexivity|].
  split; [rewrite Hsc; reflexivity|]. split; [exact Hls|]. rewrite Hw. reflexivity.
Defined.

Lemma RecordRequestFinalizeFailure_in_place_witness :
  ∃ km',
    keyMetrics (RecordRequestFinalizeFailure Examples.metricsKey Examples.mask (101 * Second)
                  "https://u1" "k1" 1%N Scenarios.connected)
      !! Examples.metricsKey "https://u1" "k1" = Some km' ∧
    pendingHistoryIdx km' = ∅ ∧ RequestCount km' = 1 ∧ FailureCount km' = 1 ∧
    LastFailureAt km' = Some (101 * Second) ∧ recentResults km' = [false].
Proof.
  destruct (RecordRequestFinalizeFailure_in_place Examples.metricsKey Examples.mask
              (101 * Second) "https://u1" "k1" 1%N Scenarios.connected
              (Scenarios.rowOf "https://u1" "k1" Scenarios.connected) 0 eq_refl)
    as (km' & r & Hrow & _ & _ & Hp & Hrc & _ & Hfc & _ & _ & Hlf & Hw & _).
  exists km'. split; [exact Hrow|].
  split; [rewrite Hp; reflexivity|]. split; [rewrite Hrc; reflexivity|].
  split; [rewrite Hfc; reflexivity|]. split; [exact Hlf|]. rewrite Hw. reflexivity.
Defined.

End ReservationFacts.

(** ** Metrics engine: the breaker *)

Module BreakerFacts.
Import Metrics MetricsAdmin EngineRun MetricsFacts EngineFacts ReservationFacts.

Lemma slide_iter ws b (w : list bool) : ∀ (n : nat),
  0 ≤ ws → Z.of_nat (length w) ≤ ws →
  foldl (λ w _, slide ws w b) w (replicate n ()) =
  drop (length w + n - Z.to_nat ws) (w ++ replicate n b).
Proof.
  intros n Hws Hw. induction n as [|n IH].
  - simpl. rewrite app_nil_r. replace (length w + 0 - Z.to_nat ws)%nat with 0%nat by lia. done.
  - rewrite !replicate_S_end, foldl_app, IH. simpl.
    set (L := w ++ replicate n b). set (d := (length w + n - Z.to_nat ws)%nat).
    assert (HL : length L = (length w + n)%nat).
    { unfold L. rewrite length_app, length_replicate. done. }
    unfold slide. rewrite length_app, length_drop, HL. simpl.
    rewrite app_assoc. fold L.
    rewrite <- (drop_app_le L [b] d) by lia.
    destruct (Z.ltb_spec ws (Z.of_nat (length w + n - d + 1))).
    + rewrite drop_drop. f_equal. lia.
    + f_equal. lia.
Qed.

Lemma slide_streak ws b (w : list bool) (n : nat) :
  0 ≤ ws → Z.of_nat (length w) ≤ ws → ws ≤ Z.of_nat n →
  foldl (λ w _, slide ws w b) w (replicate n ()) = replicate (Z.to_nat ws) b.
Proof.
  intros Hws Hw Hn. rewrite slide_iter by done.
  rewrite drop_app_ge by lia. rewrite drop_replicate. f_equal. lia.
Qed.

Lemma failures_replicate_false n : failures (replicate n false) = Z.of_nat n.
Proof.
  unfold failures. induction n as [|n IH]; [done|]. cbn [replicate].
  rewrite filter_cons_True by done. simpl length. lia.
Qed.

Lemma failures_replicate_true n : failures (replicate n true) = 0.
Proof.
  unfold failures. induction n as [|n IH]; [done|]. cbn [replicate].
  rewrite filter_cons_False by done. done.
Qed.

Lemma enterCircuit_window m now km : recentResults (enterCircuit m now km) = recentResults km.
Proof. unfold enterCircuit. repeat case_match; done. Qed.

Section Proofs.

Variable generateMetricsKey : string → string → string.
Variable MaskAPIKey : string → string.

Local Abbreviation getOrCreateKey' := (getOrCreateKey generateMetricsKey MaskAPIKey).
Local Abbreviation windowOf' := (windowOf generateMetricsKey).
Local Abbreviation run' := (run generateMetricsKey MaskAPIKey).

Lemma getOrCreateKey_window baseURL apiKey m :
  recentResults (getOrCreateKey' baseURL apiKey m).1 = windowOf' baseURL apiKey m.
Proof.
  unfold getOrCreateKey, windowOf. by destruct (keyMetrics m !! _).
Qed.

Lemma recordFailure_windowOf now baseURL apiKey m :
  windowOf' baseURL apiKey (recordFailureLocked generateMetricsKey MaskAPIKey baseURL apiKey now m)
  = slide (windowSize m) (windowOf' baseURL apiKey m) false.
Proof.
  unfold recordFailureLocked.
  pose proof (getOrCreateKey_window baseURL apiKey m) as Hw.
  pose proof (getOrCreateKey_rest generateMetricsKey MaskAPIKey baseURL apiKey m)
    as (_ & _ & Hws & _).
  destruct (getOrCreateKey' baseURL apiKey m) as [km m1]. simpl in *.
  unfold windowOf at 1. simpl. rewrite lookup_insert_eq.
  unfold appendToHistoryKey, appendToHistoryKeyWithUsage. rewrite cleanup_window. simpl.
  rewrite enterCircuit_window. simpl. rewrite Hws, <- Hw. unfold slide.
  repeat case_match; done.
Qed.

Lemma recordSuccess_windowOf now baseURL apiKey usage m :
  windowOf' baseURL apiKey
    (recordSuccessWithUsageLocked generateMetricsKey MaskAPIKey baseURL apiKey usage now m)
  = slide (windowSize m) (windowOf' baseURL apiKey m) true.
Proof.
  unfold recordSuccessWithUsageLocked.
  pose proof (getOrCreateKey_window baseURL apiKey m) as Hw.
  pose proof (getOrCreateKey_rest generateMetricsKey MaskAPIKey baseURL apiKey m)
    as (_ & _ & Hws & _).
  destruct (getOrCreateKey' baseURL apiKey m) as [km m1]. simpl in *.
  destruct (usageTokens usage) as [[[i o] cc] cr].
  unfold windowOf at 1. simpl. rewrite lookup_insert_eq.
  unfold appendToHistoryKeyWithUsage. rewrite cleanup_window. simpl.
  rewrite Hws, <- Hw. unfold slide. repeat case_match; done.
Qed.

Lemma apply_failureThreshold m op :
  failureThreshold (apply generateMetricsKey MaskAPIKey m op) = failureThreshold m.
Proof.
  destruct op; simpl;
    unfold RecordRequestConnectedAt, RecordRequestFinalizeSuccess, RecordRequestFinalizeFailure,
      RecordRequestFinalizeClientCancel, RecordSuccessWithUsage, RecordFailure,
      recordSuccessWithUsageLocked, recordFailureLocked, RecordRequestStart, RecordRequestEnd,
      ResetKeyFailureState, ResetKey, DeleteKeysForChannel;
    try (apply (foldl_inv (λ a : list string * MetricsManager,
                             failureThreshold a.2 = failureThreshold m)); [|done];
         intros a ? Ha;
         apply (foldl_inv (λ a : list string * MetricsManager,
                             failureThreshold a.2 = failureThreshold m)); [|done];
         by intros a' ? Ha');
    try pose proof (getOrCreateKey_rest generateMetricsKey MaskAPIKey baseURL apiKey m)
      as (_ & _ & _ & Hg & _);
    try destruct (getOrCreateKey' baseURL apiKey m) as [km0 m0];
    try destruct (pendingSlot _ _ _ _ m) as [[km1 idx1]|];
    try pose proof (getOrCreateKey_rest generateMetricsKey MaskAPIKey baseURL apiKey m)
      as (_ & _ & _ & Hg' & _);
    try destruct (getOrCreateKey' baseURL apiKey m) as [km2 m2];
    try destruct (usageTokens usage) as [[[i o] cc] cr];
    repeat case_match; simpl in *; done.
Qed.

Lemma run_windowSize m ops : windowSize (run' m ops) = windowSize m.
Proof.
  unfold run. revert m. induction ops as [|op ops IH]; intros m; simpl; [done|].
  by rewrite IH, apply_windowSize.
Qed.

Lemma run_failureThreshold m ops : failureThreshold (run' m ops) = failureThreshold m.
Proof.
  unfold run. revert m. induction ops as [|op ops IH]; intros m; simpl; [done|].
  by rewrite IH, apply_failureThreshold.
Qed.

Lemma run_failuresAt_window baseURL apiKey times : ∀ m,
  windowOf' baseURL apiKey (run' m (failuresAt baseURL apiKey times)) =
  foldl (λ w _, slide (windowSize m) w false) (windowOf' baseURL apiKey m)
    (replicate (length times) ()).
Proof.
  unfold run, failuresAt.
  induction times as [|t times IH]; intros m; simpl; [done|].
  rewrite IH. unfold RecordFailure. rewrite recordFailure_windowOf.
  f_equal. 
  assert (windowSize (recordFailureLocked generateMetricsKey MaskAPIKey baseURL apiKey t m)
          = windowSize m) as ->; [|done].
  apply (apply_windowSize generateMetricsKey MaskAPIKey m (OpFailure t baseURL apiKey)).
Qed.

Lemma run_successesAt_window baseURL apiKey times : ∀ m,
  windowOf' baseURL apiKey (run' m (successesAt baseURL apiKey times)) =
  foldl (λ w _, slide (windowSize m) w true) (windowOf' baseURL apiKey m)
    (replicate (length times) ()).
Proof.
  unfold run, successesAt.
  induction times as [|t times IH]; intros m; simpl; [done|].
  rewrite IH. unfold RecordSuccessWithUsage. rewrite recordSuccess_windowOf.
  f_equal.
  assert (windowSize (recordSuccessWithUsageLocked generateMetricsKey MaskAPIKey baseURL apiKey
                        None t m) = windowSize m) as ->; [|done].
  apply (apply_windowSize generateMetricsKey MaskAPIKey m
           (OpSuccessWithUsage t baseURL apiKey None)).
Qed.

Lemma ShouldSuspendKey_windowOf baseURL apiKey m :
  ShouldSuspendKey generateMetricsKey baseURL apiKey m =
  let w := windowOf' baseURL apiKey m in
  if Z.of_nat (length w) <? minRequests (windowSize m) then false
  else Qle_bool (failureThreshold m)
         (if Z.of_nat (length w) =? 0 then 0%Q
          else Qmake (failures w) (Z.to_pos (Z.of_nat (length w)))).
Proof.
  unfold ShouldSuspendKey, windowOf, calculateKeyFailureRateInternal.
  destruct (keyMetrics m !! _); simpl; [done|].
  unfold minRequests. change (Z.of_nat 0) with 0.
  destruct (Z.ltb_spec 0 (Z.max 3 (windowSize m `quot` 2))); [done|lia].
Qed.

Lemma windowOf_bounded baseURL apiKey m :
  engineOK m → Z.of_nat (length (windowOf' baseURL apiKey m)) ≤ windowSize m.
Proof.
  intros [Hpos Hrows]. unfold windowOf.
  destruct (keyMetrics m !! _) as [km|] eqn:E; [|simpl; lia].
  by destruct (Hrows _ _ E) as [_ Hw].
Qed.

Lemma New_threshold ws thr :
  let t := failureThreshold (NewMetricsManagerWithConfig ws thr) in
  Qle_bool t 0 = false ∧ Qle_bool t 1 = true.
Proof.
  simpl. destruct (Qle_bool thr 0) eqn:E0; simpl; [done|].
  destruct (Qle_bool thr 1) eqn:E1; simpl; done.
Qed.

(** X5.  However good the record of a key, as many consecutive failures as
    the window holds suspend it: in every state an engine reaches from its
    construction, [windowSize] failures recorded for a key in a row leave
    [ShouldSuspendKey] true for it. *)
Theorem failure_streak_suspends (ws : Z) (thr : Q) (ops : list Op)
    (baseURL apiKey : string) (times : list Z) :
  Z.max 3 ws ≤ Z.of_nat (length times) →
  ShouldSuspendKey generateMetricsKey baseURL apiKey
    (run' (run' (NewMetricsManagerWithConfig ws thr) ops) (failuresAt baseURL apiKey times))
  = true.
Proof.
  intros Hn.
  set (m := run' (NewMetricsManagerWithConfig ws thr) ops).
  assert (Hok : engineOK m) by apply run_engineOK, NewMetricsManagerWithConfig_engineOK.
  assert (Hws : windowSize m = Z.max 3 ws).
  { unfold m. rewrite run_windowSize. simpl. destruct (Z.ltb_spec ws 3); lia. }
  assert (Hthr : Qle_bool (failureThreshold m) 1 = true).
  { unfold m. rewrite run_failureThreshold. apply New_threshold. }
  rewrite ShouldSuspendKey_windowOf, run_windowSize, run_failureThreshold,
    run_failuresAt_window. cbv zeta.
  rewrite slide_streak; [|lia|by apply windowOf_bounded|lia].
  rewrite length_replicate, failures_replicate_false, Z2Nat.id by lia.
  unfold minRequests.
  destruct (Z.ltb_spec (windowSize m) (Z.max 3 (windowSize m `quot` 2))) as [Hlt|_].
  { pose proof (Z.quot_lt (windowSize m) 2). lia. }
  destruct (Z.eqb_spec (windowSize m) 0); [lia|].
  apply Qle_bool_iff. apply Qle_bool_iff in Hthr.
  unfold Qle in *. simpl in *. rewrite Z2Pos.id by lia. nia.
Qed.

(** X6.  As many consecutive successes as the window holds resume a key,
    however bad its record: in every state an engine reaches from its
    construction, [windowSize] successes recorded for a key in a row leave
    [ShouldSuspendKey] false for it, and a channel with that key alone
    healthy. *)
Theorem success_streak_resumes (ws : Z) (thr : Q) (ops : list Op)
    (baseURL apiKey : string) (times : list Z) :
  Z.max 3 ws ≤ Z.of_nat (length times) →
  let m' := run' (run' (NewMetricsManagerWithConfig ws thr) ops)
              (successesAt baseURL apiKey times) in
  ShouldSuspendKey generateMetricsKey baseURL apiKey m' = false ∧
  IsChannelHealthyWithKeys generateMetricsKey baseURL [apiKey] m' = true.
Proof.
  intros Hn m'.
  set (m := run' (NewMetricsManagerWithConfig ws thr) ops) in *.
  assert (Hok : engineOK m) by apply run_engineOK, NewMetricsManagerWithConfig_engineOK.
  assert (Hws : windowSize m = Z.max 3 ws).
  { unfold m. rewrite run_windowSize. simpl. destruct (Z.ltb_spec ws 3); lia. }
  assert (Hthr : Qle_bool (failureThreshold m) 0 = false).
  { unfold m. rewrite run_failureThreshold. apply New_threshold. }
  assert (Hw : windowOf' baseURL apiKey m' = replicate (Z.to_nat (windowSize m)) true).
  { unfold m'. rewrite run_successesAt_window.
    apply slide_streak; [lia|by apply windowOf_bounded|lia]. }
  assert (Hrate : Qle_bool (failureThreshold m)
                    (Qmake 0 (Z.to_pos (Z.of_nat (Z.to_nat (windowSize m))))) = false).
  { apply not_true_is_false. intros E.
    apply Qle_bool_iff in E. unfold Qle in E. simpl in E.
    assert (Qle_bool (failureThreshold m) 0 = true) as E'; [|by rewrite Hthr in E'].
    apply Qle_bool_iff. unfold Qle. simpl. lia. }
  split.
  - rewrite ShouldSuspendKey_windowOf. unfold m' at 2 3. 
    rewrite run_windowSize, run_failureThreshold, Hw. cbv zeta.
    rewrite length_replicate, failures_replicate_true.
    destruct (_ <? _); [done|].
    destruct (Z.eqb_spec (Z.of_nat (Z.to_nat (windowSize m))) 0); [lia|]. exact Hrate.
  - unfold IsChannelHealthyWithKeys, totalResults. simpl.
    fold (windowOf' baseURL apiKey m'). rewrite app_nil_r, Hw.
    unfold m' at 1 2. rewrite run_windowSize, run_failureThreshold.
    rewrite length_replicate, failures_replicate_true.
    destruct (Z.eqb_spec (Z.of_nat (Z.to_nat (windowSize m))) 0); [lia|].
    destruct (_ <? _); [done|]. by rewrite Hrate.
Qed.

End Proofs.

(** A window of three: three failures after three successes suspend the
    key, and three successes after three failures resume it. *)
Lemma failure_streak_suspends_witness :
  ShouldSuspendKey Examples.metricsKey "https://u1" "k1"
    (run Examples.metricsKey Examples.mask
       (run Examples.metricsKey Examples.mask (NewMetricsManagerWithConfig 3 (Qmake 1 2))
          (successesAt "https://u1" "k1" [1; 2; 3]))
       (failuresAt "https://u1" "k1" [4; 5; 6]))
  = true.
Proof.
  apply (failure_streak_suspends Examples.metricsKey Examples.mask 3 (Qmake 1 2)
           (successesAt "https://u1" "k1" [1; 2; 3]) "https://u1" "k1" [4; 5; 6]).
  simpl. lia.
Defined.

Lemma success_streak_resumes_witness :
  ShouldSuspendKey Examples.metricsKey "https://u1" "k1"
    (run Examples.metricsKey Examples.mask
       (run Examples.metricsKey Examples.mask (NewMetricsManagerWithConfig 3 (Qmake 1 2))
          (failuresAt "https://u1" "k1" [1; 2; 3]))
       (successesAt "https://u1" "k1" [4; 5; 6]))
  = false.
Proof.
  apply (success_streak_resumes Examples.metricsKey Examples.mask 3 (Qmake 1 2)
           (failuresAt "https://u1" "k1" [1; 2; 3]) "https://u1" "k1" [4; 5; 6]).
  simpl. lia.
Defined.

End BreakerFacts.

(** ** Metrics engine: health, resets and sweeps *)

Module HealthFacts.
Import Metrics MetricsAdmin EngineRun MetricsFacts EngineFacts ReservationFacts BreakerFacts.

Lemma failures_app w1 w2 : failures (w1 ++ w2) = failures w1 + failures w2.
Proof. unfold failures. rewrite filter_app, length_app. lia. Qed.

Lemma failures_nonneg w : 0 ≤ failures w.
Proof. unfold failures. lia. Qed.

Lemma over_concat minReq a b (ws : list (list bool)) :
  ws ≠ [] → Forall (over minReq a b) ws → 0 ≤ minReq → over minReq a b (concat ws).
Proof.
  intros Hne Hall Hmin. induction Hall as [|w ws [Hlen Hrate] Hall IH]; [done|].
  destruct ws as [|w' ws].
  - simpl. rewrite app_nil_r. by split.
  - destruct (IH ltac:(done)) as [Hlen' Hrate'].
    change (concat (w :: w' :: ws)) with (w ++ concat (w' :: ws)).
    split; rewrite length_app, ?failures_app; lia.
Qed.

Section Proofs.

Variable generateMetricsKey : string → string → string.
Variable MaskAPIKey : string → string.

Local Abbreviation windowOf' := (windowOf generateMetricsKey).

Lemma ShouldSuspendKey_over baseURL apiKey m :
  ShouldSuspendKey generateMetricsKey baseURL apiKey m = true →
  over (minRequests (windowSize m)) (Qnum (failureThreshold m)) (Qden (failureThreshold m))
    (windowOf' baseURL apiKey m).
Proof.
  rewrite ShouldSuspendKey_windowOf. cbv zeta.
  set (w := windowOf' baseURL apiKey m).
  destruct (Z.ltb_spec (Z.of_nat (length w)) (minRequests (windowSize m))) as [|Hlen]; [done|].
  assert (3 ≤ minRequests (windowSize m)) by (unfold minRequests; lia).
  destruct (Z.eqb_spec (Z.of_nat (length w)) 0); [lia|].
  intros Hq%Qle_bool_iff. unfold Qle in Hq. simpl in Hq. rewrite Z2Pos.id in Hq by lia.
  split; [done|lia].
Qed.

Lemma over_suspended m w :
  over (minRequests (windowSize m)) (Qnum (failureThreshold m)) (Qden (failureThreshold m)) w →
  (Z.of_nat (length w) =? 0) = false ∧
  (Z.of_nat (length w) <? minRequests (windowSize m)) = false ∧
  Qle_bool (failureThreshold m) (Qmake (failures w) (Z.to_pos (Z.of_nat (length w)))) = true.
Proof.
  intros [Hlen Hrate].
  assert (3 ≤ minRequests (windowSize m)) by (unfold minRequests; lia).
  split; [apply Z.eqb_neq; lia|]. split; [apply Z.ltb_ge; lia|].
  apply Qle_bool_iff. unfold Qle. simpl. rewrite Z2Pos.id by lia. lia.
Qed.

(** X7.  The executor's force-probe test and the scheduler's health test
    agree in one direction: a channel whose keys are all suspended at a
    base URL is never healthy there, and none of its keys is healthy. *)
Theorem all_suspended_is_unhealthy (m : MetricsManager) (baseURL : string)
    (apiKeys : list string) :
  Failover.AreAllKeysSuspended generateMetricsKey m baseURL apiKeys = true →
  IsChannelHealthyWithKeys generateMetricsKey baseURL apiKeys m = false ∧
  ∀ apiKey, apiKey ∈ apiKeys → IsKeyHealthy generateMetricsKey baseURL apiKey m = false.
Proof.
  unfold Failover.AreAllKeysSuspended.
  destruct (Z.eqb_spec (Z.of_nat (length apiKeys)) 0) as [|Hne]; [done|].
  intros Hall. rewrite forallb_forall in Hall.
  assert (Hover : ∀ apiKey, apiKey ∈ apiKeys →
            over (minRequests (windowSize m)) (Qnum (failureThreshold m))
              (Qden (failureThreshold m)) (windowOf' baseURL apiKey m)).
  { intros apiKey Hin. apply ShouldSuspendKey_over, Hall. by apply list_elem_of_In. }
  split.
  - unfold IsChannelHealthyWithKeys.
    destruct (Z.eqb_spec (Z.of_nat (length apiKeys)) 0); [done|].
    assert (Htotal : over (minRequests (windowSize m)) (Qnum (failureThreshold m))
                       (Qden (failureThreshold m))
                       (totalResults generateMetricsKey baseURL apiKeys m)).
    { unfold totalResults. apply over_concat.
      - destruct apiKeys; [simpl in *; lia|done].
      - apply Forall_map, Forall_forall. intros apiKey Hin. by apply Hover.
      - unfold minRequests. lia. }
    apply over_suspended in Htotal as (-> & -> & ->). done.
  - intros apiKey Hin. apply Hover, over_suspended in Hin as (H0 & _ & Hq).
    unfold IsKeyHealthy, windowOf, calculateKeyFailureRateInternal in *.
    destruct (keyMetrics m !! _) as [km|]; [|done].
    rewrite H0, Hq. done.
Qed.

(** A channel with one key is healthy exactly when that key is not
    suspended. *)
Lemma single_key_health baseURL apiKey m :
  IsChannelHealthyWithKeys generateMetricsKey baseURL [apiKey] m =
  negb (ShouldSuspendKey generateMetricsKey baseURL apiKey m).
Proof.
  rewrite ShouldSuspendKey_windowOf. cbv zeta.
  unfold IsChannelHealthyWithKeys, totalResults. simpl. rewrite app_nil_r.
  fold (windowOf' baseURL apiKey m).
  destruct (Z.eqb_spec (Z.of_nat (length (windowOf' baseURL apiKey m))) 0) as [E|E].
  - rewrite E. unfold minRequests.
    destruct (Z.ltb_spec 0 (Z.max 3 (windowSize m `quot` 2))); [done|lia].
  - by destruct (_ <? _).
Qed.

Lemma scannedRecords_ext baseURL activeKeys m m' :
  (∀ apiKey, (requestHistory <$> keyMetrics m' !! generateMetricsKey baseURL apiKey) =
             (requestHistory <$> keyMetrics m !! generateMetricsKey baseURL apiKey)) →
  scannedRecords generateMetricsKey baseURL activeKeys m' =
  scannedRecords generateMetricsKey baseURL activeKeys m.
Proof.
  intros Hext. unfold scannedRecords. f_equal. apply map_ext. intros apiKey.
  specialize (Hext apiKey).
  destruct (keyMetrics m' !! _), (keyMetrics m !! _); simpl in Hext; congruence.
Qed.

(** X8.  A manual reset of the failure state of a key releases it: the key is
    neither suspended nor unhealthy afterwards, its breaker stamp and its
    run of consecutive failures are cleared, while its totals, its
    history and its reservations stay, so that no historical query
    changes its answer. *)
Theorem ResetKeyFailureState_releases (baseURL apiKey : string) (m : MetricsManager) :
  let m' := ResetKeyFailureState generateMetricsKey baseURL apiKey m in
  ShouldSuspendKey generateMetricsKey baseURL apiKey m' = false ∧
  IsKeyHealthy generateMetricsKey baseURL apiKey m' = true ∧
  IsChannelHealthyWithKeys generateMetricsKey baseURL [apiKey] m' = true ∧
  (∀ km, keyMetrics m !! generateMetricsKey baseURL apiKey = Some km →
     ∃ km', keyMetrics m' !! generateMetricsKey baseURL apiKey = Some km' ∧
       ConsecutiveFailures km' = 0 ∧ CircuitBrokenAt km' = None ∧ recentResults km' = [] ∧
       RequestCount km' = RequestCount km ∧ SuccessCount km' = SuccessCount km ∧
       FailureCount km' = FailureCount km ∧ ActiveRequests km' = ActiveRequests km ∧
       requestHistory km' = requestHistory km ∧
       pendingHistoryIdx km' = pendingHistoryIdx km) ∧
  (∀ now url keys duration interval,
     GetHistoricalStats generateMetricsKey now url keys duration interval m' =
     GetHistoricalStats generateMetricsKey now url keys duration interval m) ∧
  (∀ k, k ≠ generateMetricsKey baseURL apiKey → keyMetrics m' !! k = keyMetrics m !! k).
Proof.
  intros m'.
  assert (Hw : windowOf' baseURL apiKey m' = []).
  { unfold m', ResetKeyFailureState, windowOf.
    destruct (keyMetrics m !! generateMetricsKey baseURL apiKey) as [km|] eqn:E.
    - simpl. by rewrite lookup_insert_eq.
    - by rewrite E. }
  assert (Hs : ShouldSuspendKey generateMetricsKey baseURL apiKey m' = false).
  { rewrite ShouldSuspendKey_windowOf, Hw. cbv zeta. change (Z.of_nat (length [])) with 0.
    unfold minRequests.
    destruct (Z.ltb_spec 0 (Z.max 3 (windowSize m' `quot` 2))); [done|lia]. }
  split; [exact Hs|]. split.
  { unfold IsKeyHealthy. unfold windowOf in Hw.
    destruct (keyMetrics m' !! _); [|done]. by rewrite Hw. }
  split. { by rewrite single_key_health, Hs. }
  split.
  { intros km Hrow. unfold m', ResetKeyFailureState. rewrite Hrow. simpl.
    rewrite lookup_insert_eq. eexists. split; [done|]. by repeat split. }
  split.
  { intros now url keys duration interval. unfold GetHistoricalStats.
    rewrite (scannedRecords_ext url keys m m'); [done|].
    intros k. unfold m', ResetKeyFailureState.
    destruct (keyMetrics m !! generateMetricsKey baseURL apiKey) as [km|] eqn:E; [|done].
    simpl. destruct (decide (generateMetricsKey url k = generateMetricsKey baseURL apiKey))
      as [->|Hne].
    - by rewrite lookup_insert_eq, E.
    - by rewrite lookup_insert_ne. }
  intros k Hk. unfold m', ResetKeyFailureState.
  destruct (keyMetrics m !! generateMetricsKey baseURL apiKey) as [km|] eqn:E; [|done].
  simpl. by rewrite lookup_insert_ne.
Qed.

(** X9.  The minute sweep releases a key whose breaker stamp is older than the
    recovery time, and only such a key: a row without a stamp is left as
    it is, so a key that is suspended without a stamp (a success clears
    the stamp but not the window) stays suspended after the sweep,
    however late the sweep. *)
Theorem recoverExpiredCircuitBreakers_by_stamp (now : Z) (baseURL apiKey : string)
    (m : MetricsManager) (km : KeyMetrics) :
  keyMetrics m !! generateMetricsKey baseURL apiKey = Some km →
  let m' := recoverExpiredCircuitBreakers now m in
  (∀ brokenAt, CircuitBrokenAt km = Some brokenAt →
     circuitRecoveryTime < time_Sub now brokenAt →
     ShouldSuspendKey generateMetricsKey baseURL apiKey m' = false ∧
     keyMetrics m' !! generateMetricsKey baseURL apiKey = Some (clearFailureState km)) ∧
  (∀ brokenAt, CircuitBrokenAt km = Some brokenAt →
     time_Sub now brokenAt ≤ circuitRecoveryTime →
     keyMetrics m' !! generateMetricsKey baseURL apiKey = Some km) ∧
  (CircuitBrokenAt km = None →
     keyMetrics m' !! generateMetricsKey baseURL apiKey = Some km ∧
     ShouldSuspendKey generateMetricsKey baseURL apiKey m' =
     ShouldSuspendKey generateMetricsKey baseURL apiKey m).
Proof.
  intros Hrow m'.
  assert (Hrow' : keyMetrics m' !! generateMetricsKey baseURL apiKey = Some (recoverRow now km)).
  { unfold m', recoverExpiredCircuitBreakers. simpl. by rewrite lookup_fmap, Hrow. }
  split; [|split].
  - intros brokenAt Hcb Hold. unfold recoverRow in Hrow'. rewrite Hcb in Hrow'.
    destruct (Z.ltb_spec circuitRecoveryTime (time_Sub now brokenAt)); [|lia].
    split; [|done]. rewrite ShouldSuspendKey_windowOf. unfold windowOf. rewrite Hrow'.
    cbv zeta. change (Z.of_nat (length (recentResults (clearFailureState km)))) with 0.
    unfold minRequests.
    destruct (Z.ltb_spec 0 (Z.max 3 (windowSize m' `quot` 2))); [done|lia].
  - intros brokenAt Hcb Hyoung. unfold recoverRow in Hrow'. rewrite Hcb in Hrow'.
    by destruct (Z.ltb_spec circuitRecoveryTime (time_Sub now brokenAt)); [lia|].
  - intros Hcb. unfold recoverRow in Hrow'. rewrite Hcb in Hrow'. split; [done|].
    unfold ShouldSuspendKey. by rewrite Hrow', Hrow.
Qed.

(** X10.  The rows of the product of the base URLs and the keys, and only
    they, are deleted, whether or not another channel uses one of the
    pairs; the identities of the whole product are returned. *)
Theorem DeleteKeysForChannel_product (baseURLs apiKeys : list string) (m : MetricsManager) :
  let res := DeleteKeysForChannel generateMetricsKey baseURLs apiKeys m in
  res.1 = (baseURLs ≫= λ baseURL, generateMetricsKey baseURL <$> apiKeys) ∧
  Z.of_nat (length res.1) = Z.of_nat (length baseURLs) * Z.of_nat (length apiKeys) ∧
  (∀ k, keyMetrics res.2 !! k = if decide (k ∈ res.1) then None else keyMetrics m !! k) ∧
  store res.2 = store m ∧ nextRequestID res.2 = nextRequestID m.
Proof.
  intros res.
  assert (Hinner : ∀ baseURL keys (a : list string * MetricsManager),
            let r := foldl (λ (a : list string * MetricsManager) apiKey,
                              (a.1 ++ [generateMetricsKey baseURL apiKey],
                               with_keyMetrics
                                 (delete (generateMetricsKey baseURL apiKey) (keyMetrics a.2))
                                 a.2)) a keys in
            r.1 = a.1 ++ (generateMetricsKey baseURL <$> keys) ∧
            (∀ k, keyMetrics r.2 !! k =
                  if decide (k ∈ generateMetricsKey baseURL <$> keys) then None
                  else keyMetrics a.2 !! k) ∧
            store r.2 = store a.2 ∧ nextRequestID r.2 = nextRequestID a.2).
  { intros baseURL keys. induction keys as [|key keys IH]; intros a r.
    - simpl. rewrite app_nil_r. split; [done|]. split; [|done].
      intros k. done.
    - destruct (IH (a.1 ++ [generateMetricsKey baseURL key],
                    with_keyMetrics (delete (generateMetricsKey baseURL key) (keyMetrics a.2)) a.2))
        as (H1 & H2 & H3 & H4).
      unfold r. simpl in *. rewrite H1, <- app_assoc. split; [done|]. split; [|done].
      intros k. rewrite H2.
      destruct (decide (k ∈ generateMetricsKey baseURL <$> keys)) as [Hin|Hnin].
      + rewrite decide_True by (by right). done.
      + destruct (decide (k = generateMetricsKey baseURL key)) as [->|Hne].
        * rewrite decide_True by left. apply lookup_delete_eq.
        * rewrite decide_False by (intros [?|?]%elem_of_cons; done).
          by rewrite lookup_delete_ne. }
  assert (Houter : ∀ urls (a : list string * MetricsManager),
            let r := foldl (λ acc baseURL,
                        foldl (λ (a : list string * MetricsManager) apiKey,
                                 (a.1 ++ [generateMetricsKey baseURL apiKey],
                                  with_keyMetrics
                                    (delete (generateMetricsKey baseURL apiKey) (keyMetrics a.2))
                                    a.2)) acc apiKeys) a urls in
            r.1 = a.1 ++ (urls ≫= λ baseURL, generateMetricsKey baseURL <$> apiKeys) ∧
            (∀ k, keyMetrics r.2 !! k =
                  if decide (k ∈ urls ≫= λ baseURL, generateMetricsKey baseURL <$> apiKeys)
                  then None else keyMetrics a.2 !! k) ∧
            store r.2 = store a.2 ∧ nextRequestID r.2 = nextRequestID a.2).
  { induction urls as [|url urls IH]; intros a r.
    - simpl. rewrite app_nil_r. split; [done|]. split; [|done].
      intros k. done.
    - unfold r. simpl.
      destruct (Hinner url apiKeys a) as (H1 & H2 & H3 & H4).
      match goal with |- context [foldl _ (foldl ?f a apiKeys) urls] =>
        set (a' := foldl f a apiKeys) in * end.
      destruct (IH a') as (G1 & G2 & G3 & G4).
      rewrite G1, H1, <- app_assoc. split; [done|]. split; [|by rewrite G3, G4].
      intros k. rewrite G2, H2.
      destruct (decide (k ∈ urls ≫= _)) as [Hin|Hnin].
      + rewrite decide_True; [done|]. apply elem_of_app. by right.
      + destruct (decide (k ∈ generateMetricsKey url <$> apiKeys)) as [Hin'|Hnin'].
        * rewrite decide_True; [done|]. apply elem_of_app. by left.
        * rewrite decide_False; [done|]. intros [?|?]%elem_of_app; done. }
  destruct (Houter baseURLs ([], m)) as (H1 & H2 & H3 & H4).
  simpl in H1, H2, H3, H4. unfold res, DeleteKeysForChannel.
  split; [exact H1|]. split; [|split; [|by split]].
  - rewrite H1. clear. induction baseURLs as [|url urls IH]; [done|].
    change ((url :: urls) ≫= λ baseURL, generateMetricsKey baseURL <$> apiKeys)
      with ((generateMetricsKey url <$> apiKeys) ++
            (urls ≫= λ baseURL, generateMetricsKey baseURL <$> apiKeys)).
    rewrite length_app, length_fmap, Nat2Z.inj_add, IH. simpl length. lia.
  - intros k. rewrite H1. apply H2.
Qed.

(** X11.  The hourly sweep deletes a row that has no success and no failure
    stamp, whatever the time: the row of a key whose first request is
    still in flight is lost to it together with the reservation, and the
    finalize that follows finds no slot, so it records a fresh success
    stamped with its own time and no model. *)
Theorem cleanupStaleKeys_drops_first_request (now1 now2 now3 : Z)
    (baseURL apiKey model : string) (usage : option Usage) (m : MetricsManager) :
  keyMetrics m !! generateMetricsKey baseURL apiKey = None →
  let res := RecordRequestConnected generateMetricsKey MaskAPIKey now1 baseURL apiKey model m in
  let m2 := cleanupStaleKeys now2 res.2 in
  let m3 := RecordRequestFinalizeSuccess generateMetricsKey MaskAPIKey now3 baseURL apiKey
              res.1 usage m2 in
  let tokens := usageTokens usage in
  (∃ km1, pendingSlot generateMetricsKey baseURL apiKey res.1 res.2 = Some (km1, 0) ∧
          requestHistory km1 = [reservedRecord model now1]) ∧
  keyMetrics m2 !! generateMetricsKey baseURL apiKey = None ∧
  ∃ km3,
    keyMetrics m3 !! generateMetricsKey baseURL apiKey = Some km3 ∧
    requestHistory km3 =
      [rewriteRecord true tokens.1.1.1 tokens.1.1.2 tokens.1.2 tokens.2 (reservedRecord "" now3)] ∧
    pendingHistoryIdx km3 = ∅ ∧
    RequestCount km3 = 1 ∧ SuccessCount km3 = 1.
Proof.
  intros Hrow res m2 m3 tokens.
  assert (Hres : res = (wrapU64 (nextRequestID m + 1),
            putKey generateMetricsKey baseURL apiKey
              (cleanupHistoryLocked now1
                 (with_history [reservedRecord model now1]
                    {[ wrapU64 (nextRequestID m + 1) := 0 ]}
                    (newKeyMetrics generateMetricsKey MaskAPIKey baseURL apiKey)))
              (with_nextRequestID (wrapU64 (nextRequestID m + 1))
                 (with_keyMetrics
                    (<[generateMetricsKey baseURL apiKey :=
                         newKeyMetrics generateMetricsKey MaskAPIKey baseURL apiKey]>
                       (keyMetrics m)) m)))).
  { unfold res, RecordRequestConnected, RecordRequestConnectedAt, getOrCreateKey.
    rewrite Hrow. simpl. by rewrite insert_empty. }
  assert (Hclean : ∀ now model p,
            cleanupHistoryLocked now
              (with_history [reservedRecord model now] p
                 (newKeyMetrics generateMetricsKey MaskAPIKey baseURL apiKey)) =
            with_history [reservedRecord model now] p
              (newKeyMetrics generateMetricsKey MaskAPIKey baseURL apiKey)).
  { intros now md p. unfold cleanupHistoryLocked. simpl. by rewrite now_after_cutoff. }
  rewrite Hclean in Hres.
  assert (Hm2 : keyMetrics m2 !! generateMetricsKey baseURL apiKey = None).
  { unfold m2, cleanupStaleKeys. simpl. apply map_lookup_filter_None. right.
    intros km. rewrite Hres. simpl. rewrite lookup_insert_eq. intros [= <-]. done. }
  split.
  { eexists. rewrite Hres. unfold pendingSlot. simpl.
    rewrite lookup_insert_eq. simpl. rewrite lookup_singleton_eq. simpl. done. }
  split; [exact Hm2|].
  unfold m3, RecordRequestFinalizeSuccess, pendingSlot. rewrite Hm2.
  unfold recordSuccessWithUsageLocked, getOrCreateKey. rewrite Hm2.
  unfold tokens. destruct (usageTokens usage) as [[[i o] cc] cr]. simpl.
  rewrite lookup_insert_eq. eexists. split; [done|].
  unfold appendToHistoryKeyWithUsage. simpl.
  unfold cleanupHistoryLocked. simpl. rewrite now_after_cutoff. simpl. done.
Qed.

Lemma foldl_countAfter cutoff h : ∀ rc sc fc,
  foldl (countAfter cutoff) (rc, sc, fc) h =
  (rc + Z.of_nat (length (filter (λ r, time_After (Timestamp r) cutoff = true) h)),
   sc + Z.of_nat (length (filter (λ r, time_After (Timestamp r) cutoff = true ∧
                                       Success r = true) h)),
   fc + Z.of_nat (length (filter (λ r, time_After (Timestamp r) cutoff = true ∧
                                       Success r = false) h))).
Proof.
  induction h as [|r h IH]; intros rc sc fc.
  - simpl. by rewrite !Z.add_0_r.
  - cbn [foldl]. unfold countAfter at 2. rewrite !filter_cons.
    destruct (time_After (Timestamp r) cutoff) eqn:E; rewrite IH;
      destruct (Success r) eqn:Es;
      repeat case_decide; try (exfalso; intuition congruence);
      simpl length; repeat (apply (f_equal2 pair)); lia.
Qed.

Lemma filter_length_le {A} (P Q : A → Prop) `{∀ x, Decision (P x)} `{∀ x, Decision (Q x)}
    (l : list A) :
  (∀ x, P x → Q x) → (length (filter P l) ≤ length (filter Q l))%nat.
Proof.
  intros HPQ. induction l as [|x l IH]; [done|].
  destruct (decide (P x)) as [HP|HP].
  - rewrite filter_cons_True by done. rewrite (filter_cons_True Q) by auto. simpl. lia.
  - rewrite filter_cons_False by done.
    destruct (decide (Q x)); [rewrite (filter_cons_True Q) by done; simpl; lia|].
    by rewrite (filter_cons_False Q).
Qed.

(** X12.  The statistics of a key over the last [duration] (any Duration
    whose negation is one) count the history records stamped after
    [now - duration], each one as a success or as a failure (a
    reservation in flight counts as a success); a longer duration never
    counts fewer; and a key without such a record, or without a row, has
    a success rate of 100. *)
Theorem GetTimeWindowStatsForKey_counts (now : Z) (baseURL apiKey : string)
    (duration : Z) (m : MetricsManager) :
  MinInt64 < duration ≤ MaxInt64 →
  let stats := GetTimeWindowStatsForKey generateMetricsKey now baseURL apiKey duration m in
  let h := default [] (requestHistory <$> keyMetrics m !! generateMetricsKey baseURL apiKey) in
  TW_RequestCount stats =
    Z.of_nat (length (filter (λ r, now - duration < Timestamp r) h)) ∧
  TW_SuccessCount stats =
    Z.of_nat (length (filter (λ r, now - duration < Timestamp r ∧ Success r = true) h)) ∧
  TW_RequestCount stats = TW_SuccessCount stats + TW_FailureCount stats ∧
  (TW_RequestCount stats = 0 → TW_SuccessRate stats = 100%Q) ∧
  (∀ longer, duration ≤ longer ≤ MaxInt64 →
     TW_RequestCount stats ≤
     TW_RequestCount
       (GetTimeWindowStatsForKey generateMetricsKey now baseURL apiKey longer m)).
Proof.
  intros Hd stats h.
  assert (Hall : ∀ d, MinInt64 < d ≤ MaxInt64 →
            let s := GetTimeWindowStatsForKey generateMetricsKey now baseURL apiKey d m in
            TW_RequestCount s = Z.of_nat (length (filter (λ r, now - d < Timestamp r) h)) ∧
            TW_SuccessCount s =
              Z.of_nat (length (filter (λ r, now - d < Timestamp r ∧ Success r = true) h)) ∧
            TW_FailureCount s =
              Z.of_nat (length (filter (λ r, now - d < Timestamp r ∧ Success r = false) h)) ∧
            (TW_RequestCount s = 0 → TW_SuccessRate s = 100%Q)).
  { intros d Hrange. unfold GetTimeWindowStatsForKey, h.
    destruct (keyMetrics m !! _) as [km|]; [|done]. cbv zeta.
    rewrite BasicFacts.wrap64_small by (unfold MinInt64, MaxInt64 in *; lia).
    simpl. rewrite foldl_countAfter. simpl. rewrite !Z.add_0_l.
    assert (Hafter : ∀ r : RequestRecord,
              time_After (Timestamp r) (now + - d) = true ↔ now - d < Timestamp r).
    { intros r. unfold time_After. rewrite Z.ltb_lt. lia. }
    split; [|split; [|split]].
    - f_equal. f_equal. apply list_filter_iff. intros r. apply Hafter.
    - f_equal. f_equal. apply list_filter_iff. intros r. simpl. by rewrite Hafter.
    - f_equal. f_equal. apply list_filter_iff. intros r. simpl. by rewrite Hafter.
    - by intros ->. }
  destruct (Hall duration Hd) as (Hrc & Hsc & Hfc & Hrate). fold stats in Hrc, Hsc, Hfc, Hrate.
  split; [exact Hrc|]. split; [exact Hsc|]. split; [|split; [exact Hrate|]].
  - rewrite Hrc, Hsc, Hfc. clear. induction h as [|r l IH]; [done|].
    rewrite !filter_cons. destruct (Success r) eqn:Es;
      repeat case_decide; try (exfalso; intuition (congruence || lia)); simpl length; lia.
  - intros longer Hlonger. destruct (Hall longer) as (Hrc' & _); [lia|]. rewrite Hrc, Hrc'.
    apply inj_le, filter_length_le. intros r. simpl. lia.
Qed.

End Proofs.

(** A channel whose only key has a window of failures: all its keys are
    suspended, and it is unhealthy. *)
Lemma all_suspended_is_unhealthy_witness :
  IsChannelHealthyWithKeys Examples.metricsKey "https://a" ["ka"] Scenarios.broken = false.
Proof.
  exact (proj1 (all_suspended_is_unhealthy Examples.metricsKey Scenarios.broken "https://a"
                  ["ka"] eq_refl)).
Defined.

(** The same key, stamped at 9 nanoseconds, is released by a sweep 16
    minutes later. *)
Lemma recoverExpiredCircuitBreakers_by_stamp_witness :
  ShouldSuspendKey Examples.metricsKey "https://a" "ka" Scenarios.broken = true ∧
  ShouldSuspendKey Examples.metricsKey "https://a" "ka"
    (recoverExpiredCircuitBreakers (16 * Minute) Scenarios.broken) = false.
Proof.
  split; [reflexivity|].
  apply (proj1 (recoverExpiredCircuitBreakers_by_stamp Examples.metricsKey (16 * Minute)
                  "https://a" "ka" Scenarios.broken (Examples.failingRow "https://a" "ka")
                  eq_refl) 9 eq_refl).
  reflexivity.
Defined.

(** The first request of a key on a fresh engine, connected at second
    100 and swept at second 101: its row is gone. *)
Lemma cleanupStaleKeys_drops_first_request_witness :
  keyMetrics
    (cleanupStaleKeys (101 * Second)
       (RecordRequestConnected Examples.metricsKey Examples.mask (100 * Second)
          "https://u1" "k1" "claude-3" Scenarios.fresh).2)
    !! Examples.metricsKey "https://u1" "k1" = None.
Proof.
  exact (proj1 (proj2 (cleanupStaleKeys_drops_first_request Examples.metricsKey Examples.mask
                         (100 * Second) (101 * Second) (102 * Second) "https://u1" "k1"
                         "claude-3" None Scenarios.fresh eq_refl))).
Defined.

(** The key with records at 10, 20 and 30: two of them are younger than
    10 at 25. *)
Lemma GetTimeWindowStatsForKey_counts_witness :
  TW_RequestCount
    (GetTimeWindowStatsForKey Examples.metricsKey 25 "https://u1" "k1" 10 Examples.manager) = 2.
Proof.
  destruct (GetTimeWindowStatsForKey_counts Examples.metricsKey 25 "https://u1" "k1" 10
              Examples.manager ltac:(vm_compute; split; [reflexivity|discriminate]))
    as (Hrc & _).
  rewrite Hrc. reflexivity.
Defined.

End HealthFacts.

(** ** Failed-key cache: cooldown, sweep and key choice *)

Module CooldownFacts.
Import Config ChatConfig.

Lemma append_inj_r (p s1 s2 : string) : p +:+ s1 = p +:+ s2 → s1 = s2.
Proof.
  induction p as [|c p IH]; [done|].
  rewrite !BasicFacts.append_String. intros [= H]. by apply IH.
Qed.

Lemma failedKeyCacheKey_inj_apiKey (apiType k1 k2 : string) :
  failedKeyCacheKey apiType k1 = failedKeyCacheKey apiType k2 → k1 = k2.
Proof.
  unfold failedKeyCacheKey. intros H. by apply append_inj_r, append_inj_r in H.
Qed.

Lemma recoveryTimeOf_eq cm f :
  0 ≤ keyRecoveryTime cm → 2 * keyRecoveryTime cm ≤ MaxInt64 →
  recoveryTimeOf cm f =
  (if maxFailureCount cm <? FailureCount f then 2 * keyRecoveryTime cm else keyRecoveryTime cm) ∧
  0 ≤ recoveryTimeOf cm f ≤ MaxInt64.
Proof.
  intros H0 H2. unfold recoveryTimeOf.
  destruct (maxFailureCount cm <? FailureCount f).
  - rewrite BasicFacts.wrap64_small; [lia|]. unfold MinInt64, MaxInt64, two63 in *. lia.
  - lia.
Qed.

Lemma MarkKeyAsFailed_other now apiKey apiType cm other t :
  other ≠ apiKey →
  IsKeyFailed t other apiType (MarkKeyAsFailed now apiKey apiType cm) =
  IsKeyFailed t other apiType cm.
Proof.
  intros Hne. unfold IsKeyFailed, isKeyFailed, MarkKeyAsFailed.
  assert (failedKeyCacheKey apiType apiKey ≠ failedKeyCacheKey apiType other) as Hk.
  { intros E. by apply Hne, eq_sym, (failedKeyCacheKey_inj_apiKey apiType). }
  destruct (failedKeysCache cm !! failedKeyCacheKey apiType apiKey); simpl;
    by rewrite lookup_insert_ne.
Qed.

Lemma MarkKeyAsFailed_params now apiKey apiType cm :
  keyRecoveryTime (MarkKeyAsFailed now apiKey apiType cm) = keyRecoveryTime cm ∧
  maxFailureCount (MarkKeyAsFailed now apiKey apiType cm) = maxFailureCount cm ∧
  config (MarkKeyAsFailed now apiKey apiType cm) = config cm.
Proof. unfold MarkKeyAsFailed. by destruct (failedKeysCache cm !! _). Qed.

Lemma mark_entry now apiKey apiType cm :
  MinInt64 ≤ countOf apiKey apiType cm + 1 ≤ MaxInt64 →
  failedKeysCache (MarkKeyAsFailed now apiKey apiType cm) !! failedKeyCacheKey apiType apiKey =
  Some {| Timestamp := now; FailureCount := countOf apiKey apiType cm + 1 |}.
Proof.
  unfold countOf, MarkKeyAsFailed. intros Hc.
  destruct (failedKeysCache cm !! failedKeyCacheKey apiType apiKey) as [f|]; simpl;
    rewrite lookup_insert_eq; [|done].
  by rewrite BasicFacts.wrap64_small.
Qed.

Lemma marks_entry apiKey apiType (pre : list Z) : ∀ cm (last : Z),
  MinInt64 ≤ countOf apiKey apiType cm + 1 →
  countOf apiKey apiType cm + Z.of_nat (length pre) + 1 ≤ MaxInt64 →
  failedKeysCache
    (foldl (λ cm t, MarkKeyAsFailed t apiKey apiType cm) cm (pre ++ [last]))
    !! failedKeyCacheKey apiType apiKey =
  Some {| Timestamp := last;
          FailureCount := countOf apiKey apiType cm + Z.of_nat (length pre) + 1 |}.
Proof.
  induction pre as [|t pre IH]; intros cm last Hmin Hmax.
  - simpl in *. rewrite mark_entry by lia. do 2 f_equal. lia.
  - cbn [app foldl]. 
    assert (Hc : countOf apiKey apiType (MarkKeyAsFailed t apiKey apiType cm) =
                 countOf apiKey apiType cm + 1).
    { unfold countOf at 1. rewrite mark_entry; [done|]. simpl length in Hmax. lia. }
    rewrite IH; rewrite Hc; simpl length in *; [|unfold MinInt64, two63 in *; lia|lia].
    do 2 f_equal. lia.
Qed.

Lemma marks_frame apiKey apiType (times : list Z) : ∀ cm,
  let cm' := foldl (λ cm t, MarkKeyAsFailed t apiKey apiType cm) cm times in
  keyRecoveryTime cm' = keyRecoveryTime cm ∧ maxFailureCount cm' = maxFailureCount cm ∧
  config cm' = config cm ∧
  ∀ t other, other ≠ apiKey →
    IsKeyFailed t other apiType cm' = IsKeyFailed t other apiType cm.
Proof.
  induction times as [|t0 times IH]; intros cm; simpl; [done|].
  destruct (IH (MarkKeyAsFailed t0 apiKey apiType cm)) as (H1 & H2 & H3 & H4).
  destruct (MarkKeyAsFailed_params t0 apiKey apiType cm) as (G1 & G2 & G3).
  split; [congruence|]. split; [congruence|]. split; [congruence|].
  intros t other Hne. rewrite H4 by done. by apply MarkKeyAsFailed_other.
Qed.

(** X13.  A key that had no entry and is marked failed [n] times in a row (by
    the executor, no sweep in between) cools down from the last mark for
    the base recovery time, and for twice that time once [n] exceeds the
    maximum failure count; the other keys of the same interface are not
    touched. *)
Theorem repeated_marks_cooldown (apiKey apiType : string) (pre : list Z) (last : Z)
    (cm : ConfigManager) :
  failedKeysCache cm !! failedKeyCacheKey apiType apiKey = None →
  0 ≤ keyRecoveryTime cm → 2 * keyRecoveryTime cm ≤ MaxInt64 →
  Z.of_nat (length pre) + 1 ≤ MaxInt64 →
  let cm' := foldl (λ cm t, MarkKeyAsFailed t apiKey apiType cm) cm (pre ++ [last]) in
  let n := Z.of_nat (length pre) + 1 in
  failedKeysCache cm' !! failedKeyCacheKey apiType apiKey =
    Some {| Timestamp := last; FailureCount := n |} ∧
  (∀ t, IsKeyFailed t apiKey apiType cm' = true ↔
        t - last < (if maxFailureCount cm <? n then 2 * keyRecoveryTime cm
                    else keyRecoveryTime cm)) ∧
  (∀ t other, other ≠ apiKey →
     IsKeyFailed t other apiType cm' = IsKeyFailed t other apiType cm).
Proof.
  intros Hnone H0 H2 Hn cm' n. subst n.
  assert (Hc : countOf apiKey apiType cm = 0) by (unfold countOf; by rewrite Hnone).
  pose proof (marks_entry apiKey apiType pre cm last) as Hentry.
  rewrite Hc, !Z.add_0_l in Hentry. fold cm' in Hentry.
  rewrite Hentry by (unfold MinInt64, two63; lia).
  destruct (marks_frame apiKey apiType (pre ++ [last]) cm) as (Hk & Hm & _ & Hother).
  fold cm' in Hk, Hm, Hother.
  split; [done|]. split; [|exact Hother].
  intros t. unfold IsKeyFailed, isKeyFailed.
  rewrite Hentry by (unfold MinInt64, two63; lia).
  destruct (recoveryTimeOf_eq cm' {| Timestamp := last;
                                      FailureCount := Z.of_nat (length pre) + 1 |})
    as [Hrec Hrange]; [lia..|].
  rewrite BasicFacts.time_Sub_lt by exact Hrange.
  rewrite Hrec, Hk, Hm. simpl. apply Z.ltb_lt.
Qed.

Lemma time_Sub_mono t u ts : t ≤ u → time_Sub t ts ≤ time_Sub u ts.
Proof.
  intros H. unfold time_Sub.
  destruct (Z.ltb_spec MaxInt64 (t - ts)), (Z.ltb_spec MaxInt64 (u - ts)); try lia;
    destruct (Z.ltb_spec (t - ts) MinInt64), (Z.ltb_spec (u - ts) MinInt64);
    unfold MinInt64, MaxInt64, two63 in *; lia.
Qed.

(** X14.  The minute sweep of the cache is invisible to the cooldown test from
    then on: it deletes entries that no longer make their key failed, and
    only those.  What it does forget is the failure count: a key marked
    again after its entry was swept starts at one failure. *)
Theorem cleanupExpiredFailures_transparent (now t : Z) (apiKey apiType : string)
    (cm : ConfigManager) :
  now ≤ t →
  let cm' := cleanupExpiredFailuresTick now cm in
  IsKeyFailed t apiKey apiType cm' = IsKeyFailed t apiKey apiType cm ∧
  (IsKeyFailed now apiKey apiType cm = true →
   failedKeysCache cm' !! failedKeyCacheKey apiType apiKey =
   failedKeysCache cm !! failedKeyCacheKey apiType apiKey) ∧
  (∀ failure,
     failedKeysCache cm !! failedKeyCacheKey apiType apiKey = Some failure →
     recoveryTimeOf cm failure < time_Sub now (Timestamp failure) →
     failedKeysCache (MarkKeyAsFailed t apiKey apiType cm') !! failedKeyCacheKey apiType apiKey
     = Some {| Timestamp := t; FailureCount := 1 |}).
Proof.
  intros Hle cm'.
  assert (Hlook : failedKeysCache cm' !! failedKeyCacheKey apiType apiKey =
            match failedKeysCache cm !! failedKeyCacheKey apiType apiKey with
            | Some f => if recoveryTimeOf cm f <? time_Sub now (Timestamp f) then None else Some f
            | None => None
            end).
  { unfold cm', cleanupExpiredFailuresTick. simpl.
    destruct (failedKeysCache cm !! failedKeyCacheKey apiType apiKey) as [f|] eqn:E.
    - destruct (recoveryTimeOf cm f <? time_Sub now (Timestamp f)) eqn:Ef.
      + apply map_lookup_filter_None. right. intros f'. rewrite E. intros [= <-]. simpl.
        by rewrite Ef.
      + apply map_lookup_filter_Some. by split.
    - apply map_lookup_filter_None. by left. }
  split; [|split].
  - unfold IsKeyFailed, isKeyFailed. rewrite Hlook.
    destruct (failedKeysCache cm !! failedKeyCacheKey apiType apiKey) as [f|]; [|done].
    destruct (Z.ltb_spec (recoveryTimeOf cm f) (time_Sub now (Timestamp f))) as [Hexp|Hlive];
      [|done].
    pose proof (time_Sub_mono now t (Timestamp f) Hle).
    symmetry. apply Z.ltb_ge. lia.
  - unfold IsKeyFailed, isKeyFailed. rewrite Hlook.
    destruct (failedKeysCache cm !! failedKeyCacheKey apiType apiKey) as [f|]; [|done].
    intros Hf%Z.ltb_lt.
    destruct (Z.ltb_spec (recoveryTimeOf cm f) (time_Sub now (Timestamp f))); [lia|done].
  - intros failure Hf Hexp. unfold MarkKeyAsFailed. rewrite Hlook, Hf.
    destruct (Z.ltb_spec (recoveryTimeOf cm failure) (time_Sub now (Timestamp failure)));
      [|lia].
    simpl. by rewrite lookup_insert_eq.
Qed.

Lemma oldestFailed_spec apiType failedKeys cache keys : ∀ oldestTime acc,
  let r := oldestFailed apiType failedKeys cache keys oldestTime acc in
  r = acc ∨ (r ∈ keys ∧ inFailed failedKeys r = false ∧
             is_Some (cache !! failedKeyCacheKey apiType r)).
Proof.
  induction keys as [|key keys IH]; intros oldestTime acc; simpl; [by left|].
  destruct (inFailed failedKeys key) eqn:Ef; simpl.
  { destruct (IH oldestTime acc) as [->|(? & ? & ?)]; [by left|right].
    split; [by right|done]. }
  destruct (cache !! failedKeyCacheKey apiType key) as [f|] eqn:Ec.
  2:{ destruct (IH oldestTime acc) as [->|(? & ? & ?)]; [by left|right].
      split; [by right|done]. }
  destruct (time_Before (Timestamp f) oldestTime).
  - destruct (IH (Timestamp f) key) as [->|(? & ? & ?)]; right.
    + split; [by left|]. split; [done|]. by rewrite Ec.
    + split; [by right|done].
  - destruct (IH oldestTime acc) as [->|(? & ? & ?)]; [by left|right].
    split; [by right|done].
Qed.

(** X15.  On a channel with two keys or more, the key handed out was not tried
    in this request and is one of the channel's keys; it is the first
    key, in configuration order, that was neither tried nor is cooling
    down, when there is one, and otherwise a key that is cooling down
    (a recovery attempt); and when every key was tried, the call fails. *)
Theorem GetNextAPIKey_not_tried (now : Z) (upstream : UpstreamConfig)
    (failedKeys : gmap string bool) (apiType : string) (cm : ConfigManager) :
  (2 ≤ length (APIKeys upstream))%nat →
  let usable key := negb (inFailed failedKeys key) && negb (isKeyFailed now key apiType cm) in
  (∀ key, GetNextAPIKey now upstream failedKeys apiType cm = Ok key →
     key ∈ APIKeys upstream ∧ inFailed failedKeys key = false ∧
     (usable key = false →
      isKeyFailed now key apiType cm = true ∧
      ∀ other, other ∈ APIKeys upstream → usable other = false)) ∧
  (∀ pre key post,
     APIKeys upstream = pre ++ key :: post →
     (∀ other, other ∈ pre → usable other = false) → usable key = true →
     GetNextAPIKey now upstream failedKeys apiType cm = Ok key) ∧
  ((∀ key, key ∈ APIKeys upstream → inFailed failedKeys key = true) →
   ∃ err, GetNextAPIKey now upstream failedKeys apiType cm = Err err).
Proof.
  intros Hlen usable. unfold GetNextAPIKey.
  destruct (APIKeys upstream) as [|k1 [|k2 keys]] eqn:Ekeys; [simpl in Hlen; lia..|].
  set (all := k1 :: k2 :: keys) in *.
  change (filter _ all) with (filter (λ key, usable key = true) all).
  split; [|split].
  - intros key.
    destruct (filter (λ key, usable key = true) all) as [|sel rest] eqn:Efil.
    + set (r := oldestFailed _ _ _ _ _ _).
      destruct (String.eqb_spec r "") as [|Hne]; [done|]. simpl. intros [= <-].
      destruct (oldestFailed_spec apiType failedKeys (failedKeysCache cm) all now "")
        as [E|(Hin & Hnf & Hc)]; fold r in E || fold r in Hin, Hnf, Hc; [done|].
      split; [done|]. split; [done|]. intros _.
      assert (Hall : ∀ other, other ∈ all → usable other = false).
      { intros other Hother. destruct (usable other) eqn:Eu; [|done].
        assert (other ∈ filter (λ key, usable key = true) all) as Hf
          by (by apply list_elem_of_filter).
        rewrite Efil in Hf. by apply not_elem_of_nil in Hf. }
      split; [|exact Hall].
      specialize (Hall r Hin). unfold usable in Hall. rewrite Hnf in Hall. simpl in Hall.
      by destruct (isKeyFailed now r apiType cm).
    + intros [= <-].
      assert (sel ∈ filter (λ key, usable key = true) all) as Hsel by (rewrite Efil; left).
      apply list_elem_of_filter in Hsel as [Hu Hin].
      split; [done|]. split.
      * unfold usable in Hu. by destruct (inFailed failedKeys sel).
      * intros Hnu. congruence.
  - intros pre key post Hsplit Hpre Hkey. rewrite Hsplit.
    rewrite filter_app, filter_cons_True by done.
    assert (filter (λ key, usable key = true) pre = []) as ->; [|done].
    clear -Hpre. induction pre as [|x pre IH]; [done|].
    rewrite filter_cons_False.
    + apply IH. intros other Ho. apply Hpre. by right.
    + rewrite (Hpre x) by left. done.
  - intros Hall.
    assert (filter (λ key, usable key = true) all = []) as ->.
    { destruct (filter (λ key, usable key = true) all) as [|sel rest] eqn:Efil; [done|].
      assert (sel ∈ filter (λ key, usable key = true) all) as Hsel by (rewrite Efil; left).
      apply list_elem_of_filter in Hsel as [Hu Hin]. unfold usable in Hu.
      by rewrite (Hall sel Hin) in Hu. }
    set (r := oldestFailed _ _ _ _ _ _).
    destruct (oldestFailed_spec apiType failedKeys (failedKeysCache cm) all now "")
      as [E|(Hin & Hnf & Hc)]; fold r in E || fold r in Hin, Hnf, Hc.
    + rewrite E. simpl. eauto.
    + rewrite (Hall r Hin) in Hnf. done.
Qed.

Lemma clear_lookup apiType (keys : list string) : ∀ (cache : gmap string FailedKey) k,
  foldl (λ cache key, delete (failedKeyCacheKey apiType key) cache) cache keys !! k =
  if decide (k ∈ failedKeyCacheKey apiType <$> keys) then None else cache !! k.
Proof.
  induction keys as [|key keys IH]; intros cache k; [done|].
  cbn [foldl]. rewrite IH. rewrite fmap_cons.
  destruct (decide (k ∈ failedKeyCacheKey apiType <$> keys)) as [Hin|Hnin].
  - rewrite decide_True by (by right). done.
  - destruct (decide (k = failedKeyCacheKey apiType key)) as [->|Hne].
    + rewrite decide_True by left. apply lookup_delete_eq.
    + rewrite decide_False by (intros [?|?]%elem_of_cons; done). by rewrite lookup_delete_ne.
Qed.

Lemma chat_tags_differ k k' : failedKeyCacheKey "chat" k ≠ failedKeyCacheKey "Chat" k'.
Proof. unfold failedKeyCacheKey. rewrite !BasicFacts.append_String. discriminate. Qed.

Section Proofs.

Variable saveConfigLocked : Config → option error.

(** X16.  Removing a Chat channel clears the cooldown entries of its keys under
    the tag [chat], while the Chat executor and [GetNextChatAPIKey] write
    and read them under the tag [Chat]: the removal takes the channel out
    of the list and leaves every cooldown the Chat endpoint has seen as it
    was. *)
Theorem RemoveChatUpstream_keeps_cooldowns (index : Z) (cm : ConfigManager) :
  let res := RemoveChatUpstream saveConfigLocked index cm in
  (∀ now apiKey, IsKeyFailed now apiKey "Chat" res.2 = IsKeyFailed now apiKey "Chat" cm) ∧
  (∀ now upstream failedKeys,
     GetNextChatAPIKey now upstream failedKeys res.2 =
     GetNextChatAPIKey now upstream failedKeys cm) ∧
  (0 ≤ index < Z.of_nat (length (ChatUpstream (config cm))) →
   ∃ removed,
     ChatUpstream (config cm) !! Z.to_nat index = Some removed ∧
     ChatUpstream (config res.2) = delete (Z.to_nat index) (ChatUpstream (config cm)) ∧
     (∀ now apiKey, apiKey ∈ APIKeys removed → IsKeyFailed now apiKey "chat" res.2 = false) ∧
     res.1 = match saveConfigLocked (config res.2) with
             | Some err => Err err
             | None => Ok removed
             end) ∧
  (¬ 0 ≤ index < Z.of_nat (length (ChatUpstream (config cm))) →
   res.2 = cm ∧ ∃ err, res.1 = Err err).
Proof.
  intros res.
  assert (Hcache : ∀ k, failedKeysCache res.2 !! failedKeyCacheKey "Chat" k =
                        failedKeysCache cm !! failedKeyCacheKey "Chat" k).
  { intros k. unfold res, RemoveChatUpstream.
    destruct (negb (validIndex index cm)); [done|].
    destruct (ChatUpstream (config cm) !! Z.to_nat index) as [removed|]; [|done].
    assert (∀ c, failedKeysCache (clearFailedKeysForUpstream removed "chat" c)
                   !! failedKeyCacheKey "Chat" k = failedKeysCache c !! failedKeyCacheKey "Chat" k)
      as Hclear.
    { intros c. unfold clearFailedKeysForUpstream. simpl. rewrite clear_lookup.
      rewrite decide_False; [done|].
      intros (k' & E & _)%list_elem_of_fmap. by apply (chat_tags_differ k' k). }
    cbv zeta. destruct (saveConfigLocked _); (etrans; [apply Hclear|done]). }
  assert (Hparams : keyRecoveryTime res.2 = keyRecoveryTime cm ∧
                    maxFailureCount res.2 = maxFailureCount cm).
  { unfold res, RemoveChatUpstream.
    destruct (negb (validIndex index cm)); [done|].
    destruct (ChatUpstream (config cm) !! Z.to_nat index) as [removed|]; [|done].
    by destruct (saveConfigLocked _). }
  destruct Hparams as [Hk Hm].
  assert (Hfailed : ∀ now apiKey,
            isKeyFailed now apiKey "Chat" res.2 = isKeyFailed now apiKey "Chat" cm).
  { intros now apiKey. unfold isKeyFailed. rewrite Hcache.
    destruct (failedKeysCache cm !! _) as [f|]; [|done].
    unfold recoveryTimeOf. by rewrite Hk, Hm. }
  split; [exact Hfailed|]. split.
  { intros now upstream failedKeys. unfold GetNextChatAPIKey, GetNextAPIKey.
    destruct (APIKeys upstream) as [|k1 [|k2 keys]]; [done..|].
    assert (Hfil : ∀ l : list string,
              filter (λ key, negb (inFailed failedKeys key) &&
                             negb (isKeyFailed now key "Chat" res.2) = true) l =
              filter (λ key, negb (inFailed failedKeys key) &&
                             negb (isKeyFailed now key "Chat" cm) = true) l).
    { intros l. apply list_filter_iff. intros key. by rewrite Hfailed. }
    rewrite Hfil.
    assert (Hold : ∀ (l : list string) t acc,
              oldestFailed "Chat" failedKeys (failedKeysCache res.2) l t acc =
              oldestFailed "Chat" failedKeys (failedKeysCache cm) l t acc).
    { induction l as [|key l IH]; intros t acc; simpl; [done|].
      rewrite Hcache. destruct (negb _); [|apply IH].
      destruct (failedKeysCache cm !! _) as [f|]; [|apply IH].
      destruct (time_Before _ _); apply IH. }
    by rewrite Hold. }
  split.
  - intros Hidx. unfold res, RemoveChatUpstream, validIndex.
    destruct (Z.leb_spec 0 index); [|lia].
    destruct (Z.ltb_spec index (Z.of_nat (length (ChatUpstream (config cm))))); [|lia].
    cbn [andb negb].
    destruct (lookup_lt_is_Some_2 (ChatUpstream (config cm)) (Z.to_nat index)) as [removed Hr];
      [lia|].
    rewrite Hr. exists removed. split; [done|].
    set (cm2 := clearFailedKeysForUpstream removed "chat" _).
    assert (Hchat : ChatUpstream (config cm2) =
                    delete (Z.to_nat index) (ChatUpstream (config cm))).
    { unfold cm2. simpl. rewrite delete_take_drop.
      by replace (Z.to_nat (index + 1)) with (S (Z.to_nat index)) by lia. }
    assert (Hcool : ∀ now apiKey, apiKey ∈ APIKeys removed →
                      IsKeyFailed now apiKey "chat" cm2 = false).
    { intros now apiKey Hin. unfold IsKeyFailed, isKeyFailed, cm2, clearFailedKeysForUpstream.
      simpl. rewrite clear_lookup. rewrite decide_True; [done|].
      apply list_elem_of_fmap. by exists apiKey. }
    cbv zeta. fold cm2.
    destruct (saveConfigLocked (config cm2)) eqn:Es; cbn [fst snd]; rewrite ?Es;
      (split; [exact Hchat|split; [exact Hcool|done]]).
  - intros Hidx. unfold res, RemoveChatUpstream, validIndex.
    destruct (Z.leb_spec 0 index); simpl; [|by eauto].
    destruct (Z.ltb_spec index (Z.of_nat (length (ChatUpstream (config cm))))); [lia|].
    simpl. by eauto.
Qed.

End Proofs.

(** Key [k1] marked failed at seconds 1, 2, 3 and 4, with a maximum
    failure count of 3: the entry holds the last mark and four failures. *)
Lemma repeated_marks_cooldown_witness :
  failedKeysCache
    (foldl (λ cm t, MarkKeyAsFailed t "k1" "Chat" cm) (Examples.configOf [])
       [1 * Second; 2 * Second; 3 * Second; 4 * Second])
    !! failedKeyCacheKey "Chat" "k1" =
  Some {| Timestamp := 4 * Second; FailureCount := 4 |}.
Proof.
  apply (repeated_marks_cooldown "k1" "Chat" [1 * Second; 2 * Second; 3 * Second] (4 * Second)
           (Examples.configOf [])).
  - reflexivity.
  - vm_compute. discriminate.
  - vm_compute. discriminate.
  - vm_compute. discriminate.
Defined.

(** A sweep at second 10 of a cache whose entry for [k1] dates from
    second 100: the key is as failed at second 20 as it was. *)
Lemma cleanupExpiredFailures_transparent_witness :
  IsKeyFailed (20 * Second) "k1" "Chat"
    (cleanupExpiredFailuresTick (10 * Second) Examples.cooling) =
  IsKeyFailed (20 * Second) "k1" "Chat" Examples.cooling.
Proof.
  apply (cleanupExpiredFailures_transparent (10 * Second) (20 * Second) "k1" "Chat"
           Examples.cooling).
  vm_compute. discriminate.
Defined.

(** A channel with keys [k1] and [k2], [k1] tried in this request: [k2]
    is handed out. *)
Lemma GetNextAPIKey_not_tried_witness :
  GetNextAPIKey 0 Examples.twoKeys {[ "k1" := true ]} "Chat" (Examples.configOf [Examples.twoKeys])
  = Ok "k2".
Proof.
  apply (proj1 (proj2 (GetNextAPIKey_not_tried 0 Examples.twoKeys {[ "k1" := true ]} "Chat"
                         (Examples.configOf [Examples.twoKeys]) ltac:(simpl; lia)))
           ["k1"] "k2" []).
  - reflexivity.
  - intros other Hother. apply list_elem_of_singleton in Hother. subst other. reflexivity.
  - reflexivity.
Defined.

End CooldownFacts.

(** ** Channel scheduler: what a selection guarantees *)

Module SelectionFacts.
Import Scheduler Props SchedulerProps SchedulerFacts.

Section Proofs.

Variable generateMetricsKey : string → string → string.
Variable sort_Slice : (ChannelInfo → ChannelInfo → bool) → list ChannelInfo → list ChannelInfo.

Lemma promotionRule_Some now upstreams l failedChannels r :
  promotionRule now upstreams l failedChannels = Some r →
  Reason r = "promotion_priority" ∧
  ∃ ch, ch ∈ l ∧ ChannelIndex r = Index ch ∧ candidate upstreams failedChannels ch (Upstream r).
Proof.
  unfold promotionRule.
  destruct (findPromotedChannel now upstreams l) as [pc|] eqn:Efind; [|done].
  destruct (findPromotedChannel_Some _ _ _ _ Efind) as (Hin & Hst & _).
  destruct (isFailed failedChannels (Index pc)) eqn:Ef; [done|]. simpl.
  destruct (getUpstreamByIndex (Index pc) upstreams) as [u|] eqn:Eu; [|done].
  destruct (Config.APIKeys u) as [|k ks] eqn:Ek; [done|]. simpl.
  intros [= <-]. simpl. split; [done|]. exists pc. split; [done|]. split; [done|].
  repeat split; try done. by rewrite Ek.
Qed.

Lemma affinityLoop_Some m upstreams failedChannels preferredIdx l r :
  affinityLoop generateMetricsKey m upstreams failedChannels preferredIdx l = Some r →
  Reason r = "trace_affinity" ∧
  ∃ ch, ch ∈ l ∧ ChannelIndex r = Index ch ∧
        passes generateMetricsKey m upstreams failedChannels ch (Upstream r).
Proof.
  induction l as [|ch l IH]; simpl; [done|].
  assert (Hrest : affinityLoop generateMetricsKey m upstreams failedChannels preferredIdx l
                  = Some r → Reason r = "trace_affinity" ∧
                    ∃ ch0, ch0 ∈ ch :: l ∧ ChannelIndex r = Index ch0 ∧
                           passes generateMetricsKey m upstreams failedChannels ch0 (Upstream r)).
  { intros H. destruct (IH H) as (? & c & ? & ? & ?). split; [done|]. exists c.
    split; [by right|done]. }
  destruct (Z.eqb_spec (Index ch) preferredIdx) as [Eidx|]; simpl; [|done].
  destruct (isFailed failedChannels preferredIdx) eqn:Ef; simpl; [done|].
  destruct (String.eqb_spec (Status ch) "active") as [Est|]; simpl; [|done].
  destruct (getUpstreamByIndex preferredIdx upstreams) as [u|] eqn:Eu; [|done].
  destruct (Metrics.IsChannelHealthyWithKeys _ _ _ m) eqn:Eh; [|done].
  intros [= <-]. simpl. split; [done|]. exists ch. split; [left|]. split; [done|].
  split; [|done]. unfold candidate. rewrite Eidx. repeat split; try done.
  intros Ek. unfold Metrics.IsChannelHealthyWithKeys in Eh. by rewrite Ek in Eh.
Qed.

Lemma priorityRule_Some m upstreams failedChannels l r :
  priorityRule generateMetricsKey m upstreams failedChannels l = Some r →
  Reason r = "priority_order" ∧
  ∃ pre ch post,
    l = pre ++ ch :: post ∧ ChannelIndex r = Index ch ∧
    passes generateMetricsKey m upstreams failedChannels ch (Upstream r) ∧
    ∀ c u, c ∈ pre → ¬ passes generateMetricsKey m upstreams failedChannels c u.
Proof.
  induction l as [|ch l IH]; simpl; [done|].
  assert (Hrest : (∀ u, ¬ passes generateMetricsKey m upstreams failedChannels ch u) →
            priorityRule generateMetricsKey m upstreams failedChannels l = Some r →
            Reason r = "priority_order" ∧
            ∃ pre ch0 post,
              ch :: l = pre ++ ch0 :: post ∧ ChannelIndex r = Index ch0 ∧
              passes generateMetricsKey m upstreams failedChannels ch0 (Upstream r) ∧
              ∀ c u, c ∈ pre → ¬ passes generateMetricsKey m upstreams failedChannels c u).
  { intros Hno H. destruct (IH H) as (? & pre & c & post & -> & ? & ? & Hpre).
    split; [done|]. exists (ch :: pre), c, post. split; [done|]. split; [done|].
    split; [done|]. intros c' u' [->|Hin]%elem_of_cons; [apply Hno|by apply Hpre]. }
  destruct (isFailed failedChannels (Index ch)) eqn:Ef.
  { apply Hrest. intros u [(_ & Hf & _) _]. congruence. }
  destruct (String.eqb_spec (Status ch) "active") as [Est|Est]; simpl.
  2:{ apply Hrest. by intros u [(? & _) _]. }
  destruct (getUpstreamByIndex (Index ch) upstreams) as [u|] eqn:Eu.
  2:{ apply Hrest. intros u [(_ & _ & Hu & _) _]. congruence. }
  destruct (Z.eqb_spec (Z.of_nat (length (Config.APIKeys u))) 0) as [Ek|Ek].
  { apply Hrest. intros u' [(_ & _ & Hu & Hk) _].
    assert (u' = u) as -> by congruence. destruct (Config.APIKeys u); [done|simpl in Ek; lia]. }
  destruct (Metrics.IsChannelHealthyWithKeys _ _ _ m) eqn:Eh; simpl.
  2:{ apply Hrest. intros u' [(_ & _ & Hu & _) Hh].
      assert (u' = u) as -> by congruence. congruence. }
  intros [= <-]. simpl. split; [done|]. exists [], ch, l. split; [done|]. split; [done|].
  split.
  - repeat split; try done. intros E. by rewrite E in Ek.
  - intros c u' Hc. by apply elem_of_nil in Hc.
Qed.

Lemma selectFallbackChannel_Ok m upstreams l failedChannels r :
  selectFallbackChannel generateMetricsKey m upstreams l failedChannels = Ok r →
  Reason r = "fallback" ∧
  ∃ ch, ch ∈ l ∧ ChannelIndex r = Index ch ∧ candidate upstreams failedChannels ch (Upstream r).
Proof.
  unfold selectFallbackChannel.
  destruct (fallbackLoop_spec generateMetricsKey m upstreams failedChannels l None 2%Q)
    as (_ & _ & [[E _]|(c & u & E & Hc & Hcand & _)]); rewrite E; [done|].
  intros [= <-]. simpl. split; [done|]. by exists c.
Qed.

(** What every selection has in common. *)
Lemma SelectChannel_Ok_inv now userID failedChannels kind s r :
  SelectChannel generateMetricsKey sort_Slice now userID failedChannels kind s = Ok r →
  let upstreams := upstreamsOf kind (Config.config (configManager s)) in
  ∃ ch, ch ∈ getActiveChannels sort_Slice kind s ∧ ChannelIndex r = Index ch ∧
        candidate upstreams failedChannels ch (Upstream r) ∧
        (Reason r = "promotion_priority" ∨ Reason r = "fallback" ∨
         ((Reason r = "trace_affinity" ∨ Reason r = "priority_order") ∧
          Metrics.IsChannelHealthyWithKeys generateMetricsKey (Config.BaseURL (Upstream r))
            (Config.APIKeys (Upstream r)) (getMetricsManager kind s) = true)).
Proof.
  intros H upstreams. unfold SelectChannel in H. fold upstreams in H.
  set (l := getActiveChannels sort_Slice kind s) in *.
  destruct (Z.of_nat (length l) =? 0); [done|].
  destruct (promotionRule now upstreams l failedChannels) as [r0|] eqn:E0.
  { injection H as <-. apply promotionRule_Some in E0 as (? & ch & ? & ? & ?).
    exists ch. by eauto 10. }
  destruct (affinityRule generateMetricsKey kind s userID upstreams l failedChannels)
    as [r1|] eqn:E1.
  { injection H as <-. unfold affinityRule in E1.
    destruct (negb (userID =? ""))%string; [|done].
    destruct (traceAffinity s !! _) as [p|]; [|done].
    apply affinityLoop_Some in E1 as (? & ch & ? & ? & ? & ?). exists ch. by eauto 10. }
  destruct (priorityRule generateMetricsKey (getMetricsManager kind s) upstreams failedChannels l)
    as [r2|] eqn:E2.
  { injection H as <-.
    apply priorityRule_Some in E2 as (? & pre & ch & post & Hl & ? & [? ?] & _).
    exists ch. split; [rewrite Hl; apply elem_of_app; right; left|]. by eauto 10. }
  apply selectFallbackChannel_Ok in H as (? & ch & ? & ? & ?). exists ch. by eauto 10.
Qed.

Lemma candidate_selectable upstreams failedChannels ch u :
  ch ∈ collectActive 0 upstreams → candidate upstreams failedChannels ch u →
  selectable upstreams failedChannels (Index ch) u ∧
  Priority ch = effectivePriority (Index ch) u.
Proof.
  intros (k & u' & Hk & _ & Hidx & Hst & _ & Hprio)%collectActive_elem (Hact & Hf & Hu & Hkeys).
  rewrite Z.add_0_l in Hidx, Hprio.
  assert (u' = u) as ->.
  { rewrite Hidx, getUpstreamByIndex_nat in Hu. congruence. }
  split; [|by rewrite Hidx].
  split; [done|]. split; [congruence|]. done.
Qed.

Lemma selectable_candidate upstreams failedChannels idx u :
  selectable upstreams failedChannels idx u →
  ∃ ch, ch ∈ collectActive 0 upstreams ∧ Index ch = idx ∧
        candidate upstreams failedChannels ch u ∧ Priority ch = effectivePriority idx u.
Proof.
  intros (Hu & Hst & Hf & Hkeys).
  assert (Hidx : 0 ≤ idx ∧ upstreams !! Z.to_nat idx = Some u).
  { unfold getUpstreamByIndex in Hu. destruct (Z.leb_spec 0 idx); [|done].
    destruct (idx <? _); [|done]. done. }
  destruct Hidx as [Hpos Hlook].
  exists {| Index := idx; Name := Config.Name u; Priority := effectivePriority idx u;
            Status := "active" |}.
  split; [|done].
  apply collectActive_elem. exists (Z.to_nat idx), u. simpl.
  rewrite Z.add_0_l, Z2Nat.id by done. rewrite Hst. done.
Qed.

Hypothesis sort_Slice_perm : ∀ less l, sort_Slice less l ≡ₚ l.

Lemma active_elem kind s ch :
  ch ∈ getActiveChannels sort_Slice kind s ↔
  ch ∈ collectActive 0 (upstreamsOf kind (Config.config (configManager s))).
Proof. unfold getActiveChannels. by rewrite sort_Slice_perm. Qed.

(** X17.  Whatever rule selects it, the channel handed out is the configured
    channel at the returned index, its status is active, it has not
    failed in this request and it has a key; and when the rule is trace
    affinity or priority order, it is healthy. *)
Theorem SelectChannel_sound (now : Z) (userID : string) (failedChannels : gmap Z bool)
    (kind : ChannelKind) (s : ChannelScheduler) (r : SelectionResult) :
  SelectChannel generateMetricsKey sort_Slice now userID failedChannels kind s = Ok r →
  let upstreams := upstreamsOf kind (Config.config (configManager s)) in
  getUpstreamByIndex (ChannelIndex r) upstreams = Some (Upstream r) ∧
  statusOf (Upstream r) = "active" ∧
  isFailed failedChannels (ChannelIndex r) = false ∧
  Config.APIKeys (Upstream r) ≠ [] ∧
  (Reason r = "promotion_priority" ∨ Reason r = "fallback" ∨
   ((Reason r = "trace_affinity" ∨ Reason r = "priority_order") ∧
    Metrics.IsChannelHealthyWithKeys generateMetricsKey (Config.BaseURL (Upstream r))
      (Config.APIKeys (Upstream r)) (getMetricsManager kind s) = true)).
Proof.
  intros H upstreams.
  apply SelectChannel_Ok_inv in H as (ch & Hin & Hidx & Hcand & Hreason).
  apply active_elem in Hin.
  destruct (candidate_selectable _ _ _ _ Hin Hcand) as [(? & ? & ? & ?) _].
  rewrite Hidx. by repeat split.
Qed.

(** X18.  Health never blocks a request: a channel is handed out exactly when
    some configured channel is active, has not failed in this request and
    has a key. *)
Theorem SelectChannel_live (now : Z) (userID : string) (failedChannels : gmap Z bool)
    (kind : ChannelKind) (s : ChannelScheduler) :
  let upstreams := upstreamsOf kind (Config.config (configManager s)) in
  (∃ r, SelectChannel generateMetricsKey sort_Slice now userID failedChannels kind s = Ok r) ↔
  ∃ index upstream, selectable upstreams failedChannels index upstream.
Proof.
  intros upstreams. split.
  - intros [r H]. apply SelectChannel_Ok_inv in H as (ch & Hin & Hidx & Hcand & _).
    apply active_elem in Hin.
    destruct (candidate_selectable _ _ _ _ Hin Hcand) as [Hsel _]. by eauto.
  - intros (idx & u & Hsel).
    destruct (selectable_candidate _ _ _ _ Hsel) as (ch & Hin & _ & Hcand & _).
    apply active_elem in Hin.
    unfold SelectChannel. fold upstreams.
    set (l := getActiveChannels sort_Slice kind s) in *.
    destruct (Z.eqb_spec (Z.of_nat (length l)) 0) as [E0|_].
    { destruct l; [by apply elem_of_nil in Hin|simpl in E0; lia]. }
    destruct (promotionRule _ _ _ _); [by eauto|].
    destruct (affinityRule _ _ _ _ _ _ _); [by eauto|].
    destruct (priorityRule _ _ _ _ _); [by eauto|].
    unfold selectFallbackChannel.
    destruct (fallbackLoop_spec generateMetricsKey (getMetricsManager kind s) upstreams
                failedChannels l None 2%Q)
      as (_ & Hmin & [[E Er]|(c & u' & E & _)]); rewrite E; [|by eauto].
    exfalso. specialize (Hmin ch u Hin Hcand). rewrite Er in Hmin.
    pose proof (CalculateChannelFailureRate_lt_2 generateMetricsKey (Config.BaseURL u)
                  (Config.APIKeys u) (getMetricsManager kind s)) as Hlt.
    by apply (Qlt_not_le _ _ Hlt).
Qed.

End Proofs.

Section Sorted.

Variable generateMetricsKey : string → string → string.
Variable sort_Slice : (ChannelInfo → ChannelInfo → bool) → list ChannelInfo → list ChannelInfo.

Hypothesis sort_Slice_sorts : sortsByPriority sort_Slice.

Lemma StronglySorted_split {A} (R : A → A → Prop) pre x post :
  StronglySorted R (pre ++ x :: post) → ∀ y, y ∈ post → R x y.
Proof.
  induction pre as [|p pre IH]; simpl; intros Hs y Hy.
  - apply StronglySorted_inv in Hs as [_ Hall]. by eapply Forall_forall in Hall.
  - apply StronglySorted_inv in Hs as [Hs _]. by apply IH.
Qed.

(** X19.  The priority rule respects the configured order: the channel it
    hands out has the lowest priority value among the channels that are
    active, have not failed in this request, have a key and are healthy
    (a channel's priority being its position when it is configured as
    0). *)
Theorem SelectChannel_priority_order (now : Z) (userID : string)
    (failedChannels : gmap Z bool) (kind : ChannelKind) (s : ChannelScheduler)
    (r : SelectionResult) :
  SelectChannel generateMetricsKey sort_Slice now userID failedChannels kind s = Ok r →
  Reason r = "priority_order" →
  let upstreams := upstreamsOf kind (Config.config (configManager s)) in
  ∀ index upstream,
    selectable upstreams failedChannels index upstream →
    Metrics.IsChannelHealthyWithKeys generateMetricsKey (Config.BaseURL upstream)
      (Config.APIKeys upstream) (getMetricsManager kind s) = true →
    effectivePriority (ChannelIndex r) (Upstream r) ≤ effectivePriority index upstream.
Proof.
  intros H Hreason upstreams idx u Hsel Hhealthy.
  unfold SelectChannel in H. fold upstreams in H.
  set (l := getActiveChannels sort_Slice kind s) in *.
  assert (Hmem : ∀ c, c ∈ l ↔ c ∈ collectActive 0 upstreams).
  { intros c. unfold l, getActiveChannels. by rewrite (proj1 (sort_Slice_sorts _)). }
  assert (Hsorted : StronglySorted (λ a b, Priority a ≤ Priority b) l).
  { apply sort_Slice_sorts. }
  destruct (Z.of_nat (length l) =? 0); [done|].
  destruct (promotionRule now upstreams l failedChannels) as [r0|] eqn:E0.
  { injection H as <-. apply promotionRule_Some in E0 as [E _]. rewrite E in Hreason. done. }
  destruct (affinityRule generateMetricsKey kind s userID upstreams l failedChannels)
    as [r1|] eqn:E1.
  { injection H as <-. unfold affinityRule in E1.
    destruct (negb (userID =? ""))%string; [|done].
    destruct (traceAffinity s !! _) as [p|]; [|done].
    apply affinityLoop_Some in E1 as [E _]. rewrite E in Hreason. done. }
  destruct (priorityRule generateMetricsKey (getMetricsManager kind s) upstreams failedChannels l)
    as [r2|] eqn:E2.
  2:{ apply selectFallbackChannel_Ok in H as [E _]. rewrite E in Hreason. done. }
  injection H as <-.
  apply priorityRule_Some in E2 as (_ & pre & ch & post & Hl & Hidx & [Hcand Hh] & Hpre).
  assert (Hch : ch ∈ collectActive 0 upstreams).
  { apply Hmem. rewrite Hl. apply elem_of_app. right. left. }
  destruct (candidate_selectable _ _ _ _ Hch Hcand) as [_ Hprio].
  destruct (selectable_candidate _ _ _ _ Hsel) as (c & Hc & Hcidx & Hccand & Hcprio).
  rewrite Hidx, <- Hprio, <- Hcprio.
  apply Hmem in Hc. rewrite Hl in Hc.
  apply elem_of_app in Hc as [Hc|[->|Hc]%elem_of_cons].
  - exfalso. by apply (Hpre c u Hc).
  - lia.
  - rewrite Hl in Hsorted. by apply (StronglySorted_split _ _ _ _ Hsorted).
Qed.

End Sorted.

(** The insertion sort by priority sorts. *)
Lemma insertBy_sorted (x : ChannelInfo) (l : list ChannelInfo) :
  StronglySorted (λ a b, Priority a ≤ Priority b) l →
  StronglySorted (λ a b, Priority a ≤ Priority b)
    (Examples.insertBy (λ a b, Priority a <? Priority b) x l).
Proof.
  induction 1 as [|y l Hs IH Hall]; simpl.
  - by repeat constructor.
  - destruct (Z.ltb_spec (Priority x) (Priority y)) as [Hlt|Hge].
    + constructor; [by constructor|]. constructor; [lia|].
      eapply Forall_impl; [exact Hall|]. simpl. intros. lia.
    + constructor; [done|].
      assert (Hperm : Examples.insertBy (λ a b, Priority a <? Priority b) x l ≡ₚ x :: l).
      { clear. induction l as [|z l IH]; simpl; [done|].
        destruct (_ <? _); [done|]. rewrite IH. apply Permutation_swap. }
      rewrite Hperm. by constructor.
Qed.

Lemma insertionSort_sorts : sortsByPriority Examples.insertionSort.
Proof.
  intros l. split; [apply insertionSort_perm|].
  unfold Examples.insertionSort. induction l as [|x l IH]; simpl; [constructor|].
  by apply insertBy_sorted.
Qed.

(** Two active channels without history, sorted by insertion: channel A
    is handed out by priority order; it is the configured channel at index
    0 and it is active. *)
Lemma SelectChannel_sound_witness :
  getUpstreamByIndex 0 [Scenarios.channelA; Scenarios.channelB] = Some Scenarios.channelA ∧
  statusOf Scenarios.channelA = "active".
Proof.
  pose proof (SelectChannel_sound Examples.metricsKey Examples.insertionSort
                SchedulerFacts.insertionSort_perm 0 "" ∅ "chat" Scenarios.twoChannels
                {| Upstream := Scenarios.channelA; ChannelIndex := 0;
                   Reason := "priority_order" |} eq_refl) as (Hidx & Hstatus & _).
  exact (conj Hidx Hstatus).
Defined.

(** With channel A failed in this request, a channel is still handed
    out, since channel B can be. *)
Lemma SelectChannel_live_witness :
  ∃ r, SelectChannel Examples.metricsKey Examples.insertionSort 0 "" {[ 0 := true ]} "chat"
         Scenarios.twoChannels = Ok r.
Proof.
  apply (SelectChannel_live Examples.metricsKey Examples.insertionSort
           SchedulerFacts.insertionSort_perm 0 "" {[ 0 := true ]} "chat" Scenarios.twoChannels).
  exists 1, Scenarios.channelB. repeat split; discriminate.
Defined.

(** Channel A, handed out by priority order, does not come after
    channel B. *)
Lemma SelectChannel_priority_order_witness :
  effectivePriority 0 Scenarios.channelA ≤ effectivePriority 1 Scenarios.channelB.
Proof.
  apply (SelectChannel_priority_order Examples.metricsKey Examples.insertionSort
           insertionSort_sorts 0 "" ∅ "chat" Scenarios.twoChannels
           {| Upstream := Scenarios.channelA; ChannelIndex := 0; Reason := "priority_order" |}).
  - vm_compute. reflexivity.
  - reflexivity.
  - repeat split; discriminate.
  - reflexivity.
Defined.

End SelectionFacts.

(** ** Chat channel management *)

Module ChatConfigFacts.
Import Config ChatConfig Props SchedulerProps.

Lemma with_PromotionUntil_same u : with_PromotionUntil (PromotionUntil u) u = u.
Proof. by destruct u. Qed.

Lemma alter_as_insert {A} (f : A → A) (l : list A) : ∀ (i : nat) (x : A),
  l !! i = Some x → alter f i l = <[i := f x]> l.
Proof.
  induction l as [|y l IH]; intros [|i] x Hx; try done.
  - by injection Hx as ->.
  - simpl in Hx. cbn. f_equal. by apply IH.
Qed.

Lemma indexOf_range apiKey keys : ∀ i,
  indexOf apiKey i keys = -1 ∨ i ≤ indexOf apiKey i keys < i + Z.of_nat (length keys).
Proof.
  induction keys as [|key keys IH]; intros i; simpl; [by left|].
  destruct (String.eqb key apiKey); [right; lia|].
  destruct (IH (i + 1)) as [->|?]; [by left|right; lia].
Qed.

Lemma indexOf_found apiKey keys : ∀ i,
  0 ≤ i → apiKey ∈ keys →
  ∃ n : nat, indexOf apiKey i keys = i + Z.of_nat n ∧ keys !! n = Some apiKey.
Proof.
  induction keys as [|key keys IH]; intros i Hi Hin; [by apply elem_of_nil in Hin|].
  simpl. destruct (String.eqb_spec key apiKey) as [->|Hne].
  - exists 0%nat. split; [lia|done].
  - apply elem_of_cons in Hin as [->|Hin]; [done|].
    destruct (IH (i + 1) ltac:(lia) Hin) as (n & Hn & Hl).
    exists (S n). split; [lia|done].
Qed.

Section Proofs.

Variable saveConfigLocked : Config → option error.

Lemma SetChatChannelPromotion_lookup now index duration cm (j : nat) u :
  0 ≤ index < Z.of_nat (length (ChatUpstream (config cm))) → 0 < duration →
  ChatUpstream (config cm) !! j = Some u →
  ChatUpstream (config (SetChatChannelPromotion saveConfigLocked now index duration cm).2) !! j =
  Some (with_PromotionUntil
          (if decide (Z.of_nat j = index) then Some (now + duration) else None) u).
Proof.
  intros Hidx Hd Hj. unfold SetChatChannelPromotion, validIndex.
  destruct (Z.leb_spec 0 index); [|lia].
  destruct (Z.ltb_spec index (Z.of_nat (length (ChatUpstream (config cm))))); [|lia].
  destruct (Z.leb_spec duration 0); [lia|]. cbn [andb negb snd config ChatUpstream with_ChatUpstream].
  destruct (decide (Z.of_nat j = index)) as [E|E].
  - replace (Z.to_nat index) with j by lia.
    rewrite list_lookup_alter, list_lookup_imap, Hj. simpl.
    destruct (Z.eqb_spec (Z.of_nat j) index); [|lia]. by rewrite decide_True.
  - rewrite list_lookup_alter_ne by lia. rewrite list_lookup_imap, Hj. simpl.
    destruct (Z.eqb_spec (Z.of_nat j) index); [lia|]. simpl.
    destruct (PromotionUntil u) as [p|] eqn:Ep.
    + by rewrite bool_decide_true.
    + rewrite bool_decide_false by (by intros [? ?]). by rewrite <- Ep, with_PromotionUntil_same.
Qed.

(** X20.  Moving a key of a Chat channel to the bottom never loses or
    duplicates a key: the channel holds the same keys, the other channels
    and the failed-key cache are what they were, and when the key is one
    of the channel's it is the last one afterwards.  This is the state in
    memory also when the configuration file could not be written. *)
Theorem MoveChatAPIKeyToBottom_permutes (upstreamIndex : Z) (apiKey : string)
    (cm : ConfigManager) (upstream : UpstreamConfig) :
  0 ≤ upstreamIndex →
  ChatUpstream (config cm) !! Z.to_nat upstreamIndex = Some upstream →
  let res := MoveChatAPIKeyToBottom saveConfigLocked upstreamIndex apiKey cm in
  ∃ keys,
    ChatUpstream (config res.2) =
      <[Z.to_nat upstreamIndex := with_APIKeys keys upstream]> (ChatUpstream (config cm)) ∧
    keys ≡ₚ APIKeys upstream ∧
    failedKeysCache res.2 = failedKeysCache cm ∧
    (apiKey ∈ APIKeys upstream → last keys = Some apiKey).
Proof.
  intros Hpos Hlook res.
  assert (Hidx : 0 ≤ upstreamIndex < Z.of_nat (length (ChatUpstream (config cm)))).
  { apply lookup_lt_Some in Hlook. lia. }
  assert (Hsame : with_APIKeys (APIKeys upstream) upstream = upstream) by by destruct upstream.
  unfold res, MoveChatAPIKeyToBottom, validIndex.
  destruct (Z.leb_spec 0 upstreamIndex); [|lia].
  destruct (Z.ltb_spec upstreamIndex (Z.of_nat (length (ChatUpstream (config cm))))); [|lia].
  cbn [andb negb]. rewrite Hlook.
  destruct (decide (apiKey ∈ APIKeys upstream)) as [Hin|Hnin].
  - destruct (indexOf_found apiKey (APIKeys upstream) 0 ltac:(done) Hin) as (n & Hn & Hkey).
    rewrite Z.add_0_l in Hn. rewrite Hn.
    destruct (Z.eqb_spec (Z.of_nat n) (-1)); [lia|].
    destruct (Z.eqb_spec (Z.of_nat n) (Z.of_nat (length (APIKeys upstream)) - 1)) as [Elast|Elast];
      cbn [orb snd].
    + exists (APIKeys upstream). rewrite Hsame, list_insert_id by done.
      repeat split; try done. intros _.
      rewrite last_lookup. rewrite <- Hkey. f_equal. lia.
    + exists ((take n (APIKeys upstream) ++ drop (S n) (APIKeys upstream)) ++ [apiKey]).
      rewrite Nat2Z.id. replace (Z.to_nat (Z.of_nat n + 1)) with (S n) by lia.
      split. { simpl. by apply alter_as_insert. }
      split.
      { rewrite <- (take_drop_middle _ _ _ Hkey) at 3.
        rewrite <- app_assoc. apply Permutation_app_head.
        rewrite <- Permutation_cons_append. done. }
      split; [done|]. intros _. apply last_snoc.
  - assert (indexOf apiKey 0 (APIKeys upstream) = -1) as ->.
    { clear -Hnin. generalize 0. induction (APIKeys upstream) as [|key keys IH]; intros i; [done|].
      simpl. destruct (String.eqb_spec key apiKey) as [->|Hne].
      - exfalso. apply Hnin. left.
      - apply IH. intros Hin. apply Hnin. by right. }
    cbn [Z.eqb orb snd]. exists (APIKeys upstream).
    rewrite Hsame, list_insert_id by done. done.
Qed.

Lemma checkOrder_None n order : ∀ seen,
  checkOrder n seen order = None →
  NoDup order ∧ (∀ idx, idx ∈ order → 0 ≤ idx < n ∧ idx ∉ seen).
Proof.
  induction order as [|idx rest IH]; intros seen Hc; simpl in Hc.
  { split; [constructor|]. intros idx Hin. by apply elem_of_nil in Hin. }
  destruct (Z.ltb_spec idx 0); [done|]. destruct (Z.leb_spec n idx); [done|].
  cbn [orb] in Hc. case_bool_decide as Hseen; [done|].
  destruct (IH _ Hc) as (Hnd & Hall).
  split.
  - constructor; [|done]. intros Hin. destruct (Hall _ Hin) as [_ Hns].
    apply Hns, elem_of_union. left. by apply elem_of_singleton.
  - intros j Hj. apply elem_of_cons in Hj as [->|Hj]; [by split; [lia|]|].
    destruct (Hall _ Hj) as [Hr Hns]. split; [done|].
    intros Hs. apply Hns, elem_of_union. by right.
Qed.

Lemma checkOrder_valid n order : ∀ seen,
  NoDup order → (∀ idx, idx ∈ order → 0 ≤ idx < n ∧ idx ∉ seen) →
  checkOrder n seen order = None.
Proof.
  induction order as [|idx rest IH]; intros seen Hnd Hall; simpl; [done|].
  destruct (Hall idx ltac:(left)) as [Hr Hns].
  destruct (Z.ltb_spec idx 0); [lia|]. destruct (Z.leb_spec n idx); [lia|]. cbn [orb].
  rewrite bool_decide_eq_false_2 by done.
  apply NoDup_cons in Hnd as [Hni Hnd].
  apply IH; [done|]. intros j Hj. destruct (Hall j ltac:(by right)) as [Hjr Hjs].
  split; [done|]. intros [E%elem_of_singleton|Hs]%elem_of_union; [by subst|done].
Qed.

Lemma assignPriorities_spec order : ∀ i chat,
  NoDup order → (∀ idx, idx ∈ order → 0 ≤ idx < Z.of_nat (length chat)) →
  let chat' := assignPriorities i order chat in
  length chat' = length chat ∧
  (∀ (k : nat) idx, order !! k = Some idx →
     ∃ u, chat !! Z.to_nat idx = Some u ∧
          chat' !! Z.to_nat idx = Some (with_Priority (i + Z.of_nat k + 1) u)) ∧
  (∀ j : nat, Z.of_nat j ∉ order → chat' !! j = chat !! j).
Proof.
  induction order as [|idx rest IH]; intros i chat Hnd Hall; simpl.
  { split; [done|]. split; [intros k idx Hk; done|done]. }
  apply NoDup_cons in Hnd as [Hni Hnd].
  destruct (Hall idx ltac:(left)) as [Hlo Hhi].
  destruct (lookup_lt_is_Some_2 chat (Z.to_nat idx) ltac:(lia)) as [u Hu].
  destruct (IH (i + 1) (alter (with_Priority (i + 1)) (Z.to_nat idx) chat) Hnd) as (Hlen & Hpos & Hrest).
  { intros j Hj. rewrite length_alter. apply Hall. by right. }
  cbv zeta in Hlen, Hpos, Hrest. rewrite length_alter in Hlen.
  split; [done|]. split.
  - intros [|k] idx' Hk; simpl in Hk.
    + injection Hk as <-. exists u. split; [done|].
      rewrite Hrest by (by rewrite Z2Nat.id).
      rewrite list_lookup_alter, decide_True by done. rewrite Hu. simpl.
      do 2 f_equal. lia.
    + destruct (Hpos k idx' Hk) as (u1 & Hu1 & Hres).
      assert (idx' ∈ rest) as Hin by by eapply list_elem_of_lookup_2.
      destruct (Hall idx' ltac:(by right)) as [Hlo' Hhi'].
      assert (Z.to_nat idx ≠ Z.to_nat idx') as Hne.
      { intros E. apply Hni. assert (idx = idx') as -> by lia. done. }
      rewrite list_lookup_alter_ne in Hu1 by done.
      exists u1. split; [done|]. rewrite Hres. do 2 f_equal. lia.
  - intros j Hj. rewrite Hrest by (intros Hin; apply Hj; by right).
    apply list_lookup_alter_ne. intros E. apply Hj.
    replace (Z.of_nat j) with idx by lia. left.
Qed.

(** X21.  A reorder of the Chat channels with a valid order (not empty,
    indices in range, none twice) gives the channel at the [k]-th index of
    the order the priority [k + 1] and changes nothing else: every other
    field of those channels, and the channels the order leaves out, are
    what they were (so a partial order can leave two channels with one
    priority).  Any other order changes nothing and returns an error. *)
Theorem ReorderChatUpstreams_priorities (order : list Z) (cm : ConfigManager) :
  let chat := ChatUpstream (config cm) in
  let res := ReorderChatUpstreams saveConfigLocked order cm in
  let chat' := ChatUpstream (config res.2) in
  if bool_decide (order ≠ [] ∧ NoDup order ∧
                  Forall (λ idx, 0 ≤ idx < Z.of_nat (length chat)) order) then
    res.1 = saveConfigLocked (config res.2) ∧
    length chat' = length chat ∧
    (∀ (k : nat) idx, order !! k = Some idx →
       ∃ u, chat !! Z.to_nat idx = Some u ∧
            chat' !! Z.to_nat idx = Some (with_Priority (Z.of_nat k + 1) u)) ∧
    (∀ j : nat, Z.of_nat j ∉ order → chat' !! j = chat !! j) ∧
    failedKeysCache res.2 = failedKeysCache cm
  else
    is_Some res.1 ∧ res.2 = cm.
Proof.
  intros chat res chat'. unfold chat', res, ReorderChatUpstreams. fold chat.
  destruct (Z.eqb_spec (Z.of_nat (length order)) 0) as [Elen|Elen].
  { rewrite bool_decide_eq_false_2; [by split; [eexists|]|].
    intros [Hne _]. destruct order; [done|simpl in Elen; lia]. }
  case_bool_decide as Hvalid.
  - destruct Hvalid as (_ & Hnd & Hall). rewrite Forall_forall in Hall.
    rewrite checkOrder_valid; [|done|].
    2:{ intros idx Hin. split; [by apply Hall|apply not_elem_of_empty]. }
    cbn [fst snd].
    destruct (assignPriorities_spec order 0 chat Hnd Hall) as (Hlen & Hpos & Hrest).
    cbv zeta in Hlen, Hpos, Hrest.
    split; [done|]. split; [done|]. split; [|by split].
    intros k idx Hk. destruct (Hpos k idx Hk) as (u & Hu & Hres).
    exists u. split; [done|]. rewrite Z.add_0_l in Hres. done.
  - destruct (checkOrder _ ∅ order) as [err|] eqn:Ec; [by split; [eexists|]|].
    exfalso. apply Hvalid. destruct (checkOrder_None _ _ _ Ec) as [Hnd Hall].
    split; [by destruct order|]. split; [done|].
    apply Forall_forall. intros idx Hin. by apply Hall.
Qed.

Variable generateMetricsKey : string → string → string.
Variable sort_Slice : (Scheduler.ChannelInfo → Scheduler.ChannelInfo → bool) →
                      list Scheduler.ChannelInfo → list Scheduler.ChannelInfo.
Hypothesis sort_Slice_perm : ∀ less l, sort_Slice less l ≡ₚ l.

(** X22.  Setting a promotion on a Chat channel for a positive duration leaves
    that channel as the only one with a promotion deadline; and from then
    until the deadline, when the channel is active and has a key, every
    selection for the Chat endpoint in which it has not failed hands it
    out, with reason promotion_priority. *)
Theorem SetChatChannelPromotion_then_selected (now index duration t : Z)
    (s : Scheduler.ChannelScheduler) (userID : string) (failedChannels : gmap Z bool)
    (upstream : UpstreamConfig) :
  0 ≤ index →
  ChatUpstream (config (Scheduler.configManager s)) !! Z.to_nat index = Some upstream →
  0 < duration →
  let res := SetChatChannelPromotion saveConfigLocked now index duration
               (Scheduler.configManager s) in
  let chat' := ChatUpstream (config res.2) in
  res.1 = saveConfigLocked (config res.2) ∧
  chat' !! Z.to_nat index = Some (with_PromotionUntil (Some (now + duration)) upstream) ∧
  (∀ (j : nat) other, Z.of_nat j ≠ index → chat' !! j = Some other →
     PromotionUntil other = None ∧
     ∃ before, ChatUpstream (config (Scheduler.configManager s)) !! j = Some before ∧
               other = with_PromotionUntil None before) ∧
  (statusOf upstream = "active" → APIKeys upstream ≠ [] → t < now + duration →
   Scheduler.isFailed failedChannels index = false →
   Scheduler.SelectChannel generateMetricsKey sort_Slice t userID failedChannels
     Scheduler.ChannelKindChat (Failover.setConfigManager res.2 s) =
   Ok {| Scheduler.Upstream := with_PromotionUntil (Some (now + duration)) upstream;
         Scheduler.ChannelIndex := index; Scheduler.Reason := "promotion_priority" |}).
Proof.
  intros Hpos Hlook Hd res chat'.
  set (cm := Scheduler.configManager s) in *.
  assert (Hidx : 0 ≤ index < Z.of_nat (length (ChatUpstream (config cm)))).
  { apply lookup_lt_Some in Hlook. lia. }
  assert (Hall : ∀ (j : nat) u, ChatUpstream (config cm) !! j = Some u →
            chat' !! j = Some (with_PromotionUntil
                                 (if decide (Z.of_nat j = index) then Some (now + duration)
                                  else None) u)).
  { intros j u Hj. by apply SetChatChannelPromotion_lookup. }
  assert (Hlen : length chat' = length (ChatUpstream (config cm))).
  { unfold chat', res, SetChatChannelPromotion, validIndex.
    destruct (Z.leb_spec 0 index); [|lia].
    destruct (Z.ltb_spec index (Z.of_nat (length (ChatUpstream (config cm))))); [|lia].
    destruct (Z.leb_spec duration 0); [lia|].
    cbn [andb negb snd config ChatUpstream with_ChatUpstream].
    by rewrite length_alter, length_imap. }
  assert (Hat : chat' !! Z.to_nat index =
                Some (with_PromotionUntil (Some (now + duration)) upstream)).
  { rewrite (Hall _ _ Hlook). rewrite decide_True by lia. done. }
  assert (Hothers : ∀ (j : nat) other, Z.of_nat j ≠ index → chat' !! j = Some other →
            PromotionUntil other = None ∧
            ∃ before, ChatUpstream (config cm) !! j = Some before ∧
                      other = with_PromotionUntil None before).
  { intros j other Hne Hj.
    destruct (lookup_lt_is_Some_2 (ChatUpstream (config cm)) j) as [before Hb].
    { rewrite <- Hlen. by eapply lookup_lt_Some. }
    rewrite (Hall _ _ Hb), decide_False in Hj by done. injection Hj as <-.
    split; [done|]. by exists before. }
  split.
  { unfold res, SetChatChannelPromotion, validIndex.
    destruct (Z.leb_spec 0 index); [|lia].
    destruct (Z.ltb_spec index (Z.of_nat (length (ChatUpstream (config cm))))); [|lia].
    done. }
  split; [exact Hat|]. split; [exact Hothers|].
  intros Hst Hkeys Ht Hf.
  pose proof (SchedulerFacts.SelectChannel_promotion_unique generateMetricsKey sort_Slice
                sort_Slice_perm t userID failedChannels Scheduler.ChannelKindChat
                (Failover.setConfigManager res.2 s) (Z.to_nat index)
                (with_PromotionUntil (Some (now + duration)) upstream)) as Hsel.
  rewrite Z2Nat.id in Hsel by done. apply Hsel; try done.
  - unfold IsChannelInPromotion, time_Before. simpl. by apply Z.ltb_lt.
  - intros j other Hne Hj [_ Hp].
    destruct (Hothers j other) as [Hnone _]; [lia|exact Hj|].
    unfold IsChannelInPromotion in Hp. by rewrite Hnone in Hp.
Qed.

(** X23.  Moving a key of a Chat channel to the top keeps the keys of the
    channel (the first occurrence of the key is moved) and makes it the
    key handed out next, unless it was tried in this request or is
    cooling down. *)
Theorem MoveChatAPIKeyToTop_then_next (upstreamIndex : Z) (apiKey : string)
    (cm : ConfigManager) (upstream : UpstreamConfig) :
  0 ≤ upstreamIndex →
  ChatUpstream (config cm) !! Z.to_nat upstreamIndex = Some upstream →
  apiKey ∈ APIKeys upstream →
  let res := MoveChatAPIKeyToTop saveConfigLocked upstreamIndex apiKey cm in
  ∃ moved rest,
    ChatUpstream (config res.2) =
      <[Z.to_nat upstreamIndex := moved]> (ChatUpstream (config cm)) ∧
    moved = with_APIKeys (apiKey :: rest) upstream ∧
    apiKey :: rest ≡ₚ APIKeys upstream ∧
    failedKeysCache res.2 = failedKeysCache cm ∧
    ∀ now failedKeys,
      inFailed failedKeys apiKey = false →
      IsKeyFailed now apiKey "Chat" cm = false →
      GetNextChatAPIKey now moved failedKeys res.2 = Ok apiKey.
Proof.
  intros Hpos Hlook Hin res.
  assert (Hidx : 0 ≤ upstreamIndex < Z.of_nat (length (ChatUpstream (config cm)))).
  { apply lookup_lt_Some in Hlook. lia. }
  destruct (indexOf_found apiKey (APIKeys upstream) 0 ltac:(done) Hin) as (n & Hn & Hkey).
  rewrite Z.add_0_l in Hn.
  set (rest := take n (APIKeys upstream) ++ drop (S n) (APIKeys upstream)).
  assert (Hperm : apiKey :: rest ≡ₚ APIKeys upstream).
  { unfold rest. rewrite <- (take_drop_middle _ _ _ Hkey) at 3.
    by rewrite Permutation_middle. }
  assert (Hnext : ∀ c moved now failedKeys,
            APIKeys moved = apiKey :: rest →
            failedKeysCache c = failedKeysCache cm →
            keyRecoveryTime c = keyRecoveryTime cm → maxFailureCount c = maxFailureCount cm →
            inFailed failedKeys apiKey = false →
            IsKeyFailed now apiKey "Chat" cm = false →
            GetNextChatAPIKey now moved failedKeys c = Ok apiKey).
  { intros c moved now failedKeys Hk Hc Hr Hm Hnf Hcool.
    unfold GetNextChatAPIKey, GetNextAPIKey. rewrite Hk.
    destruct rest as [|k2 rest']; [done|].
    rewrite filter_cons_True; [done|]. rewrite Hnf. simpl.
    assert (isKeyFailed now apiKey "Chat" c = isKeyFailed now apiKey "Chat" cm) as ->.
    { unfold isKeyFailed, recoveryTimeOf. by rewrite Hc, Hr, Hm. }
    unfold IsKeyFailed in Hcool. by rewrite Hcool. }
  unfold res, MoveChatAPIKeyToTop, validIndex.
  destruct (Z.leb_spec 0 upstreamIndex); [|lia].
  destruct (Z.ltb_spec upstreamIndex (Z.of_nat (length (ChatUpstream (config cm))))); [|lia].
  cbn [andb negb]. rewrite Hlook, Hn.
  destruct (Z.leb_spec (Z.of_nat n) 0) as [Hz|Hnz].
  - assert (n = 0%nat) as -> by lia. exists upstream, rest. cbn [snd].
    assert (Hkeys : APIKeys upstream = apiKey :: rest).
    { unfold rest. destruct (APIKeys upstream) as [|k ks]; [done|].
      simpl in *. injection Hkey as ->. by rewrite drop_0. }
    split; [by rewrite list_insert_id|].
    split; [destruct upstream; simpl in *; by rewrite Hkeys|].
    split; [done|]. split; [done|].
    intros now failedKeys. by apply Hnext.
  - exists (with_APIKeys (apiKey :: rest) upstream), rest. cbn [snd].
    rewrite Nat2Z.id. replace (Z.to_nat (Z.of_nat n + 1)) with (S n) by lia.
    fold rest. split.
    { simpl. by apply alter_as_insert. }
    split; [done|]. split; [done|]. split; [done|].
    intros now failedKeys. by apply Hnext.
Qed.

End Proofs.

(** Key [k1] of a channel with keys [k1] and [k2], moved to the bottom:
    the channel has the same keys, [k1] last. *)
Lemma MoveChatAPIKeyToBottom_permutes_witness :
  ∃ keys,
    ChatUpstream (config (MoveChatAPIKeyToBottom Scenarios.saved 0 "k1"
                            (Examples.configOf [Examples.twoKeys])).2) =
      [with_APIKeys keys Examples.twoKeys] ∧
    keys ≡ₚ ["k1"; "k2"] ∧ last keys = Some "k1".
Proof.
  destruct (MoveChatAPIKeyToBottom_permutes Scenarios.saved 0 "k1"
              (Examples.configOf [Examples.twoKeys]) Examples.twoKeys
              ltac:(reflexivity) eq_refl) as (keys & Hchat & Hperm & _ & Hlast).
  exists keys. split; [exact Hchat|]. split; [exact Hperm|].
  apply Hlast. left.
Defined.

(** Key [k2] of the same channel, moved to the top: it is the key handed
    out next. *)
Lemma MoveChatAPIKeyToTop_then_next_witness :
  ∃ moved,
    ChatUpstream (config (MoveChatAPIKeyToTop Scenarios.saved 0 "k2"
                            (Examples.configOf [Examples.twoKeys])).2) = [moved] ∧
    GetNextChatAPIKey 0 moved ∅
      (MoveChatAPIKeyToTop Scenarios.saved 0 "k2" (Examples.configOf [Examples.twoKeys])).2
    = Ok "k2".
Proof.
  destruct (MoveChatAPIKeyToTop_then_next Scenarios.saved 0 "k2"
              (Examples.configOf [Examples.twoKeys]) Examples.twoKeys
              ltac:(reflexivity) eq_refl ltac:(right; left))
    as (moved & rest & Hchat & _ & _ & _ & Hnext).
  exists moved. split; [exact Hchat|].
  apply Hnext; reflexivity.
Defined.

(** Channel B promoted for ten minutes: a minute later it is handed out
    before channel A, by promotion. *)
Lemma SetChatChannelPromotion_then_selected_witness :
  Scheduler.SelectChannel Examples.metricsKey Examples.insertionSort (1 * Minute) "" ∅
    Scheduler.ChannelKindChat
    (Failover.setConfigManager
       (SetChatChannelPromotion Scenarios.saved 0 1 (10 * Minute)
          (Scheduler.configManager Scenarios.twoChannels)).2
       Scenarios.twoChannels) =
  Ok {| Scheduler.Upstream := with_PromotionUntil (Some (0 + 10 * Minute)) Scenarios.channelB;
        Scheduler.ChannelIndex := 1; Scheduler.Reason := "promotion_priority" |}.
Proof.
  apply (SetChatChannelPromotion_then_selected Scenarios.saved Examples.metricsKey
           Examples.insertionSort SchedulerFacts.insertionSort_perm 0 1 (10 * Minute)
           (1 * Minute) Scenarios.twoChannels "" ∅ Scenarios.channelB).
  - vm_compute. discriminate.
  - reflexivity.
  - reflexivity.
  - reflexivity.
  - discriminate.
  - reflexivity.
  - reflexivity.
Defined.

End ChatConfigFacts.

(** ** The multi-channel shell *)

Module MultiChannelFacts.
Import Scheduler Props SchedulerProps SchedulerFacts SelectionFacts MultiChannel.

Section Proofs.

Variable generateMetricsKey : string → string → string.
Variable sort_Slice : (ChannelInfo → ChannelInfo → bool) → list ChannelInfo → list ChannelInfo.
Variable clock : nat → Z.
Variable cancelled : nat → bool.
Variable trySelectedChannel :
  SelectionResult → Failover.World → MultiChannelAttemptResult * Failover.World.
Variable onHandled :
  option (SelectionResult → MultiChannelAttemptResult → Failover.World → Failover.World).

Local Abbreviation channelLoop' :=
  (channelLoop generateMetricsKey sort_Slice clock cancelled trySelectedChannel onHandled).

Lemma channelLoop_distinct kind userID remaining : ∀ w sh,
  NoDup (ChannelIndex <$> tried sh) →
  (∀ sel, sel ∈ tried sh → isFailed (failedChannels sh) (ChannelIndex sel) = true) →
  let res := channelLoop' kind userID remaining w sh in
  NoDup (ChannelIndex <$> tried res.2) ∧
  (length (tried res.2) ≤ length (tried sh) + remaining)%nat ∧
  (∀ sel, sel ∈ tried res.2 → isFailed (failedChannels res.2) (ChannelIndex sel) = false →
     ∃ result, res.1.1 = HandledBy sel result) ∧
  (∀ sel result, res.1.1 = HandledBy sel result →
     Handled result = true ∧ last (tried res.2) = Some sel).
Proof.
  induction remaining as [|remaining IH]; intros w sh Hnd Hfailed; simpl.
  - split; [done|]. split; [lia|]. split; [|done].
    intros sel Hin Hf. rewrite (Hfailed sel Hin) in Hf. done.
  - destruct (cancelled (Failover.ticks w)); simpl.
    { split; [done|]. split; [lia|]. split; [|done].
      intros sel Hin Hf. rewrite (Hfailed sel Hin) in Hf. done. }
    destruct (SelectChannel _ _ _ _ _ _ _) as [selection|err] eqn:Esel; simpl.
    2:{ split; [done|]. split; [lia|]. split; [|done].
        intros sel Hin Hf. rewrite (Hfailed sel Hin) in Hf. done. }
    apply SelectChannel_Ok_inv in Esel as (ch & _ & Hidx & (_ & Hnf & _) & _).
    rewrite <- Hidx in Hnf.
    assert (Hfresh : ChannelIndex selection ∉ ChannelIndex <$> tried sh).
    { intros (sel & Heq & Hin)%list_elem_of_fmap. rewrite Heq in Hnf.
      rewrite (Hfailed sel Hin) in Hnf. done. }
    destruct (trySelectedChannel selection _) as [result w1].
    destruct (Handled result) eqn:Eh; simpl.
    + split.
      { rewrite fmap_app. apply NoDup_app. split; [done|]. split; [|apply NoDup_singleton].
        intros x Hx [->|Hx']%elem_of_cons; [done|by apply elem_of_nil in Hx']. }
      split; [rewrite length_app; simpl; lia|]. split.
      * intros sel [Hin|[->|Hin]%elem_of_cons]%elem_of_app Hf; [|by eauto|by apply elem_of_nil in Hin].
        rewrite (Hfailed sel Hin) in Hf. done.
      * intros sel res [= <- <-]. split; [done|]. by rewrite last_snoc.
    + match goal with |- context [channelLoop' kind userID remaining w1 ?sh'] =>
        destruct (IH w1 sh') as (H1 & H2 & H3 & H4) end.
      { simpl. rewrite fmap_app. apply NoDup_app. split; [done|].
        split; [|apply NoDup_singleton].
        intros x Hx [->|Hx']%elem_of_cons; [done|by apply elem_of_nil in Hx']. }
      { simpl. intros sel [Hin|[->|Hin]%elem_of_cons]%elem_of_app.
        - unfold isFailed. destruct (decide (ChannelIndex sel = ChannelIndex selection)) as [->|Hne].
          + by rewrite lookup_insert_eq.
          + rewrite lookup_insert_ne by done. apply (Hfailed sel Hin).
        - unfold isFailed. by rewrite lookup_insert_eq.
        - by apply elem_of_nil in Hin. }
      split; [done|]. split; [|done].
      simpl in H2. rewrite length_app in H2. simpl in H2. lia.
Qed.

(** X24.  One request never tries a channel twice: the selections handed to
    [trySelectedChannel] have pairwise different channel indices, there
    are at most as many as there were channels to schedule when the
    request came in, every one but the handling one is marked failed,
    and the handling one, if any, is the last. *)
Theorem HandleMultiChannelFailover_distinct (kind : ChannelKind) (userID : string)
    (w : Failover.World) :
  let res := HandleMultiChannelFailover generateMetricsKey sort_Slice clock cancelled
               trySelectedChannel onHandled kind userID w in
  NoDup (ChannelIndex <$> tried res.2) ∧
  (length (tried res.2) ≤
   length (getActiveChannels sort_Slice kind (Failover.scheduler w)))%nat ∧
  (∀ sel, sel ∈ tried res.2 → isFailed (failedChannels res.2) (ChannelIndex sel) = false →
     ∃ result, res.1.1 = HandledBy sel result) ∧
  (∀ sel result, res.1.1 = HandledBy sel result →
     Handled result = true ∧ last (tried res.2) = Some sel).
Proof.
  intros res. unfold res, HandleMultiChannelFailover.
  match goal with |- context [channelLoop' kind userID ?n w ?sh] =>
    destruct (channelLoop_distinct kind userID n w sh) as (H1 & H2 & H3 & H4) end.
  - simpl. constructor.
  - simpl. intros sel Hin. by apply elem_of_nil in Hin.
  - split; [done|]. split; [exact H2|]. by split.
Qed.

End Proofs.

End MultiChannelFacts.

(** ** Failover executor: cancellations and the number of requests *)

Module ExecutorFacts.
Import Metrics EngineRun Failover Props ExecutorProps.

Lemma get_set_metrics kind m s :
  Scheduler.getMetricsManager kind (setMetricsManager kind m s) = m.
Proof.
  unfold Scheduler.getMetricsManager, setMetricsManager.
  destruct (String.eqb kind Scheduler.ChannelKindResponses) eqn:E1; simpl; rewrite ?E1; [done|].
  destruct (String.eqb kind Scheduler.ChannelKindGemini) eqn:E2; simpl; rewrite ?E1, ?E2; [done|].
  destruct (String.eqb kind Scheduler.ChannelKindChat) eqn:E3; simpl; rewrite ?E1, ?E2, ?E3; done.
Qed.

Lemma set_metrics_config kind m s :
  Scheduler.configManager (setMetricsManager kind m s) = Scheduler.configManager s.
Proof. unfold setMetricsManager. repeat case_match; done. Qed.

Lemma sends_app es es' : sends (es ++ es') = (sends es + sends es')%nat.
Proof. unfold sends. by rewrite filter_app, length_app. Qed.

Lemma sends_one e : sends [e] = if isSend e then 1%nat else 0%nat.
Proof. unfold sends. by destruct e. Qed.

Section Proofs.

Variable generateMetricsKey : string → string → string.
Variable MaskAPIKey : string → string.
Variable Request : Type.
Variable clock : nat → Z.
Variable nextAPIKey :
  Z → Config.UpstreamConfig → gmap string bool → Config.ConfigManager → result string.
Variable buildRequest : Config.UpstreamConfig → string → result Request.
Variable SendRequest : nat → Request → result Response.
Variable handleSuccess :
  nat → Response → Config.UpstreamConfig → string → option Metrics.Usage * option error.
Variable ShouldRetryWithNextKey : Z → string → bool → string → bool * bool.
Variable DecompressGzipIfNeeded : Response → string → string.
Variable RedirectModel : string → Config.UpstreamConfig → string.
Variable hasDeprioritizeKey hasMarkURLFailure hasMarkURLSuccess hasChannelLogStore : bool.

Local Abbreviation attemptOnce' :=
  (attemptOnce generateMetricsKey MaskAPIKey Request clock nextAPIKey buildRequest SendRequest
     handleSuccess ShouldRetryWithNextKey DecompressGzipIfNeeded RedirectModel
     hasDeprioritizeKey hasMarkURLFailure hasMarkURLSuccess hasChannelLogStore).
Local Abbreviation keyLoop' :=
  (keyLoop generateMetricsKey MaskAPIKey Request clock nextAPIKey buildRequest SendRequest
     handleSuccess ShouldRetryWithNextKey DecompressGzipIfNeeded RedirectModel
     hasDeprioritizeKey hasMarkURLFailure hasMarkURLSuccess hasChannelLogStore).
Local Abbreviation urlLoop' :=
  (urlLoop generateMetricsKey MaskAPIKey Request clock nextAPIKey buildRequest SendRequest
     handleSuccess ShouldRetryWithNextKey DecompressGzipIfNeeded RedirectModel
     hasDeprioritizeKey hasMarkURLFailure hasMarkURLSuccess hasChannelLogStore).
Local Abbreviation finishURL' :=
  (finishURL generateMetricsKey MaskAPIKey Request clock nextAPIKey buildRequest SendRequest
     handleSuccess ShouldRetryWithNextKey DecompressGzipIfNeeded RedirectModel
     hasDeprioritizeKey hasMarkURLFailure hasMarkURLSuccess hasChannelLogStore).

Lemma failKey_events kind apiType url apiKey requestID w :
  ∃ delta, events (failKey generateMetricsKey MaskAPIKey clock hasMarkURLFailure
                     kind apiType url apiKey requestID w) = events w ++ delta ∧
           sends delta = 0%nat.
Proof.
  unfold failKey, emitIf. destruct hasMarkURLFailure; simpl.
  - by eexists.
  - exists []. by rewrite app_nil_r.
Qed.

Lemma attemptOnce_sends kind apiType upstream model channelIndex forceProbeMode urlIdx
    urlResult attempt w failedKeys l :
  (sends (events (worldOf (attemptOnce' kind apiType upstream model channelIndex forceProbeMode
                             urlIdx urlResult attempt w failedKeys l)))
   ≤ sends (events w) + 1)%nat.
Proof.
  unfold attemptOnce. cbv zeta.
  repeat match goal with
  | |- context [failKey ?a ?b ?c ?d ?e ?f ?g ?h ?i ?j] =>
      let delta := fresh "delta" in let Hd := fresh "Hd" in let Hs := fresh "Hs" in
      destruct (failKey_events e f g h i j) as (delta & Hd & Hs);
      generalize dependent (failKey a b c d e f g h i j); intros
  | |- context [match ?x with _ => _ end] => destruct x eqn:?
  end;
  unfold emitIf; repeat case_match; simpl;
  repeat match goal with H : events _ = _ |- _ => simpl in H; rewrite H; clear H end;
  rewrite ?sends_app;
  repeat match goal with H : sends _ = 0%nat |- _ => rewrite H; clear H end;
  rewrite ?sends_one; simpl; try lia;
  unfold emitIf; repeat case_match; simpl; rewrite ?sends_app, ?sends_one; simpl; lia.
Qed.

Lemma keyLoop_sends kind apiType upstream model channelIndex forceProbeMode urlIdx urlResult
    remaining : ∀ attempt w failedKeys l,
  (sends (events (worldOf (keyLoop' kind apiType upstream model channelIndex forceProbeMode
                             urlIdx urlResult remaining attempt w failedKeys l)))
   ≤ sends (events w) + remaining)%nat.
Proof.
  induction remaining as [|remaining IH]; intros attempt w failedKeys l; simpl; [lia|].
  pose proof (attemptOnce_sends kind apiType upstream model channelIndex forceProbeMode urlIdx
                urlResult attempt w failedKeys l) as Hone.
  destruct (attemptOnce' _ _ _ _ _ _ _ _ _ _ _ _) as [w1 failedKeys1 l1|w1 l1|r w1];
    simpl in Hone |- *; try lia.
  specialize (IH (attempt + 1) w1 failedKeys1 l1). lia.
Qed.

Lemma urlLoop_sends kind apiType upstream model channelIndex forceProbeMode urlResults :
  ∀ urlIdx w l,
  (sends (events (urlLoop' kind apiType upstream model channelIndex forceProbeMode urlIdx
                    urlResults w l).2)
   ≤ sends (events w) + length urlResults * length (Config.APIKeys upstream))%nat.
Proof.
  induction urlResults as [|urlResult rest IH]; intros urlIdx w l; simpl; [lia|].
  pose proof (keyLoop_sends kind apiType upstream model channelIndex forceProbeMode urlIdx
                urlResult (length (Config.APIKeys upstream)) 0 w ∅ l) as Hkeys.
  destruct (keyLoop' _ _ _ _ _ _ _ _ _ _ _ _ _) as [w1 failedKeys1 l1|w1 l1|r w1];
    simpl in Hkeys |- *; try lia.
  - specialize (IH (urlIdx + 1) w1 l1). lia.
  - specialize (IH (urlIdx + 1) w1 l1). lia.
Qed.

(** X25.  One run of the executor on a channel sends at most one upstream
    request per pair of a base URL and an API key of the channel, whatever
    the upstream answers and whatever the key rotation returns. *)
Theorem TryUpstreamWithAllKeys_send_bound kind apiType upstream urlResults model channelIndex w :
  (sends (events (TryUpstreamWithAllKeys generateMetricsKey MaskAPIKey Request clock nextAPIKey
                    buildRequest SendRequest handleSuccess ShouldRetryWithNextKey
                    DecompressGzipIfNeeded RedirectModel hasDeprioritizeKey hasMarkURLFailure
                    hasMarkURLSuccess hasChannelLogStore
                    kind apiType upstream urlResults model channelIndex w).2)
   ≤ sends (events w) + length urlResults * length (Config.APIKeys upstream))%nat.
Proof.
  unfold TryUpstreamWithAllKeys.
  destruct (Z.of_nat (length (Config.APIKeys upstream)) =? 0); [simpl; lia|].
  destruct urlResults as [|first rest]; [simpl; lia|].
  apply urlLoop_sends.
Qed.

Local Abbreviation windowOf' := (windowOf generateMetricsKey).

(** The engine after the four calls of a cancelled attempt: start,
    reservation, cancellation, end. *)
Lemma cancelled_attempt_engine now baseURL apiKey model m :
  let m1 := RecordRequestStart generateMetricsKey MaskAPIKey baseURL apiKey m in
  let res := RecordRequestConnected generateMetricsKey MaskAPIKey now baseURL apiKey model m1 in
  let m3 := RecordRequestFinalizeClientCancel generateMetricsKey baseURL apiKey res.1 res.2 in
  let m4 := RecordRequestEnd generateMetricsKey baseURL apiKey m3 in
  store m4 = store m ∧ windowSize m4 = windowSize m ∧ failureThreshold m4 = failureThreshold m ∧
  ∀ baseURL' apiKey', windowOf' baseURL' apiKey' m4 = windowOf' baseURL' apiKey' m.
Proof.
  intros m1 res m3 m4.
  pose proof (ReservationFacts.getOrCreateKey_lookup generateMetricsKey MaskAPIKey baseURL apiKey m)
    as Hrow0.
  pose proof (ReservationFacts.getOrCreateKey_other generateMetricsKey MaskAPIKey baseURL apiKey m)
    as Hother0.
  pose proof (ReservationFacts.getOrCreateKey_rest generateMetricsKey MaskAPIKey baseURL apiKey m)
    as (_ & Hstore0 & _).
  assert (Hm1 : ∃ km1, keyMetrics m1 !! generateMetricsKey baseURL apiKey = Some km1 ∧
                       recentResults km1 = windowOf' baseURL apiKey m ∧
                       store m1 = store m ∧
                       ∀ k, k ≠ generateMetricsKey baseURL apiKey →
                            keyMetrics m1 !! k = keyMetrics m !! k).
  { unfold m1, RecordRequestStart.
    destruct (getOrCreateKey generateMetricsKey MaskAPIKey baseURL apiKey m) as [km0 m0] eqn:E.
    simpl in Hrow0, Hother0, Hstore0.
    eexists. split; [apply lookup_insert_eq|]. simpl. split.
    { unfold windowOf. unfold getOrCreateKey in E.
      destruct (keyMetrics m !! generateMetricsKey baseURL apiKey); by inversion E. }
    split; [done|]. intros k Hk. rewrite lookup_insert_ne by done. by apply Hother0. }
  destruct Hm1 as (km1 & Hrow1 & Hwin1 & Hstore1 & Hother1).
  destruct (ReservationFacts.reserve_cancel_row generateMetricsKey MaskAPIKey now baseURL apiKey
              model m1) as (Hstore3 & Hother3 & km3 & Hrow3 & _ & _ & _ & _ & _ & _ & Hwin3 & _).
  fold res m3 in Hstore3, Hother3, Hrow3.
  assert (Hold : (getOrCreateKey generateMetricsKey MaskAPIKey baseURL apiKey m1).1 = km1).
  { unfold getOrCreateKey. by rewrite Hrow1. }
  rewrite Hold in Hwin3.
  assert (Hm4 : ∃ km4, keyMetrics m4 !! generateMetricsKey baseURL apiKey = Some km4 ∧
                       recentResults km4 = recentResults km3 ∧ store m4 = store m3 ∧
                       ∀ k, k ≠ generateMetricsKey baseURL apiKey →
                            keyMetrics m4 !! k = keyMetrics m3 !! k).
  { unfold m4, RecordRequestEnd. rewrite Hrow3.
    destruct (0 <? ActiveRequests km3); [|by eexists].
    eexists. split; [apply lookup_insert_eq|]. simpl. repeat split.
    intros k Hk. by rewrite lookup_insert_ne. }
  destruct Hm4 as (km4 & Hrow4 & Hwin4 & Hstore4 & Hother4).
  split; [congruence|].
  split.
  { transitivity (windowSize m3);
      [exact (EngineFacts.apply_windowSize generateMetricsKey MaskAPIKey m3 (OpEnd baseURL apiKey))|].
    transitivity (windowSize res.2);
      [exact (EngineFacts.apply_windowSize generateMetricsKey MaskAPIKey res.2
                (OpFinalizeClientCancel baseURL apiKey res.1))|].
    transitivity (windowSize m1);
      [exact (EngineFacts.apply_windowSize generateMetricsKey MaskAPIKey m1
                (OpConnectedAt now baseURL apiKey model now))|].
    exact (EngineFacts.apply_windowSize generateMetricsKey MaskAPIKey m (OpStart baseURL apiKey)). }
  split.
  { transitivity (failureThreshold m3);
      [exact (BreakerFacts.apply_failureThreshold generateMetricsKey MaskAPIKey m3
                (OpEnd baseURL apiKey))|].
    transitivity (failureThreshold res.2);
      [exact (BreakerFacts.apply_failureThreshold generateMetricsKey MaskAPIKey res.2
                (OpFinalizeClientCancel baseURL apiKey res.1))|].
    transitivity (failureThreshold m1);
      [exact (BreakerFacts.apply_failureThreshold generateMetricsKey MaskAPIKey m1
                (OpConnectedAt now baseURL apiKey model now))|].
    exact (BreakerFacts.apply_failureThreshold generateMetricsKey MaskAPIKey m
             (OpStart baseURL apiKey)). }
  intros baseURL' apiKey'.
  destruct (decide (generateMetricsKey baseURL' apiKey' = generateMetricsKey baseURL apiKey))
    as [E|E].
  - unfold windowOf at 1. rewrite E, Hrow4, Hwin4, Hwin3, Hwin1.
    unfold windowOf. by rewrite E.
  - unfold windowOf. by rewrite Hother4, Hother3, Hother1.
Qed.

Lemma onMetrics_get kind f w :
  Scheduler.getMetricsManager kind (scheduler (onMetrics kind f w)) =
  f (Scheduler.getMetricsManager kind (scheduler w)).
Proof. unfold onMetrics. simpl. apply get_set_metrics. Qed.

Lemma onMetrics_config kind f w :
  Scheduler.configManager (scheduler (onMetrics kind f w)) = Scheduler.configManager (scheduler w).
Proof. unfold onMetrics. simpl. apply set_metrics_config. Qed.

Lemma scheduler_tick w : scheduler (tick w) = scheduler w.
Proof. done. Qed.
Lemma scheduler_emit e w : scheduler (emit e w) = scheduler w.
Proof. done. Qed.
Lemma ticks_tick w : ticks (tick w) = S (ticks w).
Proof. done. Qed.
Lemma ticks_emit e w : ticks (emit e w) = ticks w.
Proof. done. Qed.
Lemma ticks_onMetrics kind f w : ticks (onMetrics kind f w) = ticks w.
Proof. done. Qed.
Lemma events_tick w : events (tick w) = events w.
Proof. done. Qed.
Lemma events_emit e w : events (emit e w) = events w ++ [e].
Proof. done. Qed.
Lemma events_onMetrics kind f w : events (onMetrics kind f w) = events w.
Proof. done. Qed.

Create Rewrite HintDb world.
#[local] Hint Rewrite scheduler_tick scheduler_emit ticks_tick ticks_emit ticks_onMetrics
  events_tick events_emit events_onMetrics onMetrics_get onMetrics_config : world.

(** The step of an attempt whose request the client cancels while it is
    sent. *)
Lemma attemptOnce_client_cancel kind apiType upstream model channelIndex forceProbeMode
    urlIdx urlResult attempt w failedKeys l apiKey req err :
  nextAPIKey (clock (ticks w)) upstream failedKeys (Scheduler.configManager (scheduler w))
    = Ok apiKey →
  negb forceProbeMode &&
    Metrics.ShouldSuspendKey generateMetricsKey (URL urlResult) apiKey
      (Scheduler.getMetricsManager kind (scheduler w)) = false →
  buildRequest (cloneWithBaseURL (URL urlResult) upstream) apiKey = Ok req →
  SendRequest (S (S (ticks w))) req = Err err →
  errors_Is err ErrCanceled = true →
  ∃ w',
    attemptOnce' kind apiType upstream model channelIndex forceProbeMode urlIdx urlResult
      attempt w failedKeys l =
    Return {| handled := true; successKey := ""; successBaseURLIdx := 0;
              failoverErr := None; usage := None; lastError := Some err |} w' ∧
    events w' = events w ++ [EvRestoreRequestBody; EvSendRequest (URL urlResult) apiKey] ∧
    Scheduler.configManager (scheduler w') = Scheduler.configManager (scheduler w) ∧
    let m := Scheduler.getMetricsManager kind (scheduler w) in
    let m1 := RecordRequestStart generateMetricsKey MaskAPIKey (URL urlResult) apiKey m in
    let res := RecordRequestConnected generateMetricsKey MaskAPIKey (clock (S (ticks w)))
                 (URL urlResult) apiKey (RedirectModel model upstream) m1 in
    Scheduler.getMetricsManager kind (scheduler w') =
    RecordRequestEnd generateMetricsKey (URL urlResult) apiKey
      (RecordRequestFinalizeClientCancel generateMetricsKey (URL urlResult) apiKey res.1 res.2).
Proof.
  intros Hkey Hcircuit Hbuild Hsend Hcancel. unfold attemptOnce. cbv zeta.
  autorewrite with world. rewrite Hkey. autorewrite with world. rewrite Hcircuit, Hbuild.
  destruct (RecordRequestConnected _ _ _ _ _ _ _) as [requestID m'] eqn:Eres.
  autorewrite with world. rewrite Hsend. unfold isClientSideError. rewrite Hcancel.
  eexists. split; [reflexivity|]. autorewrite with world.
  split; [by rewrite <- app_assoc|]. split; [done|]. done.
Qed.

(** X26.  A client that goes away while its request is being sent ends the
    run at once, and costs the key nothing: the run is handled with the
    client's error, no further key or URL is tried, the failed-key cache is
    what it was, nothing is handed to the store, and no key's sliding
    window or suspension changes. *)
Theorem TryUpstreamWithAllKeys_client_cancel
    kind apiType upstream model channelIndex forceProbeMode
    urlIdx urlResult (rest : list URLLatencyResult) (remaining : nat) attempt
    w failedKeys l apiKey req err :
  nextAPIKey (clock (ticks w)) upstream failedKeys (Scheduler.configManager (scheduler w))
    = Ok apiKey →
  negb forceProbeMode &&
    Metrics.ShouldSuspendKey generateMetricsKey (URL urlResult) apiKey
      (Scheduler.getMetricsManager kind (scheduler w)) = false →
  buildRequest (cloneWithBaseURL (URL urlResult) upstream) apiKey = Ok req →
  SendRequest (S (S (ticks w))) req = Err err →
  errors_Is err ErrCanceled = true →
  let '(r, w') :=
    finishURL' kind apiType upstream model channelIndex forceProbeMode urlIdx rest
      (keyLoop' kind apiType upstream model channelIndex forceProbeMode urlIdx urlResult
         (S remaining) attempt w failedKeys l) in
  let m := Scheduler.getMetricsManager kind (scheduler w) in
  let m' := Scheduler.getMetricsManager kind (scheduler w') in
  handled r = true ∧ lastError r = Some err ∧ successKey r = "" ∧ failoverErr r = None ∧
  events w' = events w ++ [EvRestoreRequestBody; EvSendRequest (URL urlResult) apiKey] ∧
  Scheduler.configManager (scheduler w') = Scheduler.configManager (scheduler w) ∧
  Metrics.store m' = Metrics.store m ∧
  (∀ baseURL k, windowOf' baseURL k m' = windowOf' baseURL k m) ∧
  (∀ baseURL k, Metrics.ShouldSuspendKey generateMetricsKey baseURL k m' =
                Metrics.ShouldSuspendKey generateMetricsKey baseURL k m).
Proof.
  intros Hkey Hcircuit Hbuild Hsend Hcancel.
  destruct (attemptOnce_client_cancel kind apiType upstream model channelIndex forceProbeMode
              urlIdx urlResult attempt w failedKeys l apiKey req err
              Hkey Hcircuit Hbuild Hsend Hcancel) as (w' & Hstep & Hev & Hcfg & Hm).
  cbn [keyLoop]. rewrite Hstep. cbn [finishURL]. cbv zeta in Hm |- *.
  destruct (cancelled_attempt_engine (clock (S (ticks w))) (URL urlResult) apiKey
              (RedirectModel model upstream) (Scheduler.getMetricsManager kind (scheduler w)))
    as (Hstore & Hws & Hthr & Hwin).
  rewrite <- Hm in Hstore, Hws, Hthr, Hwin.
  repeat split; try done.
  intros baseURL k.
  rewrite !BreakerFacts.ShouldSuspendKey_windowOf. cbv zeta.
  by rewrite Hwin, Hws, Hthr.
Qed.


End Proofs.

(** A run on a channel with two keys and two base URLs whose client goes
    away during the first request: one request is sent, and the engine
    judges every key as before. *)
Lemma TryUpstreamWithAllKeys_client_cancel_witness :
  let '(r, w') :=
    TryUpstreamWithAllKeys Examples.metricsKey Examples.mask string Examples.clock
      Examples.nextChatKey Scenarios.canBuild Scenarios.clientGone Examples.writeBack
      Examples.retryOn5xx (λ _ body, body) (λ model _, model) true true true true
      "chat" "Chat" Examples.twoKeys
      [ {| URL := "https://u1"; OriginalIdx := 0 |}; {| URL := "https://u2"; OriginalIdx := 1 |} ]
      "gpt-4" 0 Examples.world in
  let m := Scheduler.getMetricsManager "chat" (scheduler Examples.world) in
  let m' := Scheduler.getMetricsManager "chat" (scheduler w') in
  handled r = true ∧ lastError r = Some ErrCanceled ∧ successKey r = "" ∧ failoverErr r = None ∧
  events w' = [EvRestoreRequestBody; EvSendRequest "https://u1" "k1"] ∧
  Scheduler.configManager (scheduler w') = Scheduler.configManager (scheduler Examples.world) ∧
  Metrics.store m' = Metrics.store m ∧
  (∀ baseURL k, windowOf Examples.metricsKey baseURL k m' =
                windowOf Examples.metricsKey baseURL k m) ∧
  (∀ baseURL k, Metrics.ShouldSuspendKey Examples.metricsKey baseURL k m' =
                Metrics.ShouldSuspendKey Examples.metricsKey baseURL k m).
Proof.
  exact (TryUpstreamWithAllKeys_client_cancel Examples.metricsKey Examples.mask string
           Examples.clock Examples.nextChatKey Scenarios.canBuild Scenarios.clientGone
           Examples.writeBack Examples.retryOn5xx (λ _ body, body) (λ model _, model)
           true true true true
           "chat" "Chat" Examples.twoKeys "gpt-4" 0 false 0
           {| URL := "https://u1"; OriginalIdx := 0 |}
           [ {| URL := "https://u2"; OriginalIdx := 1 |} ] 1 0
           Examples.world ∅ Examples.noLocals "k1" "k1" ErrCanceled
           eq_refl eq_refl eq_refl eq_refl eq_refl).
Defined.

End ExecutorFacts.

(** ** Failover executor, the revision of handlers/common: a request that
    cannot be built *)

Module UpstreamFailoverFacts.
Import Metrics EngineRun Failover Props ExecutorProps.

Section Proofs.

Variable generateMetricsKey : string → string → string.
Variable MaskAPIKey : string → string.
Variable Request : Type.
Variable clock : nat → Z.
Variable nextAPIKey :
  Z → Config.UpstreamConfig → gmap string bool → Config.ConfigManager → result string.
Variable buildRequest : Config.UpstreamConfig → string → result Request.
Variable SendRequest : nat → Request → result Response.
Variable handleSuccess :
  nat → Response → Config.UpstreamConfig → string → option Metrics.Usage * option error.
Variable ShouldRetryWithNextKey : Z → string → bool → string → bool * bool.
Variable DecompressGzipIfNeeded : Response → string → string.
Variable RecordRequestConnected :
  Z → string → string → Metrics.MetricsManager → N * Metrics.MetricsManager.
Variable hasDeprioritizeKey hasMarkURLFailure hasMarkURLSuccess : bool.

Local Abbreviation attemptOnce' :=
  (UpstreamFailover.attemptOnce generateMetricsKey MaskAPIKey Request clock nextAPIKey
     buildRequest SendRequest handleSuccess ShouldRetryWithNextKey DecompressGzipIfNeeded
     RecordRequestConnected hasDeprioritizeKey hasMarkURLFailure hasMarkURLSuccess).
Local Abbreviation keyLoop' :=
  (UpstreamFailover.keyLoop generateMetricsKey MaskAPIKey Request clock nextAPIKey
     buildRequest SendRequest handleSuccess ShouldRetryWithNextKey DecompressGzipIfNeeded
     RecordRequestConnected hasDeprioritizeKey hasMarkURLFailure hasMarkURLSuccess).
Local Abbreviation windowOf' := (windowOf generateMetricsKey).

(** C2.  The copy of the executor at handlers/common/upstream_failover.go
    does not do what the specification says of a request that cannot be
    built.  At any attempt (any base URL, any
    keys already failed, any state of the world), when a key is obtained,
    the circuit check lets it pass and the build-request callback returns
    an error, the run does not end: the key is marked tried, the error
    becomes the last error unwrapped, [RecordFailure] is called for the
    key, so that its sliding window takes a failure, and the key loop goes
    on with the attempts that are left. *)
Theorem TryUpstreamWithAllKeys_build_error_recorded
    kind apiType upstream forceProbeMode urlResult (remaining : nat)
    w failedKeys l apiKey err :
  nextAPIKey (clock (ticks w)) upstream failedKeys (Scheduler.configManager (scheduler w))
    = Ok apiKey →
  negb forceProbeMode &&
    Metrics.ShouldSuspendKey generateMetricsKey (URL urlResult) apiKey
      (Scheduler.getMetricsManager kind (scheduler w)) = false →
  buildRequest (cloneWithBaseURL (URL urlResult) upstream) apiKey = Err err →
  ∃ w',
    keyLoop' kind apiType upstream forceProbeMode urlResult (S remaining) w failedKeys l =
    keyLoop' kind apiType upstream forceProbeMode urlResult remaining w'
      (<[apiKey := true]> failedKeys)
      {| l_lastError := Some err; l_lastFailoverError := l_lastFailoverError l;
         l_deprioritizeCandidates := l_deprioritizeCandidates l |} ∧
    events w' = events w ++ [EvRestoreRequestBody] ∧
    Scheduler.configManager (scheduler w') = Scheduler.configManager (scheduler w) ∧
    let m := Scheduler.getMetricsManager kind (scheduler w) in
    let m' := Scheduler.getMetricsManager kind (scheduler w') in
    m' = Metrics.RecordFailure generateMetricsKey MaskAPIKey (clock (S (ticks w)))
           (URL urlResult) apiKey m ∧
    windowOf' (URL urlResult) apiKey m' =
      slide (windowSize m) (windowOf' (URL urlResult) apiKey m) false.
Proof.
  intros Hkey Hcircuit Hbuild.
  eexists. split.
  { cbn [UpstreamFailover.keyLoop]. unfold UpstreamFailover.attemptOnce. cbv zeta.
    rewrite !ExecutorFacts.ticks_emit, !ExecutorFacts.scheduler_emit, Hkey. cbv beta iota.
    rewrite !ExecutorFacts.scheduler_tick, !ExecutorFacts.scheduler_emit, Hcircuit, Hbuild.
    reflexivity. }
  split; [by rewrite ExecutorFacts.events_tick, ExecutorFacts.events_onMetrics,
             ExecutorFacts.events_tick, ExecutorFacts.events_emit|].
  split.
  { by rewrite ExecutorFacts.scheduler_tick, ExecutorFacts.onMetrics_config. }
  cbv zeta.
  rewrite ExecutorFacts.scheduler_tick, ExecutorFacts.onMetrics_get.
  split; [done|].
  apply BreakerFacts.recordFailure_windowOf.
Qed.

End Proofs.

(** A Messages request on a channel with two keys and two base URLs, in
    a world where no request can be built: at the first attempt key [k1]
    takes a failure and the loop goes on. *)
Lemma TryUpstreamWithAllKeys_build_error_recorded_witness :
  ∃ w',
    UpstreamFailover.keyLoop Examples.metricsKey Examples.mask string Examples.clock
      Scenarios.nextMessagesKey Examples.cannotBuild Examples.answer200 Examples.writeBack
      Examples.retryOn5xx (λ _ body, body) Scenarios.connectNoModel true true true
      "messages" "Messages" Examples.twoKeys false {| URL := "https://u1"; OriginalIdx := 0 |}
      2 Scenarios.messagesWorld ∅ Examples.noLocals =
    UpstreamFailover.keyLoop Examples.metricsKey Examples.mask string Examples.clock
      Scenarios.nextMessagesKey Examples.cannotBuild Examples.answer200 Examples.writeBack
      Examples.retryOn5xx (λ _ body, body) Scenarios.connectNoModel true true true
      "messages" "Messages" Examples.twoKeys false {| URL := "https://u1"; OriginalIdx := 0 |}
      1 w' {[ "k1" := true ]}
      {| l_lastError := Some (ErrMsg "unsupported service type"); l_lastFailoverError := None;
         l_deprioritizeCandidates := ∅ |} ∧
    windowOf Examples.metricsKey "https://u1" "k1"
      (Scheduler.getMetricsManager "messages" (scheduler w')) =
    [true; true; true; false; false; false].
Proof.
  edestruct (TryUpstreamWithAllKeys_build_error_recorded Examples.metricsKey Examples.mask
               string Examples.clock Scenarios.nextMessagesKey Examples.cannotBuild
               Examples.answer200 Examples.writeBack Examples.retryOn5xx (λ _ body, body)
               Scenarios.connectNoModel true true true
               "messages" "Messages" Examples.twoKeys false
               {| URL := "https://u1"; OriginalIdx := 0 |} 1
               Scenarios.messagesWorld ∅ Examples.noLocals "k1"
               (ErrMsg "unsupported service type"))
    as (w' & Hloop & _ & _ & _ & Hwin);
    [vm_compute; reflexivity | vm_compute; reflexivity | vm_compute; reflexivity |].
  exists w'. split; [exact Hloop|]. etrans; [exact Hwin|]. vm_compute. reflexivity.
Defined.

(** C2 fails on this copy of the executor: in the same world the run
    goes through both keys at both base URLs; it ends unhandled with the
    error of the callback unwrapped, after four failures were recorded
    and handed to the store, and key [k1], which was not suspended, is. *)
Lemma TryUpstreamWithAllKeys_build_error_counterexample :
  let '(r, w') :=
    UpstreamFailover.TryUpstreamWithAllKeys Examples.metricsKey Examples.mask string
      Examples.clock Scenarios.nextMessagesKey Examples.cannotBuild Examples.answer200
      Examples.writeBack Examples.retryOn5xx (λ _ body, body) Scenarios.connectNoModel
      true true true "messages" "Messages" Examples.twoKeys Scenarios.twoURLs
      Scenarios.messagesWorld in
  let m := Scheduler.getMetricsManager "messages" (scheduler Scenarios.messagesWorld) in
  let m' := Scheduler.getMetricsManager "messages" (scheduler w') in
  handled r = false ∧ lastError r = Some (ErrMsg "unsupported service type") ∧
  events w' = [EvRestoreRequestBody; EvRestoreRequestBody; EvRestoreRequestBody;
               EvRestoreRequestBody] ∧
  FailureCount (Scenarios.rowOf "https://u1" "k1" m) = 2 ∧
  FailureCount (Scenarios.rowOf "https://u1" "k1" m') = 3 ∧
  FailureCount (Scenarios.rowOf "https://u1" "k2" m') = 1 ∧
  FailureCount (Scenarios.rowOf "https://u2" "k1" m') = 1 ∧
  FailureCount (Scenarios.rowOf "https://u2" "k2" m') = 1 ∧
  store m = Some [] ∧ (length <$> store m') = Some 4%nat ∧
  ShouldSuspendKey Examples.metricsKey "https://u1" "k1" m = false ∧
  ShouldSuspendKey Examples.metricsKey "https://u1" "k1" m' = true.
Proof. vm_compute. repeat split; reflexivity. Qed.

End UpstreamFailoverFacts.

(** ** Chat adapter: the stream as a function of the upstream lines *)

Module ChatStreamFacts.
Import Chat Props ChatFacts.

Section Proofs.

Variable json_Unmarshal : string → option (gmap string JSON).
Variable json_Marshal : JSON → string.

Local Abbreviation processLine' := (processLine json_Unmarshal json_Marshal).
Local Abbreviation streamClaudeToChat' := (streamClaudeToChat json_Unmarshal json_Marshal).

(** X27.  What the streaming translation writes, and the usage it returns,
    depend on the upstream body only through its complete lines: the
    result is the line loop run over them in order, followed by the
    terminator when no line set [doneSent].  So the result does not depend
    on how the body is cut into reads, and a last line that no line feed
    ends is never translated.  ([created] is the one clock reading the
    embedding uses for the chunks of a run.) *)
Theorem streamClaudeToChat_by_lines (created : Z) (model : string) (chunks : list string) :
  streamClaudeToChat' created model chunks =
  let st := foldl (processLine' created model)
              {| written := []; totalUsage := None; doneSent := false |}
              (upstreamLines chunks) in
  (if doneSent st then written st else written st ++ [doneFrame], totalUsage st).
Proof.
  unfold streamClaudeToChat, upstreamLines.
  rewrite (foldl_processChunk json_Unmarshal json_Marshal) by done.
  done.
Qed.

Hypothesis json_Marshal_noLF : ∀ j, noLF (json_Marshal j) = true.
Hypothesis json_Marshal_object : ∀ m, json_Marshal (JObject m) ≠ "[DONE]".

(** X28.  Every write of the streaming translation is one complete SSE
    frame, [data: ] followed by a payload without a line feed and a blank
    line, whatever the upstream sends; and the last frame of a stream
    whose upstream sent no terminator is the terminator. *)
Theorem streamClaudeToChat_frames (created : Z) (model : string) (chunks : list string) :
  let out := (streamClaudeToChat' created model chunks).1 in
  Forall isFrame out ∧
  (countDone (upstreamLines chunks) = 0%nat → List.last out "" = doneFrame).
Proof.
  cbv zeta. unfold streamClaudeToChat.
  rewrite (foldl_processChunk json_Unmarshal json_Marshal) by done.
  change (removelast (Split ("" +:+ foldr String.append "" chunks))) with (upstreamLines chunks).
  cbn [fst].
  destruct (foldl_processLine json_Unmarshal json_Marshal json_Marshal_noLF json_Marshal_object
              created model (upstreamLines chunks)
              {| written := []; totalUsage := None; doneSent := false |})
    as (Hfr & _ & Hds); [done|].
  cbv zeta in Hfr, Hds. cbn [doneSent written] in Hds.
  split.
  - destruct (doneSent _); [done|].
    apply Forall_app. split; [done|]. constructor; [apply doneFrame_isFrame|done].
  - intros Hnone. rewrite Hds, Hnone. simpl. apply List_last_app. done.
Qed.

End Proofs.

(** The body of three reads with one terminator line: every write is a
    frame. *)
Lemma streamClaudeToChat_frames_witness :
  Forall isFrame
    (streamClaudeToChat Examples.decodeTag Examples.encodeEmpty 0 "claude-3" Examples.oneDone).1.
Proof.
  apply (streamClaudeToChat_frames Examples.decodeTag Examples.encodeEmpty).
  - intros j. reflexivity.
  - intros m. discriminate.
Defined.

End ChatStreamFacts.

(** ** Channel logs *)

Module ChannelLogFacts.
Import ChannelLogs.

(** Keeping the newest 50 after each append keeps the newest 50 of all. *)
Lemma keep_newest {A} (l : list A) (x : A) :
  let kept := drop (length l - 50) l in
  drop (length (kept ++ [x]) - 50) (kept ++ [x]) = drop (length (l ++ [x]) - 50) (l ++ [x]).
Proof.
  cbv zeta. rewrite !length_app, length_drop. simpl.
  destruct (decide (length l ≤ 50)%nat) as [Hle|Hgt].
  - replace (length l - 50)%nat with 0%nat by lia. rewrite drop_0.
    by replace (length l - 0)%nat with (length l) by lia.
  - replace (length l - (length l - 50) + 1 - 50)%nat with 1%nat by lia.
    replace (length l + 1 - 50)%nat with ((length l - 50) + 1)%nat by lia.
    rewrite <- drop_drop. f_equal.
    rewrite drop_app_le; [done|]. lia.
Qed.

Lemma Record_lookup channelIndex log s :
  let logs := default [] (s !! channelIndex) ++ [log] in
  Record_ channelIndex log s !! channelIndex = Some (drop (length logs - 50) logs).
Proof.
  cbv zeta. unfold Record_, maxChannelLogs. cbv zeta.
  etrans; [apply (lookup_insert_eq (M:=gmap Z))|]. f_equal.
  set (logs := default [] (s !! channelIndex) ++ [log]).
  destruct (Z.ltb_spec 50 (Z.of_nat (length logs))).
  - f_equal. lia.
  - replace (length logs - 50)%nat with 0%nat by lia. done.
Qed.

Lemma Record_other channelIndex log s (j : Z) :
  channelIndex ≠ j → Record_ channelIndex log s !! j = s !! j.
Proof. intros Hne. unfold Record_. cbv zeta. by apply (lookup_insert_ne (M:=gmap Z)). Qed.

Lemma recordAll_lookup channelIndex recs :
  default [] (recordAll NewChannelLogStore recs !! channelIndex) =
  drop (length (logsFor channelIndex recs) - 50) (logsFor channelIndex recs).
Proof.
  induction recs as [|[i log] recs IH] using rev_ind; [done|].
  unfold recordAll in *. rewrite foldl_app. cbn [foldl fst snd].
  unfold logsFor in *. rewrite filter_app, fmap_app, filter_cons, filter_nil. cbn [fst].
  destruct (decide (i = channelIndex)) as [->|Hne].
  - rewrite Record_lookup. cbn [default fmap list_fmap snd]. rewrite IH.
    apply keep_newest.
  - cbn [fmap list_fmap]. rewrite app_nil_r, <- IH.
    by rewrite Record_other.
Qed.

(** X29.  The log store is a ring buffer per channel: after any sequence of
    records, the logs read for a channel are the 50 newest recorded for
    it, newest first; records of other channels do not push them out. *)
Theorem Get_newest_first (channelIndex : Z) (recs : list (Z * ChannelLog)) :
  Get channelIndex (recordAll NewChannelLogStore recs) =
  take (Z.to_nat maxChannelLogs) (reverse (logsFor channelIndex recs)).
Proof.
  unfold Get. rewrite recordAll_lookup, take_reverse. done.
Qed.

End ChannelLogFacts.
